(** * gdev: the streaming terminal modal and the components around it

    A shallow embedding of the terminal popup of [internal/ui/terminal]
    (output sink, process runner, tick loop, scroll model), of the key
    bindings of [internal/config] (matching, defaults, loading), of the
    commit component of [internal/ui/commit], of the store of
    [internal/store] with the TODO items of [internal/todo], and of the
    views of [internal/ui/todo]: the terminal view with its completion
    callback, the list, the form, the delete confirmation and the prompt
    editor.

    Conventions.
    - A Go [int] is a [Z] in the signed 64-bit range; every addition,
      subtraction and multiplication of the source goes through [wrap64].
    - [len(s)] is [Z.of_nat (length s)].
    - A Go [error] value is [GoError]; a possibly-nil error is an [option].
    - Pointers to a [sharedOutput] are locations in a store of sinks, so that
      the model value held by the UI and the runner goroutine see the same
      object. *)

From Stdlib Require Import ZArith Lia List Ascii String.
From stdpp Require Import base option list gmap strings.

Local Open Scope Z_scope.

(** ** Machine integers *)

Module goint.

Definition minInt : Z := - 2 ^ 63.
Definition maxInt : Z := 2 ^ 63 - 1.

(** Two's complement wrap-around of Go's 64-bit [int]. *)
Definition wrap64 (z : Z) : Z := (z + 2 ^ 63) mod 2 ^ 64 - 2 ^ 63.

Definition inInt (z : Z) : Prop := minInt <= z <= maxInt.

Definition add (a b : Z) : Z := wrap64 (a + b).
Definition sub (a b : Z) : Z := wrap64 (a - b).
Definition mul (a b : Z) : Z := wrap64 (a * b).
(** Go's [/] truncates toward zero; the divisors of the source are the
    constant 100, so the one overflowing case (minInt / -1) cannot occur. *)
Definition div (a b : Z) : Z := Z.quot a b.

Definition len {A} (l : list A) : Z := Z.of_nat (length l).

Global Arguments wrap64 : simpl never.
Global Arguments add : simpl never.
Global Arguments sub : simpl never.
Global Arguments mul : simpl never.
Global Arguments div : simpl never.
Global Arguments len : simpl never.

End goint.

(** ** Errors *)

(** A non-nil Go [error]: all the code does with one is call [Error()]. *)
Record GoError := mkError { ErrorString : string }.

Global Instance GoError_eq_dec : EqDecision GoError.
Proof. solve_decision. Defined.

(** ** The output sink ([sharedOutput]) *)

Module sink.

(** [sharedOutput] without its mutex: every method below holds the lock for
    its whole body, so each is one atomic step on this record. *)
Record sharedOutput := mkShared {
    lines : list string;
    done : bool;
    err : option GoError
  }.

Global Instance sharedOutput_inhabited : Inhabited sharedOutput :=
  populate (mkShared [] false None).

Definition addLine (s : sharedOutput) (line : string) : sharedOutput :=
  mkShared (lines s ++ [line]) (done s) (err s).

(** The copy made by [getLines]; at this level a list is a value, the
    aliasing of the copy is the subject of [slices] below. *)
Definition getLines (s : sharedOutput) : list string := lines s.

Definition setDone (s : sharedOutput) (e : option GoError) : sharedOutput :=
  mkShared (lines s) true e.

Definition isDone (s : sharedOutput) : bool * option GoError :=
  (done s, err s).

(** The writes a goroutine can make to a sink. *)
Inductive SinkOp :=
  | OpAddLine (line : string)
  | OpSetDone (e : option GoError).

Definition applyOp (s : sharedOutput) (o : SinkOp) : sharedOutput :=
  match o with
  | OpAddLine l => addLine s l
  | OpSetDone e => setDone s e
  end.

Definition applyOps (s : sharedOutput) (os : list SinkOp) : sharedOutput :=
  foldl applyOp s os.

End sink.

(** ** Slices over backing arrays

    [getLines] builds its result with [make] and [copy]; [addLine] uses
    [append].  Slices are headers (pointer, length, capacity) over arrays kept
    in a store, so that two slices can share - or not share - their
    elements. *)

Module slices.

Abbreviation loc := nat (only parsing).
Abbreviation arrays := (gmap nat (list string)) (only parsing).

Record slice := mkSlice { ptr : loc; slen : nat; scap : nat }.

(** The elements seen through a slice header. *)
Definition contents (h : arrays) (s : slice) : list string :=
  take (slen s) (h !!! ptr s).

(** A header that points into an allocated array of its capacity. *)
Definition validSlice (h : arrays) (s : slice) : Prop :=
  exists a, h !! ptr s = Some a /\ length a = scap s /\ (slen s <= scap s)%nat.

(** [make([]string, n)]: a fresh zeroed array. *)
Definition make (h : arrays) (n : nat) : arrays * slice :=
  let p := fresh (dom h) in
  (<[p := replicate n EmptyString]> h, mkSlice p n n).

(** [copy(dst, src)]: the first [min(len dst, len src)] elements. *)
Definition copy (h : arrays) (dst src : slice) : arrays :=
  let n := Nat.min (slen dst) (slen src) in
  <[ptr dst := take n (contents h src) ++ drop n (h !!! ptr dst)]> h.

(** [s[i] = v]; out of range panics ([None]). *)
Definition setIndex (h : arrays) (s : slice) (i : nat) (v : string)
  : option arrays :=
  if decide (i < slen s)%nat
  then Some (<[ptr s := <[i := v]> (h !!! ptr s)]> h)
  else None.

Section Append.
(** The capacity chosen when [append] has to reallocate is left to the
    Go runtime; it is at least the length needed. *)
Variable growCap : nat -> nat.

Definition append (h : arrays) (s : slice) (v : string) : arrays * slice :=
  if decide (slen s < scap s)%nat
  then (<[ptr s := <[slen s := v]> (h !!! ptr s)]> h,
        mkSlice (ptr s) (S (slen s)) (scap s))
  else
    let c := Nat.max (S (slen s)) (growCap (scap s)) in
    let p := fresh (dom h) in
    (<[p := contents h s ++ v :: replicate (c - S (slen s)) EmptyString]> h,
     mkSlice p (S (slen s)) c).

(** [sharedOutput] with its [lines] field as a slice header. *)
Record sharedOutput := mkShared {
    lines : slice;
    done : bool;
    err : option GoError
  }.

Definition addLine (h : arrays) (s : sharedOutput) (line : string)
  : arrays * sharedOutput :=
  let '(h', l') := append h (lines s) line in
  (h', mkShared l' (done s) (err s)).

Definition getLines (h : arrays) (s : sharedOutput) : arrays * slice :=
  let '(h1, result) := make h (slen (lines s)) in
  (copy h1 result (lines s), result).

Definition setDone (h : arrays) (s : sharedOutput) (e : option GoError)
  : arrays * sharedOutput :=
  (h, mkShared (lines s) true e).

Definition applyOp (st : arrays * sharedOutput) (o : sink.SinkOp)
  : arrays * sharedOutput :=
  match o with
  | sink.OpAddLine l => addLine st.1 st.2 l
  | sink.OpSetDone e => setDone st.1 st.2 e
  end.

Definition applyOps (st : arrays * sharedOutput) (os : list sink.SinkOp)
  : arrays * sharedOutput :=
  foldl applyOp st os.

(** The sink of [sink] that a slice-level sink stands for. *)
Definition abstract (h : arrays) (s : sharedOutput) : sink.sharedOutput :=
  sink.mkShared (contents h (lines s)) (done s) (err s).

(** A client of one sink: the runner writes, the UI takes snapshots, and
    whoever holds a snapshot may overwrite its elements. *)
Inductive Action :=
  | Write (o : sink.SinkOp)
  | Snapshot
  | Mutate (k i : nat) (v : string).

Record Client := mkClient {
    heap : arrays;
    shared : sharedOutput;
    (** the slices returned by [getLines] so far *)
    snapshots : list slice;
    (** what each of them held when it was returned *)
    observed : list (list string)
  }.

Definition step (c : Client) (a : Action) : Client :=
  match a with
  | Write o =>
      let '(h, s) := applyOp (heap c, shared c) o in
      mkClient h s (snapshots c) (observed c)
  | Snapshot =>
      let '(h, r) := getLines (heap c) (shared c) in
      mkClient h (shared c) (snapshots c ++ [r])
        (observed c ++ [contents h r])
  | Mutate k i v =>
      match snapshots c !! k with
      | Some r =>
          match setIndex (heap c) r i v with
          | Some h => mkClient h (shared c) (snapshots c) (observed c)
          | None => c
          end
      | None => c
      end
  end.

Definition steps (c : Client) (acts : list Action) : Client :=
  foldl step c acts.

Definition writesOf (acts : list Action) : list sink.SinkOp :=
  omap (fun a => match a with Write o => Some o | _ => None end) acts.

(** Each observation is a prefix of every later one. *)
Definition growing (obs : list (list string)) : Prop :=
  forall i j a b, (i <= j)%nat ->
    obs !! i = Some a -> obs !! j = Some b -> a `prefix_of` b.

(** What holds of a client at every moment: the sink's slice is valid, no
    snapshot shares the sink's array, and everything observed so far is a
    prefix of what the sink holds now. *)
Definition clientInv (c : Client) : Prop :=
  validSlice (heap c) (lines (shared c)) /\
  Forall (fun r => ptr r ∈ dom (heap c) /\ ptr r <> ptr (lines (shared c)))
    (snapshots c) /\
  Forall (fun o => o `prefix_of` contents (heap c) (lines (shared c)))
    (observed c) /\
  growing (observed c).

End Append.

End slices.

(** ** Key bindings ([internal/config]) *)

Module config.

Record GlobalKeys := mkGlobalKeys {
    Quit : string; QuitAlt : string; Help : string;
    MoveUp : string; MoveDown : string;
    MoveUpAlt : string; MoveDownAlt : string
  }.

Record ListKeys := mkListKeys {
    Select : string; New : string; Delete : string; Edit : string;
    Top : string; Bottom : string; PageUp : string; PageDown : string
  }.

(** The form, editor and detail groups are not read by the terminal modal
    and are left out of the record. *)
Record Keybindings := mkKeybindings {
    Global : GlobalKeys;
    List : ListKeys
  }.

Definition DefaultKeybindings : Keybindings :=
  {| Global := {| Quit := "esc"; QuitAlt := "q"; Help := "?";
                  MoveUp := "k"; MoveDown := "j";
                  MoveUpAlt := "up"; MoveDownAlt := "down" |};
     List := {| Select := "enter"; New := "n"; Delete := "d"; Edit := "e";
                Top := "g"; Bottom := "G";
                PageUp := "ctrl+u"; PageDown := "ctrl+d" |} |}.

(** [*Config]: the store handle plays no part in key handling.  Every
    constructor call of the repository passes a loaded configuration, so the
    pointer is modelled by the value it points to. *)
Record Config := mkConfig { Keybindings_ : Keybindings }.

Definition Keys (c : Config) : Keybindings := Keybindings_ c.

Definition isLowerLetter (c : ascii) : bool :=
  ((97 <=? nat_of_ascii c) && (nat_of_ascii c <=? 122))%nat.

Definition toUpperLetter (c : ascii) : ascii :=
  ascii_of_nat (nat_of_ascii c - 32).

(** "shift+x" becomes "X" for letter keys. *)
Definition normalizeBinding (binding : string) : string :=
  if String.prefix "shift+" binding then
    let letter := substring 6 (String.length binding - 6) binding in
    match letter with
    | String c EmptyString =>
        if isLowerLetter c then String (toUpperLetter c) EmptyString
        else binding
    | _ => binding
    end
  else binding.

Definition Matches (key binding : string) : bool :=
  String.eqb key (normalizeBinding binding).

Fixpoint MatchesAny (key : string) (bindings : list string) : bool :=
  match bindings with
  | [] => false
  | b :: rest =>
      if String.eqb key (normalizeBinding b) then true
      else MatchesAny key rest
  end.

End config.

(** ** Rendering ([internal/ui/styles])

    The three lipgloss styles the modal renders lines with.  What [Render]
    returns is the rendering library's business; the modal only stores the
    result. *)

Module styles.

Record Styles := mkStyles {
    Help : string -> string;
    Error : string -> string;
    Selected : string -> string
  }.

(** No decoration at all: what lipgloss produces without a colour
    profile. *)
Definition plain : Styles := mkStyles id id id.

End styles.

(** ** The terminal modal ([internal/ui/terminal]) *)

Module terminal.

Import goint.

Abbreviation loc := nat (only parsing).
(** The sinks allocated so far, by address. *)
Abbreviation sinks := (gmap nat sink.sharedOutput) (only parsing).

(** Of Bubble Tea's key types the modal tests for two. *)
Inductive KeyType := KeyUp | KeyDown | KeyOther.

Global Instance KeyType_eq_dec : EqDecision KeyType.
Proof. solve_decision. Defined.

(** [tea.KeyMsg], seen through [msg.Type] and [msg.String()]. *)
Record KeyMsg := mkKeyMsg { KType : KeyType; KString : string }.

Inductive Msg :=
  | WindowSizeMsg (Width Height : Z)
  | TickMsg (ID : Z)
  | KeyMsgOf (k : KeyMsg)
  | OtherMsg.

(** [tea.Cmd]: nil, or the 50ms timer that delivers [TickMsg{ID: id}]. *)
Inductive Cmd :=
  | nilCmd
  | tickCmd (id : Z).

Global Instance Cmd_eq_dec : EqDecision Cmd.
Proof. solve_decision. Defined.

Record Model := mkModel {
    ID : Z;
    Title : string;
    Command : string;
    Dir : string;
    Lines : list string;
    ScrollPos : Z;
    MaxLines : Z;
    Running : bool;
    Err : option GoError;
    AutoScroll : bool;
    Width : Z;
    Height : Z;
    Config : config.Config;
    output : option loc
  }.

(** Field assignments. *)
Definition withCommand v m :=
  mkModel (ID m) (Title m) v (Dir m) (Lines m) (ScrollPos m) (MaxLines m)
    (Running m) (Err m) (AutoScroll m) (Width m) (Height m) (Config m) (output m).
Definition withDir v m :=
  mkModel (ID m) (Title m) (Command m) v (Lines m) (ScrollPos m) (MaxLines m)
    (Running m) (Err m) (AutoScroll m) (Width m) (Height m) (Config m) (output m).
Definition withLines v m :=
  mkModel (ID m) (Title m) (Command m) (Dir m) v (ScrollPos m) (MaxLines m)
    (Running m) (Err m) (AutoScroll m) (Width m) (Height m) (Config m) (output m).
Definition withScrollPos v m :=
  mkModel (ID m) (Title m) (Command m) (Dir m) (Lines m) v (MaxLines m)
    (Running m) (Err m) (AutoScroll m) (Width m) (Height m) (Config m) (output m).
Definition withMaxLines v m :=
  mkModel (ID m) (Title m) (Command m) (Dir m) (Lines m) (ScrollPos m) v
    (Running m) (Err m) (AutoScroll m) (Width m) (Height m) (Config m) (output m).
Definition withRunning v m :=
  mkModel (ID m) (Title m) (Command m) (Dir m) (Lines m) (ScrollPos m) (MaxLines m)
    v (Err m) (AutoScroll m) (Width m) (Height m) (Config m) (output m).
Definition withErr v m :=
  mkModel (ID m) (Title m) (Command m) (Dir m) (Lines m) (ScrollPos m) (MaxLines m)
    (Running m) v (AutoScroll m) (Width m) (Height m) (Config m) (output m).
Definition withAutoScroll v m :=
  mkModel (ID m) (Title m) (Command m) (Dir m) (Lines m) (ScrollPos m) (MaxLines m)
    (Running m) (Err m) v (Width m) (Height m) (Config m) (output m).
Definition withWidth v m :=
  mkModel (ID m) (Title m) (Command m) (Dir m) (Lines m) (ScrollPos m) (MaxLines m)
    (Running m) (Err m) (AutoScroll m) v (Height m) (Config m) (output m).
Definition withHeight v m :=
  mkModel (ID m) (Title m) (Command m) (Dir m) (Lines m) (ScrollPos m) (MaxLines m)
    (Running m) (Err m) (AutoScroll m) (Width m) v (Config m) (output m).
Definition withOutput v m :=
  mkModel (ID m) (Title m) (Command m) (Dir m) (Lines m) (ScrollPos m) (MaxLines m)
    (Running m) (Err m) (AutoScroll m) (Width m) (Height m) (Config m) v.

(** [New]; the package variable [instanceCounter] is threaded through. *)
Definition New (instanceCounter : Z) (cfg : config.Config) (title : string)
  : Z * Model :=
  let instanceCounter := add instanceCounter 1 in
  (instanceCounter,
   {| ID := instanceCounter;
      Title := title;
      Config := cfg;
      Lines := [];
      MaxLines := 1000;
      Width := 80;
      Height := 20;
      AutoScroll := true;
      Command := EmptyString; Dir := EmptyString; ScrollPos := 0;
      Running := false; Err := None; output := None |}).

Definition SetSize (m : Model) (width height : Z) : Model :=
  let m := withWidth (div (mul width 80) 100) m in
  let m := if Width m <? 60 then withWidth 60 m else m in
  let m := if Width m >? 120 then withWidth 120 m else m in
  let m := withHeight (div (mul height 70) 100) m in
  let m := if Height m <? 10 then withHeight 10 m else m in
  let m := if Height m >? 40 then withHeight 40 m else m in
  m.

Definition visibleLines (m : Model) : Z := sub (Height m) 6.

Definition maxScroll (m : Model) : Z :=
  let max := sub (len (Lines m)) (visibleLines m) in
  if max <? 0 then 0 else max.

Definition tick (m : Model) : Cmd := tickCmd (ID m).

(** *** The process runner *)

(** What the operating system answers to one invocation: a pipe cannot be
    created, the program cannot be started, or it runs, the scanners of its
    two streams return the given lines and it is reaped with the given
    [Wait] result.  The lines are those the scanners return:
    [readPipeToOutput] never looks at the scanner's error, so what a
    scanner does not return (after a read error, or from a line over its
    token limit on) is not among them. *)
Inductive Exec :=
  | StdoutPipeError (e : GoError)
  | StderrPipeError (e : GoError)
  | StartError (e : GoError)
  | Started (stdout stderr : list string) (wait : option GoError).

(** The outside world of a runner: the answer to each invocation (working
    directory, environment, program, arguments), and the order in which the
    two reader goroutines reach the sink ([true]: the stdout reader). *)
Record World := mkWorld {
    exec : string -> option (list string) -> string -> list string -> Exec;
    schedule : list bool
  }.

(** One reader: an [addLine] per scanned line. *)
Definition readPipeToOutput (pipe : list string) : list sink.SinkOp :=
  map sink.OpAddLine pipe.

Fixpoint interleave {A} (sched : list bool) (a b : list A) : list A :=
  match sched with
  | [] => a ++ b
  | pick :: sched' =>
      match a, b with
      | [], _ => b
      | _, [] => a
      | x :: a', y :: b' =>
          if pick : bool then x :: interleave sched' a' b
          else y :: interleave sched' a b'
      end
  end.

(** The sink writes made while [executeCommandStreaming] runs, and the
    error it returns. *)
Definition executeCommandStreaming (w : World) (dir : string)
    (env : option (list string)) (name : string) (args : list string)
  : list sink.SinkOp * option GoError :=
  match exec w dir env name args with
  | StdoutPipeError e => ([], Some e)
  | StderrPipeError e => ([], Some e)
  | StartError e => ([], Some e)
  | Started stdout stderr wait =>
      (interleave (schedule w)
         (readPipeToOutput stdout) (readPipeToOutput stderr), wait)
  end.

(** A started goroutine: the sink it holds and the writes it will make,
    in order. *)
Record Goroutine := mkGoroutine {
    target : loc;
    writes : list sink.SinkOp
  }.

(** The sinks after the goroutine has made its first [n] writes. *)
Definition runGoroutine (σ : sinks) (g : Goroutine) (n : nat) : sinks :=
  <[target g := sink.applyOps (σ !!! target g) (take n (writes g))]> σ.

(** The error of an invocation that never started. *)
Definition spawnError (x : Exec) : option GoError :=
  match x with
  | StdoutPipeError e => Some e
  | StderrPipeError e => Some e
  | StartError e => Some e
  | Started _ _ _ => None
  end.

(** One [New] per title, in order, each on the counter the previous one
    left. *)
Fixpoint instantiate (instanceCounter : Z) (cfg : config.Config)
    (titles : list string) : list Model :=
  match titles with
  | [] => []
  | title :: rest =>
      let '(instanceCounter, m) := New instanceCounter cfg title in
      m :: instantiate instanceCounter cfg rest
  end.

Section WithStyles.

Variable render : styles.Styles.

Definition header (m : Model) : list string :=
  [styles.Help render ("$ " +:+ Command m); EmptyString].

Definition RunCommandWithEnv (w : World) (σ : sinks) (m : Model)
    (env : option (list string)) (name : string) (args : list string)
  : sinks * Model * Goroutine * Cmd :=
  let m := withCommand (name +:+ " " +:+ String.concat " " args) m in
  let m := withRunning true m in
  let m := withLines (header m) m in
  let m := withScrollPos 0 m in
  let m := withErr None m in
  let p := fresh (dom σ) in
  let σ := <[p := sink.mkShared [] false None]> σ in
  let m := withOutput (Some p) m in
  let dir := Dir m in
  let output := p in
  let g :=
    let '(ws, err) := executeCommandStreaming w dir env name args in
    mkGoroutine output (ws ++ [sink.OpSetDone err]) in
  (σ, m, g, tick m).

Definition RunCommand (w : World) (σ : sinks) (m : Model)
    (name : string) (args : list string)
  : sinks * Model * Goroutine * Cmd :=
  RunCommandWithEnv w σ m None name args.

(** [s[low:]]: panics ([None]) unless [0 <= low <= len(s)]. *)
Definition sliceFrom {A} (s : list A) (low : Z) : option (list A) :=
  if (0 <=? low) && (low <=? len s) then Some (drop (Z.to_nat low) s)
  else None.

(** [handleTick] takes the sink's lock twice, for [getLines] and for
    [isDone]; [between] are the writes of the runner that land between
    the two. *)
Definition handleTick (σ : sinks) (between : list sink.SinkOp) (m : Model)
  : option (Model * Cmd) :=
  match output m with
  | None => Some (m, nilCmd)
  | Some p =>
      let newLines := sink.getLines (σ !!! p) in
      let m :=
        if len newLines >? 0 then withLines (header m ++ newLines) m
        else m in
      let trimmed :=
        if len (Lines m) >? MaxLines m
        then sliceFrom (Lines m) (sub (len (Lines m)) (MaxLines m))
        else Some (Lines m) in
      match trimmed with
      | None => None
      | Some ls =>
          let m := withLines ls m in
          let m := if AutoScroll m then withScrollPos (maxScroll m) m
                   else m in
          let '(done, err) :=
            sink.isDone (sink.applyOps (σ !!! p) between) in
          if done then
            let m := withRunning false m in
            let m := withErr err m in
            let m :=
              match err with
              | Some e =>
                  let m := withLines (Lines m ++ [EmptyString]) m in
                  withLines
                    (Lines m ++
                     [styles.Error render ("Error: " +:+ ErrorString e)]) m
              | None =>
                  let m := withLines (Lines m ++ [EmptyString]) m in
                  withLines
                    (Lines m ++
                     [styles.Selected render "✓ Command completed"]) m
              end in
            let m := if AutoScroll m then withScrollPos (maxScroll m) m
                     else m in
            Some (m, nilCmd)
          else Some (m, tick m)
      end
  end.

(** The status line a tick appends once the command is done. *)
Definition statusLine (err : option GoError) : string :=
  match err with
  | Some e => styles.Error render ("Error: " +:+ ErrorString e)
  | None => styles.Selected render "✓ Command completed"
  end.

(** The display lines a tick builds from a snapshot, before trimming: the
    header and the snapshot, or the old lines when the snapshot is empty. *)
Definition rebuilt (m : Model) (snapshot : list string) : list string :=
  if len snapshot >? 0 then header m ++ snapshot else Lines m.

Definition handleKey (m : Model) (msg : KeyMsg) : Model * Cmd :=
  let key := KString msg in
  let kb := config.Keys (Config m) in
  if config.MatchesAny key
       [config.MoveUp (config.Global kb); config.MoveUpAlt (config.Global kb)]
     || bool_decide (KType msg = KeyUp)
  then
    let m := withAutoScroll false m in
    let m := if ScrollPos m >? 0 then withScrollPos (sub (ScrollPos m) 1) m
             else m in
    (m, nilCmd)
  else if config.MatchesAny key
       [config.MoveDown (config.Global kb);
        config.MoveDownAlt (config.Global kb)]
     || bool_decide (KType msg = KeyDown)
  then
    let m := if ScrollPos m <? maxScroll m
             then withScrollPos (add (ScrollPos m) 1) m else m in
    let m := if ScrollPos m >=? maxScroll m then withAutoScroll true m
             else m in
    (m, nilCmd)
  else if config.Matches key (config.PageUp (config.List kb)) then
    let m := withAutoScroll false m in
    let m := withScrollPos (sub (ScrollPos m) (visibleLines m)) m in
    let m := if ScrollPos m <? 0 then withScrollPos 0 m else m in
    (m, nilCmd)
  else if config.Matches key (config.PageDown (config.List kb)) then
    let m := withScrollPos (add (ScrollPos m) (visibleLines m)) m in
    let m := if ScrollPos m >? maxScroll m
             then withScrollPos (maxScroll m) m else m in
    let m := if ScrollPos m >=? maxScroll m then withAutoScroll true m
             else m in
    (m, nilCmd)
  else if config.Matches key (config.Top (config.List kb)) then
    let m := withAutoScroll false m in
    let m := withScrollPos 0 m in
    (m, nilCmd)
  else if config.Matches key (config.Bottom (config.List kb)) then
    let m := withScrollPos (maxScroll m) m in
    let m := withAutoScroll true m in
    (m, nilCmd)
  else (m, nilCmd).

Definition Update (σ : sinks) (between : list sink.SinkOp) (m : Model)
    (msg : Msg) : option (Model * Cmd) :=
  match msg with
  | WindowSizeMsg width height => Some (SetSize m width height, nilCmd)
  | TickMsg id =>
      if bool_decide (id <> ID m) then Some (m, nilCmd)
      else handleTick σ between m
  | KeyMsgOf k => Some (handleKey m k)
  | OtherMsg => Some (m, nilCmd)
  end.

Definition ShouldClose (m : Model) (msg : KeyMsg) : bool :=
  let key := KString msg in
  let kb := config.Keys (Config m) in
  config.MatchesAny key
    [config.Quit (config.Global kb); config.QuitAlt (config.Global kb)].

Definition newline : string := String (ascii_of_nat 10) EmptyString.

Definition GetOutput (m : Model) : string :=
  if len (Lines m) <=? 2 then EmptyString
  else String.concat newline (drop 2 (Lines m)).

Definition GetRawOutput (σ : sinks) (m : Model) : string :=
  match output m with
  | None => EmptyString
  | Some p =>
      let lines := sink.getLines (σ !!! p) in
      String.concat newline lines
  end.

End WithStyles.

End terminal.

(** ** The terminal view of the TODO component ([internal/ui/todo]) *)

Module todo.

Import goint.

Inductive View :=
  | ListView | DetailView | CreateView | EditView
  | DeleteConfirmView | PromptEditorView | TerminalView.

Global Instance View_eq_dec : EqDecision View.
Proof. solve_decision. Defined.

(** The closures stored in [TerminalCallback].  The repository builds one,
    in [openImprovePromptTerminal]; it captures the index of the prompt
    being improved. *)
Inductive Callback :=
  | improvePromptCallback (idx : Z).

(** The fields of [todo.Model] that the terminal view reads or writes; the
    list, detail, form and editor state is left out. *)
Record Model := mkModel {
    Config : config.Config;
    RepoPath : string;
    CurrentView : View;
    FormPrompts : list string;
    FormPromptIdx : Z;
    PreviousView : View;
    Width : Z;
    Height : Z;
    Improving : bool;
    Terminal : terminal.Model;
    TerminalCallback : option Callback
  }.

Definition withCurrentView v m :=
  mkModel (Config m) (RepoPath m) v (FormPrompts m) (FormPromptIdx m)
    (PreviousView m) (Width m) (Height m) (Improving m) (Terminal m)
    (TerminalCallback m).
Definition withFormPrompts v m :=
  mkModel (Config m) (RepoPath m) (CurrentView m) v (FormPromptIdx m)
    (PreviousView m) (Width m) (Height m) (Improving m) (Terminal m)
    (TerminalCallback m).
Definition withPreviousView v m :=
  mkModel (Config m) (RepoPath m) (CurrentView m) (FormPrompts m)
    (FormPromptIdx m) v (Width m) (Height m) (Improving m) (Terminal m)
    (TerminalCallback m).
Definition withWidth v m :=
  mkModel (Config m) (RepoPath m) (CurrentView m) (FormPrompts m)
    (FormPromptIdx m) (PreviousView m) v (Height m) (Improving m)
    (Terminal m) (TerminalCallback m).
Definition withHeight v m :=
  mkModel (Config m) (RepoPath m) (CurrentView m) (FormPrompts m)
    (FormPromptIdx m) (PreviousView m) (Width m) v (Improving m)
    (Terminal m) (TerminalCallback m).
Definition withImproving v m :=
  mkModel (Config m) (RepoPath m) (CurrentView m) (FormPrompts m)
    (FormPromptIdx m) (PreviousView m) (Width m) (Height m) v (Terminal m)
    (TerminalCallback m).
Definition withTerminal v m :=
  mkModel (Config m) (RepoPath m) (CurrentView m) (FormPrompts m)
    (FormPromptIdx m) (PreviousView m) (Width m) (Height m) (Improving m) v
    (TerminalCallback m).
Definition withTerminalCallback v m :=
  mkModel (Config m) (RepoPath m) (CurrentView m) (FormPrompts m)
    (FormPromptIdx m) (PreviousView m) (Width m) (Height m) (Improving m)
    (Terminal m) v.

Inductive Msg :=
  | WindowSizeMsg (Width Height : Z)
  | TodosLoadedMsg
  | TodoErrorMsg
  | TodoSavedMsg
  | TodoDeletedMsg
  | TickMsg (ID : Z)
  | KeyMsg (k : terminal.KeyMsg).

Inductive Cmd :=
  | terminalCmd (c : terminal.Cmd)
  | LoadTodos
  | otherCmd.

(** The result of one update: the new model, the command, and the raw
    output handed to each completion callback the step invoked. *)
Record Step := mkStep {
    model : Model;
    cmd : Cmd;
    invoked : list string
  }.

Section WithCollaborators.

Variable render : styles.Styles.
(** [strings.TrimSpace]. *)
Variable TrimSpace : string -> string.
(** The key handlers of the six other views. *)
Variable otherViews : Model -> terminal.KeyMsg -> Model * Cmd.

(** The body of the closure built by [openImprovePromptTerminal]. *)
Definition call (cb : Callback) (model : Model) (output : string) : Model :=
  match cb with
  | improvePromptCallback idx =>
      let model := withImproving false model in
      let improved := TrimSpace output in
      if negb (String.eqb improved EmptyString)
         && (idx >=? 0) && (idx <? len (FormPrompts model))
      then withFormPrompts
             (<[Z.to_nat idx := improved]> (FormPrompts model)) model
      else model
  end.

Definition systemPrompt : string := "You are a prompt rewriter.".

(** [openImprovePromptTerminal]; indexing [FormPrompts] out of range
    panics ([None]).  The text of the system prompt is abridged. *)
Definition openImprovePromptTerminal (w : terminal.World)
    (instanceCounter : Z) (σ : terminal.sinks) (m : Model)
  : option (Z * terminal.sinks * terminal.Goroutine * Model * Cmd) :=
  let m := withImproving true m in
  if (0 <=? FormPromptIdx m) && (FormPromptIdx m <? len (FormPrompts m))
  then
    let prompt := FormPrompts m !!! Z.to_nat (FormPromptIdx m) in
    let idx := FormPromptIdx m in
    let '(instanceCounter, t) :=
      terminal.New instanceCounter (Config m) "Improve Prompt" in
    let t := terminal.withDir (RepoPath m) t in
    let t := terminal.SetSize t (Width m) (Height m) in
    let m := withTerminal t m in
    let m := withTerminalCallback (Some (improvePromptCallback idx)) m in
    let m := withPreviousView (CurrentView m) m in
    let m := withCurrentView TerminalView m in
    let '(σ, t, g, c) :=
      terminal.RunCommand render w σ (Terminal m) "claude"
        ["-p"; prompt; "--system-prompt"; systemPrompt] in
    let m := withTerminal t m in
    Some (instanceCounter, σ, g, m, terminalCmd c)
  else None.

Definition UpdateTerminalView (σ : terminal.sinks)
    (between : list sink.SinkOp) (m : Model) (msg : terminal.KeyMsg)
  : option Step :=
  if terminal.ShouldClose (Terminal m) msg then
    let output := terminal.GetRawOutput σ (Terminal m) in
    let '(m, calls) :=
      match TerminalCallback m with
      | Some cb => (call cb m output, [output])
      | None => (m, [])
      end in
    let m := withCurrentView (PreviousView m) m in
    let m := withTerminalCallback None m in
    Some (mkStep m (terminalCmd terminal.nilCmd) calls)
  else
    match terminal.Update render σ between (Terminal m)
            (terminal.KeyMsgOf msg) with
    | Some (t, c) => Some (mkStep (withTerminal t m) (terminalCmd c) [])
    | None => None
    end.

Definition handleKeyMsg (σ : terminal.sinks) (between : list sink.SinkOp)
    (m : Model) (msg : terminal.KeyMsg) : option Step :=
  match CurrentView m with
  | TerminalView => UpdateTerminalView σ between m msg
  | _ => let '(m, c) := otherViews m msg in Some (mkStep m c [])
  end.

Definition Update (σ : terminal.sinks) (between : list sink.SinkOp)
    (m : Model) (msg : Msg) : option Step :=
  match msg with
  | WindowSizeMsg width height =>
      let m := withWidth width m in
      let m := withHeight height m in
      let m := withTerminal (terminal.SetSize (Terminal m) width height) m in
      Some (mkStep m (terminalCmd terminal.nilCmd) [])
  | TodosLoadedMsg => Some (mkStep m (terminalCmd terminal.nilCmd) [])
  | TodoErrorMsg => Some (mkStep m (terminalCmd terminal.nilCmd) [])
  | TodoSavedMsg => Some (mkStep (withCurrentView ListView m) LoadTodos [])
  | TodoDeletedMsg => Some (mkStep (withCurrentView ListView m) LoadTodos [])
  | TickMsg id =>
      if bool_decide (CurrentView m = TerminalView) then
        match terminal.Update render σ between (Terminal m)
                (terminal.TickMsg id) with
        | Some (t, c) => Some (mkStep (withTerminal t m) (terminalCmd c) [])
        | None => None
        end
      else Some (mkStep m (terminalCmd terminal.nilCmd) [])
  | KeyMsg k => handleKeyMsg σ between m k
  end.

(** What the UI loop is handed at one step: a message, the sinks as the
    runner goroutines have left them by then, and the writes that land
    while the step runs. *)
Record Event := mkEvent {
    store : terminal.sinks;
    between : list sink.SinkOp;
    message : Msg
  }.

(** A run of updates: every callback invocation made along the way, in
    order, and the final model. *)
Fixpoint run (m : Model) (evs : list Event) : option (Model * list string) :=
  match evs with
  | [] => Some (m, [])
  | ev :: rest =>
      match Update (store ev) (between ev) m (message ev) with
      | None => None
      | Some s =>
          match run (model s) rest with
          | None => None
          | Some (m', calls) => Some (m', invoked s ++ calls)
          end
      end
  end.

(** A step opens a modal session when it switches to the terminal view
    from another view. *)
Definition opens (m : Model) (s : Step) : bool :=
  negb (bool_decide (CurrentView m = TerminalView))
  && bool_decide (CurrentView (model s) = TerminalView).

(** No invocation is pending: no callback is set, or the modal is not
    shown. *)
Definition idle (m : Model) : Prop :=
  TerminalCallback m = None \/ CurrentView m <> TerminalView.

(** The callback invocations of a run, session by session: the first list
    holds what is invoked up to the step that opens the first session, the
    next one what is invoked from there up to the step that opens the
    second session, and so on. *)
Fixpoint sessions (m : Model) (evs : list Event)
  : option (Model * list (list string)) :=
  match evs with
  | [] => Some (m, [[]])
  | ev :: rest =>
      match Update (store ev) (between ev) m (message ev) with
      | None => None
      | Some s =>
          match sessions (model s) rest with
          | None => None
          | Some (m', groups) =>
              if opens m s then Some (m', invoked s :: groups)
              else
                match groups with
                | g :: gs => Some (m', (invoked s ++ g) :: gs)
                | [] => Some (m', [invoked s])
                end
          end
      end
  end.

End WithCollaborators.

End todo.

(** ** Scrolling, as a sequence of events *)

Module viewport.

Import goint terminal.

(** The six scroll operations of the modal. *)
Inductive ScrollOp :=
  | scrollUp | scrollDown | pageUp | pageDown | jumpTop | jumpBottom.

(** The operation [handleKey] performs for a key: its tests, in its
    order. *)
Definition keyOp (cfg : config.Config) (msg : KeyMsg) : option ScrollOp :=
  let key := KString msg in
  let kb := config.Keys cfg in
  if config.MatchesAny key
       [config.MoveUp (config.Global kb); config.MoveUpAlt (config.Global kb)]
     || bool_decide (KType msg = KeyUp)
  then Some scrollUp
  else if config.MatchesAny key
       [config.MoveDown (config.Global kb);
        config.MoveDownAlt (config.Global kb)]
     || bool_decide (KType msg = KeyDown)
  then Some scrollDown
  else if config.Matches key (config.PageUp (config.List kb)) then Some pageUp
  else if config.Matches key (config.PageDown (config.List kb))
  then Some pageDown
  else if config.Matches key (config.Top (config.List kb)) then Some jumpTop
  else if config.Matches key (config.Bottom (config.List kb))
  then Some jumpBottom
  else None.

(** The branch of [handleKey] for each operation. *)
Definition perform (op : ScrollOp) (m : Model) : Model :=
  match op with
  | scrollUp =>
      let m := withAutoScroll false m in
      if ScrollPos m >? 0 then withScrollPos (sub (ScrollPos m) 1) m else m
  | scrollDown =>
      let m := if ScrollPos m <? maxScroll m
               then withScrollPos (add (ScrollPos m) 1) m else m in
      if ScrollPos m >=? maxScroll m then withAutoScroll true m else m
  | pageUp =>
      let m := withAutoScroll false m in
      let m := withScrollPos (sub (ScrollPos m) (visibleLines m)) m in
      if ScrollPos m <? 0 then withScrollPos 0 m else m
  | pageDown =>
      let m := withScrollPos (add (ScrollPos m) (visibleLines m)) m in
      let m := if ScrollPos m >? maxScroll m
               then withScrollPos (maxScroll m) m else m in
      if ScrollPos m >=? maxScroll m then withAutoScroll true m else m
  | jumpTop =>
      let m := withAutoScroll false m in
      withScrollPos 0 m
  | jumpBottom =>
      let m := withScrollPos (maxScroll m) m in
      withAutoScroll true m
  end.

Inductive Event :=
  | Key (k : KeyMsg)
  | Resize (width height : Z).

Definition isResize (e : Event) : bool :=
  match e with Resize _ _ => true | Key _ => false end.

Definition toMsg (e : Event) : Msg :=
  match e with
  | Key k => KeyMsgOf k
  | Resize w h => WindowSizeMsg w h
  end.

(** [Update] on a key or a resize: these never panic and never read the
    sinks. *)
Definition apply (m : Model) (e : Event) : Model :=
  match e with
  | Key k => (handleKey m k).1
  | Resize w h => SetSize m w h
  end.

Definition applyAll (m : Model) (evs : list Event) : Model :=
  foldl apply m evs.

(** The bounds of the scroll offset. *)
Definition inBounds (m : Model) : Prop :=
  0 <= ScrollPos m <= maxScroll m.

(** The sizes [New] and [SetSize] produce, and a line count far from the
    end of the integer range. *)
Definition sized (m : Model) : Prop :=
  10 <= Height m <= 40 /\ len (Lines m) <= 2 ^ 62.

End viewport.

(** ** More of the terminal modal *)

Module terminal_ext.

Import goint terminal.

(** The display lines without the two header lines; nil when there are at
    most two lines. *)
Definition GetOutputLines (m : Model) : list string :=
  if len (Lines m) <=? 2 then [] else drop 2 (Lines m).

(** The raw output lines; nil when no command was ever started. *)
Definition GetRawOutputLines (σ : sinks) (m : Model) : list string :=
  match output m with
  | None => []
  | Some p => sink.getLines (σ !!! p)
  end.

(** The sinks as a read that follows a step finds them: the writes that
    landed on the modal's sink while the step ran are in. *)
Definition written (σ : sinks) (between : list sink.SinkOp) (m : Model)
  : sinks :=
  match output m with
  | Some p => <[p := sink.applyOps (σ !!! p) between]> σ
  | None => σ
  end.

(** The sink of a goroutine after its first [n] writes, from the empty sink
    [RunCommandWithEnv] allocates. *)
Definition sinkAfter (g : Goroutine) (n : nat) : sink.sharedOutput :=
  sink.applyOps (sink.mkShared [] false None) (take n (writes g)).

(** The lines a runner will write, in the order the two readers reach the
    sink, and the error it will report. *)
Definition mergedLines (w : World) (dir : string) (env : option (list string))
    (name : string) (args : list string) : list string :=
  match exec w dir env name args with
  | Started stdout stderr _ => interleave (schedule w) stdout stderr
  | _ => []
  end.

Definition exitError (w : World) (dir : string) (env : option (list string))
    (name : string) (args : list string) : option GoError :=
  match exec w dir env name args with
  | Started _ _ wait => wait
  | StdoutPipeError e | StderrPipeError e | StartError e => Some e
  end.

End terminal_ext.

(** ** The complete key bindings ([internal/config]) *)

Module keys.

Module FormKeys.
Record t := mk {
  Submit : string; Cancel : string; NextField : string; PrevField : string;
  AddPrompt : string; DeletePrompt : string; EditPrompt : string;
  ImprovePrompt : string
}.
End FormKeys.

Module EditorKeys.
Record t := mk {
  Save : string; Cancel : string; LineStart : string; LineEnd : string;
  DeleteLine : string; NewLine : string
}.
End EditorKeys.

Module DetailKeys.
Record t := mk {
  Back : string; Edit : string; Delete : string;
  ScrollUp : string; ScrollDown : string
}.
End DetailKeys.

(** [Keybindings] with its five groups; [config.Keybindings] is its
    restriction to the two groups the terminal modal reads. *)
Record Keybindings := mkKeybindings {
  Global : config.GlobalKeys;
  List : config.ListKeys;
  Form : FormKeys.t;
  Editor : EditorKeys.t;
  Detail : DetailKeys.t
}.

Definition DefaultKeybindings : Keybindings :=
  {| Global := config.Global config.DefaultKeybindings;
     List := config.List config.DefaultKeybindings;
     Form := {| FormKeys.Submit := "ctrl+s"; FormKeys.Cancel := "esc";
                FormKeys.NextField := "tab";
                FormKeys.PrevField := "shift+tab";
                FormKeys.AddPrompt := "ctrl+a";
                FormKeys.DeletePrompt := "ctrl+d";
                FormKeys.EditPrompt := "ctrl+e";
                FormKeys.ImprovePrompt := "ctrl+i" |};
     Editor := {| EditorKeys.Save := "ctrl+s"; EditorKeys.Cancel := "esc";
                  EditorKeys.LineStart := "ctrl+a";
                  EditorKeys.LineEnd := "ctrl+e";
                  EditorKeys.DeleteLine := "ctrl+k";
                  EditorKeys.NewLine := "enter" |};
     Detail := {| DetailKeys.Back := "esc"; DetailKeys.Edit := "e";
                  DetailKeys.Delete := "d"; DetailKeys.ScrollUp := "k";
                  DetailKeys.ScrollDown := "j" |} |}.

(** What [json.Unmarshal] leaves of a group that the file does not
    mention: the zero value. *)
Definition zero : Keybindings :=
  {| Global := config.mkGlobalKeys EmptyString EmptyString EmptyString EmptyString EmptyString EmptyString EmptyString;
     List := config.mkListKeys EmptyString EmptyString EmptyString EmptyString EmptyString EmptyString EmptyString EmptyString;
     Form := FormKeys.mk EmptyString EmptyString EmptyString EmptyString EmptyString EmptyString EmptyString EmptyString;
     Editor := EditorKeys.mk EmptyString EmptyString EmptyString EmptyString EmptyString EmptyString;
     Detail := DetailKeys.mk EmptyString EmptyString EmptyString EmptyString EmptyString |}.

(** [if result.X == EmptyString { result.X = defaults.X }]. *)
Definition orDefault (value default : string) : string :=
  if String.eqb value EmptyString then default else value.

Definition mergeWithDefaults (kb : Keybindings) : Keybindings :=
  let defaults := DefaultKeybindings in
  let g := Global kb in let dg := Global defaults in
  let l := List kb in let dl := List defaults in
  let f := Form kb in let df := Form defaults in
  let e := Editor kb in let de := Editor defaults in
  let d := Detail kb in let dd := Detail defaults in
  {| Global :=
       {| config.Quit := orDefault (config.Quit g) (config.Quit dg);
          config.QuitAlt := orDefault (config.QuitAlt g) (config.QuitAlt dg);
          config.Help := orDefault (config.Help g) (config.Help dg);
          config.MoveUp := orDefault (config.MoveUp g) (config.MoveUp dg);
          config.MoveDown :=
            orDefault (config.MoveDown g) (config.MoveDown dg);
          config.MoveUpAlt :=
            orDefault (config.MoveUpAlt g) (config.MoveUpAlt dg);
          config.MoveDownAlt :=
            orDefault (config.MoveDownAlt g) (config.MoveDownAlt dg) |};
     List :=
       {| config.Select := orDefault (config.Select l) (config.Select dl);
          config.New := orDefault (config.New l) (config.New dl);
          config.Delete := orDefault (config.Delete l) (config.Delete dl);
          config.Edit := orDefault (config.Edit l) (config.Edit dl);
          config.Top := orDefault (config.Top l) (config.Top dl);
          config.Bottom := orDefault (config.Bottom l) (config.Bottom dl);
          config.PageUp := orDefault (config.PageUp l) (config.PageUp dl);
          config.PageDown :=
            orDefault (config.PageDown l) (config.PageDown dl) |};
     Form :=
       {| FormKeys.Submit :=
            orDefault (FormKeys.Submit f) (FormKeys.Submit df);
          FormKeys.Cancel :=
            orDefault (FormKeys.Cancel f) (FormKeys.Cancel df);
          FormKeys.NextField :=
            orDefault (FormKeys.NextField f) (FormKeys.NextField df);
          FormKeys.PrevField :=
            orDefault (FormKeys.PrevField f) (FormKeys.PrevField df);
          FormKeys.AddPrompt :=
            orDefault (FormKeys.AddPrompt f) (FormKeys.AddPrompt df);
          FormKeys.DeletePrompt :=
            orDefault (FormKeys.DeletePrompt f) (FormKeys.DeletePrompt df);
          FormKeys.EditPrompt :=
            orDefault (FormKeys.EditPrompt f) (FormKeys.EditPrompt df);
          FormKeys.ImprovePrompt :=
            orDefault (FormKeys.ImprovePrompt f)
              (FormKeys.ImprovePrompt df) |};
     Editor :=
       {| EditorKeys.Save :=
            orDefault (EditorKeys.Save e) (EditorKeys.Save de);
          EditorKeys.Cancel :=
            orDefault (EditorKeys.Cancel e) (EditorKeys.Cancel de);
          EditorKeys.LineStart :=
            orDefault (EditorKeys.LineStart e) (EditorKeys.LineStart de);
          EditorKeys.LineEnd :=
            orDefault (EditorKeys.LineEnd e) (EditorKeys.LineEnd de);
          EditorKeys.DeleteLine :=
            orDefault (EditorKeys.DeleteLine e) (EditorKeys.DeleteLine de);
          EditorKeys.NewLine :=
            orDefault (EditorKeys.NewLine e) (EditorKeys.NewLine de) |};
     Detail :=
       {| DetailKeys.Back :=
            orDefault (DetailKeys.Back d) (DetailKeys.Back dd);
          DetailKeys.Edit :=
            orDefault (DetailKeys.Edit d) (DetailKeys.Edit dd);
          DetailKeys.Delete :=
            orDefault (DetailKeys.Delete d) (DetailKeys.Delete dd);
          DetailKeys.ScrollUp :=
            orDefault (DetailKeys.ScrollUp d) (DetailKeys.ScrollUp dd);
          DetailKeys.ScrollDown :=
            orDefault (DetailKeys.ScrollDown d)
              (DetailKeys.ScrollDown dd) |} |}.

(** The thirty-four bindings of the structure, group by group. *)
Definition bindings (kb : Keybindings) : list string :=
  let g := Global kb in let l := List kb in let f := Form kb in
  let e := Editor kb in let d := Detail kb in
  [config.Quit g; config.QuitAlt g; config.Help g; config.MoveUp g;
   config.MoveDown g; config.MoveUpAlt g; config.MoveDownAlt g;
   config.Select l; config.New l; config.Delete l; config.Edit l;
   config.Top l; config.Bottom l; config.PageUp l; config.PageDown l;
   FormKeys.Submit f; FormKeys.Cancel f; FormKeys.NextField f;
   FormKeys.PrevField f; FormKeys.AddPrompt f; FormKeys.DeletePrompt f;
   FormKeys.EditPrompt f; FormKeys.ImprovePrompt f;
   EditorKeys.Save e; EditorKeys.Cancel e; EditorKeys.LineStart e;
   EditorKeys.LineEnd e; EditorKeys.DeleteLine e; EditorKeys.NewLine e;
   DetailKeys.Back d; DetailKeys.Edit d; DetailKeys.Delete d;
   DetailKeys.ScrollUp d; DetailKeys.ScrollDown d].

(** [*Config], as in [config]. *)
Record Config := mkConfig { Keybindings_ : Keybindings }.

Definition Keys (c : Config) : Keybindings := Keybindings_ c.

(** The configuration as the terminal modal sees it. *)
Definition restrict (c : Config) : config.Config :=
  config.mkConfig
    (config.mkKeybindings (Global (Keys c)) (List (Keys c))).

End keys.

(** ** Go strings as byte sequences *)

Module gostring.

Definition len (s : string) : Z := Z.of_nat (String.length s).

(** [s[lo:hi]]: panics ([None]) unless [0 <= lo <= hi <= len(s)]. *)
Definition slice (s : string) (lo hi : Z) : option string :=
  if (0 <=? lo) && (lo <=? hi) && (hi <=? len s)
  then Some (substring (Z.to_nat lo) (Z.to_nat (hi - lo)) s)
  else None.

(** [s[:hi]] and [s[lo:]]. *)
Definition sliceTo (s : string) (hi : Z) : option string := slice s 0 hi.
Definition sliceFrom (s : string) (lo : Z) : option string :=
  slice s lo (len s).

(** [s[i]]: panics ([None]) unless [0 <= i < len(s)]. *)
Definition index (s : string) (i : Z) : option ascii :=
  if (0 <=? i) && (i <? len s) then String.get (Z.to_nat i) s else None.

Definition lineFeed : ascii := ascii_of_nat 10.

(** [len(key) == 1 && key[0] >= 32 && key[0] < 127]. *)
Definition isPrintableKey (key : string) : bool :=
  match key with
  | String c EmptyString =>
      ((32 <=? nat_of_ascii c) && (nat_of_ascii c <? 127))%nat
  | _ => false
  end.

(** [text[:cursor] + s + text[cursor:]]. *)
Definition insertAt (text : string) (cursor : Z) (s : string)
  : option string :=
  match sliceTo text cursor, sliceFrom text cursor with
  | Some before, Some after => Some (before +:+ s +:+ after)
  | _, _ => None
  end.

(** [for cursor > 0 && text[cursor-1] != '\n' { cursor-- }], for a cursor
    that is positive: the recursion is on the cursor. *)
Fixpoint lineStartFrom (text : string) (cursor : nat) : option nat :=
  match cursor with
  | O => Some O
  | S c =>
      match String.get c text with
      | None => None
      | Some ch =>
          if Ascii.eqb ch lineFeed then Some (S c) else lineStartFrom text c
      end
  end.

Definition lineStart (text : string) (cursor : Z) : option Z :=
  if cursor >? 0 then Z.of_nat <$> lineStartFrom text (Z.to_nat cursor)
  else Some cursor.

(** [for cursor < len(text) && text[cursor] != '\n' { cursor++ }], for a
    cursor inside the text: the recursion is on the text from the cursor
    on. *)
Fixpoint lineEndFrom (rest : string) (cursor : Z) : Z :=
  match rest with
  | EmptyString => cursor
  | String ch rest' =>
      if Ascii.eqb ch lineFeed then cursor
      else lineEndFrom rest' (cursor + 1)
  end.

Definition lineEnd (text : string) (cursor : Z) : option Z :=
  if cursor <? len text then
    match sliceFrom text cursor with
    | None => None
    | Some rest => Some (lineEndFrom rest cursor)
    end
  else Some cursor.

(** [strings.Split(s, "\n")]: the pieces between the line feeds, at
    least one. *)
Fixpoint SplitLines (s : string) : list string :=
  match s with
  | EmptyString => [EmptyString]
  | String c rest =>
      if Ascii.eqb c lineFeed then EmptyString :: SplitLines rest
      else
        match SplitLines rest with
        | line :: lines => String c line :: lines
        | [] => [String c EmptyString]
        end
  end.

(** The bytes of the pieces, and of one line feed after each. *)
Definition size (lines : list string) : nat :=
  sum_list_with (fun line => S (String.length line)) lines.

End gostring.

(** ** The commit component ([internal/ui/commit]) *)

Module commit.

Import goint.

Inductive State :=
| StateChecking | StateNoChanges | StateGenerating | StateEditing
| StateCommitting | StateDone | StateError.

Global Instance State_eq_dec : EqDecision State.
Proof. solve_decision. Defined.

Record Model := mkModel {
  Config : keys.Config;
  RepoPath : string;
  State_ : State;
  ErrMsg : string;
  Diff : string;
  Subject : string;
  Body : string;
  EditingField : Z;
  CursorPos : Z;
  BodyScrollPos : Z;
  Terminal : terminal.Model;
  Width : Z;
  Height : Z
}.

Definition withState v m :=
  mkModel (Config m) (RepoPath m) v (ErrMsg m) (Diff m) (Subject m) (Body m)
    (EditingField m) (CursorPos m) (BodyScrollPos m) (Terminal m) (Width m)
    (Height m).
Definition withErrMsg v m :=
  mkModel (Config m) (RepoPath m) (State_ m) v (Diff m) (Subject m) (Body m)
    (EditingField m) (CursorPos m) (BodyScrollPos m) (Terminal m) (Width m)
    (Height m).
Definition withDiff v m :=
  mkModel (Config m) (RepoPath m) (State_ m) (ErrMsg m) v (Subject m) (Body m)
    (EditingField m) (CursorPos m) (BodyScrollPos m) (Terminal m) (Width m)
    (Height m).
Definition withSubject v m :=
  mkModel (Config m) (RepoPath m) (State_ m) (ErrMsg m) (Diff m) v (Body m)
    (EditingField m) (CursorPos m) (BodyScrollPos m) (Terminal m) (Width m)
    (Height m).
Definition withBody v m :=
  mkModel (Config m) (RepoPath m) (State_ m) (ErrMsg m) (Diff m) (Subject m) v
    (EditingField m) (CursorPos m) (BodyScrollPos m) (Terminal m) (Width m)
    (Height m).
Definition withEditingField v m :=
  mkModel (Config m) (RepoPath m) (State_ m) (ErrMsg m) (Diff m) (Subject m)
    (Body m) v (CursorPos m) (BodyScrollPos m) (Terminal m) (Width m)
    (Height m).
Definition withCursorPos v m :=
  mkModel (Config m) (RepoPath m) (State_ m) (ErrMsg m) (Diff m) (Subject m)
    (Body m) (EditingField m) v (BodyScrollPos m) (Terminal m) (Width m)
    (Height m).
Definition withTerminal v m :=
  mkModel (Config m) (RepoPath m) (State_ m) (ErrMsg m) (Diff m) (Subject m)
    (Body m) (EditingField m) (CursorPos m) (BodyScrollPos m) v (Width m)
    (Height m).
Definition withWidth v m :=
  mkModel (Config m) (RepoPath m) (State_ m) (ErrMsg m) (Diff m) (Subject m)
    (Body m) (EditingField m) (CursorPos m) (BodyScrollPos m) (Terminal m) v
    (Height m).
Definition withHeight v m :=
  mkModel (Config m) (RepoPath m) (State_ m) (ErrMsg m) (Diff m) (Subject m)
    (Body m) (EditingField m) (CursorPos m) (BodyScrollPos m) (Terminal m)
    (Width m) v.

Inductive Msg :=
| WindowSizeMsg (Width Height : Z)
| CheckDoneMsg (HasChanges : bool) (Diff : string) (Err : option GoError)
| TickMsg (ID : Z)
| KeyMsg (k : terminal.KeyMsg)
| OtherMsg.

(** The command returned: nil, the one that delivers [BackToMenuMsg], or
    a command of the terminal modal. *)
Inductive Cmd :=
| nilCmd
| backToMenuCmd
| terminalCmd (c : terminal.Cmd).

(** [handleTextEdit]; a slice or an index out of range panics ([None]). *)
Definition handleTextEdit (text : string) (cursor : Z)
    (msg : terminal.KeyMsg) : option (string * Z) :=
  let key := terminal.KString msg in
  if String.eqb key "backspace" then
    if cursor >? 0 then
      match gostring.sliceTo text (sub cursor 1),
            gostring.sliceFrom text cursor with
      | Some before, Some after => Some (before +:+ after, sub cursor 1)
      | _, _ => None
      end
    else Some (text, cursor)
  else if String.eqb key "delete" then
    if cursor <? gostring.len text then
      match gostring.sliceTo text cursor,
            gostring.sliceFrom text (add cursor 1) with
      | Some before, Some after => Some (before +:+ after, cursor)
      | _, _ => None
      end
    else Some (text, cursor)
  else if String.eqb key "left" then
    Some (text, if cursor >? 0 then sub cursor 1 else cursor)
  else if String.eqb key "right" then
    Some (text, if cursor <? gostring.len text then add cursor 1 else cursor)
  else if String.eqb key "home" || String.eqb key "ctrl+a" then
    match gostring.lineStart text cursor with
    | None => None
    | Some cursor => Some (text, cursor)
    end
  else if String.eqb key "end" || String.eqb key "ctrl+e" then
    match gostring.lineEnd text cursor with
    | None => None
    | Some cursor => Some (text, cursor)
    end
  else if String.eqb key "enter" then
    match gostring.insertAt text cursor terminal.newline with
    | None => None
    | Some text => Some (text, add cursor 1)
    end
  else if String.eqb key "space" then
    match gostring.insertAt text cursor " " with
    | None => None
    | Some text => Some (text, add cursor 1)
    end
  else if gostring.isPrintableKey key then
    match gostring.insertAt text cursor key with
    | None => None
    | Some text => Some (text, add cursor 1)
    end
  else Some (text, cursor).

(** What the process environment answers to [doCommit]. *)
Record Env := mkEnv {
  GOOS : string;
  SSH_AUTH_SOCK : string
}.

(** One update: the instance counter and the sinks it leaves, the
    goroutine it started if any, the new model and the command. *)
Record Step := mkStep {
  counter : Z;
  sinks : terminal.sinks;
  started : option terminal.Goroutine;
  model : Model;
  cmd : Cmd
}.

Section WithCollaborators.

Variable render : styles.Styles.
(** [strings.TrimSpace] and [parseCommitMessage]. *)
Variable TrimSpace : string -> string.
Variable parseCommitMessage : string -> string * string.
Variable w : terminal.World.
Variable env : Env.

Definition quote : string := String (ascii_of_nat 34) EmptyString.

(** The shell snippet, abridged. *)
Definition findOrStartSSHAgent : string :=
  "if [ -z $SSH_AUTH_SOCK ]; then eval $(ssh-agent -s); ssh-add; fi; ".

Definition startGenerating (counter : Z) (σ : terminal.sinks) (m : Model)
  : Step :=
  let m := withState StateGenerating m in
  let '(counter, t) :=
    terminal.New counter (keys.restrict (Config m))
      "Generating commit message..." in
  let m := withTerminal t m in
  let m := withTerminal (terminal.withDir (RepoPath m) (Terminal m)) m in
  let m := withTerminal
             (terminal.SetSize (Terminal m) (Width m) (Height m)) m in
  let '(σ, t, g, c) :=
    terminal.RunCommand render w σ (Terminal m) "claude"
      ["-p"; "/generate-commit-msg"] in
  let m := withTerminal t m in
  mkStep counter σ (Some g) m (terminalCmd c).

Definition handleGenerateDone (σ : terminal.sinks) (m : Model)
  : Model * Cmd :=
  match terminal.Err (Terminal m) with
  | Some e =>
      let m := withState StateError m in
      let m := withErrMsg
                 ("Failed to generate commit message: " +:+ ErrorString e)
                 m in
      (m, nilCmd)
  | None =>
      let output := TrimSpace (terminal.GetRawOutput σ (Terminal m)) in
      let '(subject, body) := parseCommitMessage output in
      let m := withSubject subject m in
      let m := withBody body m in
      let m := withState StateEditing m in
      let m := withEditingField 0 m in
      let m := withCursorPos (gostring.len (Subject m)) m in
      (m, nilCmd)
  end.

Definition handleCommitDone (m : Model) : Model * Cmd :=
  match terminal.Err (Terminal m) with
  | Some e =>
      let m := withState StateError m in
      let m := withErrMsg ("Commit failed: " +:+ ErrorString e) m in
      (m, nilCmd)
  | None => (withState StateDone m, nilCmd)
  end.

Definition doCommit (counter : Z) (σ : terminal.sinks) (m : Model) : Step :=
  let m := withState StateCommitting m in
  let '(counter, t) :=
    terminal.New counter (keys.restrict (Config m))
      "Committing changes..." in
  let m := withTerminal t m in
  let m := withTerminal (terminal.withDir (RepoPath m) (Terminal m)) m in
  let m := withTerminal
             (terminal.SetSize (Terminal m) (Width m) (Height m)) m in
  let commitMsg := Subject m in
  let commitMsg :=
    if negb (String.eqb (Body m) EmptyString)
    then commitMsg +:+ terminal.newline +:+ terminal.newline +:+ Body m
    else commitMsg in
  let gitCmd :=
    "git add -A && git commit -m " +:+ quote +:+ "$(cat <<'COMMITMSG'"
    +:+ terminal.newline +:+ commitMsg +:+ terminal.newline
    +:+ "COMMITMSG" +:+ terminal.newline +:+ ")" +:+ quote in
  let '(σ, t, g, c) :=
    if String.eqb (GOOS env) "linux"
       && String.eqb (SSH_AUTH_SOCK env) EmptyString
    then terminal.RunCommand render w σ (Terminal m) "bash"
           ["-c"; findOrStartSSHAgent +:+ gitCmd]
    else terminal.RunCommand render w σ (Terminal m) "bash"
           ["-c"; gitCmd] in
  let m := withTerminal t m in
  mkStep counter σ (Some g) m (terminalCmd c).

(** The message [doCommit] hands to git, and the script it has bash
    run. *)
Definition commitMessage (m : Model) : string :=
  if negb (String.eqb (Body m) EmptyString)
  then Subject m +:+ terminal.newline +:+ terminal.newline +:+ Body m
  else Subject m.

Definition commitScript (m : Model) : string :=
  let gitCmd :=
    "git add -A && git commit -m " +:+ quote +:+ "$(cat <<'COMMITMSG'"
    +:+ terminal.newline +:+ commitMessage m +:+ terminal.newline
    +:+ "COMMITMSG" +:+ terminal.newline +:+ ")" +:+ quote in
  if String.eqb (GOOS env) "linux"
     && String.eqb (SSH_AUTH_SOCK env) EmptyString
  then findOrStartSSHAgent +:+ gitCmd
  else gitCmd.

Definition handleEditKey (counter : Z) (σ : terminal.sinks) (m : Model)
    (msg : terminal.KeyMsg) : option Step :=
  let key := terminal.KString msg in
  let kb := keys.Keys (Config m) in
  if config.Matches key (keys.FormKeys.Submit (keys.Form kb)) then
    if String.eqb (Subject m) EmptyString then
      Some (mkStep counter σ None (withErrMsg "Subject is required" m) nilCmd)
    else Some (doCommit counter σ m)
  else if config.Matches key (keys.FormKeys.NextField (keys.Form kb))
          || String.eqb key "down" then
    let m :=
      if EditingField m =? 0 then
        let m := withEditingField 1 m in
        withCursorPos (gostring.len (Body m)) m
      else m in
    Some (mkStep counter σ None m nilCmd)
  else if config.Matches key (keys.FormKeys.PrevField (keys.Form kb))
          || String.eqb key "up" then
    let m :=
      if EditingField m =? 1 then
        let m := withEditingField 0 m in
        withCursorPos (gostring.len (Subject m)) m
      else m in
    Some (mkStep counter σ None m nilCmd)
  else if EditingField m =? 0 then
    match handleTextEdit (Subject m) (CursorPos m) msg with
    | None => None
    | Some (subject, cursor) =>
        let m := withSubject subject m in
        let m := withCursorPos cursor m in
        if gostring.len (Subject m) >? 72 then
          match gostring.sliceTo (Subject m) 72 with
          | None => None
          | Some subject =>
              let m := withSubject subject m in
              let m := if CursorPos m >? 72 then withCursorPos 72 m else m in
              Some (mkStep counter σ None m nilCmd)
          end
        else Some (mkStep counter σ None m nilCmd)
    end
  else
    match handleTextEdit (Body m) (CursorPos m) msg with
    | None => None
    | Some (body, cursor) =>
        let m := withBody body m in
        let m := withCursorPos cursor m in
        Some (mkStep counter σ None m nilCmd)
    end.

Definition handleKey (counter : Z) (σ : terminal.sinks)
    (between : list sink.SinkOp) (m : Model) (msg : terminal.KeyMsg)
  : option Step :=
  let key := terminal.KString msg in
  let kb := keys.Keys (Config m) in
  if config.MatchesAny key
       [config.Quit (keys.Global kb); config.QuitAlt (keys.Global kb)]
  then Some (mkStep counter σ None m backToMenuCmd)
  else
    match State_ m with
    | StateNoChanges | StateDone | StateError =>
        if String.eqb key "enter" || String.eqb key " "
        then Some (mkStep counter σ None m backToMenuCmd)
        else Some (mkStep counter σ None m nilCmd)
    | StateGenerating | StateCommitting =>
        match terminal.Update render σ between (Terminal m)
                (terminal.KeyMsgOf msg) with
        | None => None
        | Some (t, c) =>
            Some (mkStep counter σ None (withTerminal t m) (terminalCmd c))
        end
    | StateEditing => handleEditKey counter σ m msg
    | StateChecking => Some (mkStep counter σ None m nilCmd)
    end.

(** On the tick that finds the command done, [handleGenerateDone] reads
    the sink once more ([GetRawOutput]), after the tick's own two reads. *)
Definition Update (counter : Z) (σ : terminal.sinks)
    (between : list sink.SinkOp) (m : Model) (msg : Msg) : option Step :=
  match msg with
  | WindowSizeMsg width height =>
      let m := withWidth width m in
      let m := withHeight height m in
      let m := withTerminal (terminal.SetSize (Terminal m) width height) m in
      Some (mkStep counter σ None m nilCmd)
  | CheckDoneMsg hasChanges diff err =>
      match err with
      | Some e =>
          let m := withState StateError m in
          let m := withErrMsg (ErrorString e) m in
          Some (mkStep counter σ None m nilCmd)
      | None =>
          if negb hasChanges
          then Some (mkStep counter σ None (withState StateNoChanges m) nilCmd)
          else
            let m := withDiff diff m in
            Some (startGenerating counter σ m)
      end
  | TickMsg id =>
      if bool_decide (State_ m = StateGenerating)
         || bool_decide (State_ m = StateCommitting)
      then
        match terminal.Update render σ between (Terminal m)
                (terminal.TickMsg id) with
        | None => None
        | Some (t, c) =>
            let m := withTerminal t m in
            if negb (terminal.Running (Terminal m)) then
              if bool_decide (State_ m = StateGenerating) then
                let '(m, c) :=
                  handleGenerateDone
                    (terminal_ext.written σ between (Terminal m)) m in
                Some (mkStep counter σ None m c)
              else
                let '(m, c) := handleCommitDone m in
                Some (mkStep counter σ None m c)
            else Some (mkStep counter σ None m (terminalCmd c))
        end
      else Some (mkStep counter σ None m nilCmd)
  | KeyMsg k => handleKey counter σ between m k
  | OtherMsg => Some (mkStep counter σ None m nilCmd)
  end.

End WithCollaborators.

(** The cursor is inside the field being edited. *)
Definition cursorInField (m : Model) : Prop :=
  (EditingField m = 0 /\ 0 <= CursorPos m <= gostring.len (Subject m)) \/
  (EditingField m = 1 /\ 0 <= CursorPos m <= gostring.len (Body m)).

End commit.

(** ** TODO items ([internal/todo]) *)

Module todoitem.

Import goint.

(** [Todo]; the two timestamps are instants, here integers. *)
Record Todo := mkTodo {
  ID : string;
  Branch : string;
  Name : string;
  Description : string;
  Prompts : list string;
  CreatedAt : Z;
  UpdatedAt : Z
}.

Global Instance Todo_eq_dec : EqDecision Todo.
Proof. solve_decision. Defined.

Record TodoList := mkTodoList {
  RepoPath : string;
  Todos : list Todo
}.

Definition withTodos (todos : list Todo) (l : TodoList) : TodoList :=
  mkTodoList (RepoPath l) todos.

(** [NewTodo]; the clock and the random identifier are inputs. *)
Definition NewTodo (now : Z) (id : string)
    (branch name description : string) (prompts : list string) : Todo :=
  mkTodo id branch name description prompts now now.

Definition Update (now : Z) (t : Todo) : Todo :=
  mkTodo (ID t) (Branch t) (Name t) (Description t) (Prompts t)
    (CreatedAt t) now.

Definition withPrompts (prompts : list string) (t : Todo) : Todo :=
  mkTodo (ID t) (Branch t) (Name t) (Description t) prompts
    (CreatedAt t) (UpdatedAt t).

Definition AddPrompt (now : Z) (prompt : string) (t : Todo) : Todo :=
  Update now (withPrompts (Prompts t ++ [prompt]) t).

Definition RemovePrompt (now : Z) (index : Z) (t : Todo) : Todo :=
  if (index <? 0) || (index >=? len (Prompts t)) then t
  else
    Update now
      (withPrompts
         (take (Z.to_nat index) (Prompts t)
          ++ drop (Z.to_nat (add index 1)) (Prompts t)) t).

Definition Validate (t : Todo) : bool :=
  negb (String.eqb (Name t) EmptyString)
  && negb (String.eqb (Branch t) EmptyString).

End todoitem.

(** ** The store ([internal/store]) *)

Module store.

Import todoitem.

(** [ErrNotFound], and the errors of the operating system and of
    [encoding/json], which are never that sentinel. *)
Inductive Error :=
| ErrNotFound
| osError (e : GoError)
| jsonError (e : GoError).

Global Instance Error_eq_dec : EqDecision Error.
Proof. solve_decision. Defined.

(** The files under the store's directory, by path, and what the
    operating system answers: [mkdirErr] to [os.MkdirAll], [readErr] to
    [os.ReadFile] of a file that exists, [writeErr] to [os.WriteFile].  A
    write that fails gives its error and what it leaves at the path: the
    file as it was ([None]), or a file with some content, since the file
    is created or truncated before the data is written. *)
Record Disk := mkDisk {
  files : gmap string string;
  mkdirErr : option GoError;
  readErr : option GoError;
  writeErr : option (GoError * option string)
}.

Definition withFiles (fs : gmap string string) (d : Disk) : Disk :=
  mkDisk fs (mkdirErr d) (readErr d) (writeErr d).

Record Store := mkStore { path : string }.

(** [filepath.Join] of a directory and a name without separators. *)
Definition Join (dir name : string) : string := dir +:+ "/" +:+ name.

Definition init (d : Disk) (s : Store) : option Error :=
  match mkdirErr d with
  | Some e => Some (osError e)
  | None => None
  end.

Definition Write (d : Disk) (s : Store) (name data : string)
  : Disk * option Error :=
  let filePath := Join (path s) name in
  match writeErr d with
  | Some (e, None) => (d, Some (osError e))
  | Some (e, Some torn) =>
      (withFiles (<[filePath := torn]> (files d)) d, Some (osError e))
  | None => (withFiles (<[filePath := data]> (files d)) d, None)
  end.

Definition Read (d : Disk) (s : Store) (name : string) : Error + string :=
  let filePath := Join (path s) name in
  match files d !! filePath with
  | None => inl ErrNotFound
  | Some data =>
      match readErr d with
      | Some e => inl (osError e)
      | None => inr data
      end
  end.

Definition Exists (d : Disk) (s : Store) (name : string) : bool :=
  bool_decide (is_Some (files d !! Join (path s) name)).

Definition SubDir (d : Disk) (s : Store) (name : string) : Error + Store :=
  let sub := mkStore (Join (path s) name) in
  match init d sub with
  | Some err => inl err
  | None => inr sub
  end.

Section JSON.

Context {V : Type}.
(** [json.MarshalIndent] and [json.Unmarshal] into a zero value. *)
Variable marshal : V -> GoError + string.
Variable unmarshal : string -> GoError + V.

Definition WriteJSON (d : Disk) (s : Store) (name : string) (v : V)
  : Disk * option Error :=
  match marshal v with
  | inl e => (d, Some (jsonError e))
  | inr data => Write d s name data
  end.

Definition ReadJSON (d : Disk) (s : Store) (name : string) : Error + V :=
  match Read d s name with
  | inl err => inl err
  | inr data =>
      match unmarshal data with
      | inl e => inl (jsonError e)
      | inr v => inr v
      end
  end.

End JSON.

Section Todos.

(** [todoRepoID]: sixteen hexadecimal digits of the SHA-256 of the path. *)
Variable todoRepoID : string -> string.
Variable marshal : TodoList -> GoError + string.
Variable unmarshal : string -> GoError + TodoList.

Definition todoFile (repoPath : string) : string :=
  todoRepoID repoPath +:+ ".json".

Definition GetTodos (d : Disk) (s : Store) (repoPath : string)
  : Error + TodoList :=
  match SubDir d s "todos" with
  | inl err => inl err
  | inr todos =>
      let id := todoRepoID repoPath in
      match ReadJSON unmarshal d todos (id +:+ ".json") with
      | inl err =>
          if decide (err = ErrNotFound) then inr (mkTodoList repoPath [])
          else inl err
      | inr list => inr list
      end
  end.

Definition SaveTodos (d : Disk) (s : Store) (list : TodoList)
  : Disk * option Error :=
  match SubDir d s "todos" with
  | inl err => (d, Some err)
  | inr todos =>
      let id := todoRepoID (RepoPath list) in
      WriteJSON marshal d todos (id +:+ ".json") list
  end.

Definition AddTodo (d : Disk) (s : Store) (repoPath : string) (t : Todo)
  : Disk * option Error :=
  match GetTodos d s repoPath with
  | inl err => (d, Some err)
  | inr list => SaveTodos d s (withTodos (Todos list ++ [t]) list)
  end.

(** The first index whose item has the identifier: the [range] loops
    return at the first match. *)
Definition findID (todos : list Todo) (id : string) : option nat :=
  fst <$> list_find (fun existing => ID existing = id) todos.

Definition UpdateTodo (d : Disk) (s : Store) (repoPath : string) (t : Todo)
  : Disk * option Error :=
  match GetTodos d s repoPath with
  | inl err => (d, Some err)
  | inr list =>
      match findID (Todos list) (ID t) with
      | Some i => SaveTodos d s (withTodos (<[i := t]> (Todos list)) list)
      | None => (d, Some ErrNotFound)
      end
  end.

Definition DeleteTodo (d : Disk) (s : Store) (repoPath : string)
    (todoID : string) : Disk * option Error :=
  match GetTodos d s repoPath with
  | inl err => (d, Some err)
  | inr list =>
      match findID (Todos list) todoID with
      | Some i =>
          SaveTodos d s
            (withTodos (take i (Todos list) ++ drop (S i) (Todos list)) list)
      | None => (d, Some ErrNotFound)
      end
  end.

End Todos.

Section Keybindings.

Variable marshal : keys.Keybindings -> GoError + string.
Variable unmarshal : string -> GoError + keys.Keybindings.

Definition keybindingsFile : string := "keybindings.json".

Definition SaveKeybindings (d : Disk) (s : Store) (kb : keys.Keybindings)
  : Disk * option Error :=
  WriteJSON marshal d s keybindingsFile kb.

Definition LoadKeybindings (d : Disk) (s : Store)
  : Disk * (Error + keys.Keybindings) :=
  match ReadJSON unmarshal d s keybindingsFile with
  | inl err =>
      if decide (err = ErrNotFound) then
        let kb := keys.DefaultKeybindings in
        match SaveKeybindings d s kb with
        | (d, Some err) => (d, inl err)
        | (d, None) => (d, inr kb)
        end
      else (d, inl err)
  | inr kb => (d, inr (keys.mergeWithDefaults kb))
  end.

(** [config.Load]. *)
Definition Load (d : Disk) (s : Store) : Disk * (Error + keys.Config) :=
  match LoadKeybindings d s with
  | (d, inl err) => (d, inl err)
  | (d, inr kb) => (d, inr (keys.mkConfig kb))
  end.

End Keybindings.

End store.

(** ** The list, form and confirmation views of the TODO component
    ([internal/ui/todo]) *)

Module todoui.

Import goint.

(** [FormField], an integer type. *)
Definition FieldBranch : Z := 0.
Definition FieldName : Z := 1.
Definition FieldDescription : Z := 2.
Definition FieldPrompts : Z := 3.

(** The fields of [todo.Model] that these views read or write; the
    terminal modal and its callback are in [todo], the store handle is an
    argument of [runCmd].  A pointer to an item is modelled by the item it
    points to: the items pointed to are copies the views made themselves,
    or elements of a list that is only replaced as a whole. *)
Record Model := mkModel {
  Config : keys.Config;
  RepoPath : string;
  Branch : string;
  CurrentView : todo.View;
  Todos : list todoitem.Todo;
  Cursor : Z;
  FormBranch : string;
  FormName : string;
  FormDescription : string;
  FormPrompts : list string;
  FormField : Z;
  FormPromptIdx : Z;
  FormEditing : bool;
  FormEditingTodo : option todoitem.Todo;
  DeleteTarget : option todoitem.Todo;
  EditorContent : string;
  EditorCursorPos : Z;
  PreviousView : todo.View;
  ListScroll : Z;
  Height : Z;
  ErrMsg : string;
  Loading : bool;
  Improving : bool
}.

Definition withCurrentView v m :=
  mkModel (Config m) (RepoPath m) (Branch m) v (Todos m) (Cursor m)
    (FormBranch m) (FormName m) (FormDescription m) (FormPrompts m)
    (FormField m) (FormPromptIdx m) (FormEditing m) (FormEditingTodo m)
    (DeleteTarget m) (EditorContent m) (EditorCursorPos m) (PreviousView
    m) (ListScroll m) (Height m) (ErrMsg m) (Loading m) (Improving m).
Definition withTodos v m :=
  mkModel (Config m) (RepoPath m) (Branch m) (CurrentView m) v (Cursor m)
    (FormBranch m) (FormName m) (FormDescription m) (FormPrompts m)
    (FormField m) (FormPromptIdx m) (FormEditing m) (FormEditingTodo m)
    (DeleteTarget m) (EditorContent m) (EditorCursorPos m) (PreviousView
    m) (ListScroll m) (Height m) (ErrMsg m) (Loading m) (Improving m).
Definition withCursor v m :=
  mkModel (Config m) (RepoPath m) (Branch m) (CurrentView m) (Todos m) v
    (FormBranch m) (FormName m) (FormDescription m) (FormPrompts m)
    (FormField m) (FormPromptIdx m) (FormEditing m) (FormEditingTodo m)
    (DeleteTarget m) (EditorContent m) (EditorCursorPos m) (PreviousView
    m) (ListScroll m) (Height m) (ErrMsg m) (Loading m) (Improving m).
Definition withFormBranch v m :=
  mkModel (Config m) (RepoPath m) (Branch m) (CurrentView m) (Todos m)
    (Cursor m) v (FormName m) (FormDescription m) (FormPrompts m)
    (FormField m) (FormPromptIdx m) (FormEditing m) (FormEditingTodo m)
    (DeleteTarget m) (EditorContent m) (EditorCursorPos m) (PreviousView
    m) (ListScroll m) (Height m) (ErrMsg m) (Loading m) (Improving m).
Definition withFormName v m :=
  mkModel (Config m) (RepoPath m) (Branch m) (CurrentView m) (Todos m)
    (Cursor m) (FormBranch m) v (FormDescription m) (FormPrompts m)
    (FormField m) (FormPromptIdx m) (FormEditing m) (FormEditingTodo m)
    (DeleteTarget m) (EditorContent m) (EditorCursorPos m) (PreviousView
    m) (ListScroll m) (Height m) (ErrMsg m) (Loading m) (Improving m).
Definition withFormDescription v m :=
  mkModel (Config m) (RepoPath m) (Branch m) (CurrentView m) (Todos m)
    (Cursor m) (FormBranch m) (FormName m) v (FormPrompts m) (FormField m)
    (FormPromptIdx m) (FormEditing m) (FormEditingTodo m) (DeleteTarget m)
    (EditorContent m) (EditorCursorPos m) (PreviousView m) (ListScroll m)
    (Height m) (ErrMsg m) (Loading m) (Improving m).
Definition withFormPrompts v m :=
  mkModel (Config m) (RepoPath m) (Branch m) (CurrentView m) (Todos m)
    (Cursor m) (FormBranch m) (FormName m) (FormDescription m) v
    (FormField m) (FormPromptIdx m) (FormEditing m) (FormEditingTodo m)
    (DeleteTarget m) (EditorContent m) (EditorCursorPos m) (PreviousView
    m) (ListScroll m) (Height m) (ErrMsg m) (Loading m) (Improving m).
Definition withFormField v m :=
  mkModel (Config m) (RepoPath m) (Branch m) (CurrentView m) (Todos m)
    (Cursor m) (FormBranch m) (FormName m) (FormDescription m)
    (FormPrompts m) v (FormPromptIdx m) (FormEditing m) (FormEditingTodo
    m) (DeleteTarget m) (EditorContent m) (EditorCursorPos m)
    (PreviousView m) (ListScroll m) (Height m) (ErrMsg m) (Loading m)
    (Improving m).
Definition withFormPromptIdx v m :=
  mkModel (Config m) (RepoPath m) (Branch m) (CurrentView m) (Todos m)
    (Cursor m) (FormBranch m) (FormName m) (FormDescription m)
    (FormPrompts m) (FormField m) v (FormEditing m) (FormEditingTodo m)
    (DeleteTarget m) (EditorContent m) (EditorCursorPos m) (PreviousView
    m) (ListScroll m) (Height m) (ErrMsg m) (Loading m) (Improving m).
Definition withFormEditing v m :=
  mkModel (Config m) (RepoPath m) (Branch m) (CurrentView m) (Todos m)
    (Cursor m) (FormBranch m) (FormName m) (FormDescription m)
    (FormPrompts m) (FormField m) (FormPromptIdx m) v (FormEditingTodo m)
    (DeleteTarget m) (EditorContent m) (EditorCursorPos m) (PreviousView
    m) (ListScroll m) (Height m) (ErrMsg m) (Loading m) (Improving m).
Definition withFormEditingTodo v m :=
  mkModel (Config m) (RepoPath m) (Branch m) (CurrentView m) (Todos m)
    (Cursor m) (FormBranch m) (FormName m) (FormDescription m)
    (FormPrompts m) (FormField m) (FormPromptIdx m) (FormEditing m) v
    (DeleteTarget m) (EditorContent m) (EditorCursorPos m) (PreviousView
    m) (ListScroll m) (Height m) (ErrMsg m) (Loading m) (Improving m).
Definition withDeleteTarget v m :=
  mkModel (Config m) (RepoPath m) (Branch m) (CurrentView m) (Todos m)
    (Cursor m) (FormBranch m) (FormName m) (FormDescription m)
    (FormPrompts m) (FormField m) (FormPromptIdx m) (FormEditing m)
    (FormEditingTodo m) v (EditorContent m) (EditorCursorPos m)
    (PreviousView m) (ListScroll m) (Height m) (ErrMsg m) (Loading m)
    (Improving m).
Definition withEditorContent v m :=
  mkModel (Config m) (RepoPath m) (Branch m) (CurrentView m) (Todos m)
    (Cursor m) (FormBranch m) (FormName m) (FormDescription m)
    (FormPrompts m) (FormField m) (FormPromptIdx m) (FormEditing m)
    (FormEditingTodo m) (DeleteTarget m) v (EditorCursorPos m)
    (PreviousView m) (ListScroll m) (Height m) (ErrMsg m) (Loading m)
    (Improving m).
Definition withEditorCursorPos v m :=
  mkModel (Config m) (RepoPath m) (Branch m) (CurrentView m) (Todos m)
    (Cursor m) (FormBranch m) (FormName m) (FormDescription m)
    (FormPrompts m) (FormField m) (FormPromptIdx m) (FormEditing m)
    (FormEditingTodo m) (DeleteTarget m) (EditorContent m) v (PreviousView
    m) (ListScroll m) (Height m) (ErrMsg m) (Loading m) (Improving m).
Definition withPreviousView v m :=
  mkModel (Config m) (RepoPath m) (Branch m) (CurrentView m) (Todos m)
    (Cursor m) (FormBranch m) (FormName m) (FormDescription m)
    (FormPrompts m) (FormField m) (FormPromptIdx m) (FormEditing m)
    (FormEditingTodo m) (DeleteTarget m) (EditorContent m)
    (EditorCursorPos m) v (ListScroll m) (Height m) (ErrMsg m) (Loading m)
    (Improving m).
Definition withListScroll v m :=
  mkModel (Config m) (RepoPath m) (Branch m) (CurrentView m) (Todos m)
    (Cursor m) (FormBranch m) (FormName m) (FormDescription m)
    (FormPrompts m) (FormField m) (FormPromptIdx m) (FormEditing m)
    (FormEditingTodo m) (DeleteTarget m) (EditorContent m)
    (EditorCursorPos m) (PreviousView m) v (Height m) (ErrMsg m) (Loading
    m) (Improving m).
Definition withErrMsg v m :=
  mkModel (Config m) (RepoPath m) (Branch m) (CurrentView m) (Todos m)
    (Cursor m) (FormBranch m) (FormName m) (FormDescription m)
    (FormPrompts m) (FormField m) (FormPromptIdx m) (FormEditing m)
    (FormEditingTodo m) (DeleteTarget m) (EditorContent m)
    (EditorCursorPos m) (PreviousView m) (ListScroll m) (Height m) v
    (Loading m) (Improving m).
Definition withLoading v m :=
  mkModel (Config m) (RepoPath m) (Branch m) (CurrentView m) (Todos m)
    (Cursor m) (FormBranch m) (FormName m) (FormDescription m)
    (FormPrompts m) (FormField m) (FormPromptIdx m) (FormEditing m)
    (FormEditingTodo m) (DeleteTarget m) (EditorContent m)
    (EditorCursorPos m) (PreviousView m) (ListScroll m) (Height m) (ErrMsg
    m) v (Improving m).

(** The commands returned: nil, the one that delivers [BackToMenuMsg],
    [m.LoadTodos], and the three closures over the store. *)
Inductive Cmd :=
| nilCmd
| backToMenuCmd
| loadTodosCmd (repoPath : string)
| updateTodoCmd (repoPath : string) (t : todoitem.Todo)
| addTodoCmd (repoPath : string) (t : todoitem.Todo)
| deleteTodoCmd (repoPath : string) (todoID : string).

(** What a key handler does: it returns, it panics, or it returns what
    [openImprovePromptTerminal] (in [todo]) returns for this receiver. *)
Inductive Result :=
| Ret (m : Model) (c : Cmd)
| Panic
| OpenImprovePromptTerminal (m : Model).

(** [s[i]]: panics ([None]) unless [0 <= i < len(s)]. *)
Definition index {A} (s : list A) (i : Z) : option A :=
  if (0 <=? i) && (i <? len s) then s !! Z.to_nat i else None.

(** The integer division is by the constant 5. *)
Definition visibleItems (m : Model) : Z :=
  let v := div (sub (Height m) 10) 5 in
  if v <? 1 then 1 else v.

(** [make] and [copy] of the prompts, and the one empty prompt of a form
    that has none. *)
Definition formPromptsOf (prompts : list string) : list string :=
  if len prompts =? 0 then [EmptyString] else prompts.

Definition UpdateListView (m : Model) (msg : terminal.KeyMsg) : Result :=
  let visibleItems := visibleItems m in
  let key := terminal.KString msg in
  let kb := keys.Keys (Config m) in
  if config.MatchesAny key
       [config.Quit (keys.Global kb); config.QuitAlt (keys.Global kb)]
  then Ret m backToMenuCmd
  else if config.MatchesAny key
       [config.MoveUp (keys.Global kb); config.MoveUpAlt (keys.Global kb)]
  then
    let m :=
      if Cursor m >? 0 then
        let m := withCursor (sub (Cursor m) 1) m in
        if Cursor m <? ListScroll m then withListScroll (Cursor m) m else m
      else m in
    Ret m nilCmd
  else if config.MatchesAny key
       [config.MoveDown (keys.Global kb);
        config.MoveDownAlt (keys.Global kb)]
  then
    let m :=
      if Cursor m <? sub (len (Todos m)) 1 then
        let m := withCursor (add (Cursor m) 1) m in
        if Cursor m >=? add (ListScroll m) visibleItems
        then withListScroll (add (sub (Cursor m) visibleItems) 1) m else m
      else m in
    Ret m nilCmd
  else if config.Matches key (config.Top (keys.List kb)) then
    let m := withCursor 0 m in
    let m := withListScroll 0 m in
    Ret m nilCmd
  else if config.Matches key (config.Bottom (keys.List kb)) then
    let m :=
      if len (Todos m) >? 0 then
        let m := withCursor (sub (len (Todos m)) 1) m in
        if Cursor m >=? visibleItems
        then withListScroll (add (sub (Cursor m) visibleItems) 1) m else m
      else m in
    Ret m nilCmd
  else if config.Matches key (config.PageUp (keys.List kb)) then
    let m := withCursor (sub (Cursor m) visibleItems) m in
    let m := if Cursor m <? 0 then withCursor 0 m else m in
    let m := withListScroll (sub (ListScroll m) visibleItems) m in
    let m := if ListScroll m <? 0 then withListScroll 0 m else m in
    Ret m nilCmd
  else if config.Matches key (config.PageDown (keys.List kb)) then
    let m := withCursor (add (Cursor m) visibleItems) m in
    let m := if Cursor m >=? len (Todos m)
             then withCursor (sub (len (Todos m)) 1) m else m in
    let m := if Cursor m >=? add (ListScroll m) visibleItems
             then withListScroll (add (sub (Cursor m) visibleItems) 1) m
             else m in
    Ret m nilCmd
  else if config.Matches key (config.Select (keys.List kb)) then
    if len (Todos m) >? 0 then
      match index (Todos m) (Cursor m) with
      | None => Panic
      | Some t =>
          let m := withFormEditingTodo (Some t) m in
          let m := withFormBranch (todoitem.Branch t) m in
          let m := withFormName (todoitem.Name t) m in
          let m := withFormDescription (todoitem.Description t) m in
          let m := withFormPrompts (formPromptsOf (todoitem.Prompts t)) m in
          let m := withFormField FieldBranch m in
          let m := withFormPromptIdx 0 m in
          let m := withCurrentView todo.EditView m in
          Ret m nilCmd
      end
    else Ret m nilCmd
  else if config.Matches key (config.New (keys.List kb)) then
    let m := withCurrentView todo.CreateView m in
    let m := withFormBranch (Branch m) m in
    let m := withFormName EmptyString m in
    let m := withFormDescription EmptyString m in
    let m := withFormPrompts [EmptyString] m in
    let m := withFormField FieldBranch m in
    let m := withFormPromptIdx 0 m in
    let m := withFormEditingTodo None m in
    Ret m nilCmd
  else if config.Matches key (config.Delete (keys.List kb)) then
    if len (Todos m) >? 0 then
      match index (Todos m) (Cursor m) with
      | None => Panic
      | Some t =>
          let m := withDeleteTarget (Some t) m in
          let m := withCurrentView todo.DeleteConfirmView m in
          Ret m nilCmd
      end
    else Ret m nilCmd
  else Ret m nilCmd.

(** The cards that [viewTodoCards] draws, in order: the item, and whether it
    is drawn as the selected one ([i == m.Cursor]).  The loop body reads
    [m.Todos[i]], whose panic is [None]. *)
Fixpoint cardsFrom (todos : list todoitem.Todo) (cursor i : Z) (n : nat)
  : option (list (todoitem.Todo * bool)) :=
  match n with
  | O => Some []
  | S n' =>
      match index todos i with
      | None => None
      | Some t =>
          match cardsFrom todos cursor (add i 1) n' with
          | None => None
          | Some rest => Some ((t, i =? cursor) :: rest)
          end
      end
  end.

(** [for i := m.ListScroll; i < endIdx; i++] runs [endIdx - m.ListScroll]
    times, or not at all. *)
Definition viewTodoCards (m : Model)
  : option (list (todoitem.Todo * bool)) :=
  let v := visibleItems m in
  let v := if v >? len (Todos m) then len (Todos m) else v in
  let endIdx := add (ListScroll m) v in
  let endIdx := if endIdx >? len (Todos m) then len (Todos m) else endIdx in
  cardsFrom (Todos m) (Cursor m) (ListScroll m)
    (Z.to_nat (endIdx - ListScroll m)).

(** [UpdateDeleteConfirmView]. *)
Definition UpdateDeleteConfirmView (m : Model) (msg : terminal.KeyMsg)
  : Model * Cmd :=
  let key := terminal.KString msg in
  if String.eqb key "y" || String.eqb key "Y" then
    match DeleteTarget m with
    | Some target => (m, deleteTodoCmd (RepoPath m) (todoitem.ID target))
    | None => (m, nilCmd)
    end
  else if String.eqb key "n" || String.eqb key "N" || String.eqb key "esc"
  then
    let m := withCurrentView todo.ListView m in
    let m := withDeleteTarget None m in
    (m, nilCmd)
  else (m, nilCmd).

(** [handleTextInput]. *)
Definition handleTextInput (current : string) (msg : terminal.KeyMsg)
  : string :=
  let key := terminal.KString msg in
  if String.eqb key "backspace" then
    if gostring.len current >? 0
    then substring 0 (String.length current - 1) current
    else current
  else if String.eqb key "space" then current +:+ " "
  else if gostring.len key =? 1 then current +:+ key
  else current.

Definition handleFormEditMode (m : Model) (msg : terminal.KeyMsg)
  : Model * Cmd :=
  let key := terminal.KString msg in
  let kb := keys.Keys (Config m) in
  if config.Matches key (keys.FormKeys.Cancel (keys.Form kb)) then
    (withFormEditing false m, nilCmd)
  else if config.Matches key (keys.EditorKeys.NewLine (keys.Editor kb)) then
    (withFormEditing false m, nilCmd)
  else
    let m :=
      if FormField m =? FieldBranch
      then withFormBranch (handleTextInput (FormBranch m) msg) m
      else if FormField m =? FieldName
      then withFormName (handleTextInput (FormName m) msg) m
      else if FormField m =? FieldDescription
      then withFormDescription (handleTextInput (FormDescription m) msg) m
      else m in
    (m, nilCmd).

(** The messages of the store commands, and the cases of [Update] that
    handle them. *)
Inductive Msg :=
| TodosLoadedMsg (todos : list todoitem.Todo)
| TodoErrorMsg (err : store.Error)
| TodoSavedMsg
| TodoDeletedMsg
| BackToMenuMsg.

(** [err.Error()]. *)
Definition errorText (err : store.Error) : string :=
  match err with
  | store.ErrNotFound => "not found"
  | store.osError e => ErrorString e
  | store.jsonError e => ErrorString e
  end.

Definition Update (m : Model) (msg : Msg) : Model * Cmd :=
  match msg with
  | TodosLoadedMsg todos =>
      let m := withTodos todos m in
      let m := withLoading false m in
      (m, nilCmd)
  | TodoErrorMsg err =>
      let m := withErrMsg (errorText err) m in
      let m := withLoading false m in
      (m, nilCmd)
  | TodoSavedMsg =>
      let m := withCurrentView todo.ListView m in
      let m := withErrMsg EmptyString m in
      (m, loadTodosCmd (RepoPath m))
  | TodoDeletedMsg =>
      let m := withCurrentView todo.ListView m in
      let m := withDeleteTarget None m in
      (m, loadTodosCmd (RepoPath m))
  | BackToMenuMsg => (m, nilCmd)
  end.

Section WithCollaborators.

(** [strings.TrimSpace]. *)
Variable TrimSpace : string -> string.

(** The prompts [saveForm] keeps: those that are not blank. *)
Definition keptPrompts (prompts : list string) : list string :=
  filter (fun p => TrimSpace p <> EmptyString) prompts.

(** [saveForm]; the clock and the random identifier of [NewTodo] are
    inputs. *)
Definition saveForm (now : Z) (newID : string) (m : Model) : Model * Cmd :=
  if String.eqb (FormName m) EmptyString then
    (withErrMsg "Name is required" m, nilCmd)
  else if String.eqb (FormBranch m) EmptyString then
    (withErrMsg "Branch is required" m, nilCmd)
  else
    let prompts := keptPrompts (FormPrompts m) in
    match bool_decide (CurrentView m = todo.EditView), FormEditingTodo m with
    | true, Some t =>
        let t :=
          todoitem.Update now
            (todoitem.mkTodo (todoitem.ID t) (FormBranch m) (FormName m)
               (FormDescription m) prompts (todoitem.CreatedAt t)
               (todoitem.UpdatedAt t)) in
        let m := withFormEditingTodo (Some t) m in
        (m, updateTodoCmd (RepoPath m) t)
    | _, _ =>
        let t :=
          todoitem.NewTodo now newID (FormBranch m) (FormName m)
            (FormDescription m) prompts in
        (m, addTodoCmd (RepoPath m) t)
    end.

Definition UpdateFormView (now : Z) (newID : string) (m : Model)
    (msg : terminal.KeyMsg) : Result :=
  let key := terminal.KString msg in
  let kb := keys.Keys (Config m) in
  if FormEditing m then
    let '(m, c) := handleFormEditMode m msg in Ret m c
  else if config.Matches key (keys.FormKeys.Cancel (keys.Form kb)) then
    Ret (withCurrentView todo.ListView m) nilCmd
  else if config.Matches key (keys.FormKeys.Submit (keys.Form kb)) then
    let '(m, c) := saveForm now newID m in Ret m c
  else if config.MatchesAny key
            [config.MoveUp (keys.Global kb); config.MoveUpAlt (keys.Global kb)]
          || bool_decide (terminal.KType msg = terminal.KeyUp) then
    let m :=
      if (FormField m =? FieldPrompts) && (FormPromptIdx m >? 0)
      then withFormPromptIdx (sub (FormPromptIdx m) 1) m
      else if FormField m >? FieldBranch then
        let m := withFormField (sub (FormField m) 1) m in
        if FormField m =? FieldPrompts
        then withFormPromptIdx (sub (len (FormPrompts m)) 1) m
        else m
      else m in
    Ret m nilCmd
  else if config.MatchesAny key
            [config.MoveDown (keys.Global kb);
             config.MoveDownAlt (keys.Global kb)]
          || bool_decide (terminal.KType msg = terminal.KeyDown) then
    let m :=
      if (FormField m =? FieldPrompts)
         && (FormPromptIdx m <? sub (len (FormPrompts m)) 1)
      then withFormPromptIdx (add (FormPromptIdx m) 1) m
      else if FormField m <? FieldPrompts then
        let m := withFormField (add (FormField m) 1) m in
        if FormField m =? FieldPrompts then withFormPromptIdx 0 m else m
      else m in
    Ret m nilCmd
  else if config.Matches key (keys.FormKeys.NextField (keys.Form kb)) then
    let m :=
      if FormField m =? FieldPrompts then withFormField FieldBranch m
      else withFormField (add (FormField m) 1) m in
    let m :=
      if FormField m =? FieldPrompts then withFormPromptIdx 0 m else m in
    Ret m nilCmd
  else if config.Matches key (keys.FormKeys.PrevField (keys.Form kb)) then
    let m :=
      if FormField m =? FieldBranch then
        let m := withFormField FieldPrompts m in
        withFormPromptIdx (sub (len (FormPrompts m)) 1) m
      else withFormField (sub (FormField m) 1) m in
    Ret m nilCmd
  else if config.MatchesAny key
            [keys.FormKeys.EditPrompt (keys.Form kb);
             keys.EditorKeys.NewLine (keys.Editor kb)] then
    if FormField m =? FieldPrompts then
      match index (FormPrompts m) (FormPromptIdx m) with
      | None => Panic
      | Some prompt =>
          let m := withEditorContent prompt m in
          let m := withEditorCursorPos (gostring.len (EditorContent m)) m in
          let m := withPreviousView (CurrentView m) m in
          let m := withCurrentView todo.PromptEditorView m in
          Ret m nilCmd
      end
    else Ret (withFormEditing true m) nilCmd
  else if FormField m =? FieldPrompts then
    if config.Matches key (keys.FormKeys.AddPrompt (keys.Form kb)) then
      let m := withFormPrompts (FormPrompts m ++ [EmptyString]) m in
      let m := withFormPromptIdx (sub (len (FormPrompts m)) 1) m in
      Ret m nilCmd
    else if config.Matches key (keys.FormKeys.DeletePrompt (keys.Form kb))
    then
      if len (FormPrompts m) >? 1 then
        match index (FormPrompts m) (FormPromptIdx m) with
        | None => Panic
        | Some _ =>
            let i := Z.to_nat (FormPromptIdx m) in
            let m := withFormPrompts
                       (take i (FormPrompts m) ++ drop (S i) (FormPrompts m))
                       m in
            let m := if FormPromptIdx m >=? len (FormPrompts m)
                     then withFormPromptIdx (sub (len (FormPrompts m)) 1) m
                     else m in
            Ret m nilCmd
        end
      else Ret m nilCmd
    else if config.Matches key (keys.FormKeys.ImprovePrompt (keys.Form kb))
    then
      if negb (Improving m) then
        match index (FormPrompts m) (FormPromptIdx m) with
        | None => Panic
        | Some prompt =>
            if negb (String.eqb (TrimSpace prompt) EmptyString)
            then OpenImprovePromptTerminal m
            else Ret m nilCmd
        end
      else Ret m nilCmd
    else Ret m nilCmd
  else Ret m nilCmd.

(** The commands, run against the store. *)
Variable todoRepoID : string -> string.
Variable marshal : todoitem.TodoList -> GoError + string.
Variable unmarshal : string -> GoError + todoitem.TodoList.

Definition runCmd (d : store.Disk) (s : store.Store) (c : Cmd)
  : store.Disk * option Msg :=
  match c with
  | nilCmd => (d, None)
  | backToMenuCmd => (d, Some BackToMenuMsg)
  | loadTodosCmd repoPath =>
      match store.GetTodos todoRepoID unmarshal d s repoPath with
      | inl err => (d, Some (TodoErrorMsg err))
      | inr list => (d, Some (TodosLoadedMsg (todoitem.Todos list)))
      end
  | updateTodoCmd repoPath t =>
      match store.UpdateTodo todoRepoID marshal unmarshal d s repoPath t with
      | (d, Some err) => (d, Some (TodoErrorMsg err))
      | (d, None) => (d, Some TodoSavedMsg)
      end
  | addTodoCmd repoPath t =>
      match store.AddTodo todoRepoID marshal unmarshal d s repoPath t with
      | (d, Some err) => (d, Some (TodoErrorMsg err))
      | (d, None) => (d, Some TodoSavedMsg)
      end
  | deleteTodoCmd repoPath todoID =>
      match store.DeleteTodo todoRepoID marshal unmarshal d s repoPath todoID
      with
      | (d, Some err) => (d, Some (TodoErrorMsg err))
      | (d, None) => (d, Some TodoDeletedMsg)
      end
  end.

End WithCollaborators.

(** The prompt editor.  [msg.Type] is one of the six keys the editor
    tests for, or another. *)
Inductive KeyType :=
| KeyUp | KeyDown | KeyLeft | KeyRight | KeyHome | KeyEnd | KeyOther.

Record KeyMsg := mkKeyMsg { Type_ : KeyType; String_ : string }.

(** The first loop of [moveCursorVertical]: the line of the cursor and
    its column there; both 0 when the loop ends without a [break]. *)
Fixpoint locate (lines : list string) (cursor pos i : Z) : Z * Z :=
  match lines with
  | [] => (0, 0)
  | line :: rest =>
      if add pos (gostring.len line) >=? cursor then (i, sub cursor pos)
      else locate rest cursor (add pos (add (gostring.len line) 1)) (add i 1)
  end.

Definition moveCursorVertical (m : Model) (direction : Z) : option Z :=
  let lines := gostring.SplitLines (EditorContent m) in
  let '(currentLine, currentCol) := locate lines (EditorCursorPos m) 0 0 in
  let targetLine := add currentLine direction in
  let targetLine := if targetLine <? 0 then 0 else targetLine in
  let targetLine :=
    if targetLine >=? len lines then sub (len lines) 1 else targetLine in
  let newPos :=
    foldl (fun newPos line => add newPos (add (gostring.len line) 1)) 0
      (take (Z.to_nat targetLine) lines) in
  match index lines targetLine with
  | None => None
  | Some target =>
      let targetCol := currentCol in
      let targetCol :=
        if targetCol >? gostring.len target then gostring.len target
        else targetCol in
      Some (add newPos targetCol)
  end.

(** [text[:cursor] + s + text[cursor:]] and the cursor moved past [s]. *)
Definition typed (m : Model) (s : string) (width : Z) : Result :=
  match gostring.insertAt (EditorContent m) (EditorCursorPos m) s with
  | None => Panic
  | Some content =>
      let m := withEditorContent content m in
      let m := withEditorCursorPos (add (EditorCursorPos m) width) m in
      Ret m nilCmd
  end.

Definition toLineStart (m : Model) : Result :=
  match gostring.lineStart (EditorContent m) (EditorCursorPos m) with
  | None => Panic
  | Some cursor => Ret (withEditorCursorPos cursor m) nilCmd
  end.

Definition toLineEnd (m : Model) : Result :=
  match gostring.lineEnd (EditorContent m) (EditorCursorPos m) with
  | None => Panic
  | Some cursor => Ret (withEditorCursorPos cursor m) nilCmd
  end.

Definition UpdatePromptEditor (m : Model) (msg : KeyMsg) : Result :=
  let key := String_ msg in
  let kb := keys.Keys (Config m) in
  match Type_ msg with
  | KeyUp =>
      match moveCursorVertical m (-1) with
      | None => Panic
      | Some cursor => Ret (withEditorCursorPos cursor m) nilCmd
      end
  | KeyDown =>
      match moveCursorVertical m 1 with
      | None => Panic
      | Some cursor => Ret (withEditorCursorPos cursor m) nilCmd
      end
  | KeyLeft =>
      Ret (if EditorCursorPos m >? 0
           then withEditorCursorPos (sub (EditorCursorPos m) 1) m else m)
        nilCmd
  | KeyRight =>
      Ret (if EditorCursorPos m <? gostring.len (EditorContent m)
           then withEditorCursorPos (add (EditorCursorPos m) 1) m else m)
        nilCmd
  | KeyHome => toLineStart m
  | KeyEnd => toLineEnd m
  | KeyOther =>
      if config.Matches key (keys.EditorKeys.Cancel (keys.Editor kb)) then
        Ret (withCurrentView (PreviousView m) m) nilCmd
      else if config.Matches key (keys.EditorKeys.Save (keys.Editor kb)) then
        match index (FormPrompts m) (FormPromptIdx m) with
        | None => Panic
        | Some _ =>
            let m := withFormPrompts
                       (<[Z.to_nat (FormPromptIdx m) := EditorContent m]>
                          (FormPrompts m)) m in
            let m := withCurrentView (PreviousView m) m in
            Ret m nilCmd
        end
      else if config.Matches key (keys.EditorKeys.NewLine (keys.Editor kb))
      then typed m terminal.newline 1
      else if String.eqb key "backspace" then
        if EditorCursorPos m >? 0 then
          match gostring.sliceTo (EditorContent m)
                  (sub (EditorCursorPos m) 1),
                gostring.sliceFrom (EditorContent m) (EditorCursorPos m) with
          | Some before, Some after =>
              let m := withEditorContent (before +:+ after) m in
              let m := withEditorCursorPos (sub (EditorCursorPos m) 1) m in
              Ret m nilCmd
          | _, _ => Panic
          end
        else Ret m nilCmd
      else if String.eqb key "delete" then
        if EditorCursorPos m <? gostring.len (EditorContent m) then
          match gostring.sliceTo (EditorContent m) (EditorCursorPos m),
                gostring.sliceFrom (EditorContent m)
                  (add (EditorCursorPos m) 1) with
          | Some before, Some after =>
              Ret (withEditorContent (before +:+ after) m) nilCmd
          | _, _ => Panic
          end
        else Ret m nilCmd
      else if config.Matches key (keys.EditorKeys.LineStart (keys.Editor kb))
      then toLineStart m
      else if config.Matches key (keys.EditorKeys.LineEnd (keys.Editor kb))
      then toLineEnd m
      else if String.eqb key "space" then typed m " " 1
      else if String.eqb key "tab" then typed m "    " 4
      else if gostring.isPrintableKey key then typed m key 1
      else Ret m nilCmd
  end.

(** The cursor of the editor is inside its content. *)
Definition editorValid (m : Model) : Prop :=
  0 <= EditorCursorPos m <= gostring.len (EditorContent m).

(** What the list view does with a key: the tests of [UpdateListView], in
    its order. *)
Inductive ListOp :=
| opQuit | opUp | opDown | opTop | opBottom | opPageUp | opPageDown
| opSelect | opNew | opDelete.

Definition listOp (cfg : keys.Config) (msg : terminal.KeyMsg)
  : option ListOp :=
  let key := terminal.KString msg in
  let kb := keys.Keys cfg in
  if config.MatchesAny key
       [config.Quit (keys.Global kb); config.QuitAlt (keys.Global kb)]
  then Some opQuit
  else if config.MatchesAny key
       [config.MoveUp (keys.Global kb); config.MoveUpAlt (keys.Global kb)]
  then Some opUp
  else if config.MatchesAny key
       [config.MoveDown (keys.Global kb);
        config.MoveDownAlt (keys.Global kb)]
  then Some opDown
  else if config.Matches key (config.Top (keys.List kb)) then Some opTop
  else if config.Matches key (config.Bottom (keys.List kb))
  then Some opBottom
  else if config.Matches key (config.PageUp (keys.List kb))
  then Some opPageUp
  else if config.Matches key (config.PageDown (keys.List kb))
  then Some opPageDown
  else if config.Matches key (config.Select (keys.List kb))
  then Some opSelect
  else if config.Matches key (config.New (keys.List kb)) then Some opNew
  else if config.Matches key (config.Delete (keys.List kb))
  then Some opDelete
  else None.

(** The cursor is on an item, and that item is in the window the view
    shows. *)
Definition cursorVisible (m : Model) : Prop :=
  0 <= ListScroll m <= Cursor m /\
  Cursor m < len (Todos m) /\
  Cursor m < ListScroll m + visibleItems m.

(** Sizes far from the ends of the integer range. *)
Definition sized (m : Model) : Prop :=
  - 2 ^ 62 <= Height m <= 2 ^ 62 /\ len (Todos m) <= 2 ^ 62.

(** The form has a prompt, and the selected prompt is one of them. *)
Definition formValid (m : Model) : Prop :=
  FieldBranch <= FormField m <= FieldPrompts /\
  0 <= FormPromptIdx m < len (FormPrompts m).

End todoui.

(** ** Scenarios

    Concrete configurations, worlds and models the properties below are
    run on. *)

Definition defaultConfig : config.Config :=
  config.mkConfig config.DefaultKeybindings.

Definition key (s : string) : terminal.KeyMsg :=
  terminal.mkKeyMsg terminal.KeyOther s.

(** Errors as [os/exec] words them. *)
Definition exitStatus1 : GoError := mkError "exit status 1".

Definition signalKilled : GoError := mkError "signal: killed".

Definition notFound : GoError :=
  mkError "exec: no-such-program: executable file not found in $PATH".

(** A sink holding "a", "b" in an array at address 0, and a client that
    takes a snapshot, lets the runner append "c", overwrites the first
    element of the snapshot and takes a second one. *)
Definition demoArrays : gmap nat (list string) := {[ 0%nat := ["a"; "b"] ]}.

Definition demoSink : slices.sharedOutput :=
  slices.mkShared (slices.mkSlice 0 2 2) false None.

Definition demoActions : list slices.Action :=
  [slices.Snapshot; slices.Write (sink.OpAddLine "c");
   slices.Mutate 0 0 "X"; slices.Snapshot;
   slices.Write (sink.OpSetDone None)].

(** Fifty lines in the smallest window. *)
Definition fiftyLines : terminal.Model :=
  terminal.withLines (replicate 50 "x")
    (terminal.SetSize (terminal.New 0 defaultConfig "t").2 0 0).

(** A world in which every invocation prints the lines "1" to "5" on its
    standard output and exits with status 0. *)
Definition seqWorld : terminal.World :=
  terminal.mkWorld
    (fun _ _ _ _ => terminal.Started ["1"; "2"; "3"; "4"; "5"] [] None) [].

(** A modal with a limit of three lines, started on [seq 5]: the sinks,
    the model, the runner goroutine and the first command. *)
Definition seqStarted
  : gmap nat sink.sharedOutput * terminal.Model * terminal.Goroutine
    * terminal.Cmd :=
  terminal.RunCommand styles.plain seqWorld ∅
    (terminal.withMaxLines 3 (terminal.New 0 defaultConfig "seq").2)
    "seq" ["5"].

(** A world in which every invocation prints fifty lines. *)
Definition fiftyWorld : terminal.World :=
  terminal.mkWorld
    (fun _ _ _ _ => terminal.Started (replicate 50 "x") [] None) [].

(** A world in which every invocation prints "line1" then "line2" on its
    standard output and exits with status 0. *)
Definition twoLinesWorld : terminal.World :=
  terminal.mkWorld
    (fun _ _ _ _ => terminal.Started ["line1"; "line2"] [] None) [true; false].

(** A world in which every invocation writes three lines to standard output
    and two to standard error, and exits with status 1. *)
Definition mixedWorld : terminal.World :=
  terminal.mkWorld
    (fun _ _ _ _ =>
       terminal.Started ["cc a.c"; "cc b.c"; "ld"] ["warning: x"; "error: y"]
         (Some exitStatus1))
    [true; false; false; true].

(** A world in which no program can be started. *)
Definition brokenWorld : terminal.World :=
  terminal.mkWorld (fun _ _ _ _ => terminal.StartError notFound) [].

(** The TODO form with one prompt, before any modal was opened. *)
Definition formModel : todo.Model :=
  todo.mkModel defaultConfig "/repo" todo.CreateView ["make it better"] 0
    todo.ListView 100 40 false
    (terminal.mkModel 0 EmptyString EmptyString EmptyString [] 0 0 false None
       false 0 0 defaultConfig None)
    None.

Definition noOtherViews (m : todo.Model) (k : terminal.KeyMsg)
  : todo.Model * todo.Cmd := (m, todo.terminalCmd terminal.nilCmd).

(** The form opens its modal on a command that prints two lines; a tick and
    a scroll key arrive while the runner writes, then the user closes the
    modal, and presses the close key once more. *)
Definition improveSession : option (todo.Model * list string) :=
  match todo.openImprovePromptTerminal styles.plain twoLinesWorld 0 ∅ formModel
  with
  | Some (_, σ, g, opened, _) =>
      todo.run styles.plain id noOtherViews opened
        [todo.mkEvent (terminal.runGoroutine σ g 1) [] (todo.TickMsg 1);
         todo.mkEvent (terminal.runGoroutine σ g 2) [] (todo.KeyMsg (key "j"));
         todo.mkEvent (terminal.runGoroutine σ g 3) [] (todo.KeyMsg (key "esc"));
         todo.mkEvent (terminal.runGoroutine σ g 3) [] (todo.KeyMsg (key "esc"))]
  | None => None
  end.

(** The same session, from the opened form on, against the sinks as the
    runner leaves them. *)
Definition openedForm : todo.Model :=
  Eval vm_compute in
    match todo.openImprovePromptTerminal styles.plain twoLinesWorld 0 ∅ formModel
    with
    | Some (_, _, _, opened, _) => opened
    | None => formModel
    end.

Definition finishedSinks : gmap nat sink.sharedOutput :=
  {[ 0%nat := sink.mkShared ["line1"; "line2"] true None ]}.

(** The sink of a session after the first line, and the writes that land
    between the snapshot and the completion check of the next tick. *)
Definition oneLineSinks : gmap nat sink.sharedOutput :=
  {[ 0%nat := sink.mkShared ["line1"] false None ]}.

Definition lastWrites : list sink.SinkOp :=
  [sink.OpAddLine "line2"; sink.OpSetDone None].

Definition closeTwice : list todo.Event :=
  [todo.mkEvent finishedSinks [] (todo.TickMsg 1);
   todo.mkEvent finishedSinks [] (todo.KeyMsg (key "esc"));
   todo.mkEvent finishedSinks [] (todo.KeyMsg (key "esc"))].

(** The key handler of the form view in a run in which every key pressed
    there asks to improve the selected prompt: as in [UpdateFormView], the
    modal is opened unless an improvement is under way.  Each session
    starts on the counter and the sinks of the scenario. *)
Definition improveOnEveryKey (m : todo.Model) (k : terminal.KeyMsg)
  : todo.Model * todo.Cmd :=
  if todo.Improving m then (m, todo.otherCmd)
  else
    match todo.openImprovePromptTerminal styles.plain twoLinesWorld 0 ∅ m with
    | Some (_, _, _, opened, c) => (opened, c)
    | None => (m, todo.otherCmd)
    end.

(** Two sessions in a row: the form opens the modal, a tick arrives, the
    user closes the modal, opens it again from the form and closes it
    again. *)
Definition twoSessions : list todo.Event :=
  [todo.mkEvent ∅ [] (todo.KeyMsg (key "ctrl+i"));
   todo.mkEvent finishedSinks [] (todo.TickMsg 1);
   todo.mkEvent finishedSinks [] (todo.KeyMsg (key "esc"));
   todo.mkEvent finishedSinks [] (todo.KeyMsg (key "ctrl+i"));
   todo.mkEvent finishedSinks [] (todo.KeyMsg (key "esc"))].

(** A list of three items, two of them visible (height 20), the cursor on
    the last one. *)
Definition demoTodo (name : string) : todoitem.Todo :=
  todoitem.mkTodo name "main" name EmptyString ["first prompt"%string] 0 0.

Definition fullConfig : keys.Config := keys.mkConfig keys.DefaultKeybindings.

Definition listModel (todos : list todoitem.Todo) (cursor scroll : Z)
  : todoui.Model :=
  todoui.mkModel fullConfig "/repo" "main" todo.ListView todos cursor
    EmptyString EmptyString EmptyString [EmptyString] todoui.FieldBranch 0
    false None None EmptyString 0 todo.ListView scroll 20 EmptyString false
    false.

Definition listDemo : todoui.Model :=
  listModel [demoTodo "a"; demoTodo "b"; demoTodo "c"] 2 1.

(** The list view before anything is loaded. *)
Definition emptyList : todoui.Model := listModel [] 0 0.

(** A commit body of two lines. *)
Definition twoLineText : string :=
  "first" +:+ terminal.newline +:+ "second line".

(** The process environment of a Linux session without an agent socket. *)
Definition linuxEnv : commit.Env := commit.mkEnv "linux" EmptyString.

(** A commit model in the editing state. *)
Definition editing (subject body : string) (field cursor : Z)
  : commit.Model :=
  commit.mkModel fullConfig "/repo" commit.StateEditing EmptyString
    EmptyString subject body field cursor 0
    (terminal.New 0 defaultConfig "Generating commit message...").2 80 24.

(** A generated subject of 77 bytes, the cursor at its end. *)
Definition longSubject : commit.Model :=
  editing
    ("feat: " +:+
     "a subject line that the generator made much longer than it should be ok")
    EmptyString 0 77.

(** A store on a healthy disk, with a codec for the lists of the
    scenarios: a list is written as its path and the identifiers of its
    items, and read back by looking it up among the lists below. *)
Definition demoRepoID (repoPath : string) : string := "id-of-" +:+ repoPath.

Definition demoMarshal (l : todoitem.TodoList) : GoError + string :=
  inr (todoitem.RepoPath l +:+ ":" +:+
       String.concat "," (map todoitem.ID (todoitem.Todos l))).

Definition demoLists : list todoitem.TodoList :=
  map (todoitem.mkTodoList "/repo")
    [[]; [demoTodo "a"]; [demoTodo "a"; demoTodo "b"];
     [demoTodo "a"; demoTodo "b"; demoTodo "c"]; [demoTodo "b"];
     [demoTodo "a"; demoTodo "c"]].

Definition demoUnmarshal (data : string) : GoError + todoitem.TodoList :=
  match list_find (fun l => demoMarshal l = inr data) demoLists with
  | Some (_, l) => inr l
  | None => inl (mkError "invalid character")
  end.

Definition emptyDisk : store.Disk := store.mkDisk ∅ None None None.

Definition homeStore : store.Store := store.mkStore "/home/u/.gdev".

(** The disk after two items were added for the repository. *)
Definition twoTodosDisk : store.Disk :=
  Eval vm_compute in
    (store.AddTodo demoRepoID demoMarshal demoUnmarshal
       (store.AddTodo demoRepoID demoMarshal demoUnmarshal emptyDisk
          homeStore "/repo" (demoTodo "a")).1
       homeStore "/repo" (demoTodo "b")).1.

(** The form for a new item, on its prompts field, with one prompt. *)
Definition demoForm : todoui.Model :=
  todoui.mkModel fullConfig "/repo" "main" todo.CreateView [] 0
    "main" "c" EmptyString ["first prompt"%string; " "%string]
    todoui.FieldPrompts 0
    false None None EmptyString 0 todo.ListView 0 20 EmptyString false
    false.

(** A stand-in for [strings.TrimSpace] that is enough for the scenarios:
    it maps a single blank to the empty string. *)
Definition demoTrim (s : string) : string :=
  if String.eqb s " " then EmptyString else s.

(** The list view on the two stored items, the cursor on the last one. *)
Definition twoItems : todoui.Model :=
  listModel [demoTodo "a"; demoTodo "b"] 1 0.

(** The editor on a prompt of two lines, the cursor in the second. *)
Definition demoEditor : todoui.Model :=
  todoui.mkModel fullConfig "/repo" "main" todo.PromptEditorView [] 0
    "main" "c" EmptyString [twoLineText] todoui.FieldPrompts 0
    false None None twoLineText 9 todo.CreateView 0 20 EmptyString false
    false.

(** * Properties *)

(** ** Key matching, run *)

Example normalizeBinding_examples :
  config.normalizeBinding "shift+a" = "A" /\
  config.normalizeBinding "shift+tab" = "shift+tab" /\
  config.normalizeBinding "ctrl+u" = "ctrl+u" /\
  config.normalizeBinding "shift+A" = "shift+A" /\
  config.Matches "G" "shift+g" = true /\
  config.MatchesAny "up" ["k"; "up"] = true /\
  config.MatchesAny "x" ["k"; "up"] = false.
Proof. repeat split. Qed.

(** ** Integers *)

Module goint_facts.

Import goint.

Lemma wrap64_id z : inInt z -> wrap64 z = z.
Proof.
  unfold inInt, minInt, maxInt, wrap64. intros Hz.
  rewrite Z.mod_small; lia.
Qed.

Lemma wrap64_range z : inInt (wrap64 z).
Proof.
  unfold inInt, minInt, maxInt, wrap64.
  pose proof (Z.mod_pos_bound (z + 2 ^ 63) (2 ^ 64) ltac:(lia)). lia.
Qed.

Lemma add_id a b : inInt (a + b) -> add a b = a + b.
Proof. apply wrap64_id. Qed.

Lemma sub_id a b : inInt (a - b) -> sub a b = a - b.
Proof. apply wrap64_id. Qed.

Lemma len_nonneg {A} (l : list A) : 0 <= len l.
Proof. unfold len. lia. Qed.

Lemma len_app {A} (l k : list A) : len (l ++ k) = len l + len k.
Proof. unfold len. rewrite length_app. lia. Qed.

End goint_facts.

(** ** The sink *)

Module sink_facts.

Import sink.

Lemma lines_applyOp s o : lines s `prefix_of` lines (applyOp s o).
Proof.
  destruct o as [l|e]; simpl.
  - by apply prefix_app_r.
  - done.
Qed.

Lemma lines_applyOps s os : lines s `prefix_of` lines (applyOps s os).
Proof.
  revert s. induction os as [|o os IH]; intros s; simpl.
  - done.
  - etrans; [apply (lines_applyOp s o)|apply IH].
Qed.

Lemma applyOps_app s os1 os2 :
  applyOps s (os1 ++ os2) = applyOps (applyOps s os1) os2.
Proof. apply foldl_app. Qed.

(** Writes that only add lines leave the completion state alone. *)
Lemma applyOps_addLines s ls :
  applyOps s (map OpAddLine ls) = mkShared (lines s ++ ls) (done s) (err s).
Proof.
  revert s. induction ls as [|l ls IH]; intros s; simpl.
  - rewrite app_nil_r. by destruct s.
  - unfold applyOps in IH. rewrite IH. simpl. by rewrite <- app_assoc.
Qed.

End sink_facts.

(** *** Completion is recorded by the last call *)

(** On a fresh sink, [setDone] with "exit status 1" followed by [setDone]
    with "signal: killed" does not keep the first error: the terminal error
    read back is the second one. *)
Lemma setDone_twice_first_error_lost :
  let s1 := sink.setDone (sink.mkShared [] false None) (Some exitStatus1) in
  let s2 := sink.setDone s1 (Some signalKilled) in
  sink.isDone s1 = (true, Some exitStatus1) /\
  sink.isDone s2 = (true, Some signalKilled) /\
  sink.err s2 <> sink.err s1.
Proof. simpl. repeat split. discriminate. Qed.

(** C1, as the code has it: [setDone] sets the completion flag and
    overwrites the terminal error with its argument.  After [setDone e1] a
    second [setDone e2] leaves the flag set and the lines untouched, and the
    error read back is [e2]: the sink is exactly the one a single
    [setDone e2] gives.  A repeated call changes nothing when it passes the
    same error again. *)
Theorem setDone_last_call_wins (s : sink.sharedOutput) (e1 e2 : option GoError) :
  let s1 := sink.setDone s e1 in
  let s2 := sink.setDone s1 e2 in
  sink.done s2 = true /\
  sink.done s2 = sink.done s1 /\
  sink.lines s2 = sink.lines s /\
  sink.err s2 = e2 /\
  s2 = sink.setDone s e2 /\
  sink.setDone s1 e1 = s1.
Proof. simpl. unfold sink.setDone. simpl. repeat split; reflexivity. Qed.

(** ** Slices *)

Module slices_facts.

Import slices.

Lemma contents_length h s :
  validSlice h s -> length (contents h s) = slen s.
Proof.
  intros (a & Ha & Hl & Hle). unfold contents.
  rewrite (lookup_total_correct _ _ _ Ha), length_take. lia.
Qed.

Lemma validSlice_dom h s : validSlice h s -> ptr s ∈ dom h.
Proof. intros (a & Ha & _). apply elem_of_dom. eauto. Qed.

Lemma contents_insert_ne h s p a :
  p <> ptr s -> contents (<[p := a]> h) s = contents h s.
Proof.
  intros Hne. unfold contents.
  by rewrite lookup_total_insert_ne.
Qed.

Lemma validSlice_insert_ne h s p a :
  p <> ptr s -> validSlice h s -> validSlice (<[p := a]> h) s.
Proof.
  intros Hne (b & Hb & Hl & Hle). exists b.
  rewrite lookup_insert_ne; auto.
Qed.

Lemma fresh_ne h s : validSlice h s -> fresh (dom h) <> ptr s.
Proof.
  intros Hv Heq. apply validSlice_dom in Hv.
  rewrite <- Heq in Hv. by apply is_fresh in Hv.
Qed.

Section Append.
Variable growCap : nat -> nat.

(** [append] adds one element at the end and nothing else. *)
Lemma append_spec h s v :
  validSlice h s ->
  validSlice (append growCap h s v).1 (append growCap h s v).2 /\
  contents (append growCap h s v).1 (append growCap h s v).2
    = contents h s ++ [v] /\
  dom h ⊆ dom (append growCap h s v).1 /\
  (forall r, ptr r <> ptr s -> ptr r ∈ dom h ->
     contents (append growCap h s v).1 r = contents h r).
Proof.
  intros Hv. pose proof Hv as (a & Ha & Hl & Hle).
  unfold append. case_decide as Hlt; simpl.
  - split; [|split; [|split]].
    + exists (<[slen s := v]> a). simpl.
      rewrite (lookup_total_correct _ _ _ Ha), lookup_insert_eq.
      rewrite length_insert. repeat split; auto; lia.
    + unfold contents. simpl.
      rewrite lookup_total_insert_eq, (lookup_total_correct _ _ _ Ha).
      rewrite (take_S_r _ _ v).
      * by rewrite take_insert_ge by lia.
      * apply list_lookup_insert_eq. lia.
    + rewrite dom_insert. set_solver.
    + intros r Hr _. apply contents_insert_ne. congruence.
  - pose proof (fresh_ne h s Hv) as Hf.
    pose proof (contents_length h s Hv) as Hc.
    split; [|split; [|split]].
    + eexists. simpl. rewrite lookup_insert_eq. split; [reflexivity|].
      rewrite length_app, Hc. simpl. rewrite length_replicate. lia.
    + unfold contents at 1. simpl. rewrite lookup_total_insert_eq.
      rewrite take_app_ge by lia. rewrite Hc.
      replace (S (slen s) - slen s)%nat with 1%nat by lia. reflexivity.
    + rewrite dom_insert. set_solver.
    + intros r _ Hr. apply contents_insert_ne.
      intros Heq. rewrite <- Heq in Hr. by apply is_fresh in Hr.
Qed.

(** [getLines] returns a slice over an array of its own that holds the
    sink's lines, and leaves every array that existed alone. *)
Lemma getLines_spec h s :
  validSlice h (lines s) ->
  let h1 := (getLines h s).1 in
  let r := (getLines h s).2 in
  ptr r = fresh (dom h) /\
  validSlice h1 r /\
  contents h1 r = contents h (lines s) /\
  dom h1 = {[ptr r]} ∪ dom h /\
  (forall q, ptr q <> ptr r -> contents h1 q = contents h q) /\
  (forall q, ptr q <> ptr r -> validSlice h q -> validSlice h1 q).
Proof.
  intros Hv. pose proof (fresh_ne _ _ Hv) as Hf.
  pose proof (contents_length _ _ Hv) as Hc.
  unfold getLines, make, copy. simpl.
  set (p := fresh (dom h)) in *.
  rewrite Nat.min_id.
  rewrite (contents_insert_ne h (lines s) p) by done.
  rewrite lookup_total_insert_eq.
  rewrite insert_insert_eq.
  rewrite drop_replicate, Nat.sub_diag. simpl. rewrite app_nil_r.
  rewrite take_ge by lia.
  split; [done|]. split; [|split; [|split; [|split]]].
  - exists (contents h (lines s)). simpl.
    rewrite lookup_insert_eq. repeat split; auto.
  - unfold contents at 1. simpl. rewrite lookup_total_insert_eq.
    apply take_ge. lia.
  - by rewrite dom_insert_L.
  - intros q Hq. apply contents_insert_ne. congruence.
  - intros q Hq Hvq. apply validSlice_insert_ne; [congruence | done].
Qed.

Lemma setIndex_other h r i v h' q :
  setIndex h r i v = Some h' -> ptr q <> ptr r ->
  contents h' q = contents h q /\
  (validSlice h q -> validSlice h' q).
Proof.
  unfold setIndex. destruct (decide _); [|done]. intros [= <-] Hne. split.
  - apply contents_insert_ne. congruence.
  - apply validSlice_insert_ne. congruence.
Qed.

Lemma setIndex_dom h r i v h' :
  setIndex h r i v = Some h' -> ptr r ∈ dom h -> dom h' = dom h.
Proof.
  unfold setIndex. destruct (decide _); [|done]. intros [= <-] Hin.
  rewrite dom_insert_L. apply subseteq_union_1_L.
  by apply singleton_subseteq_l.
Qed.

Lemma abstract_applyOp h s o :
  validSlice h (lines s) ->
  let st := applyOp growCap (h, s) o in
  validSlice st.1 (lines st.2) /\
  abstract st.1 st.2 = sink.applyOp (abstract h s) o /\
  dom h ⊆ dom st.1 /\
  (forall r, ptr r <> ptr (lines s) -> ptr r ∈ dom h ->
     contents st.1 r = contents h r).
Proof.
  intros Hv. destruct o as [l|e]; simpl.
  - unfold addLine.
    destruct (append_spec h (lines s) l Hv) as (H1 & H2 & H3 & H4).
    destruct (append growCap h (lines s) l) as [h' l'] eqn:E. simpl in *.
    repeat split; auto.
    unfold abstract, sink.addLine. simpl. by rewrite H2.
  - repeat split; auto.
Qed.

Lemma growing_snoc obs x :
  growing obs -> Forall (fun o => o `prefix_of` x) obs -> growing (obs ++ [x]).
Proof.
  intros Hg Hall i j a b Hij Ha Hb.
  destruct (decide (j < length obs)%nat) as [Hj|Hj].
  - rewrite lookup_app_l in Ha, Hb by lia. eauto.
  - assert (b = x) as ->.
    { rewrite lookup_app_r in Hb by lia.
      destruct (j - length obs)%nat; simpl in Hb; [congruence|].
      by rewrite lookup_nil in Hb. }
    destruct (decide (i < length obs)%nat) as [Hi|Hi].
    + rewrite lookup_app_l in Ha by lia.
      rewrite Forall_forall in Hall. apply Hall.
      eapply list_elem_of_lookup_2. eauto.
    + rewrite lookup_app_r in Ha by lia.
      destruct (i - length obs)%nat; simpl in Ha; [by inversion Ha|].
      by rewrite lookup_nil in Ha.
Qed.

Lemma step_inv c a : clientInv c -> clientInv (step growCap c a).
Proof.
  intros (Hv & Hs & Ho & Hg). destruct a as [o| |k i v]; cbn [step].
  - destruct (abstract_applyOp (heap c) (shared c) o Hv) as (H1 & H2 & H3 & H4).
    destruct (applyOp growCap (heap c, shared c) o) as [h' s'] eqn:E.
    unfold clientInv. simpl in *. split; [done|]. split; [|split; [|done]].
    + rewrite Forall_forall in Hs |- *. intros r Hr.
      destruct (Hs r Hr) as [Hd Hne]. split; [by apply H3|].
      destruct o as [l|e]; simpl in E.
      * unfold addLine, append in E.
        destruct (decide _); simpl in E; inversion E; subst; simpl; [done|].
        intros Heq. rewrite Heq in Hd. by apply is_fresh in Hd.
      * inversion E; subst. done.
    + assert (contents (heap c) (lines (shared c)) `prefix_of` contents h' (lines s')) as Hp.
      { change (sink.lines (abstract (heap c) (shared c))
                  `prefix_of` sink.lines (abstract h' s')).
        rewrite H2. apply sink_facts.lines_applyOp. }
      eapply Forall_impl; [exact Ho|]. intros x Hx. simpl in Hx. by etrans.
  - destruct (getLines_spec (heap c) (shared c) Hv)
      as (Hp & Hvr & Hc & Hd & Hoth & Hvo).
    destruct (getLines (heap c) (shared c)) as [h1 r] eqn:E. simpl in *.
    pose proof (fresh_ne _ _ Hv) as Hf. rewrite <- Hp in Hf.
    assert (contents h1 (lines (shared c)) = contents (heap c) (lines (shared c)))
      as Hsame by (apply Hoth; congruence).
    unfold clientInv. simpl.
    split; [apply Hvo; [congruence|done]|]. split; [|split].
    + apply Forall_app. split.
      * eapply Forall_impl; [exact Hs|]. intros q [Hq1 Hq2]. simpl.
        split; [|done]. rewrite Hd. apply elem_of_union. by right.
      * constructor; [|constructor]. split; [|done].
        rewrite Hd. apply elem_of_union. left. by apply elem_of_singleton.
    + apply Forall_app. split.
      * eapply Forall_impl; [exact Ho|]. intros x Hx. simpl in *.
        by rewrite Hsame.
      * constructor; [|constructor]. by rewrite Hc, Hsame.
    + apply growing_snoc; [done|]. by rewrite Hc.
  - destruct (snapshots c !! k) as [r|] eqn:Hk; [|done].
    destruct (setIndex (heap c) r i v) as [h'|] eqn:Hset; [|done].
    simpl. rewrite Forall_forall in Hs.
    assert (r ∈ snapshots c) as Hin by (eapply list_elem_of_lookup_2; eauto).
    destruct (Hs r Hin) as [Hd Hne].
    destruct (setIndex_other _ _ _ _ _ (lines (shared c)) Hset) as [Hc Hval];
      [congruence|].
    pose proof (setIndex_dom _ _ _ _ _ Hset Hd) as Hdom.
    unfold clientInv. simpl.
    split; [by apply Hval|]. split; [|split; [|done]].
    + rewrite Forall_forall. intros q Hq. rewrite Hdom. by apply Hs.
    + rewrite Hc. done.
Qed.

Lemma steps_inv c acts : clientInv c -> clientInv (steps growCap c acts).
Proof.
  revert c. induction acts as [|a acts IH]; intros c Hc; simpl; [done|].
  apply IH. by apply step_inv.
Qed.

(** Only the runner's writes reach the sink. *)
Lemma steps_abstract c acts :
  clientInv c ->
  abstract (heap (steps growCap c acts)) (shared (steps growCap c acts))
  = sink.applyOps (abstract (heap c) (shared c)) (writesOf acts).
Proof.
  revert c. induction acts as [|a acts IH]; intros c Hc; [done|].
  unfold steps in *. cbn [foldl]. rewrite IH by (by apply step_inv).
  destruct Hc as (Hv & Hs & Ho & Hg).
  destruct a as [o| |k i v]; cbn [step].
  - destruct (abstract_applyOp (heap c) (shared c) o Hv) as (_ & H2 & _).
    destruct (applyOp growCap (heap c, shared c) o) as [h' s'] eqn:E.
    simpl in H2. simpl. by rewrite H2.
  - destruct (getLines_spec (heap c) (shared c) Hv)
      as (Hp & Hvr & Hc & Hd & Hoth & Hvo).
    destruct (getLines (heap c) (shared c)) as [h1 r] eqn:E. simpl in *.
    pose proof (fresh_ne _ _ Hv) as Hf. rewrite <- Hp in Hf.
    unfold abstract. simpl. rewrite Hoth by congruence. done.
  - destruct (snapshots c !! k) as [r|] eqn:Hk; [|done].
    destruct (setIndex (heap c) r i v) as [h'|] eqn:Hset; [|done].
    rewrite Forall_forall in Hs.
    assert (r ∈ snapshots c) as Hin by (eapply list_elem_of_lookup_2; eauto).
    destruct (Hs r Hin) as [Hd Hne].
    destruct (setIndex_other _ _ _ _ _ (lines (shared c)) Hset) as [Hc Hval];
      [congruence|].
    unfold abstract. simpl. by rewrite Hc.
Qed.

End Append.

End slices_facts.

(** *** Snapshots are copies, and the sink only grows *)

(** C9.  Start from any sink whose line slice is valid, and let the runner
    write ([addLine], [setDone]), the UI take snapshots ([getLines]) and the
    holders of snapshots overwrite their elements, in any order.  Then
    - the sink holds exactly what the writes put there, whatever was done to
      the snapshots;
    - a further [getLines] returns the sink's lines in an array that is
      neither the sink's nor that of an earlier snapshot, and no assignment
      to an element of the result changes the sink;
    - each snapshot, as it was when returned, is a prefix of every later
      one, so the observed line count never shrinks. *)
Theorem snapshots_are_copies_and_only_grow
    (growCap : nat -> nat) (h : gmap nat (list string))
    (s : slices.sharedOutput) (acts : list slices.Action) :
  slices.validSlice h (slices.lines s) ->
  let c := slices.steps growCap (slices.mkClient h s [] []) acts in
  let sk := slices.lines (slices.shared c) in
  let res := slices.getLines (slices.heap c) (slices.shared c) in
  slices.abstract (slices.heap c) (slices.shared c)
    = sink.applyOps (slices.abstract h s) (slices.writesOf acts) /\
  slices.contents res.1 res.2
    = sink.getLines (slices.abstract (slices.heap c) (slices.shared c)) /\
  slices.ptr res.2 <> slices.ptr sk /\
  Forall (fun q => slices.ptr res.2 <> slices.ptr q) (slices.snapshots c) /\
  (forall i v h2, slices.setIndex res.1 res.2 i v = Some h2 ->
     slices.abstract h2 (slices.shared c)
     = slices.abstract (slices.heap c) (slices.shared c)) /\
  slices.growing (slices.observed c) /\
  (forall i j a b, (i <= j)%nat ->
     slices.observed c !! i = Some a -> slices.observed c !! j = Some b ->
     (length a <= length b)%nat) /\
  Forall (fun o => o `prefix_of` slices.contents (slices.heap c) sk)
    (slices.observed c).
Proof.
  intros Hv c sk res.
  assert (slices.clientInv (slices.mkClient h s [] [])) as Hinit.
  { unfold slices.clientInv. simpl. repeat split; auto.
    intros i j a b _ Hi. by rewrite lookup_nil in Hi. }
  pose proof (slices_facts.steps_inv growCap _ acts Hinit) as Hinv.
  pose proof (slices_facts.steps_abstract growCap _ acts Hinit) as Habs.
  fold c in Hinv, Habs. simpl in Habs.
  destruct Hinv as (Hvc & Hsn & Hob & Hgr).
  destruct (slices_facts.getLines_spec _ _ Hvc)
    as (Hp & Hvr & Hc & Hd & Hoth & Hvo).
  fold res in Hp, Hvr, Hc, Hd, Hoth, Hvo. fold sk in Hc, Hvc, Hob.
  pose proof (slices_facts.fresh_ne _ _ Hvc) as Hf. rewrite <- Hp in Hf.
  split; [exact Habs|]. split; [exact Hc|]. split; [exact Hf|].
  split; [|split; [|split; [exact Hgr|split; [|exact Hob]]]].
  - eapply Forall_impl; [exact Hsn|]. intros q [Hq _] Heq. simpl in Hq.
    rewrite <- Heq, Hp in Hq. by apply is_fresh in Hq.
  - intros i v h2 Hset.
    destruct (slices_facts.setIndex_other _ _ _ _ _ sk Hset) as [Hc2 _];
      [fold sk in Hf; congruence|].
    unfold slices.abstract. fold sk. rewrite Hc2.
    rewrite (Hoth sk) by (fold sk in Hf; congruence). done.
  - intros i j a b Hij Ha Hb. apply prefix_length. eapply Hgr; eauto.
Qed.

(** The theorem at a sink holding "a", "b": a snapshot is taken, "c" is
    appended, the first snapshot is overwritten, a second one is taken. *)
Lemma snapshots_are_copies_and_only_grow_witness :
  slices.validSlice demoArrays (slices.lines demoSink) /\
  slices.abstract
    (slices.heap (slices.steps (Nat.mul 2)
                    (slices.mkClient demoArrays demoSink [] []) demoActions))
    (slices.shared (slices.steps (Nat.mul 2)
                    (slices.mkClient demoArrays demoSink [] []) demoActions))
  = sink.applyOps (slices.abstract demoArrays demoSink)
      (slices.writesOf demoActions).
Proof.
  assert (slices.validSlice demoArrays (slices.lines demoSink)) as Hv.
  { exists ["a"; "b"]. repeat split; simpl; auto. }
  split; [exact Hv|].
  exact (proj1 (snapshots_are_copies_and_only_grow
                  (Nat.mul 2) demoArrays demoSink demoActions Hv)).
Defined.

(** What that client run observes: the first snapshot read "a","b"
    when taken, the second "a","b","c"; the sink ends with three lines and
    done. *)
Example demo_client_run :
  let c := slices.steps (Nat.mul 2)
             (slices.mkClient demoArrays demoSink [] []) demoActions in
  slices.observed c = [["a"; "b"]; ["a"; "b"; "c"]] /\
  slices.abstract (slices.heap c) (slices.shared c)
    = sink.mkShared ["a"; "b"; "c"] true None /\
  (slices.contents (slices.heap c) <$> slices.snapshots c)
    = [["X"; "b"]; ["a"; "b"; "c"]].
Proof. vm_compute. repeat split. Qed.

(** ** The modal *)

Module terminal_facts.

Import goint goint_facts terminal viewport.

(** Case analysis on the integer comparisons of the goal. *)
Ltac zcases :=
  repeat match goal with
  | |- context [?a >? ?b] => rewrite (Z.gtb_ltb a b)
  | |- context [?a >=? ?b] => rewrite (Z.geb_leb a b)
  end;
  repeat match goal with
  | |- context [?a <? ?b] => destruct (Z.ltb_spec a b); simpl in *
  | |- context [?a <=? ?b] => destruct (Z.leb_spec a b); simpl in *
  end.

Lemma SetSize_frame m w h :
  ScrollPos (SetSize m w h) = ScrollPos m /\
  Lines (SetSize m w h) = Lines m /\
  AutoScroll (SetSize m w h) = AutoScroll m /\
  ID (SetSize m w h) = ID m /\
  Config (SetSize m w h) = Config m /\
  MaxLines (SetSize m w h) = MaxLines m /\
  output (SetSize m w h) = output m.
Proof. unfold SetSize. simpl. zcases; simpl; zcases; auto 10. Qed.

Lemma SetSize_range m w h :
  60 <= Width (SetSize m w h) <= 120 /\ 10 <= Height (SetSize m w h) <= 40.
Proof. unfold SetSize. simpl. zcases; simpl; zcases; lia. Qed.

Lemma visibleLines_sized m :
  10 <= Height m <= 40 -> visibleLines m = Height m - 6.
Proof.
  intros H. unfold visibleLines. apply sub_id.
  unfold inInt, minInt, maxInt. lia.
Qed.

Lemma maxScroll_sized m :
  sized m -> maxScroll m = Z.max 0 (len (Lines m) - (Height m - 6)).
Proof.
  intros [Hh Hl]. unfold maxScroll. rewrite visibleLines_sized by done.
  pose proof (len_nonneg (Lines m)).
  rewrite sub_id by (unfold inInt, minInt, maxInt; lia).
  zcases; lia.
Qed.

(** [handleKey] is [perform] at the operation the key stands for. *)
Lemma handleKey_perform m k :
  handleKey m k =
  (match keyOp (Config m) k with Some op => perform op m | None => m end,
   nilCmd).
Proof.
  unfold handleKey, keyOp, perform.
  repeat match goal with
  | |- context [if ?b then _ else _] =>
      match b with
      | context [config.MatchesAny] => destruct b
      | context [config.Matches] => destruct b
      end
  end; reflexivity.
Qed.

Lemma perform_frame op m :
  Lines (perform op m) = Lines m /\ Height (perform op m) = Height m /\
  Config (perform op m) = Config m /\ ID (perform op m) = ID m /\
  output (perform op m) = output m /\ MaxLines (perform op m) = MaxLines m.
Proof.
  destruct op; unfold perform; simpl; zcases; simpl; zcases; auto 10.
Qed.

Lemma perform_maxScroll op m : maxScroll (perform op m) = maxScroll m.
Proof.
  destruct (perform_frame op m) as (Hl & Hh & _).
  unfold maxScroll, visibleLines. by rewrite Hl, Hh.
Qed.

End terminal_facts.

(** ** Scrolling *)

Module viewport_facts.

Import goint goint_facts terminal viewport terminal_facts.

(** Every operation keeps the offset between 0 and any bound that the
    maximum offset does not exceed. *)
Lemma perform_bound op m B :
  sized m -> maxScroll m <= B <= 2 ^ 62 -> 0 <= ScrollPos m <= B ->
  0 <= ScrollPos (perform op m) <= B.
Proof.
  intros Hs HB HS.
  pose proof (maxScroll_sized m Hs) as HM. destruct Hs as [Hh Hl].
  pose proof (len_nonneg (Lines m)) as Hlen.
  assert (sub (Height m) 6 = Height m - 6) as E1
    by (apply sub_id; unfold inInt, minInt, maxInt; lia).
  assert (sub (ScrollPos m) 1 = ScrollPos m - 1) as E3
    by (apply sub_id; unfold inInt, minInt, maxInt; lia).
  assert (add (ScrollPos m) 1 = ScrollPos m + 1) as E4
    by (apply add_id; unfold inInt, minInt, maxInt; lia).
  assert (sub (ScrollPos m) (Height m - 6) = ScrollPos m - (Height m - 6)) as E5
    by (apply sub_id; unfold inInt, minInt, maxInt; lia).
  assert (add (ScrollPos m) (Height m - 6) = ScrollPos m + (Height m - 6)) as E6
    by (apply add_id; unfold inInt, minInt, maxInt; lia).
  revert HM HB. unfold maxScroll, visibleLines.
  destruct op; unfold perform, maxScroll, visibleLines; simpl;
    rewrite ?E1, ?E3, ?E4, ?E5, ?E6;
    set (M := sub (len (Lines m)) (Height m - 6));
    intros HM HB; revert HM HB; zcases; rewrite ?E3, ?E4, ?E5, ?E6; intros; lia.
Qed.

Lemma perform_sized op m : sized m -> sized (perform op m).
Proof.
  destruct (perform_frame op m) as (Hl & Hh & _).
  unfold sized. by rewrite Hl, Hh.
Qed.

Lemma perform_inBounds op m :
  sized m -> inBounds m -> inBounds (perform op m).
Proof.
  intros Hs Hb. unfold inBounds. rewrite perform_maxScroll.
  apply perform_bound; [done| |done].
  rewrite (maxScroll_sized m Hs). destruct Hs as [Hh Hl].
  pose proof (len_nonneg (Lines m)). lia.
Qed.

Lemma apply_frame m e :
  Lines (apply m e) = Lines m /\ (sized m -> sized (apply m e)).
Proof.
  destruct e as [k|w h]; simpl.
  - rewrite handleKey_perform. simpl.
    destruct (keyOp (Config m) k) as [op|]; [|done].
    destruct (perform_frame op m) as (Hl & _). split; [done|].
    apply perform_sized.
  - destruct (SetSize_frame m w h) as (_ & Hl & _). split; [done|].
    intros [_ Hlen]. split; [apply SetSize_range | by rewrite Hl].
Qed.

(** The bound that survives a resize: the offset never exceeds the largest
    maximum there can be, the one of the smallest window. *)
Lemma apply_loose_bound m e :
  sized m -> 0 <= ScrollPos m <= Z.max 0 (len (Lines m) - 4) ->
  0 <= ScrollPos (apply m e) <= Z.max 0 (len (Lines (apply m e)) - 4).
Proof.
  intros Hs Hb. destruct (apply_frame m e) as [Hl _]. rewrite Hl.
  destruct e as [k|w h]; simpl.
  - rewrite handleKey_perform. simpl.
    destruct (keyOp (Config m) k) as [op|]; [|done].
    apply perform_bound; [done| |done].
    rewrite (maxScroll_sized m Hs). destruct Hs as [Hh Hlen].
    pose proof (len_nonneg (Lines m)). lia.
  - destruct (SetSize_frame m w h) as (-> & _). done.
Qed.

Lemma apply_key_inBounds m k :
  sized m -> inBounds m -> inBounds (apply m (Key k)).
Proof.
  intros Hs Hb. simpl. rewrite handleKey_perform. simpl.
  destruct (keyOp (Config m) k) as [op|]; [|done].
  by apply perform_inBounds.
Qed.

Lemma applyAll_frame m evs :
  Lines (applyAll m evs) = Lines m /\ (sized m -> sized (applyAll m evs)).
Proof.
  revert m. induction evs as [|e evs IH]; intros m; simpl; [done|].
  destruct (IH (apply m e)) as [H1 H2].
  destruct (apply_frame m e) as [H3 H4].
  split; [congruence | auto].
Qed.

Lemma applyAll_loose_bound m evs :
  sized m -> 0 <= ScrollPos m <= Z.max 0 (len (Lines m) - 4) ->
  0 <= ScrollPos (applyAll m evs) <= Z.max 0 (len (Lines (applyAll m evs)) - 4).
Proof.
  revert m. induction evs as [|e evs IH]; intros m Hs Hb; simpl; [done|].
  apply IH.
  - by apply apply_frame.
  - by apply apply_loose_bound.
Qed.

Lemma applyAll_keys_inBounds m evs :
  existsb isResize evs = false ->
  sized m -> inBounds m -> inBounds (applyAll m evs).
Proof.
  revert m. induction evs as [|e evs IH]; intros m Hk Hs Hb; simpl; [done|].
  simpl in Hk. apply orb_false_iff in Hk as [He Hk].
  destruct e as [k|w h]; [|discriminate].
  apply IH; [done| |].
  - by apply (apply_frame m (Key k)).
  - by apply apply_key_inBounds.
Qed.

(** The events are what [Update] does with the corresponding messages. *)
Lemma Update_event render σ between m e :
  Update render σ between m (toMsg e) = Some (apply m e, nilCmd).
Proof.
  destruct e as [k|w h]; simpl; [|done].
  by rewrite handleKey_perform.
Qed.

End viewport_facts.

(** *** The modal's size *)

(** C10.  Whatever width and height [SetSize] is given - zero, negative,
    or so large that the multiplication wraps around - the modal's width
    ends in [60, 120] and its height in [10, 40]; the visible line count
    [Height - 6] is then computed without wrap-around and is at least 4.  A
    model fresh from [New] has height 20 and 14 visible lines. *)
Theorem SetSize_clamps (m : terminal.Model) (width height : Z)
    (counter : Z) (cfg : config.Config) (title : string) :
  let m' := terminal.SetSize m width height in
  60 <= terminal.Width m' <= 120 /\
  10 <= terminal.Height m' <= 40 /\
  terminal.visibleLines m' = terminal.Height m' - 6 /\
  4 <= terminal.visibleLines m' <= 34 /\
  terminal.Height (terminal.New counter cfg title).2 = 20 /\
  terminal.visibleLines (terminal.New counter cfg title).2 = 14.
Proof.
  intros m'. destruct (terminal_facts.SetSize_range m width height) as [Hw Hh].
  fold m' in Hw, Hh.
  pose proof (terminal_facts.visibleLines_sized m' Hh) as Hv.
  rewrite Hv. repeat split; try lia; reflexivity.
Qed.

Example SetSize_examples :
  let m := (terminal.New 0 defaultConfig "t").2 in
  (terminal.Width (terminal.SetSize m 0 0),
   terminal.Height (terminal.SetSize m 0 0)) = (60, 10) /\
  (terminal.Width (terminal.SetSize m (-500) (-500)),
   terminal.Height (terminal.SetSize m (-500) (-500))) = (60, 10) /\
  (terminal.Width (terminal.SetSize m 100 30),
   terminal.Height (terminal.SetSize m 100 30)) = (80, 21) /\
  (terminal.Width (terminal.SetSize m 1000 1000),
   terminal.Height (terminal.SetSize m 1000 1000)) = (120, 40) /\
  (terminal.Width (terminal.SetSize m (2 ^ 62) (2 ^ 62)),
   terminal.Height (terminal.SetSize m (2 ^ 62) (2 ^ 62))) = (60, 10).
Proof. vm_compute. repeat split. Qed.

(** *** The scroll offset *)

(** C2 fails on a resize: [SetSize] changes the maximum offset and
    leaves the offset where it was.  A modal in the smallest window (height
    10, four visible lines) runs a command that prints fifty lines; the tick
    that sees it done leaves 54 lines in the buffer and, auto-scroll being
    on, the offset at the maximum, 50.  The terminal is then enlarged: the
    window grows to height 40, the maximum drops to 20, the offset is still
    50.  The same with keys only: fifty lines, jump to bottom (offset 46),
    resize (maximum 16, offset 46). *)
Theorem resize_leaves_offset_out_of_bounds :
  (let m0 := terminal.SetSize (terminal.New 0 defaultConfig "t").2 0 0 in
   let '(σ, m1, g, _) :=
     terminal.RunCommand styles.plain fiftyWorld ∅ m0 "yes" [] in
   let σ' := terminal.runGoroutine σ g 51 in
   match terminal.Update styles.plain σ' [] m1 (terminal.TickMsg 1) with
   | Some (m2, _) =>
       goint.len (terminal.Lines m2) = 54 /\ terminal.visibleLines m2 = 4 /\
       terminal.ScrollPos m2 = 50 /\ terminal.maxScroll m2 = 50 /\
       match terminal.Update styles.plain σ' [] m2
               (terminal.WindowSizeMsg 200 100) with
       | Some (m3, _) =>
           goint.len (terminal.Lines m3) = 54 /\ terminal.visibleLines m3 = 34 /\
           terminal.ScrollPos m3 = 50 /\ terminal.maxScroll m3 = 20 /\
           ~ viewport.inBounds m3
       | None => False
       end
   | None => False
   end) /\
  (let m' := viewport.applyAll fiftyLines
               [viewport.Key (key "G"); viewport.Resize 200 100] in
   viewport.inBounds fiftyLines /\
   terminal.ScrollPos m' = 46 /\ terminal.maxScroll m' = 16 /\
   ~ viewport.inBounds m').
Proof.
  unfold viewport.inBounds. vm_compute.
  repeat split; try discriminate; intros [H1 H2]; auto.
Qed.

(** What does hold of the offset.  Take a model of a size [New] or
    [SetSize] gives, with its offset in bounds.  After any sequence of
    scroll, page and jump keys the offset is within [0, maxScroll].  A resize
    recomputes the size and leaves the offset as it is; after any sequence of
    keys and resizes the offset is within [0, max(0, lineCount - 4)], 4 being
    the smallest visible line count. *)
Theorem scroll_offset_bounds (m : terminal.Model) (evs : list viewport.Event) :
  viewport.sized m -> viewport.inBounds m ->
  let m' := viewport.applyAll m evs in
  viewport.sized m' /\
  terminal.Lines m' = terminal.Lines m /\
  (existsb viewport.isResize evs = false -> viewport.inBounds m') /\
  0 <= terminal.ScrollPos m'
    <= Z.max 0 (goint.len (terminal.Lines m') - 4) /\
  (forall width height,
     terminal.ScrollPos (terminal.SetSize m' width height)
     = terminal.ScrollPos m').
Proof.
  intros Hs Hb m'.
  destruct (viewport_facts.applyAll_frame m evs) as [Hl Hsz]. fold m' in Hl, Hsz.
  split; [auto|]. split; [done|]. split; [|split].
  - intros Hk. by apply viewport_facts.applyAll_keys_inBounds.
  - apply viewport_facts.applyAll_loose_bound; [done|].
    destruct Hb as [Hb0 Hb1]. rewrite (terminal_facts.maxScroll_sized m Hs) in Hb1.
    destruct Hs as [Hh Hlen]. lia.
  - intros w h. apply terminal_facts.SetSize_frame.
Qed.

Lemma scroll_offset_bounds_witness :
  viewport.sized fiftyLines /\ viewport.inBounds fiftyLines /\
  viewport.inBounds
    (viewport.applyAll fiftyLines
       [viewport.Key (key "G"); viewport.Key (key "k");
        viewport.Key (key "ctrl+u"); viewport.Key (key "ctrl+d")]).
Proof.
  assert (viewport.sized fiftyLines) as Hs.
  { unfold viewport.sized. vm_compute. repeat split; discriminate. }
  assert (viewport.inBounds fiftyLines) as Hb.
  { unfold viewport.inBounds. vm_compute. repeat split; discriminate. }
  split; [exact Hs|]. split; [exact Hb|].
  exact (proj1 (proj2 (proj2
           (scroll_offset_bounds fiftyLines
              [viewport.Key (key "G"); viewport.Key (key "k");
               viewport.Key (key "ctrl+u"); viewport.Key (key "ctrl+d")]
              Hs Hb)))
           eq_refl).
Defined.

(** *** Auto-scroll *)

(** On a model fresh from [New] (no lines, offset 0, maximum 0) a scroll up
    leaves the offset at the maximum and yet switches auto-scroll off.  And
    where auto-scroll is on above the bottom - fifty lines, offset 0, maximum
    46 - a scroll down to offset 1 leaves it on. *)
Lemma auto_scroll_differs_from_at_bottom :
  let m := (terminal.handleKey (terminal.New 0 defaultConfig "t").2 (key "k")).1 in
  let n := (terminal.handleKey fiftyLines (key "j")).1 in
  (terminal.ScrollPos m = terminal.maxScroll m /\
   terminal.AutoScroll m = false) /\
  (terminal.ScrollPos n = 1 /\ terminal.maxScroll n = 46 /\
   terminal.AutoScroll n = true) /\
  ~ (terminal.AutoScroll m = true <->
     terminal.ScrollPos m = terminal.maxScroll m) /\
  ~ (terminal.AutoScroll n = true <->
     terminal.ScrollPos n = terminal.maxScroll n).
Proof.
  vm_compute. repeat split.
  - intros [_ H]. specialize (H eq_refl). discriminate.
  - intros [H _]. specialize (H eq_refl). discriminate.
Qed.

(** C3, as the code has it.  For the operation a key stands for:
    scroll up, page up and jump to top switch auto-scroll off, wherever the
    offset ends; scroll down and page down switch it on when the resulting
    offset has reached the maximum and otherwise leave the flag as it was;
    jump to bottom puts the offset at the maximum and switches it on.  No
    operation changes the maximum. *)
Theorem auto_scroll_after_key (m : terminal.Model) (k : terminal.KeyMsg)
    (op : viewport.ScrollOp) :
  viewport.keyOp (terminal.Config m) k = Some op ->
  let m' := (terminal.handleKey m k).1 in
  terminal.maxScroll m' = terminal.maxScroll m /\
  match op with
  | viewport.scrollUp | viewport.pageUp | viewport.jumpTop =>
      terminal.AutoScroll m' = false
  | viewport.scrollDown | viewport.pageDown =>
      terminal.AutoScroll m'
      = (if terminal.ScrollPos m' >=? terminal.maxScroll m' then true
         else terminal.AutoScroll m) /\
      (terminal.ScrollPos m' = terminal.maxScroll m' ->
       terminal.AutoScroll m' = true)
  | viewport.jumpBottom =>
      terminal.ScrollPos m' = terminal.maxScroll m' /\
      terminal.AutoScroll m' = true
  end.
Proof.
  intros Hop m'. subst m'. rewrite terminal_facts.handleKey_perform, Hop.
  cbn [fst]. split; [apply terminal_facts.perform_maxScroll|].
  assert (forall v n, terminal.maxScroll (terminal.withScrollPos v n)
                      = terminal.maxScroll n) as Hmax by reflexivity.
  assert (forall v n, terminal.maxScroll (terminal.withAutoScroll v n)
                      = terminal.maxScroll n) as Hmax' by reflexivity.
  destruct op; unfold viewport.perform; cbn zeta.
  - by destruct (_ >? _).
  - set (n1 := if terminal.ScrollPos m <? terminal.maxScroll m
               then terminal.withScrollPos _ m else m).
    assert (terminal.AutoScroll n1 = terminal.AutoScroll m) as Ha
      by (subst n1; destruct (_ <? _); done).
    assert (let r := if terminal.ScrollPos n1 >=? terminal.maxScroll n1
               then terminal.withAutoScroll true n1 else n1 in
      terminal.AutoScroll r
      = (if terminal.ScrollPos r >=? terminal.maxScroll r then true
         else terminal.AutoScroll m)) as Hr.
    { simpl. destruct (_ >=? _) eqn:E; simpl; rewrite ?Hmax', E; done. }
    split; [exact Hr|].
    intros Heq. rewrite Hr. cbn zeta. by rewrite Heq, Z.geb_leb, Z.leb_refl.
  - by destruct (_ <? _).
  - set (n0 := terminal.withScrollPos _ m).
    set (n1 := if terminal.ScrollPos n0 >? terminal.maxScroll n0
               then terminal.withScrollPos (terminal.maxScroll n0) n0 else n0).
    assert (terminal.AutoScroll n1 = terminal.AutoScroll m) as Ha
      by (subst n1; destruct (_ >? _); done).
    assert (let r := if terminal.ScrollPos n1 >=? terminal.maxScroll n1
               then terminal.withAutoScroll true n1 else n1 in
      terminal.AutoScroll r
      = (if terminal.ScrollPos r >=? terminal.maxScroll r then true
         else terminal.AutoScroll m)) as Hr.
    { simpl. destruct (_ >=? _) eqn:E; simpl; rewrite ?Hmax', E; done. }
    split; [exact Hr|].
    intros Heq. rewrite Hr. cbn zeta. by rewrite Heq, Z.geb_leb, Z.leb_refl.
  - done.
  - done.
Qed.

Lemma auto_scroll_after_key_witness :
  viewport.keyOp (terminal.Config fiftyLines) (key "ctrl+d")
    = Some viewport.pageDown /\
  terminal.maxScroll (terminal.handleKey fiftyLines (key "ctrl+d")).1
    = terminal.maxScroll fiftyLines.
Proof.
  split; [reflexivity|].
  exact (proj1 (auto_scroll_after_key fiftyLines (key "ctrl+d")
                  viewport.pageDown eq_refl)).
Defined.

(** ** Ticks *)

Module tick_facts.

Import goint goint_facts terminal terminal_facts.

Lemma sliceFrom_drop {A} (l : list A) (limit : Z) :
  0 <= limit -> len l <= maxInt ->
  (if len l >? limit then sliceFrom l (sub (len l) limit) else Some l)
  = Some (drop (Z.to_nat (len l - limit)) l).
Proof.
  intros Hm Hl. pose proof (len_nonneg l) as H0.
  zcases.
  - unfold sliceFrom.
    rewrite sub_id by (unfold inInt, minInt, maxInt in *; lia).
    zcases; try lia. done.
  - replace (Z.to_nat (len l - limit)) with 0%nat by lia. done.
Qed.

Lemma len_drop {A} (l : list A) (limit : Z) :
  0 <= limit ->
  len (drop (Z.to_nat (len l - limit)) l) = Z.min (len l) limit.
Proof. intros H. unfold len. rewrite length_drop. lia. Qed.

Section Tick.
Variable render : styles.Styles.

(** What a tick does to a model that has a sink. *)
Lemma handleTick_spec σ between m p :
  output m = Some p -> 0 <= MaxLines m ->
  len (rebuilt render m (sink.getLines (σ !!! p))) <= maxInt ->
  let built := rebuilt render m (sink.getLines (σ !!! p)) in
  let kept := drop (Z.to_nat (len built - MaxLines m)) built in
  let st := sink.isDone (sink.applyOps (σ !!! p) between) in
  exists m',
    handleTick render σ between m
      = Some (m', if st.1 then nilCmd else tick m) /\
    Lines m' = kept ++ (if st.1 then [EmptyString; statusLine render st.2]
                        else []) /\
    Running m' = (if st.1 then false else Running m) /\
    Err m' = (if st.1 then st.2 else Err m) /\
    ScrollPos m' = (if AutoScroll m then maxScroll m' else ScrollPos m) /\
    AutoScroll m' = AutoScroll m /\ MaxLines m' = MaxLines m /\
    Height m' = Height m /\ ID m' = ID m /\ output m' = output m.
Proof.
  intros Hout Hmax Hlen built kept st.
  unfold handleTick. rewrite Hout.
  set (m1 := if len (sink.getLines (σ !!! p)) >? 0
             then withLines (header render m ++ sink.getLines (σ !!! p)) m
             else m).
  assert (m1 = withLines built m) as ->.
  { subst m1 built. unfold rebuilt. destruct (_ >? _); [done | by destruct m]. }
  cbn [Lines MaxLines withLines].
  rewrite (sliceFrom_drop built (MaxLines m)) by done. fold kept.
  cbn [AutoScroll withLines].
  destruct (sink.isDone _) as [dn er] eqn:Hst. subst st. cbn [fst snd].
  destruct dn.
  - destruct er as [e|]; destruct (AutoScroll m) eqn:Ha;
      eexists; (split; [reflexivity|]); simpl; rewrite ?Ha;
      rewrite <- ?app_assoc; simpl; auto 10.
  - destruct (AutoScroll m) eqn:Ha;
      eexists; (split; [reflexivity|]); simpl; rewrite ?Ha, ?app_nil_r;
      auto 10.
Qed.

End Tick.

End tick_facts.

(** *** The display buffer after a tick *)

(** With a limit of 3 and 5 output lines the header is not kept, and the
    tick that sees the command done leaves 5 lines in the buffer.  First
    tick: the five lines are in the sink, completion is not recorded yet;
    the buffer is the last three output lines, without the header.  Second
    tick: completion is recorded; the two status lines come on top of the
    three. *)
Lemma tick_drops_header_and_exceeds_limit :
  let '(σ, m, g, _) := seqStarted in
  let running := terminal.handleTick styles.plain
                   (terminal.runGoroutine σ g 5) [] m in
  let finished := terminal.handleTick styles.plain
                    (terminal.runGoroutine σ g 6) [] m in
  terminal.header styles.plain m = ["$ seq 5"; EmptyString] /\
  (exists m', running = Some (m', terminal.tickCmd 1) /\
     terminal.Lines m' = ["3"; "4"; "5"] /\
     ~ In "$ seq 5" (terminal.Lines m')) /\
  (exists m', finished = Some (m', terminal.nilCmd) /\
     terminal.Lines m' = ["3"; "4"; "5"; EmptyString; "✓ Command completed"] /\
     terminal.MaxLines m' = 3 /\
     ~ goint.len (terminal.Lines m') <= terminal.MaxLines m' /\
     ~ In "$ seq 5" (terminal.Lines m')).
Proof.
  vm_compute. split; [reflexivity|]. split.
  - eexists. split; [reflexivity|]. split; [reflexivity|].
    intros H. repeat (destruct H as [H|H]; [discriminate H|]). exact H.
  - eexists. split; [reflexivity|]. split; [reflexivity|].
    split; [reflexivity|]. split; [intros H; by apply H|].
    intros H. repeat (destruct H as [H|H]; [discriminate H|]). exact H.
Qed.

(** C4, as the code has it.  A tick on a model with a sink and a
    non-negative limit rebuilds the buffer (header, empty line, snapshot) and
    keeps its newest [MaxLines] lines: what is dropped is dropped from the
    oldest end.  So the kept lines never exceed the limit; with a limit of N
    and at least N output lines they are exactly the last N output lines;
    and while the snapshot has at most N - 2 lines the header and the whole
    snapshot are kept.  The tick that sees the command done appends the empty
    line and the status line after trimming, so the buffer then holds up to
    N + 2 lines. *)
Theorem tick_keeps_newest_lines (render : styles.Styles)
    (σ : gmap nat sink.sharedOutput) (between : list sink.SinkOp)
    (m : terminal.Model) (p : nat) :
  terminal.output m = Some p ->
  0 <= terminal.MaxLines m ->
  goint.len (terminal.Lines m) <= goint.maxInt ->
  goint.len (sink.getLines (σ !!! p)) + 2 <= goint.maxInt ->
  let snap := sink.getLines (σ !!! p) in
  let N := terminal.MaxLines m in
  let built := terminal.rebuilt render m snap in
  let kept := drop (Z.to_nat (goint.len built - N)) built in
  let st := sink.isDone (sink.applyOps (σ !!! p) between) in
  exists m',
    terminal.handleTick render σ between m
      = Some (m', if st.1 then terminal.nilCmd else terminal.tick m) /\
    terminal.Lines m'
      = kept ++ (if st.1 then [EmptyString; terminal.statusLine render st.2]
                 else []) /\
    goint.len kept = Z.min (goint.len built) N /\
    goint.len (terminal.Lines m') <= N + (if st.1 then 2 else 0) /\
    (0 < goint.len snap -> N <= goint.len snap ->
     kept = drop (Z.to_nat (goint.len snap - N)) snap) /\
    (0 < goint.len snap -> goint.len snap + 2 <= N ->
     kept = terminal.header render m ++ snap).
Proof.
  intros Hout HN Hl Hs snap N built kept st.
  assert (goint.len built <= goint.maxInt) as Hb.
  { subst built. unfold terminal.rebuilt. fold snap.
    destruct (_ >? _); [|done].
    rewrite goint_facts.len_app. unfold terminal.header.
    change (goint.len [_; _]) with 2. fold snap in Hs. lia. }
  destruct (tick_facts.handleTick_spec render σ between m p Hout HN Hb)
    as (m' & Hm' & HL & _).
  fold snap built N kept st in Hm', HL.
  assert (goint.len kept = Z.min (goint.len built) N) as Hk
    by (apply tick_facts.len_drop; done).
  exists m'. split; [exact Hm'|]. split; [exact HL|]. split; [exact Hk|].
  split; [|split].
  - rewrite HL, goint_facts.len_app, Hk.
    destruct st.1; [change (goint.len [_; _]) with 2|change (goint.len []) with 0];
      lia.
  - intros Hpos Hge. subst kept built. unfold terminal.rebuilt.
    apply Z.gtb_lt in Hpos. fold snap. rewrite Hpos.
    rewrite goint_facts.len_app. unfold terminal.header.
    change (goint.len [_; _]) with 2.
    replace (Z.to_nat (2 + goint.len snap - N))
      with (S (S (Z.to_nat (goint.len snap - N)))) by lia.
    reflexivity.
  - intros Hpos Hle. subst kept built. unfold terminal.rebuilt.
    apply Z.gtb_lt in Hpos. fold snap. rewrite Hpos.
    rewrite goint_facts.len_app. unfold terminal.header.
    change (goint.len [_; _]) with 2.
    replace (Z.to_nat (2 + goint.len snap - N)) with 0%nat by lia.
    reflexivity.
Qed.

Lemma tick_keeps_newest_lines_witness :
  let '(σ, m, g, _) := seqStarted in
  terminal.output m = Some 0%nat /\
  0 <= terminal.MaxLines m /\
  goint.len (terminal.Lines m) <= goint.maxInt /\
  goint.len (sink.getLines (terminal.runGoroutine σ g 6 !!! 0%nat)) + 2
    <= goint.maxInt /\
  exists m',
    terminal.handleTick styles.plain (terminal.runGoroutine σ g 6) [] m
      = Some (m', terminal.nilCmd) /\
    terminal.Lines m' = ["3"; "4"; "5"; EmptyString; "✓ Command completed"].
Proof.
  assert (terminal.output seqStarted.1.1.2 = Some 0%nat) as H1 by reflexivity.
  assert (0 <= terminal.MaxLines seqStarted.1.1.2) as H2 by (vm_compute; discriminate).
  assert (goint.len (terminal.Lines seqStarted.1.1.2) <= goint.maxInt) as H3
    by (vm_compute; discriminate).
  assert (goint.len (sink.getLines
            (terminal.runGoroutine seqStarted.1.1.1 seqStarted.1.2 6 !!! 0%nat))
          + 2 <= goint.maxInt) as H4 by (vm_compute; discriminate).
  pose proof (tick_keeps_newest_lines styles.plain
                (terminal.runGoroutine seqStarted.1.1.1 seqStarted.1.2 6) []
                seqStarted.1.1.2 0%nat H1 H2 H3 H4) as (m' & Hm' & HL & _).
  repeat split; try assumption.
  exists m'. split; [exact Hm'|]. rewrite HL. vm_compute. reflexivity.
Defined.

(** A negative limit makes the trimming slice expression panic. *)
Example tick_with_negative_limit :
  let '(σ, m, g, _) := seqStarted in
  terminal.handleTick styles.plain (terminal.runGoroutine σ g 6) []
    (terminal.withMaxLines (-1) m) = None.
Proof. vm_compute. reflexivity. Qed.

(** *** Session identities and stale ticks *)

Lemma instantiate_ids counter cfg titles :
  goint.minInt <= counter ->
  counter + goint.len titles <= goint.maxInt ->
  forall i a, terminal.instantiate counter cfg titles !! i = Some a ->
    terminal.ID a = counter + 1 + Z.of_nat i.
Proof.
  revert counter. induction titles as [|t ts IH]; intros c Hlo Hhi i a Hi.
  - simpl in Hi. by rewrite lookup_nil in Hi.
  - unfold goint.len in *. simpl length in Hhi.
    assert (goint.add c 1 = c + 1) as Hadd.
    { apply goint_facts.add_id. unfold goint.inInt, goint.minInt, goint.maxInt in *.
      lia. }
    cbn [terminal.instantiate terminal.New] in Hi. rewrite Hadd in Hi.
    destruct i as [|i].
    + simpl in Hi. inversion Hi; subst. simpl. lia.
    + simpl in Hi. apply IH in Hi; [lia| unfold goint.minInt in *; lia | lia].
Qed.

(** C5.  A tick whose identity is not the model's is dropped: [Update]
    returns the model as it is and no command, whatever the sinks hold.
    Identities come from a counter that [New] increments: as long as the
    counter does not leave the integer range, the i-th instantiation gets
    the counter's start value plus i + 1, so identities are strictly
    increasing, and a tick started by one instantiation is dropped by every
    other. *)
Theorem stale_tick_ignored_and_ids_increase (render : styles.Styles)
    (σ : gmap nat sink.sharedOutput) (between : list sink.SinkOp)
    (m : terminal.Model) (id counter : Z) (cfg : config.Config)
    (titles : list string) :
  id <> terminal.ID m ->
  goint.minInt <= counter ->
  counter + goint.len titles <= goint.maxInt ->
  let ms := terminal.instantiate counter cfg titles in
  terminal.Update render σ between m (terminal.TickMsg id)
    = Some (m, terminal.nilCmd) /\
  (forall i a, ms !! i = Some a -> terminal.ID a = counter + 1 + Z.of_nat i) /\
  (forall i j a b, (i < j)%nat -> ms !! i = Some a -> ms !! j = Some b ->
     terminal.ID a < terminal.ID b) /\
  (forall i j a b, i <> j -> ms !! i = Some a -> ms !! j = Some b ->
     terminal.tick a = terminal.tickCmd (terminal.ID a) /\
     terminal.Update render σ between b (terminal.TickMsg (terminal.ID a))
       = Some (b, terminal.nilCmd)).
Proof.
  intros Hid Hlo Hhi ms.
  pose proof (instantiate_ids counter cfg titles Hlo Hhi) as Hids. fold ms in Hids.
  split; [|split; [exact Hids|split]].
  - simpl. by rewrite bool_decide_eq_true_2.
  - intros i j a b Hij Ha Hb. rewrite (Hids i a Ha), (Hids j b Hb). lia.
  - intros i j a b Hij Ha Hb. split; [reflexivity|].
    simpl. rewrite bool_decide_eq_true_2; [done|].
    rewrite (Hids i a Ha), (Hids j b Hb). lia.
Qed.

Lemma stale_tick_ignored_and_ids_increase_witness :
  let m := seqStarted.1.1.2 in
  7 <> terminal.ID m /\
  goint.minInt <= 0 /\
  0 + goint.len ["one"; "two"; "three"] <= goint.maxInt /\
  terminal.Update styles.plain (terminal.runGoroutine seqStarted.1.1.1
                                  seqStarted.1.2 6) [] m (terminal.TickMsg 7)
    = Some (m, terminal.nilCmd).
Proof.
  assert (7 <> terminal.ID seqStarted.1.1.2) as H1 by (vm_compute; discriminate).
  assert (goint.minInt <= 0) as H2 by (vm_compute; discriminate).
  assert (0 + goint.len ["one"; "two"; "three"] <= goint.maxInt) as H3
    by (vm_compute; discriminate).
  split; [exact H1|]. split; [exact H2|]. split; [exact H3|].
  exact (proj1 (stale_tick_ignored_and_ids_increase styles.plain
                  (terminal.runGoroutine seqStarted.1.1.1 seqStarted.1.2 6) []
                  seqStarted.1.1.2 7 0 defaultConfig ["one"; "two"; "three"]
                  H1 H2 H3)).
Defined.

Example instantiate_three :
  terminal.ID <$> terminal.instantiate 0 defaultConfig ["one"; "two"; "three"]
  = [1; 2; 3].
Proof. reflexivity. Qed.

(** At the end of the integer range the counter wraps around: the next
    identity is the smallest integer. *)
Example instantiate_at_maxInt :
  terminal.ID <$> terminal.instantiate goint.maxInt defaultConfig ["one"]
  = [goint.minInt].
Proof. reflexivity. Qed.

(** *** A program that cannot be started *)

(** Starting a program that does not exist still returns the tick command,
    with the model marked running and without error: nothing is reported to
    the caller of [RunCommand].  And when the TODO form opens its modal in
    such a world and the user closes it, the completion callback is invoked,
    with the empty output. *)
Lemma spawn_failure_starts_ticks_and_callback_fires :
  let '(σ, m, g, c) :=
    terminal.RunCommand styles.plain brokenWorld ∅
      (terminal.New 0 defaultConfig "t").2 "no-such-program" [] in
  (c = terminal.tickCmd 1 /\ c <> terminal.nilCmd /\
   terminal.Running m = true /\ terminal.Err m = None) /\
  match todo.openImprovePromptTerminal styles.plain brokenWorld 0 ∅ formModel with
  | Some (_, σ', g', opened, c') =>
      c' = todo.terminalCmd (terminal.tickCmd 1) /\
      exists closed,
        todo.run styles.plain id noOtherViews opened
          [todo.mkEvent (terminal.runGoroutine σ' g' 1) []
             (todo.KeyMsg (key "esc"))]
        = Some (closed, [EmptyString]) /\
        todo.CurrentView closed = todo.CreateView
  | None => False
  end.
Proof.
  vm_compute. split; [repeat split; discriminate|].
  split; [reflexivity|]. eexists. split; reflexivity.
Qed.

(** C6, as the code has it.  When the program cannot be started (a pipe
    cannot be created or [Start] fails), [RunCommandWithEnv] still returns
    the tick command and a model marked running, without error, whose buffer
    holds the header only.  The error travels through the sink: the runner
    goroutine makes a single write, [setDone] with the error, and no line is
    ever added, so the raw output is empty.  The first tick of the session
    after that write ends the tick loop: it records the error in the model,
    appends the empty line and the error status line, and schedules
    nothing. *)
Theorem spawn_error_travels_through_sink (render : styles.Styles)
    (w : terminal.World) (σ : gmap nat sink.sharedOutput) (m : terminal.Model)
    (env : option (list string)) (name : string) (args : list string)
    (e : GoError) :
  terminal.spawnError (terminal.exec w (terminal.Dir m) env name args) = Some e ->
  2 <= terminal.MaxLines m ->
  let r := terminal.RunCommandWithEnv render w σ m env name args in
  let σ1 := r.1.1.1 in
  let m1 := r.1.1.2 in
  let g := r.1.2 in
  let p := terminal.target g in
  let σ2 := terminal.runGoroutine σ1 g 1 in
  r.2 = terminal.tickCmd (terminal.ID m) /\
  terminal.Running m1 = true /\ terminal.Err m1 = None /\
  terminal.output m1 = Some p /\
  terminal.Lines m1 = terminal.header render m1 /\
  terminal.writes g = [sink.OpSetDone (Some e)] /\
  σ1 !!! p = sink.mkShared [] false None /\
  σ2 !!! p = sink.mkShared [] true (Some e) /\
  terminal.GetRawOutput σ1 m1 = EmptyString /\
  terminal.GetRawOutput σ2 m1 = EmptyString /\
  exists m2,
    terminal.handleTick render σ2 [] m1 = Some (m2, terminal.nilCmd) /\
    terminal.Running m2 = false /\ terminal.Err m2 = Some e /\
    terminal.Lines m2
    = terminal.header render m1
      ++ [EmptyString; styles.Error render ("Error: " +:+ ErrorString e)].
Proof.
  intros Hspawn HN r σ1 m1 g p σ2.
  assert (terminal.executeCommandStreaming w (terminal.Dir m) env name args
          = ([], Some e)) as Hexec.
  { unfold terminal.executeCommandStreaming.
    destruct (terminal.exec _ _ _ _ _); simpl in Hspawn; congruence. }
  assert (g = terminal.mkGoroutine (fresh (dom σ)) [sink.OpSetDone (Some e)])
    as Hg.
  { subst g r. unfold terminal.RunCommandWithEnv. cbn [fst snd terminal.Dir
      terminal.withCommand terminal.withRunning terminal.withLines
      terminal.withScrollPos terminal.withErr terminal.withOutput].
    by rewrite Hexec. }
  assert (p = fresh (dom σ)) as Hp by (subst p; by rewrite Hg).
  assert (σ1 = <[fresh (dom σ) := sink.mkShared [] false None]> σ) as Hσ1
    by reflexivity.
  assert (σ1 !!! p = sink.mkShared [] false None) as Hl1
    by (rewrite Hσ1, Hp; apply lookup_total_insert_eq).
  assert (σ2 !!! p = sink.mkShared [] true (Some e)) as Hl2.
  { subst σ2. unfold terminal.runGoroutine. fold p.
    rewrite lookup_total_insert_eq, Hl1, Hg. reflexivity. }
  assert (terminal.output m1 = Some p) as Hout by (by rewrite Hp).
  split; [reflexivity|]. split; [reflexivity|]. split; [reflexivity|].
  split; [exact Hout|]. split; [reflexivity|].
  split; [by rewrite Hg|]. split; [exact Hl1|]. split; [exact Hl2|].
  split; [unfold terminal.GetRawOutput; by rewrite Hout, Hl1|].
  split; [unfold terminal.GetRawOutput; by rewrite Hout, Hl2|].
  destruct (tick_facts.handleTick_spec render σ2 [] m1 p Hout)
    as (m2 & Hm2 & HL & HR & HE & _).
  - change (terminal.MaxLines m1) with (terminal.MaxLines m). lia.
  - rewrite Hl2. vm_compute. discriminate.
  - rewrite Hl2 in Hm2, HL, HR, HE. cbn [fst snd sink.isDone sink.applyOps
      foldl sink.done sink.err sink.getLines sink.lines] in Hm2, HL, HR, HE.
    exists m2. split; [exact Hm2|]. split; [exact HR|]. split; [exact HE|].
    rewrite HL. unfold terminal.rebuilt. cbn [sink.getLines sink.lines].
    change (goint.len [] >? 0) with false. cbv iota.
    change (terminal.Lines m1) with (terminal.header render m1).
    change (goint.len (terminal.header render m1)) with 2.
    replace (Z.to_nat (2 - terminal.MaxLines m1)) with 0%nat
      by (change (terminal.MaxLines m1) with (terminal.MaxLines m); lia).
    reflexivity.
Qed.

Lemma spawn_error_travels_through_sink_witness :
  let m := (terminal.New 0 defaultConfig "t").2 in
  terminal.spawnError
    (terminal.exec brokenWorld (terminal.Dir m) None "no-such-program" [])
  = Some notFound /\
  2 <= terminal.MaxLines m /\
  (terminal.RunCommandWithEnv styles.plain brokenWorld ∅ m None
     "no-such-program" []).2 = terminal.tickCmd (terminal.ID m).
Proof.
  assert (2 <= terminal.MaxLines (terminal.New 0 defaultConfig "t").2) as H2
    by (vm_compute; discriminate).
  split; [reflexivity|]. split; [exact H2|].
  exact (proj1 (spawn_error_travels_through_sink styles.plain brokenWorld ∅
                  (terminal.New 0 defaultConfig "t").2 None
                  "no-such-program" [] notFound eq_refl H2)).
Defined.

(** *** The raw output *)

Lemma interleave_nil_r {A} (sched : list bool) (a : list A) :
  terminal.interleave sched a [] = a.
Proof.
  destruct sched as [|b sched]; simpl.
  - apply app_nil_r.
  - by destruct a.
Qed.

(** A tick never changes which sink the model holds. *)
Lemma handleTick_output render σ between m m' c :
  terminal.handleTick render σ between m = Some (m', c) ->
  terminal.output m' = terminal.output m.
Proof.
  unfold terminal.handleTick.
  destruct (terminal.output m) as [p|] eqn:Hout; [|intros [= <- _]; done].
  set (m1 := if _ >? 0 then _ else m).
  assert (terminal.output m1 = Some p) as H1
    by (subst m1; destruct (_ >? _); done).
  destruct (if _ >? terminal.MaxLines m1 then _ else _) as [ls|]; [|done].
  destruct (sink.isDone _) as [dn er].
  destruct dn; [destruct er|]; intros [= <- _];
    repeat match goal with
           | |- context [if ?b then _ else _] => destruct b
           end; exact H1.
Qed.

(** C7.  The raw output is the newline-join of the lines in the sink
    and depends on nothing else in the model: not on the display buffer, the
    limit or the scroll state, and a tick - which rewrites and trims the
    buffer and appends status lines - leaves it as it is.  For a command
    that prints "line1" then "line2" on its standard output and exits with
    status 0, once the runner has finished the raw output is "line1",
    newline, "line2", and the tick that follows ends the loop with the
    success status line as the buffer's last line. *)
Theorem raw_output_joins_sink_lines (render : styles.Styles)
    (σ : gmap nat sink.sharedOutput) (m : terminal.Model) (p : nat)
    (w : terminal.World) (σ0 : gmap nat sink.sharedOutput)
    (m0 : terminal.Model) (env : option (list string)) (name : string)
    (args : list string) :
  terminal.output m = Some p ->
  terminal.exec w (terminal.Dir m0) env name args
    = terminal.Started ["line1"; "line2"] [] None ->
  0 <= terminal.MaxLines m0 ->
  (terminal.GetRawOutput σ m
   = String.concat terminal.newline (sink.lines (σ !!! p)) /\
   (forall ls pos limit,
      terminal.GetRawOutput σ
        (terminal.withLines ls
           (terminal.withScrollPos pos (terminal.withMaxLines limit m)))
      = terminal.GetRawOutput σ m) /\
   (forall between m' c σ',
      terminal.handleTick render σ between m = Some (m', c) ->
      terminal.GetRawOutput σ' m' = terminal.GetRawOutput σ' m)) /\
  let r := terminal.RunCommandWithEnv render w σ0 m0 env name args in
  let m1 := r.1.1.2 in
  let g := r.1.2 in
  let σ2 := terminal.runGoroutine r.1.1.1 g (length (terminal.writes g)) in
  terminal.writes g
    = [sink.OpAddLine "line1"; sink.OpAddLine "line2"; sink.OpSetDone None] /\
  σ2 !!! terminal.target g = sink.mkShared ["line1"; "line2"] true None /\
  terminal.GetRawOutput σ2 m1 = "line1" +:+ terminal.newline +:+ "line2" /\
  exists m2,
    terminal.handleTick render σ2 [] m1 = Some (m2, terminal.nilCmd) /\
    terminal.Running m2 = false /\ terminal.Err m2 = None /\
    last (terminal.Lines m2)
      = Some (styles.Selected render "✓ Command completed") /\
    terminal.GetRawOutput σ2 m2 = "line1" +:+ terminal.newline +:+ "line2".
Proof.
  intros Hout Hexec HN. split.
  - split; [|split].
    + unfold terminal.GetRawOutput. by rewrite Hout.
    + reflexivity.
    + intros between m' c σ' Htick. unfold terminal.GetRawOutput.
      by rewrite (handleTick_output _ _ _ _ _ _ Htick).
  - intros r m1 g σ2.
    assert (terminal.writes g
            = [sink.OpAddLine "line1"; sink.OpAddLine "line2";
               sink.OpSetDone None]) as Hw.
    { subst g r. unfold terminal.RunCommandWithEnv, terminal.executeCommandStreaming.
      cbn [fst snd terminal.Dir terminal.withCommand terminal.withRunning
           terminal.withLines terminal.withScrollPos terminal.withErr
           terminal.withOutput].
      rewrite Hexec. cbn [terminal.readPipeToOutput map].
      by rewrite interleave_nil_r. }
    assert (terminal.target g = fresh (dom σ0)) as Hp.
    { subst g r. unfold terminal.RunCommandWithEnv.
      by destruct (terminal.executeCommandStreaming _ _ _ _ _). }
    assert (r.1.1.1 = <[fresh (dom σ0) := sink.mkShared [] false None]> σ0)
      as Hσ1 by reflexivity.
    assert (σ2 !!! terminal.target g
            = sink.mkShared ["line1"; "line2"] true None) as Hl2.
    { subst σ2. unfold terminal.runGoroutine.
      rewrite lookup_total_insert_eq, Hσ1, Hp, lookup_total_insert_eq, Hw.
      reflexivity. }
    assert (terminal.output m1 = Some (terminal.target g)) as Hout1
      by (by rewrite Hp).
    assert (terminal.GetRawOutput σ2 m1
            = "line1" +:+ terminal.newline +:+ "line2") as Hraw.
    { unfold terminal.GetRawOutput. by rewrite Hout1, Hl2. }
    split; [exact Hw|]. split; [exact Hl2|]. split; [exact Hraw|].
    destruct (tick_facts.handleTick_spec render σ2 [] m1 _ Hout1)
      as (m2 & Hm2 & HL & HR & HE & _ & _ & _ & _ & _ & Ho).
    + change (terminal.MaxLines m1) with (terminal.MaxLines m0). lia.
    + rewrite Hl2. vm_compute. discriminate.
    + rewrite Hl2 in Hm2, HL, HR, HE.
      cbn [fst snd sink.isDone sink.applyOps foldl sink.done sink.err]
        in Hm2, HL, HR, HE.
      exists m2. split; [exact Hm2|]. split; [exact HR|]. split; [exact HE|].
      split.
      * rewrite HL, last_app. reflexivity.
      * unfold terminal.GetRawOutput in *. by rewrite Ho.
Qed.

Lemma raw_output_joins_sink_lines_witness :
  let '(σ, m, g, _) := seqStarted in
  let m0 := (terminal.New 0 defaultConfig "t").2 in
  terminal.output m = Some 0%nat /\
  terminal.exec twoLinesWorld (terminal.Dir m0) None "printf" ["line1\nline2\n"]
    = terminal.Started ["line1"; "line2"] [] None /\
  0 <= terminal.MaxLines m0 /\
  terminal.GetRawOutput (terminal.runGoroutine σ g 6) m
  = String.concat terminal.newline
      (sink.lines (terminal.runGoroutine σ g 6 !!! 0%nat)).
Proof.
  assert (0 <= terminal.MaxLines (terminal.New 0 defaultConfig "t").2) as H3
    by (vm_compute; discriminate).
  pose proof (raw_output_joins_sink_lines styles.plain
    (terminal.runGoroutine seqStarted.1.1.1 seqStarted.1.2 6)
    seqStarted.1.1.2 0%nat twoLinesWorld ∅
    (terminal.New 0 defaultConfig "t").2 None "printf" ["line1\nline2\n"]
    eq_refl eq_refl H3) as [[H _] _].
  split; [reflexivity|]. split; [reflexivity|]. split; [exact H3|]. exact H.
Defined.

(** The scenario, run: the raw output of [seq 5] stays whole while the
    display buffer, limited to three lines, has lost the first two. *)
Example raw_output_of_seq :
  let '(σ, m, g, _) := seqStarted in
  let σ' := terminal.runGoroutine σ g 6 in
  terminal.GetRawOutput σ' m
  = String.concat terminal.newline ["1"; "2"; "3"; "4"; "5"] /\
  (fun r => terminal.GetRawOutput σ' r.1)
    <$> terminal.handleTick styles.plain σ' [] m
  = Some (String.concat terminal.newline ["1"; "2"; "3"; "4"; "5"]).
Proof. vm_compute. split; reflexivity. Qed.

(** ** The completion callback *)

Module todo_facts.

Import todo.

Section Callback.
Variable render : styles.Styles.
Variable TrimSpace : string -> string.
Variable otherViews : Model -> terminal.KeyMsg -> Model * Cmd.

Local Abbreviation Update := (Update render TrimSpace otherViews).
Local Abbreviation UpdateTerminalView := (UpdateTerminalView render TrimSpace).
Local Abbreviation run := (run render TrimSpace otherViews).
Local Abbreviation sessions := (sessions render TrimSpace otherViews).

(** A close clears the callback, and only a close with a callback set
    invokes anything: the callback that was set, once, with the raw
    output. *)
Lemma UpdateTerminalView_callback σ b n k s :
  UpdateTerminalView σ b n k = Some s ->
  (terminal.ShouldClose (Terminal n) k = true ->
     TerminalCallback (model s) = None /\
     CurrentView (model s) = PreviousView n /\
     invoked s = match TerminalCallback n with
                 | Some _ => [terminal.GetRawOutput σ (Terminal n)]
                 | None => []
                 end) /\
  (terminal.ShouldClose (Terminal n) k = false ->
     TerminalCallback (model s) = TerminalCallback n /\ invoked s = []).
Proof.
  unfold todo.UpdateTerminalView.
  destruct (terminal.ShouldClose (Terminal n) k) eqn:Hc.
  - destruct (TerminalCallback n) as [[idx]|]; simpl.
    + destruct (_ && _); intros [= <-]; (split; [intros _|done]); done.
    + intros [= <-]. split; [intros _|done]. done.
  - destruct (terminal.Update _ _ _ _ _) as [[t c]|]; [|done].
    intros [= <-]. split; [done|]. intros _. done.
Qed.

(** A key that does not close the modal leaves the view as it is. *)
Lemma UpdateTerminalView_view σ b n k s :
  UpdateTerminalView σ b n k = Some s ->
  terminal.ShouldClose (Terminal n) k = false ->
  CurrentView (model s) = CurrentView n.
Proof.
  unfold todo.UpdateTerminalView. intros Hs Hc. rewrite Hc in Hs.
  destruct (terminal.Update _ _ _ _ _) as [[t c]|]; [|done].
  by injection Hs as <-.
Qed.

(** Only a close in the terminal view, while a callback is set, invokes
    anything. *)
Lemma Update_invokes σ b n msg s :
  Update σ b n msg = Some s ->
  invoked s = [] \/
  (exists k cb,
     msg = KeyMsg k /\ CurrentView n = TerminalView /\
     terminal.ShouldClose (Terminal n) k = true /\
     TerminalCallback n = Some cb /\
     invoked s = [terminal.GetRawOutput σ (Terminal n)] /\
     TerminalCallback (model s) = None).
Proof.
  unfold todo.Update. destruct msg as [w h| | | | |id|k].
  1-5: intros [= <-]; left; done.
  - destruct (bool_decide _).
    + destruct (terminal.Update _ _ _ _ _) as [[t c]|]; [|done].
      intros [= <-]. left. done.
    + intros [= <-]. left. done.
  - unfold handleKeyMsg.
    destruct (CurrentView n) eqn:Hv.
    1-6: destruct (otherViews n k) as [n' c]; intros [= <-]; left; done.
    intros Hs. destruct (UpdateTerminalView_callback _ _ _ _ _ Hs) as [H1 H2].
    destruct (terminal.ShouldClose (Terminal n) k) eqn:Hc.
    + destruct (H1 eq_refl) as (Hcb & _ & Hi).
      destruct (TerminalCallback n) as [cb|] eqn:Hn.
      * right. exists k, cb. done.
      * left. done.
    + destruct (H2 eq_refl) as [Hcb Hi]. left. done.
Qed.

(** Only the key handler of another view switches to the terminal view. *)
Lemma Update_opens σ b n msg s :
  Update σ b n msg = Some s -> opens n s = true ->
  exists k,
    msg = KeyMsg k /\ CurrentView n <> TerminalView /\
    model s = (otherViews n k).1 /\ invoked s = [].
Proof.
  unfold opens. intros Hs Ho.
  apply andb_true_iff in Ho as [Hn Hv].
  apply negb_true_iff, bool_decide_eq_false in Hn.
  apply bool_decide_eq_true in Hv.
  unfold todo.Update in Hs. destruct msg as [w h| | | | |id|k].
  1-5: injection Hs as <-; simpl in Hv; try done.
  - rewrite bool_decide_eq_false_2 in Hs by done.
    injection Hs as <-. done.
  - exists k. unfold handleKeyMsg in Hs.
    destruct (CurrentView n) eqn:Hc; try done;
      destruct (otherViews n k) as [n' c]; injection Hs as <-; done.
Qed.

(** A step that opens no session keeps it so, and invokes nothing. *)
Lemma Update_idle σ b n msg s :
  Update σ b n msg = Some s -> opens n s = false -> idle n ->
  idle (model s) /\ invoked s = [].
Proof.
  unfold opens, idle. intros Hs Ho Hidle.
  unfold todo.Update in Hs. destruct msg as [w h| | | | |id|k].
  1-3: injection Hs as <-; done.
  1-2: injection Hs as <-; split; [right|]; done.
  - destruct (bool_decide _).
    + destruct (terminal.Update _ _ _ _ _) as [[t c]|]; [|done].
      injection Hs as <-. done.
    + injection Hs as <-. done.
  - unfold handleKeyMsg in Hs.
    destruct (decide (CurrentView n = TerminalView)) as [Hv|Hv].
    + rewrite Hv in Hs.
      destruct Hidle as [Hcb|Hne]; [|done].
      destruct (UpdateTerminalView_callback _ _ _ _ _ Hs) as [H1 H2].
      destruct (terminal.ShouldClose (Terminal n) k) eqn:Hc.
      * destruct (H1 eq_refl) as (Hcb' & _ & Hi).
        rewrite Hcb in Hi. split; [by left|done].
      * destruct (H2 eq_refl) as [Hcb' Hi].
        split; [left; congruence|done].
    + rewrite bool_decide_eq_false_2 in Ho by done. simpl in Ho.
      apply bool_decide_eq_false in Ho.
      assert (exists n' c, s = mkStep n' c [] /\ (n', c) = otherViews n k)
        as (n' & c & -> & _).
      { destruct (CurrentView n); try done;
          destruct (otherViews n k) as [n' c]; injection Hs as <-;
          by exists n', c. }
      split; [by right|done].
Qed.

(** The sessions of a run hold its invocations, in order. *)
Lemma run_sessions n evs n' calls :
  run n evs = Some (n', calls) ->
  exists groups, sessions n evs = Some (n', groups) /\ concat groups = calls.
Proof.
  revert n calls. induction evs as [|ev evs IH]; intros n calls; simpl.
  - intros [= <- <-]. by exists [[]].
  - destruct (Update _ _ n _) as [s|] eqn:Hs; [|done].
    destruct (todo.run _ _ _ (model s) evs) as [[n2 calls2]|] eqn:Hr; [|done].
    intros [= <- <-].
    destruct (IH _ _ Hr) as (groups & -> & <-).
    destruct (opens n s).
    + by eexists.
    + destruct groups as [|g gs]; eexists; (split; [reflexivity|]); simpl.
      * by rewrite app_nil_r.
      * by rewrite app_assoc.
Qed.

(** Every session has at most one invocation, and none while nothing is
    pending. *)
Lemma sessions_at_most_once n evs n' groups :
  sessions n evs = Some (n', groups) ->
  Forall (fun g => (length g <= 1)%nat) groups /\
  (idle n -> head groups = Some []).
Proof.
  revert n n' groups.
  induction evs as [|ev evs IH]; intros n n' groups; simpl.
  - intros [= <- <-]. split; [|done]. constructor; [simpl; lia|constructor].
  - destruct (Update _ _ n _) as [s|] eqn:Hs; [|done].
    destruct (todo.sessions _ _ _ (model s) evs) as [[n2 groups2]|] eqn:Hr;
      [|done].
    destruct (IH _ _ _ Hr) as [Hall Hhead].
    destruct (opens n s) eqn:Ho.
    + intros [= <- <-].
      destruct (Update_opens _ _ _ _ _ Hs Ho) as (k & _ & _ & _ & ->).
      split; [|done]. constructor; [simpl; lia|done].
    + destruct (Update_invokes _ _ _ _ _ Hs)
        as [Hi|(k & cb & _ & Hv & _ & Hcb & Hi & Hnone)].
      * rewrite Hi. destruct groups2 as [|g gs]; intros [= <- <-].
        { split; [|done]. constructor; [simpl; lia|constructor]. }
        split; [done|]. intros Hidle.
        destruct (Update_idle _ _ _ _ _ Hs Ho Hidle) as [Hidle' _].
        by apply Hhead.
      * rewrite Hi. specialize (Hhead (or_introl Hnone)).
        destruct groups2 as [|g gs]; [done|].
        injection Hhead as ->. intros [= <- <-].
        split.
        -- apply Forall_cons in Hall as [_ Hall].
           constructor; [simpl; lia|done].
        -- intros [Hidle|Hidle]; congruence.
Qed.

End Callback.

End todo_facts.

(** *** At most one invocation per session *)

(** C8.  In every run of updates, whatever the key handlers of the other
    views do, each modal session sees at most one invocation of the
    completion callback.  The invocations of the run fall into sessions,
    in order; a session is opened by the step that switches to the terminal
    view, which only the key handler of another view does (in the
    repository: [openImprovePromptTerminal], from the form); every session
    holds at most one invocation, nothing is invoked before the first
    session is opened unless the run starts inside one, and a run that
    opens no session invokes at most once.  An invocation happens only in
    the terminal view, on a key that closes the modal, while a callback is
    set; it passes the raw output of the modal's sink; and that same step
    leaves the callback field empty, as every close does. *)
Theorem callback_invoked_at_most_once (render : styles.Styles)
    (TrimSpace : string -> string)
    (otherViews : todo.Model -> terminal.KeyMsg -> todo.Model * todo.Cmd)
    (m : todo.Model) (evs : list todo.Event) (m' : todo.Model)
    (calls : list string) :
  todo.run render TrimSpace otherViews m evs = Some (m', calls) ->
  (exists groups,
     todo.sessions render TrimSpace otherViews m evs = Some (m', groups) /\
     concat groups = calls /\
     Forall (fun g => (length g <= 1)%nat) groups /\
     (todo.TerminalCallback m = None \/
      todo.CurrentView m <> todo.TerminalView -> head groups = Some []) /\
     (length groups = 1%nat -> (length calls <= 1)%nat)) /\
  (forall σ b n msg s,
     todo.Update render TrimSpace otherViews σ b n msg = Some s ->
     todo.invoked s <> [] ->
     exists k cb,
       msg = todo.KeyMsg k /\ todo.CurrentView n = todo.TerminalView /\
       terminal.ShouldClose (todo.Terminal n) k = true /\
       todo.TerminalCallback n = Some cb /\
       todo.invoked s = [terminal.GetRawOutput σ (todo.Terminal n)] /\
       todo.TerminalCallback (todo.model s) = None) /\
  (forall σ b n msg s,
     todo.Update render TrimSpace otherViews σ b n msg = Some s ->
     todo.opens n s = true ->
     exists k,
       msg = todo.KeyMsg k /\ todo.CurrentView n <> todo.TerminalView /\
       todo.model s = (otherViews n k).1 /\ todo.invoked s = []) /\
  (forall σ b n k s,
     todo.UpdateTerminalView render TrimSpace σ b n k = Some s ->
     terminal.ShouldClose (todo.Terminal n) k = true ->
     todo.TerminalCallback (todo.model s) = None).
Proof.
  intros Hrun.
  split; [|split; [|split]].
  - destruct (todo_facts.run_sessions render TrimSpace otherViews _ _ _ _ Hrun)
      as (groups & Hs & Hc).
    destruct (todo_facts.sessions_at_most_once render TrimSpace otherViews
                _ _ _ _ Hs) as [Hall Hhead].
    exists groups. split; [exact Hs|]. split; [exact Hc|].
    split; [exact Hall|]. split; [exact Hhead|].
    intros Hone. destruct groups as [|g [|g2 gs]]; try done.
    apply Forall_cons in Hall as [Hg _].
    rewrite <- Hc. simpl. by rewrite app_nil_r.
  - intros σ b n msg s Hs Hi.
    destruct (todo_facts.Update_invokes render TrimSpace otherViews
                _ _ _ _ _ Hs) as [Hnil|H]; [congruence|exact H].
  - intros σ b n msg s Hs Ho.
    exact (todo_facts.Update_opens render TrimSpace otherViews _ _ _ _ _ Hs Ho).
  - intros σ b n k s Hs Hc.
    by destruct (proj1 (todo_facts.UpdateTerminalView_callback render TrimSpace
                          _ _ _ _ _ Hs) Hc).
Qed.

Lemma callback_invoked_at_most_once_witness :
  exists m' calls groups,
    todo.run styles.plain id improveOnEveryKey formModel twoSessions
      = Some (m', calls) /\
    todo.sessions styles.plain id improveOnEveryKey formModel twoSessions
      = Some (m', groups) /\
    Forall (fun g => (length g <= 1)%nat) groups.
Proof.
  destruct (todo.run styles.plain id improveOnEveryKey formModel twoSessions)
    as [[m' calls]|] eqn:E.
  - exists m', calls.
    destruct (proj1 (callback_invoked_at_most_once styles.plain id
                       improveOnEveryKey formModel twoSessions m' calls E))
      as (groups & Hs & _ & Hall & _).
    exists groups. split; [reflexivity|]. split; [exact Hs|exact Hall].
  - vm_compute in E. discriminate E.
Defined.

(** Two sessions opened by the form: two invocations in the run, one in
    each session, none before the first one is opened. *)
Example twoSessions_run :
  let out := ("line1" +:+ terminal.newline +:+ "line2")%string in
  exists m',
    todo.run styles.plain id improveOnEveryKey formModel twoSessions
      = Some (m', [out; out]) /\
    todo.sessions styles.plain id improveOnEveryKey formModel twoSessions
      = Some (m', [[]; [out]; [out]]) /\
    todo.TerminalCallback m' = None.
Proof. vm_compute. eexists. repeat split. Qed.

(** One session, closed twice: the second close finds no callback. *)
Example openedForm_run :
  todo.TerminalCallback openedForm = Some (todo.improvePromptCallback 0) /\
  todo.CurrentView openedForm = todo.TerminalView /\
  exists m',
    todo.run styles.plain id noOtherViews openedForm closeTwice
      = Some (m', ["line1" +:+ terminal.newline +:+ "line2"]) /\
    todo.sessions styles.plain id noOtherViews openedForm closeTwice
      = Some (m', [["line1" +:+ terminal.newline +:+ "line2"]]) /\
    todo.TerminalCallback m' = None.
Proof. vm_compute. repeat split. eexists. repeat split. Qed.

(** What that session does: one invocation, with the two lines joined; the
    callback stores them as the improved prompt and the form is back. *)
Example improveSession_run :
  exists m',
    improveSession
      = Some (m', ["line1" +:+ terminal.newline +:+ "line2"]) /\
    todo.FormPrompts m' = ["line1" +:+ terminal.newline +:+ "line2"] /\
    todo.CurrentView m' = todo.CreateView /\
    todo.Improving m' = false /\
    todo.TerminalCallback m' = None.
Proof. vm_compute. eexists. repeat split. Qed.

(** * Further properties *)

(** ** The runner's writes *)

Module runner_facts.

Import terminal terminal_ext.

Lemma interleave_sublist_l {A} (sched : list bool) (a b : list A) :
  a `sublist_of` interleave sched a b.
Proof.
  revert a b. induction sched as [|pick sched IH]; intros a b; simpl.
  - by apply sublist_inserts_r.
  - destruct a as [|x a]; [apply sublist_nil_l|].
    destruct b as [|y b]; [done|].
    destruct pick.
    + by apply sublist_skip.
    + apply sublist_cons. apply IH.
Qed.

Lemma interleave_sublist_r {A} (sched : list bool) (a b : list A) :
  b `sublist_of` interleave sched a b.
Proof.
  revert a b. induction sched as [|pick sched IH]; intros a b; simpl.
  - by apply sublist_inserts_l.
  - destruct a as [|x a]; [done|].
    destruct b as [|y b]; [apply sublist_nil_l|].
    destruct pick.
    + apply sublist_cons. apply IH.
    + by apply sublist_skip.
Qed.

Lemma interleave_Permutation {A} (sched : list bool) (a b : list A) :
  interleave sched a b ≡ₚ a ++ b.
Proof.
  revert a b. induction sched as [|pick sched IH]; intros a b; simpl.
  - done.
  - destruct a as [|x a]; [done|].
    destruct b as [|y b]; [by rewrite app_nil_r|].
    destruct pick.
    + simpl. by rewrite IH.
    + rewrite IH. by rewrite Permutation_middle.
Qed.

Lemma interleave_map {A B} (f : A -> B) (sched : list bool) (a b : list A) :
  interleave sched (map f a) (map f b) = map f (interleave sched a b).
Proof.
  revert a b. induction sched as [|pick sched IH]; intros a b; simpl.
  - by rewrite map_app.
  - destruct a as [|x a]; [done|].
    destruct b as [|y b]; [done|].
    destruct pick; simpl; f_equal.
    + apply (IH a (y :: b)).
    + apply (IH (x :: a) b).
Qed.

Lemma writes_shape render w σ m env name args :
  writes (RunCommandWithEnv render w σ m env name args).1.2
  = map sink.OpAddLine (mergedLines w (Dir m) env name args)
    ++ [sink.OpSetDone (exitError w (Dir m) env name args)].
Proof.
  unfold RunCommandWithEnv, executeCommandStreaming, mergedLines, exitError.
  cbn [fst snd Dir withCommand withRunning withLines withScrollPos withErr
       withOutput].
  destruct (exec w (Dir m) env name args); cbn [writes]; try reflexivity.
  unfold readPipeToOutput. by rewrite interleave_map.
Qed.

Lemma sinkAfter_shape g ls e n :
  writes g = map sink.OpAddLine ls ++ [sink.OpSetDone e] ->
  sinkAfter g n =
  if decide (n <= length ls)%nat then sink.mkShared (take n ls) false None
  else sink.mkShared ls true e.
Proof.
  intros Hw. unfold sinkAfter. rewrite Hw.
  destruct (decide (n <= length ls)%nat) as [Hn|Hn].
  - rewrite take_app_le by (rewrite length_map; lia).
    rewrite firstn_map, sink_facts.applyOps_addLines. done.
  - rewrite take_ge by (rewrite length_app, length_map; simpl; lia).
    rewrite sink_facts.applyOps_app, sink_facts.applyOps_addLines. done.
Qed.

End runner_facts.

(** X1.  When the program starts, what the sink holds once the runner has
    finished is a merge of what the two readers were handed: the lines the
    scanner of standard output returned appear in their order, so do the
    lines the scanner of standard error returned, none of them is lost and
    nothing is added; completion is recorded with the result of [Wait].
    How the two readers interleave is up to the schedule.  Lines a scanner
    does not return never reach the sink, and nothing records that. *)
Theorem runner_merges_streams_in_order (render : styles.Styles)
    (w : terminal.World) (σ : gmap nat sink.sharedOutput) (m : terminal.Model)
    (env : option (list string)) (name : string) (args : list string)
    (stdout stderr : list string) (wait : option GoError) :
  terminal.exec w (terminal.Dir m) env name args
    = terminal.Started stdout stderr wait ->
  let r := terminal.RunCommandWithEnv render w σ m env name args in
  let g := r.1.2 in
  let final := terminal.runGoroutine r.1.1.1 g (length (terminal.writes g))
                 !!! terminal.target g in
  final = terminal_ext.sinkAfter g (length (terminal.writes g)) /\
  stdout `sublist_of` sink.lines final /\
  stderr `sublist_of` sink.lines final /\
  sink.lines final ≡ₚ stdout ++ stderr /\
  sink.isDone final = (true, wait).
Proof.
  intros Hexec r g final.
  pose proof (runner_facts.writes_shape render w σ m env name args) as Hw.
  fold r g in Hw.
  unfold terminal_ext.mergedLines, terminal_ext.exitError in Hw.
  rewrite Hexec in Hw.
  assert (final = terminal_ext.sinkAfter g (length (terminal.writes g))) as Hf.
  { subst final. unfold terminal.runGoroutine, terminal_ext.sinkAfter.
    rewrite lookup_total_insert_eq. f_equal.
    subst g r. unfold terminal.RunCommandWithEnv.
    destruct (terminal.executeCommandStreaming _ _ _ _ _).
    apply lookup_total_insert_eq. }
  split; [exact Hf|]. rewrite Hf.
  rewrite (runner_facts.sinkAfter_shape g _ _ _ Hw).
  rewrite Hw, length_app, length_map. simpl.
  destruct (decide _) as [Hn|Hn]; [lia|]. simpl.
  split; [apply runner_facts.interleave_sublist_l|].
  split; [apply runner_facts.interleave_sublist_r|].
  split; [apply runner_facts.interleave_Permutation|done].
Qed.

Lemma runner_merges_streams_in_order_witness :
  let m := (terminal.New 0 defaultConfig "t").2 in
  let r := terminal.RunCommandWithEnv styles.plain mixedWorld ∅ m None
             "make" [] in
  terminal.exec mixedWorld (terminal.Dir m) None "make" []
    = terminal.Started ["cc a.c"; "cc b.c"; "ld"] ["warning: x"; "error: y"]
        (Some exitStatus1) /\
  ["cc a.c"; "cc b.c"; "ld"]
    `sublist_of`
    sink.lines (terminal.runGoroutine r.1.1.1 r.1.2
                  (length (terminal.writes r.1.2)) !!! terminal.target r.1.2).
Proof.
  split; [reflexivity|].
  exact (proj1 (proj2 (runner_merges_streams_in_order styles.plain mixedWorld ∅
                  (terminal.New 0 defaultConfig "t").2 None "make" []
                  ["cc a.c"; "cc b.c"; "ld"] ["warning: x"; "error: y"]
                  (Some exitStatus1) eq_refl))).
Defined.

(** That run, under the schedule of [mixedWorld]. *)
Example mixedWorld_run :
  sink.lines
    (terminal_ext.sinkAfter
       (terminal.RunCommandWithEnv styles.plain mixedWorld ∅
          (terminal.New 0 defaultConfig "t").2 None "make" []).1.2 6)
  = ["cc a.c"; "warning: x"; "error: y"; "cc b.c"; "ld"].
Proof. reflexivity. Qed.

(** X2.  Whatever the outcome of the invocation, the runner sets the
    completion flag with its very last write: the flag is set after [n]
    writes exactly when all writes have been made, from then on the sink no
    longer changes, and before that every state of the sink holds a prefix
    of the final lines. *)
Theorem runner_sets_done_last (render : styles.Styles)
    (w : terminal.World) (σ : gmap nat sink.sharedOutput) (m : terminal.Model)
    (env : option (list string)) (name : string) (args : list string) :
  let g := (terminal.RunCommandWithEnv render w σ m env name args).1.2 in
  let total := length (terminal.writes g) in
  (forall n, sink.done (terminal_ext.sinkAfter g n) = true <-> (total <= n)%nat) /\
  (forall n k, sink.done (terminal_ext.sinkAfter g n) = true ->
     terminal_ext.sinkAfter g (n + k) = terminal_ext.sinkAfter g n) /\
  (forall n k, sink.lines (terminal_ext.sinkAfter g n)
                 `prefix_of` sink.lines (terminal_ext.sinkAfter g (n + k))) /\
  sink.lines (terminal_ext.sinkAfter g total)
    = terminal_ext.mergedLines w (terminal.Dir m) env name args /\
  sink.err (terminal_ext.sinkAfter g total)
    = terminal_ext.exitError w (terminal.Dir m) env name args.
Proof.
  intros g total.
  pose proof (runner_facts.writes_shape render w σ m env name args) as Hw.
  fold g in Hw.
  set (ls := terminal_ext.mergedLines w (terminal.Dir m) env name args) in *.
  set (e := terminal_ext.exitError w (terminal.Dir m) env name args) in *.
  assert (total = S (length ls)) as Ht.
  { subst total. rewrite Hw, length_app, length_map. simpl. lia. }
  pose proof (runner_facts.sinkAfter_shape g ls e) as Hs.
  split; [|split; [|split; [|split]]].
  - intros n. rewrite (Hs n Hw), Ht.
    destruct (decide _); simpl; split; intros; try lia; done.
  - intros n k. rewrite (Hs n Hw), (Hs (n + k)%nat Hw).
    destruct (decide (n <= _)%nat); simpl; [done|]. intros _.
    destruct (decide _); [lia|done].
  - intros n k. rewrite (Hs n Hw), (Hs (n + k)%nat Hw).
    destruct (decide (n <= _)%nat); destruct (decide (n + k <= _)%nat);
      simpl; try lia.
    + replace (take n ls) with (take n (take (n + k) ls))
        by (rewrite take_take; f_equal; lia).
      apply prefix_take.
    + apply prefix_take.
    + done.
  - rewrite (Hs total Hw), Ht. destruct (decide _); [lia|done].
  - rewrite (Hs total Hw), Ht. destruct (decide _); [lia|done].
Qed.

(** X3.  Each invocation gets a sink of its own: [RunCommandWithEnv]
    allocates it at an address no sink had, empty and not done, keeps every
    other sink as it was, and the goroutine it starts writes to that sink
    only.  A later invocation, whenever it comes, gets a different one. *)
Theorem RunCommand_allocates_its_own_sink (render : styles.Styles)
    (w : terminal.World) (σ : gmap nat sink.sharedOutput) (m : terminal.Model)
    (env : option (list string)) (name : string) (args : list string) :
  let r := terminal.RunCommandWithEnv render w σ m env name args in
  let σ1 := r.1.1.1 in
  let g := r.1.2 in
  let p := terminal.target g in
  σ !! p = None /\
  terminal.output r.1.1.2 = Some p /\
  σ1 !! p = Some (sink.mkShared [] false None) /\
  (forall q, q <> p -> σ1 !! q = σ !! q) /\
  (forall n q, q <> p -> terminal.runGoroutine σ1 g n !! q = σ !! q) /\
  (forall n w' m' env' name' args',
     terminal.target
       (terminal.RunCommandWithEnv render w' (terminal.runGoroutine σ1 g n)
          m' env' name' args').1.2 <> p).
Proof.
  intros r σ1 g p.
  assert (p = fresh (dom σ)) as Hp.
  { subst p g r. unfold terminal.RunCommandWithEnv.
    by destruct (terminal.executeCommandStreaming _ _ _ _ _). }
  assert (σ1 = <[fresh (dom σ) := sink.mkShared [] false None]> σ) as Hσ1
    by reflexivity.
  assert (σ !! p = None) as Hnone.
  { rewrite Hp. apply not_elem_of_dom. apply is_fresh. }
  split; [exact Hnone|]. split; [by rewrite Hp|].
  split; [rewrite Hσ1, Hp; apply lookup_insert_eq|].
  split; [intros q Hq; rewrite Hσ1; apply lookup_insert_ne; congruence|].
  split.
  - intros n q Hq. unfold terminal.runGoroutine. fold p.
    rewrite lookup_insert_ne by congruence.
    rewrite Hσ1. apply lookup_insert_ne. congruence.
  - intros n w' m' env' name' args'.
    set (σ2 := terminal.runGoroutine σ1 g n).
    assert (terminal.target
              (terminal.RunCommandWithEnv render w' σ2 m' env' name' args').1.2
            = fresh (dom σ2)) as ->.
    { unfold terminal.RunCommandWithEnv.
      by destruct (terminal.executeCommandStreaming _ _ _ _ _). }
    intros Heq.
    assert (p ∈ dom σ2) as Hin.
    { subst σ2. unfold terminal.runGoroutine. fold p.
      rewrite dom_insert. apply elem_of_union. left. by apply elem_of_singleton. }
    rewrite <- Heq in Hin. by apply is_fresh in Hin.
Qed.

(** ** Strings *)

Module string_facts.

Lemma append_cons (c : ascii) (s t : string) :
  String c s +:+ t = String c (s +:+ t).
Proof. reflexivity. Qed.

Lemma append_nil_r (s : string) : s +:+ EmptyString = s.
Proof. induction s as [|c s IH]; [done|]. by rewrite append_cons, IH. Qed.

Lemma append_assoc (a b c : string) : (a +:+ b) +:+ c = a +:+ (b +:+ c).
Proof. induction a as [|x a IH]; [done|]. by rewrite !append_cons, IH. Qed.

Lemma length_append (a b : string) :
  String.length (a +:+ b) = (String.length a + String.length b)%nat.
Proof.
  induction a as [|x a IH]; [done|]. rewrite append_cons. simpl. by rewrite IH.
Qed.

(** [strings.Join] of two non-empty pieces: the separator goes between
    them. *)
Lemma concat_app (sep : string) (l k : list string) :
  l <> [] -> k <> [] ->
  String.concat sep (l ++ k)
  = String.concat sep l +:+ sep +:+ String.concat sep k.
Proof.
  intros Hl Hk. induction l as [|x l IH]; [done|].
  destruct l as [|y l].
  - simpl. destruct k as [|z k]; [done|]. reflexivity.
  - change (String.concat sep ((x :: y :: l) ++ k))
      with (x +:+ sep +:+ String.concat sep ((y :: l) ++ k)).
    rewrite IH by done.
    change (String.concat sep (x :: y :: l))
      with (x +:+ sep +:+ String.concat sep (y :: l)).
    by rewrite !append_assoc.
Qed.

End string_facts.

(** ** More on ticks *)

Module tick_more.

Import goint goint_facts terminal terminal_ext.

Lemma Model_eq (a b : Model) :
  ID a = ID b -> Title a = Title b -> Command a = Command b ->
  Dir a = Dir b -> Lines a = Lines b -> ScrollPos a = ScrollPos b ->
  MaxLines a = MaxLines b -> Running a = Running b -> Err a = Err b ->
  AutoScroll a = AutoScroll b -> Width a = Width b -> Height a = Height b ->
  Config a = Config b -> output a = output b -> a = b.
Proof. destruct a, b. simpl. intros. by subst. Qed.

(** What a tick never touches. *)
Lemma handleTick_frame render σ between m m' c :
  handleTick render σ between m = Some (m', c) ->
  Title m' = Title m /\ Command m' = Command m /\ Dir m' = Dir m /\
  Width m' = Width m /\ Config m' = Config m /\ Height m' = Height m /\
  MaxLines m' = MaxLines m /\ ID m' = ID m /\ output m' = output m /\
  AutoScroll m' = AutoScroll m.
Proof.
  unfold handleTick.
  destruct (output m) as [p|] eqn:Hout;
    [|intros [= <- _]; rewrite Hout; auto 10].
  set (m1 := if _ >? 0 then _ else m).
  assert (Title m1 = Title m /\ Command m1 = Command m /\ Dir m1 = Dir m /\
          Width m1 = Width m /\ Config m1 = Config m /\ Height m1 = Height m /\
          MaxLines m1 = MaxLines m /\ ID m1 = ID m /\ output m1 = output m /\
          AutoScroll m1 = AutoScroll m) as H1
    by (subst m1; destruct (_ >? _); auto 10).
  destruct (if _ >? MaxLines m1 then _ else _) as [ls|]; [|done].
  destruct (sink.isDone _) as [dn er].
  destruct H1 as (?&?&?&?&?&?&?&?&?&?).
  destruct dn; [destruct er|]; intros [= <- _];
    repeat match goal with
           | |- context [if ?b then _ else _] => destruct b eqn:?
           end; repeat split; cbn; congruence.
Qed.

Lemma GetOutput_lines m :
  GetOutput m = String.concat newline (GetOutputLines m).
Proof. unfold GetOutput, GetOutputLines. by destruct (_ <=? _). Qed.

(** What a read after the step finds in the modal's sink. *)
Lemma written_lookup σ between m p :
  output m = Some p ->
  written σ between m !!! p = sink.applyOps (σ !!! p) between.
Proof. unfold written. intros ->. apply lookup_total_insert_eq. Qed.

Lemma GetRawOutput_written σ between m p :
  output m = Some p ->
  GetRawOutput (written σ between m) m
  = String.concat newline (sink.lines (sink.applyOps (σ !!! p) between)).
Proof.
  intros Ho. unfold GetRawOutput. rewrite Ho.
  by rewrite (written_lookup _ _ _ _ Ho).
Qed.

(** With no write in between, it finds what the step saw. *)
Lemma GetRawOutput_written_nil σ m :
  GetRawOutput (written σ [] m) m = GetRawOutput σ m.
Proof.
  unfold GetRawOutput. destruct (output m) as [p|] eqn:Ho; [|done].
  by rewrite (written_lookup _ _ _ _ Ho).
Qed.

End tick_more.

(** X4.  Ticking a finished session again.  When the sink is done and
    holds at least one line, a tick rebuilds the buffer from the header and
    the snapshot, so a second tick gives back the very same model: the status
    line is not duplicated and nothing is rescheduled.  When the sink is done
    and holds no line the buffer is not rebuilt, and each tick appends the
    empty line and the status line once more. *)
Theorem tick_on_finished_session (render : styles.Styles)
    (σ : gmap nat sink.sharedOutput) (m : terminal.Model) (p : nat) :
  terminal.output m = Some p ->
  0 <= terminal.MaxLines m ->
  sink.done (σ !!! p) = true ->
  goint.len (sink.lines (σ !!! p)) + 4 <= goint.maxInt ->
  goint.len (terminal.Lines m) + 4 <= goint.maxInt ->
  exists m1 m2,
    terminal.handleTick render σ [] m = Some (m1, terminal.nilCmd) /\
    terminal.handleTick render σ [] m1 = Some (m2, terminal.nilCmd) /\
    terminal.Running m1 = false /\
    (sink.lines (σ !!! p) <> [] -> m2 = m1) /\
    (sink.lines (σ !!! p) = [] ->
     goint.len (terminal.Lines m) + 4 <= terminal.MaxLines m ->
     terminal.Lines m1
       = terminal.Lines m
         ++ [EmptyString; terminal.statusLine render (sink.err (σ !!! p))] /\
     terminal.Lines m2
       = terminal.Lines m1
         ++ [EmptyString; terminal.statusLine render (sink.err (σ !!! p))]).
Proof.
  intros Hout HN Hdone Hlen Hfit.
  set (snap := sink.getLines (σ !!! p)).
  assert (goint.len snap + 4 <= goint.maxInt) as Hlen' by exact Hlen.
  pose proof (goint_facts.len_nonneg (terminal.Lines m)) as HL0.
  assert (forall n, terminal.Command n = terminal.Command m ->
            goint.len (terminal.Lines n) <= goint.maxInt ->
            goint.len (terminal.rebuilt render n snap) <= goint.maxInt) as Hb.
  { intros n Hc Hl. unfold terminal.rebuilt. destruct (_ >? _); [|done].
    rewrite goint_facts.len_app. change (goint.len (terminal.header _ _)) with 2.
    lia. }
  assert (goint.maxInt = 2 ^ 63 - 1) as HmaxInt by reflexivity.
  destruct (tick_facts.handleTick_spec render σ [] m p Hout HN)
    as (m1 & Hm1 & HL1 & HR1 & HE1 & HS1 & HA1 & HM1 & HH1 & HI1 & HO1).
  { apply Hb; [done|]. lia. }
  destruct (tick_more.handleTick_frame _ _ _ _ _ _ Hm1)
    as (HT1 & HC1 & HD1 & HW1 & HCf1 & _).
  fold snap in HL1.
  cbn [sink.applyOps foldl sink.isDone fst snd] in Hm1, HL1, HR1, HE1.
  rewrite Hdone in Hm1, HL1, HR1, HE1.
  assert (goint.len (terminal.Lines m1) <= goint.maxInt) as HL1len.
  { rewrite HL1, goint_facts.len_app, tick_facts.len_drop by done.
    change (goint.len [_; _]) with 2.
    assert (goint.len (terminal.rebuilt render m snap) + 2 <= goint.maxInt);
      [|lia].
    unfold terminal.rebuilt. destruct (_ >? _); [|lia].
    rewrite goint_facts.len_app. change (goint.len (terminal.header _ _)) with 2.
    lia. }
  destruct (tick_facts.handleTick_spec render σ [] m1 p)
    as (m2 & Hm2 & HL2 & HR2 & HE2 & HS2 & HA2 & HM2 & HH2 & HI2 & HO2).
  { congruence. }
  { by rewrite HM1. }
  { apply Hb; [done|]. lia. }
  destruct (tick_more.handleTick_frame _ _ _ _ _ _ Hm2)
    as (HT2 & HC2 & HD2 & HW2 & HCf2 & _).
  fold snap in HL2.
  cbn [sink.applyOps foldl sink.isDone fst snd] in Hm2, HL2, HR2, HE2.
  rewrite Hdone in Hm2, HL2, HR2, HE2.
  exists m1, m2. split; [exact Hm1|]. split; [exact Hm2|]. split; [exact HR1|].
  split.
  - intros Hne.
    assert (terminal.rebuilt render m1 snap = terminal.rebuilt render m snap)
      as Hreb.
    { unfold terminal.rebuilt, terminal.header. rewrite HC1.
      assert ((goint.len snap >? 0) = true) as ->; [|done].
      apply Z.gtb_lt. unfold goint.len. subst snap. unfold sink.getLines.
      destruct (sink.lines (σ !!! p)); [done|]. simpl. lia. }
    assert (terminal.Lines m2 = terminal.Lines m1) as HLeq
      by (rewrite HL2, HL1, Hreb, HM1; done).
    apply tick_more.Model_eq; try congruence.
    rewrite HS2, HS1, HA1. destruct (terminal.AutoScroll m); [|done].
    unfold terminal.maxScroll, terminal.visibleLines. by rewrite HLeq, HH2.
  - intros Hnil Hroom.
    assert (snap = []) as Hs by exact Hnil.
    assert (terminal.rebuilt render m snap = terminal.Lines m) as Hr1
      by (unfold terminal.rebuilt; by rewrite Hs).
    assert (terminal.rebuilt render m1 snap = terminal.Lines m1) as Hr2
      by (unfold terminal.rebuilt; by rewrite Hs).
    rewrite Hr1 in HL1. rewrite Hr2, HM1 in HL2.
    replace (Z.to_nat (goint.len (terminal.Lines m) - terminal.MaxLines m))
      with 0%nat in HL1 by lia.
    rewrite drop_0 in HL1.
    replace (Z.to_nat (goint.len (terminal.Lines m1) - terminal.MaxLines m))
      with 0%nat in HL2
      by (rewrite HL1, goint_facts.len_app; change (goint.len [_; _]) with 2;
          lia).
    split; [exact HL1|exact HL2].
Qed.

Lemma tick_on_finished_session_witness :
  let '(σ, m, g, _) := seqStarted in
  let σ' := terminal.runGoroutine σ g 6 in
  terminal.output m = Some 0%nat /\
  0 <= terminal.MaxLines m /\
  sink.done (σ' !!! 0%nat) = true /\
  goint.len (sink.lines (σ' !!! 0%nat)) + 4 <= goint.maxInt /\
  goint.len (terminal.Lines m) + 4 <= goint.maxInt /\
  exists m1 m2,
    terminal.handleTick styles.plain σ' [] m = Some (m1, terminal.nilCmd) /\
    terminal.handleTick styles.plain σ' [] m1 = Some (m2, terminal.nilCmd).
Proof.
  assert (0 <= terminal.MaxLines seqStarted.1.1.2) as H2
    by (vm_compute; discriminate).
  assert (goint.len (sink.lines
            (terminal.runGoroutine seqStarted.1.1.1 seqStarted.1.2 6 !!! 0%nat))
          + 4 <= goint.maxInt) as H4 by (vm_compute; discriminate).
  assert (goint.len (terminal.Lines seqStarted.1.1.2) + 4 <= goint.maxInt)
    as H5 by (vm_compute; discriminate).
  destruct (tick_on_finished_session styles.plain
              (terminal.runGoroutine seqStarted.1.1.1 seqStarted.1.2 6)
              seqStarted.1.1.2 0%nat eq_refl H2 eq_refl H4 H5)
    as (m1 & m2 & Ha & Hb & _).
  repeat split; try assumption.
  exists m1, m2. split; assumption.
Defined.

(** ** The display output *)

(** X5.  When the command has printed something and the header, the
    snapshot and the status lines fit the limit, the display output after
    the completing tick is the tick's snapshot of the sink followed by an
    empty line and the status line, and no further tick is scheduled.  The
    raw output read after the tick holds every line of the sink, the
    snapshot first.  So the display output is the raw output plus the
    status lines exactly when no line reached the sink between the tick's
    snapshot and its completion check: [GetOutput] includes the status
    messages, [GetRawOutput] does not, and a line that lands during the
    completing tick is in the raw output only. *)
Theorem display_output_is_raw_output_plus_status (render : styles.Styles)
    (σ : gmap nat sink.sharedOutput) (between : list sink.SinkOp)
    (m : terminal.Model) (p : nat) :
  terminal.output m = Some p ->
  sink.lines (σ !!! p) <> [] ->
  sink.done (sink.applyOps (σ !!! p) between) = true ->
  goint.len (sink.lines (σ !!! p)) + 2 <= terminal.MaxLines m ->
  goint.len (sink.lines (σ !!! p)) + 2 <= goint.maxInt ->
  let snapshot := sink.lines (σ !!! p) in
  let final := sink.applyOps (σ !!! p) between in
  let status := terminal.statusLine render (sink.err final) in
  exists m',
    terminal.handleTick render σ between m = Some (m', terminal.nilCmd) /\
    let σ' := terminal_ext.written σ between m' in
    terminal_ext.GetOutputLines m' = snapshot ++ [EmptyString; status] /\
    terminal.GetOutput m'
      = String.concat terminal.newline snapshot +:+ terminal.newline
        +:+ EmptyString +:+ terminal.newline +:+ status /\
    terminal_ext.GetRawOutputLines σ' m' = sink.lines final /\
    terminal.GetRawOutput σ' m'
      = String.concat terminal.newline (sink.lines final) /\
    snapshot `prefix_of` sink.lines final /\
    (terminal_ext.GetOutputLines m'
       = terminal_ext.GetRawOutputLines σ' m' ++ [EmptyString; status]
     <-> sink.lines final = snapshot) /\
    (sink.lines final = snapshot ->
     terminal.GetOutput m'
       = terminal.GetRawOutput σ' m' +:+ terminal.newline +:+ EmptyString
         +:+ terminal.newline +:+ status).
Proof.
  intros Hout Hne Hdone Hfit Hlen snapshot final status.
  set (snap := sink.lines (σ !!! p)) in *.
  pose proof (goint_facts.len_nonneg snap) as H0.
  assert ((goint.len snap >? 0) = true) as Hpos.
  { apply Z.gtb_lt. unfold goint.len. destruct snap; [done|]. simpl. lia. }
  assert (terminal.rebuilt render m snap = terminal.header render m ++ snap)
    as Hreb by (unfold terminal.rebuilt; by rewrite Hpos).
  destruct (tick_facts.handleTick_spec render σ between m p Hout)
    as (m' & Hm' & HL & _ & _ & _ & _ & _ & _ & _ & HO).
  { lia. }
  { change (sink.getLines (σ !!! p)) with snap. rewrite Hreb.
    rewrite goint_facts.len_app. change (goint.len (terminal.header _ _)) with 2.
    lia. }
  change (sink.getLines (σ !!! p)) with snap in HL. rewrite Hreb in HL.
  cbn [sink.isDone fst snd] in Hm', HL. fold final in Hm', HL, Hdone.
  rewrite Hdone in Hm', HL.
  fold status in HL.
  replace (Z.to_nat (goint.len (terminal.header render m ++ snap)
                     - terminal.MaxLines m)) with 0%nat in HL
    by (rewrite goint_facts.len_app;
        change (goint.len (terminal.header _ _)) with 2; lia).
  rewrite drop_0 in HL.
  assert (terminal_ext.GetOutputLines m' = snap ++ [EmptyString; status]) as HG.
  { unfold terminal_ext.GetOutputLines. rewrite HL.
    rewrite !goint_facts.len_app.
    change (goint.len (terminal.header _ _)) with 2.
    change (goint.len [_; _]) with 2.
    destruct (Z.leb_spec (2 + goint.len snap + 2) 2) as [Hle|_]; [lia|].
    reflexivity. }
  assert (terminal.output m' = Some p) as Hout' by (by rewrite HO).
  assert (terminal_ext.GetRawOutputLines (terminal_ext.written σ between m') m'
          = sink.lines final) as HR.
  { unfold terminal_ext.GetRawOutputLines. rewrite Hout'.
    by rewrite (tick_more.written_lookup _ _ _ _ Hout'). }
  assert (terminal.GetOutput m'
          = String.concat terminal.newline snap +:+ terminal.newline
            +:+ EmptyString +:+ terminal.newline +:+ status) as HGO.
  { rewrite tick_more.GetOutput_lines, HG.
    rewrite string_facts.concat_app by done. reflexivity. }
  exists m'. split; [exact Hm'|]. cbv zeta.
  split; [exact HG|]. split; [exact HGO|]. split; [exact HR|].
  split; [exact (tick_more.GetRawOutput_written _ _ _ _ Hout')|].
  split; [apply sink_facts.lines_applyOps|].
  split.
  - rewrite HG, HR. split.
    + intros Heq. apply app_inv_tail in Heq. done.
    + by intros ->.
  - intros Heq. rewrite HGO.
    rewrite (tick_more.GetRawOutput_written _ _ _ _ Hout').
    fold final. rewrite Heq. reflexivity.
Qed.

Lemma display_output_is_raw_output_plus_status_witness :
  let m := (terminal.RunCommand styles.plain twoLinesWorld ∅
              (terminal.New 0 defaultConfig "t").2 "printf" []).1.1.2 in
  terminal.output m = Some 0%nat /\
  sink.lines (oneLineSinks !!! 0%nat) <> [] /\
  sink.done (sink.applyOps (oneLineSinks !!! 0%nat) lastWrites) = true /\
  goint.len (sink.lines (oneLineSinks !!! 0%nat)) + 2 <= terminal.MaxLines m /\
  goint.len (sink.lines (oneLineSinks !!! 0%nat)) + 2 <= goint.maxInt /\
  exists m',
    terminal.handleTick styles.plain oneLineSinks lastWrites m
      = Some (m', terminal.nilCmd) /\
    terminal_ext.GetOutputLines m'
      = ["line1"; EmptyString; "✓ Command completed"] /\
    terminal_ext.GetRawOutputLines
      (terminal_ext.written oneLineSinks lastWrites m') m'
      = ["line1"; "line2"].
Proof.
  set (m := (terminal.RunCommand styles.plain twoLinesWorld ∅
               (terminal.New 0 defaultConfig "t").2 "printf" []).1.1.2).
  assert (sink.lines (oneLineSinks !!! 0%nat) <> []) as H2
    by (vm_compute; discriminate).
  assert (goint.len (sink.lines (oneLineSinks !!! 0%nat)) + 2
          <= terminal.MaxLines m) as H4 by (vm_compute; discriminate).
  assert (goint.len (sink.lines (oneLineSinks !!! 0%nat)) + 2 <= goint.maxInt)
    as H5 by (vm_compute; discriminate).
  destruct (display_output_is_raw_output_plus_status styles.plain oneLineSinks
              lastWrites m 0%nat eq_refl H2 eq_refl H4 H5)
    as (m' & Ha & Hb & _ & Hc & _).
  repeat split; try assumption.
  exists m'. split; [exact Ha|]. split.
  - etrans; [exact Hb|reflexivity].
  - etrans; [exact Hc|reflexivity].
Defined.

(** The same tick when both lines are in the sink before it: the display
    output is the raw output and the status lines. *)
Example finishedSinks_tick :
  let m := (terminal.RunCommand styles.plain twoLinesWorld ∅
              (terminal.New 0 defaultConfig "t").2 "printf" []).1.1.2 in
  exists m',
    terminal.handleTick styles.plain finishedSinks [] m
      = Some (m', terminal.nilCmd) /\
    terminal_ext.GetOutputLines m'
      = ["line1"; "line2"; EmptyString; "✓ Command completed"] /\
    terminal_ext.GetRawOutputLines (terminal_ext.written finishedSinks [] m') m'
      = ["line1"; "line2"].
Proof. vm_compute. eexists. repeat split. Qed.

(** X6.  Once the snapshot has reached the limit, the buffer no longer
    starts with the header, and [GetOutput], which always skips the first two
    buffer lines, leaves out the two oldest output lines the buffer still
    holds: with a limit of N (at least 2) and at least N output lines it
    returns the last N - 2 of them, followed by the status lines on the
    completing tick. *)
Theorem display_output_after_trimming (render : styles.Styles)
    (σ : gmap nat sink.sharedOutput) (between : list sink.SinkOp)
    (m : terminal.Model) (p : nat) :
  terminal.output m = Some p ->
  2 <= terminal.MaxLines m <= goint.len (sink.lines (σ !!! p)) ->
  goint.len (sink.lines (σ !!! p)) + 2 <= goint.maxInt ->
  let snap := sink.lines (σ !!! p) in
  let st := sink.isDone (sink.applyOps (σ !!! p) between) in
  let status := if st.1 then [EmptyString; terminal.statusLine render st.2]
                else [] in
  exists m' c,
    terminal.handleTick render σ between m = Some (m', c) /\
    terminal_ext.GetOutputLines m'
      = drop (Z.to_nat (goint.len snap - terminal.MaxLines m) + 2) snap
        ++ status /\
    terminal.GetOutput m'
      = String.concat terminal.newline
          (drop (Z.to_nat (goint.len snap - terminal.MaxLines m) + 2) snap
           ++ status) /\
    terminal_ext.GetRawOutputLines σ m' = snap.
Proof.
  intros Hout [HN2 HN] Hlen snap st status.
  fold snap in HN, Hlen.
  pose proof (goint_facts.len_nonneg snap) as H0.
  assert ((goint.len snap >? 0) = true) as Hpos by (apply Z.gtb_lt; lia).
  assert (terminal.rebuilt render m snap = terminal.header render m ++ snap)
    as Hreb by (unfold terminal.rebuilt; by rewrite Hpos).
  destruct (tick_facts.handleTick_spec render σ between m p Hout)
    as (m' & Hm' & HL & _ & _ & _ & _ & _ & _ & _ & HO).
  { lia. }
  { change (sink.getLines (σ !!! p)) with snap. rewrite Hreb.
    rewrite goint_facts.len_app. change (goint.len (terminal.header _ _)) with 2.
    lia. }
  change (sink.getLines (σ !!! p)) with snap in HL. rewrite Hreb in HL.
  fold st in Hm', HL. fold status in HL.
  set (k := Z.to_nat (goint.len snap - terminal.MaxLines m)) in *.
  replace (Z.to_nat (goint.len (terminal.header render m ++ snap)
                     - terminal.MaxLines m)) with (S (S k)) in HL
    by (rewrite goint_facts.len_app;
        change (goint.len (terminal.header _ _)) with 2; lia).
  change (drop (S (S k)) (terminal.header render m ++ snap))
    with (drop k snap) in HL.
  assert (goint.len (drop k snap) = terminal.MaxLines m) as Hk.
  { unfold goint.len in *. rewrite length_drop. lia. }
  assert (terminal_ext.GetOutputLines m' = drop (k + 2) snap ++ status) as HG.
  { unfold terminal_ext.GetOutputLines. rewrite HL, goint_facts.len_app, Hk.
    rewrite <- drop_drop.
    assert ((2 <= length (drop k snap))%nat) as Hlk
      by (unfold goint.len in Hk; lia).
    destruct (Z.leb_spec (terminal.MaxLines m + goint.len status) 2) as [Hle|Hgt].
    - assert (status = []) as Hs.
      { pose proof (goint_facts.len_nonneg status).
        destruct status as [|x s']; [done|].
        unfold goint.len in Hle. simpl in Hle. lia. }
      rewrite Hs in *. rewrite app_nil_r.
      symmetry. apply drop_ge. unfold goint.len in *. simpl in Hle. lia.
    - by rewrite drop_app_le. }
  exists m', (if st.1 then terminal.nilCmd else terminal.tick m).
  split; [exact Hm'|]. split; [exact HG|].
  split; [by rewrite tick_more.GetOutput_lines, HG|].
  unfold terminal_ext.GetRawOutputLines. by rewrite HO, Hout.
Qed.

Lemma display_output_after_trimming_witness :
  let '(σ, m, g, _) := seqStarted in
  let σ' := terminal.runGoroutine σ g 5 in
  terminal.output m = Some 0%nat /\
  2 <= terminal.MaxLines m <= goint.len (sink.lines (σ' !!! 0%nat)) /\
  goint.len (sink.lines (σ' !!! 0%nat)) + 2 <= goint.maxInt /\
  exists m' c,
    terminal.handleTick styles.plain σ' [] m = Some (m', c) /\
    terminal_ext.GetOutputLines m' = ["5"] /\
    terminal_ext.GetRawOutputLines σ' m' = ["1"; "2"; "3"; "4"; "5"].
Proof.
  assert (2 <= terminal.MaxLines seqStarted.1.1.2
          <= goint.len (sink.lines
               (terminal.runGoroutine seqStarted.1.1.1 seqStarted.1.2 5
                  !!! 0%nat))) as H2 by (vm_compute; split; discriminate).
  assert (goint.len (sink.lines
            (terminal.runGoroutine seqStarted.1.1.1 seqStarted.1.2 5 !!! 0%nat))
          + 2 <= goint.maxInt) as H3 by (vm_compute; discriminate).
  destruct (display_output_after_trimming styles.plain
              (terminal.runGoroutine seqStarted.1.1.1 seqStarted.1.2 5) []
              seqStarted.1.1.2 0%nat eq_refl H2 H3)
    as (m' & c & Ha & Hb & _ & Hc).
  repeat split; try assumption; try (apply H2).
  exists m', c. split; [exact Ha|].
  split; [etrans; [exact Hb|reflexivity] | etrans; [exact Hc|reflexivity]].
Defined.

(** ** Key matching *)

Module config_facts.

Import config.

Lemma substring_all (s : string) : substring 0 (String.length s) s = s.
Proof. induction s as [|c s IH]; [done|]. simpl. by rewrite IH. Qed.

(** A binding that starts with "shift+" is that prefix followed by what
    [normalizeBinding] calls the letter. *)
Lemma shift_prefix (b : string) :
  String.prefix "shift+" b = true ->
  b = "shift+" +:+ substring 6 (String.length b - 6) b.
Proof.
  intros H. apply prefix_correct in H. cbn [String.length] in H.
  do 6 (destruct b as [|? b]; [discriminate H|];
        cbn [substring] in H; injection H as -> H).
  cbn [String.length Nat.sub substring].
  rewrite Nat.sub_0_r, substring_all. reflexivity.
Qed.

Lemma normalizeBinding_shift (c : ascii) :
  isLowerLetter c = true ->
  normalizeBinding ("shift+" +:+ String c EmptyString)
  = String (toUpperLetter c) EmptyString.
Proof. intros H. unfold normalizeBinding. simpl. by rewrite H. Qed.

Lemma normalizeBinding_other (b : string) :
  (forall c, isLowerLetter c = true -> b <> "shift+" +:+ String c EmptyString) ->
  normalizeBinding b = b.
Proof.
  intros H. unfold normalizeBinding.
  destruct (String.prefix "shift+" b) eqn:Hp; [|done].
  pose proof (shift_prefix b Hp) as Hb.
  destruct (substring 6 (String.length b - 6) b) as [|c [|d rest]]; try done.
  destruct (isLowerLetter c) eqn:Hc; [|done].
  exfalso. by apply (H c Hc).
Qed.

End config_facts.

(** X7.  A key matches a binding exactly when it equals it, with one
    exception: the binding "shift+" followed by a single lowercase letter is
    matched by the corresponding uppercase letter, and by nothing else - not
    even by its own text. *)
Theorem Matches_is_equality_up_to_shift (key : string) :
  (forall c, config.isLowerLetter c = true ->
     (config.Matches key ("shift+" +:+ String c EmptyString) = true <->
      key = String (config.toUpperLetter c) EmptyString) /\
     config.Matches ("shift+" +:+ String c EmptyString)
       ("shift+" +:+ String c EmptyString) = false) /\
  (forall b,
     (forall c, config.isLowerLetter c = true ->
        b <> "shift+" +:+ String c EmptyString) ->
     (config.Matches key b = true <-> key = b)).
Proof.
  split.
  - intros c Hc. unfold config.Matches.
    rewrite (config_facts.normalizeBinding_shift c Hc). split.
    + apply String.eqb_eq.
    + apply String.eqb_neq. intros H. inversion H.
  - intros b Hb. unfold config.Matches.
    rewrite (config_facts.normalizeBinding_other b Hb). apply String.eqb_eq.
Qed.

(** X8.  [MatchesAny] holds exactly when the key matches one of the
    bindings; with no binding it never holds. *)
Theorem MatchesAny_is_some_Matches (key : string) (bindings : list string) :
  (config.MatchesAny key bindings = true <->
   exists b, In b bindings /\ config.Matches key b = true) /\
  config.MatchesAny key bindings = existsb (config.Matches key) bindings /\
  config.MatchesAny key [] = false.
Proof.
  assert (config.MatchesAny key bindings
          = existsb (config.Matches key) bindings) as He.
  { induction bindings as [|b bs IH]; [done|]. simpl. unfold config.Matches.
    destruct (String.eqb key (config.normalizeBinding b)); [done|exact IH]. }
  split; [|split; [exact He|done]].
  rewrite He. rewrite existsb_exists. reflexivity.
Qed.

Lemma Matches_is_equality_up_to_shift_witness :
  config.isLowerLetter "g" = true /\
  config.Matches "G" ("shift+" +:+ String "g" EmptyString) = true.
Proof.
  split; [reflexivity|].
  exact (proj2 (proj1 (proj1 (Matches_is_equality_up_to_shift "G")
                         "g"%char eq_refl)) eq_refl).
Defined.

(** ** What keys and resizes leave alone *)

(** X9.  A key or a resize never touches the display buffer, the run
    state, the error, the sink, the limit or the session identity, and never
    schedules a command; a key leaves the size alone, a resize the scroll
    state. *)
Theorem keys_and_resizes_leave_session_alone (render : styles.Styles)
    (σ : gmap nat sink.sharedOutput) (between : list sink.SinkOp)
    (m : terminal.Model) (e : viewport.Event) :
  exists m',
    terminal.Update render σ between m (viewport.toMsg e)
      = Some (m', terminal.nilCmd) /\
    terminal.Lines m' = terminal.Lines m /\
    terminal.Running m' = terminal.Running m /\
    terminal.Err m' = terminal.Err m /\
    terminal.output m' = terminal.output m /\
    terminal.MaxLines m' = terminal.MaxLines m /\
    terminal.ID m' = terminal.ID m /\
    terminal.Command m' = terminal.Command m /\
    match e with
    | viewport.Key _ =>
        terminal.Width m' = terminal.Width m /\
        terminal.Height m' = terminal.Height m
    | viewport.Resize _ _ =>
        terminal.ScrollPos m' = terminal.ScrollPos m /\
        terminal.AutoScroll m' = terminal.AutoScroll m
    end.
Proof.
  exists (viewport.apply m e). split; [apply viewport_facts.Update_event|].
  destruct e as [k|w h]; cbn [viewport.apply].
  - rewrite terminal_facts.handleKey_perform. cbn [fst].
    destruct (viewport.keyOp (terminal.Config m) k) as [op|]; [|auto 10].
    destruct op; unfold viewport.perform; cbn zeta;
      repeat match goal with
             | |- context [if ?b then _ else _] => destruct b
             end; cbn; auto 10.
  - unfold terminal.SetSize. cbn zeta.
    repeat match goal with
           | |- context [if ?b then _ else _] => destruct b
           end; cbn; auto 10.
Qed.

(** ** The TODO component and its modal *)

(** X10.  Closing the modal ends the polling: once a close has brought the
    component back to another view, every tick - whatever its identity and
    whatever the sinks hold by then - leaves the component as it is, invokes
    nothing and schedules nothing, while the runner may still be writing. *)
Theorem ticks_after_close_are_dropped (render : styles.Styles)
    (TrimSpace : string -> string)
    (otherViews : todo.Model -> terminal.KeyMsg -> todo.Model * todo.Cmd)
    (σ : gmap nat sink.sharedOutput) (between : list sink.SinkOp)
    (m : todo.Model) (k : terminal.KeyMsg) :
  terminal.ShouldClose (todo.Terminal m) k = true ->
  todo.PreviousView m <> todo.TerminalView ->
  exists s,
    todo.UpdateTerminalView render TrimSpace σ between m k = Some s /\
    todo.cmd s = todo.terminalCmd terminal.nilCmd /\
    todo.CurrentView (todo.model s) = todo.PreviousView m /\
    forall σ' between' id,
      todo.Update render TrimSpace otherViews σ' between' (todo.model s)
        (todo.TickMsg id)
      = Some (todo.mkStep (todo.model s) (todo.terminalCmd terminal.nilCmd) []).
Proof.
  intros Hc Hv. unfold todo.UpdateTerminalView. rewrite Hc.
  assert (forall n calls,
    todo.PreviousView n = todo.PreviousView m ->
    exists s,
      Some (todo.mkStep
              (todo.withTerminalCallback None
                 (todo.withCurrentView (todo.PreviousView n) n))
              (todo.terminalCmd terminal.nilCmd) calls) = Some s /\
      todo.cmd s = todo.terminalCmd terminal.nilCmd /\
      todo.CurrentView (todo.model s) = todo.PreviousView m /\
      forall σ' between' id,
        todo.Update render TrimSpace otherViews σ' between' (todo.model s)
          (todo.TickMsg id)
        = Some (todo.mkStep (todo.model s)
                  (todo.terminalCmd terminal.nilCmd) [])) as Hgen.
  { intros n calls Hp. eexists. split; [reflexivity|]. cbn.
    split; [done|]. split; [done|]. intros σ' b' id.
    rewrite Hp. rewrite bool_decide_eq_false_2 by done. reflexivity. }
  destruct (todo.TerminalCallback m) as [[idx]|]; cbn [todo.call].
  - destruct (_ && _); apply Hgen; reflexivity.
  - apply Hgen. reflexivity.
Qed.

Lemma ticks_after_close_are_dropped_witness :
  terminal.ShouldClose (todo.Terminal openedForm) (key "esc") = true /\
  todo.PreviousView openedForm <> todo.TerminalView /\
  exists s,
    todo.UpdateTerminalView styles.plain id finishedSinks [] openedForm
      (key "esc") = Some s /\
    todo.cmd s = todo.terminalCmd terminal.nilCmd.
Proof.
  assert (todo.PreviousView openedForm <> todo.TerminalView) as H2
    by discriminate.
  destruct (ticks_after_close_are_dropped styles.plain id noOtherViews
              finishedSinks [] openedForm (key "esc") eq_refl H2)
    as (s & Hs & Hc & _).
  split; [reflexivity|]. split; [exact H2|]. exists s. split; assumption.
Defined.

(** X11.  The improve-prompt session, from opening to closing.  Opening
    succeeds exactly when the selected prompt index is within the prompts; it
    switches to the terminal view and remembers the view it came from.  When
    the modal is then closed, the callback has put the trimmed raw output in
    the place of the prompt that was selected at opening and of no other
    (unless the trimmed output is empty: then the prompts are as they were),
    the improving flag is off and the component is back in the view it came
    from. *)
Theorem improve_session_replaces_selected_prompt (render : styles.Styles)
    (TrimSpace : string -> string) (w : terminal.World) (counter : Z)
    (σ : gmap nat sink.sharedOutput) (m : todo.Model)
    (σ' : gmap nat sink.sharedOutput) (between : list sink.SinkOp)
    (k : terminal.KeyMsg) :
  terminal.ShouldClose
    (terminal.New counter (todo.Config m) "Improve Prompt").2 k = true ->
  let inRange := (0 <=? todo.FormPromptIdx m)
                 && (todo.FormPromptIdx m <? goint.len (todo.FormPrompts m)) in
  match todo.openImprovePromptTerminal render w counter σ m with
  | None => inRange = false
  | Some (counter', σ1, g, opened, c) =>
      inRange = true /\
      todo.CurrentView opened = todo.TerminalView /\
      todo.PreviousView opened = todo.CurrentView m /\
      todo.Improving opened = true /\
      c = todo.terminalCmd (terminal.tickCmd (terminal.ID (todo.Terminal opened))) /\
      exists s,
        todo.UpdateTerminalView render TrimSpace σ' between opened k = Some s /\
        let raw := terminal.GetRawOutput σ' (todo.Terminal opened) in
        todo.invoked s = [raw] /\
        todo.FormPrompts (todo.model s)
          = (if String.eqb (TrimSpace raw) EmptyString then todo.FormPrompts m
             else <[Z.to_nat (todo.FormPromptIdx m) := TrimSpace raw]>
                    (todo.FormPrompts m)) /\
        length (todo.FormPrompts (todo.model s)) = length (todo.FormPrompts m) /\
        todo.Improving (todo.model s) = false /\
        todo.CurrentView (todo.model s) = todo.CurrentView m /\
        todo.TerminalCallback (todo.model s) = None
  end.
Proof.
  intros Hclose inRange. subst inRange. unfold todo.openImprovePromptTerminal.
  cbn [todo.FormPromptIdx todo.FormPrompts todo.withImproving].
  destruct (_ && _) eqn:Hr; [|reflexivity].
  unfold terminal.RunCommand, terminal.RunCommandWithEnv.
  cbn -[terminal.SetSize terminal.GetRawOutput
        terminal.executeCommandStreaming Z.leb Z.ltb goint.len].
  repeat (split; [reflexivity|]).
  unfold todo.UpdateTerminalView.
  assert (forall t w0 h0,
            terminal.Config (terminal.SetSize t w0 h0) = terminal.Config t)
    as HCfg by (intros; apply terminal_facts.SetSize_frame).
  assert (forall t, terminal.Config t = todo.Config m ->
            terminal.ShouldClose t k = true) as Hsc.
  { intros t Ht. unfold terminal.ShouldClose in *. rewrite Ht. exact Hclose. }
  cbn [todo.Terminal todo.withTerminal].
  rewrite Hsc by (cbn -[terminal.SetSize]; rewrite HCfg; reflexivity).
  cbn [todo.TerminalCallback todo.withTerminal todo.call].
  set (raw := terminal.GetRawOutput σ' _).
  apply andb_prop in Hr as [Hlo Hhi].
  cbn -[terminal.SetSize Z.leb Z.ltb Z.geb goint.len raw].
  rewrite Z.geb_leb, Hlo, Hhi.
  destruct (String.eqb (TrimSpace raw) EmptyString) eqn:He;
    cbn -[terminal.SetSize]; eexists; (split; [reflexivity|]);
    cbn -[terminal.SetSize]; repeat split; try done.
  by rewrite length_insert.
Qed.

Lemma improve_session_replaces_selected_prompt_witness :
  terminal.ShouldClose
    (terminal.New 0 (todo.Config formModel) "Improve Prompt").2 (key "q")
  = true /\
  match todo.openImprovePromptTerminal styles.plain twoLinesWorld 0 ∅ formModel
  with
  | Some (_, _, _, opened, _) => todo.CurrentView opened = todo.TerminalView
  | None => False
  end.
Proof.
  split; [reflexivity|].
  pose proof (improve_session_replaces_selected_prompt styles.plain id
                twoLinesWorld 0 ∅ formModel finishedSinks [] (key "q") eq_refl)
    as H.
  destruct (todo.openImprovePromptTerminal styles.plain twoLinesWorld 0 ∅
              formModel) as [[[[[c σ1] g] opened] cmd]|].
  - exact (proj1 (proj2 H)).
  - discriminate H.
Defined.

(** ** The list view: cursor and scroll window *)

Module list_facts.

Import goint goint_facts todoui.

Lemma visibleItems_range m :
  - 2 ^ 62 <= Height m <= 2 ^ 62 -> 1 <= visibleItems m <= 2 ^ 62.
Proof.
  intros H. unfold visibleItems, div. rewrite sub_id by (unfold inInt, minInt, maxInt; lia).
  destruct (Z.ltb_spec ((Height m - 10) ÷ 5) 1); [lia|].
  split; [lia|].
  assert (0 <= Height m - 10) by
    (destruct (Z.le_gt_cases 0 (Height m - 10)); [lia|];
     pose proof (Z.quot_opp_l (- (Height m - 10)) 5 ltac:(lia));
     pose proof (Z.quot_pos (- (Height m - 10)) 5 ltac:(lia) ltac:(lia));
     rewrite Z.opp_involutive in *; lia).
  pose proof (Z.quot_le_upper_bound (Height m - 10) 5 (2 ^ 62)). lia.
Qed.

Lemma index_Some {A} (s : list A) i :
  0 <= i < len s -> exists x, index s i = Some x /\ s !! Z.to_nat i = Some x.
Proof.
  intros H. unfold index.
  destruct (Z.leb_spec 0 i); [|lia]. destruct (Z.ltb_spec i (len s)); [|lia].
  simpl. destruct (s !! Z.to_nat i) eqn:E; [eauto|].
  apply lookup_ge_None in E. unfold len in *. lia.
Qed.

Lemma index_None {A} (s : list A) i :
  i < 0 \/ len s <= i -> index s i = None.
Proof.
  intros H. unfold index.
  destruct (Z.leb_spec 0 i); destruct (Z.ltb_spec i (len s)); simpl; try lia;
    reflexivity.
Qed.

Ltac ranges :=
  repeat first
    [ rewrite sub_id by (unfold inInt, minInt, maxInt; simpl in *; lia)
    | rewrite add_id by (unfold inInt, minInt, maxInt; simpl in *; lia) ].

Ltac zsplit :=
  repeat match goal with
  | |- context [?a >? ?b] => rewrite (Z.gtb_ltb a b)
  | |- context [?a >=? ?b] => rewrite (Z.geb_leb a b)
  end;
  repeat match goal with
  | |- context [?a <? ?b] => destruct (Z.ltb_spec a b)
  | |- context [?a <=? ?b] => destruct (Z.leb_spec a b)
  end.

Ltac fields :=
  cbn [withCursor withListScroll withCurrentView withDeleteTarget withTodos
       withFormEditingTodo withFormBranch withFormName withFormDescription
       withFormPrompts withFormField withFormPromptIdx withLoading
       Cursor ListScroll Todos Height] in *.

Ltac hyps :=
  fields;
  repeat match goal with
  | H : context [sub ?a ?b] |- _ =>
      rewrite (sub_id a b) in H by (unfold inInt, minInt, maxInt; lia)
  | H : context [add ?a ?b] |- _ =>
      rewrite (add_id a b) in H by (unfold inInt, minInt, maxInt; lia)
  end.

End list_facts.

(** X12. In the list view, on a list that is not empty: when the cursor
    is on an item inside the window the view shows (scroll offset at most
    the cursor, cursor below offset plus the number of visible items), no
    key makes [UpdateListView] panic, the list and the height stay as they
    are, and the cursor is again on an item inside the window. *)
Theorem list_cursor_stays_visible (m : todoui.Model) (k : terminal.KeyMsg) :
  todoui.sized m -> todoui.cursorVisible m ->
  exists m' c,
    todoui.UpdateListView m k = todoui.Ret m' c /\
    todoui.Todos m' = todoui.Todos m /\
    todoui.Height m' = todoui.Height m /\
    todoui.cursorVisible m'.
Proof.
  intros [HH HL] (HS & HC & HV).
  pose proof (list_facts.visibleItems_range m HH) as Hv.
  pose proof (goint_facts.len_nonneg (todoui.Todos m)) as Hn.
  destruct (list_facts.index_Some (todoui.Todos m) (todoui.Cursor m))
    as (t & Ht & _); [lia|].
  unfold todoui.cursorVisible.
  assert (forall m', todoui.Height m' = todoui.Height m ->
                     todoui.visibleItems m' = todoui.visibleItems m) as Hvis
    by (intros m' E; unfold todoui.visibleItems; rewrite E; reflexivity).
  unfold todoui.UpdateListView. rewrite Ht.
  set (v := todoui.visibleItems m) in *.
  repeat match goal with
  | |- context [if config.MatchesAny ?a ?b then _ else _] =>
      destruct (config.MatchesAny a b)
  | |- context [if config.Matches ?a ?b then _ else _] =>
      destruct (config.Matches a b)
  end;
  list_facts.fields;
  list_facts.ranges; list_facts.zsplit;
  list_facts.fields;
  list_facts.ranges; list_facts.zsplit;
  list_facts.fields;
  list_facts.ranges; list_facts.zsplit;
  list_facts.hyps; try lia;
  (eexists _, _; split; [reflexivity|]; split; [reflexivity|];
   split; [reflexivity|]; rewrite Hvis by reflexivity;
   list_facts.fields; lia).
Qed.

Lemma list_cursor_stays_visible_witness :
  exists m' c,
    todoui.UpdateListView listDemo (key "ctrl+u") = todoui.Ret m' c /\
    todoui.Todos m' = todoui.Todos listDemo /\
    todoui.Height m' = todoui.Height listDemo /\
    todoui.cursorVisible m'.
Proof.
  refine (list_cursor_stays_visible listDemo (key "ctrl+u") _ _).
  - unfold todoui.sized. vm_compute. repeat split; discriminate.
  - unfold todoui.cursorVisible. vm_compute. repeat split; discriminate.
Defined.

Module cards_facts.

Import goint goint_facts todoui.

Lemma cardsFrom_spec todos cursor n : forall i,
  0 <= i -> i + Z.of_nat n <= len todos -> len todos <= 2 ^ 62 ->
  exists cs,
    cardsFrom todos cursor i n = Some cs /\
    map fst cs = take n (drop (Z.to_nat i) todos) /\
    forall j t b, cs !! j = Some (t, b) ->
                  b = (i + Z.of_nat j =? cursor).
Proof.
  induction n as [|n IH]; intros i Hi Hn HL.
  - exists []. split; [reflexivity|]. split; [reflexivity|].
    intros j t b H. rewrite lookup_nil in H. discriminate.
  - cbn [cardsFrom].
    destruct (list_facts.index_Some todos i) as (t & -> & Ht); [lia|].
    rewrite add_id by (unfold inInt, minInt, maxInt; lia).
    destruct (IH (i + 1)) as (cs & -> & Hm & Hs); [lia..|].
    eexists. split; [reflexivity|]. split.
    + cbn [map fst]. rewrite Hm.
      rewrite (drop_S _ _ _ Ht). cbn [take].
      replace (Z.to_nat (i + 1)) with (S (Z.to_nat i)) by lia. reflexivity.
    + intros [|j] t' b H; cbn in H.
      * injection H as <- <-. f_equal. lia.
      * rewrite (Hs _ _ _ H). f_equal. lia.
Qed.

Lemma viewTodoCards_window m :
  sized m -> cursorVisible m ->
  viewTodoCards m =
    cardsFrom (Todos m) (Cursor m) (ListScroll m)
      (Z.to_nat (Z.min (visibleItems m) (len (Todos m) - ListScroll m))).
Proof.
  intros [HH HL] (HS & HC & HV).
  pose proof (list_facts.visibleItems_range m HH) as Hv.
  unfold viewTodoCards. cbv zeta. f_equal. f_equal.
  rewrite (Z.gtb_ltb (visibleItems m)).
  destruct (Z.ltb_spec (len (Todos m)) (visibleItems m));
    rewrite add_id by (unfold inInt, minInt, maxInt; lia);
    match goal with |- context [?a >? ?b] =>
      rewrite (Z.gtb_ltb a b); destruct (Z.ltb_spec b a) end; lia.
Qed.

End cards_facts.

(** X13. When the cursor is on an item inside the window, [viewTodoCards]
    does not panic: it draws the items from the scroll offset on, as many
    as fit (the number of visible items, or what is left of the list); the
    card of the item under the cursor is among them and is the only one
    drawn as selected. *)
Theorem cards_show_the_item_under_the_cursor (m : todoui.Model) :
  todoui.sized m -> todoui.cursorVisible m ->
  exists cs t,
    todoui.viewTodoCards m = Some cs /\
    map fst cs =
      take (Z.to_nat (Z.min (todoui.visibleItems m)
                        (goint.len (todoui.Todos m) - todoui.ListScroll m)))
        (drop (Z.to_nat (todoui.ListScroll m)) (todoui.Todos m)) /\
    todoui.Todos m !! Z.to_nat (todoui.Cursor m) = Some t /\
    cs !! Z.to_nat (todoui.Cursor m - todoui.ListScroll m) = Some (t, true) /\
    forall j t' b, cs !! j = Some (t', b) ->
      b = bool_decide (j = Z.to_nat (todoui.Cursor m - todoui.ListScroll m)).
Proof.
  intros [HH HL] (HS & HC & HV).
  pose proof (list_facts.visibleItems_range m HH) as Hv.
  destruct (list_facts.index_Some (todoui.Todos m) (todoui.Cursor m))
    as (t & _ & Ht); [lia|].
  rewrite (cards_facts.viewTodoCards_window m) by (split; assumption || (repeat split; lia)).
  set (v := todoui.visibleItems m) in *.
  set (n := goint.len (todoui.Todos m)) in *.
  set (s := todoui.ListScroll m) in *.
  set (c := todoui.Cursor m) in *.
  set (e := Z.min v (n - s)) in *.
  assert (e = Z.min v (n - s)) as He by reflexivity.
  destruct (cards_facts.cardsFrom_spec (todoui.Todos m) c (Z.to_nat e) s)
    as (cs & Hcs & Hm & Hsel); [unfold n in *; lia..|].
  exists cs, t. split; [exact Hcs|]. split; [exact Hm|].
  split; [exact Ht|].
  assert (forall j t' b, cs !! j = Some (t', b) ->
            b = bool_decide (j = Z.to_nat (c - s))) as Hall.
  { intros j t' b H. rewrite (Hsel _ _ _ H).
    destruct (Z.eqb_spec (s + Z.of_nat j) c);
      [rewrite bool_decide_eq_true_2 by lia | rewrite bool_decide_eq_false_2 by lia];
      reflexivity. }
  split; [|exact Hall].
  assert (map fst cs !! Z.to_nat (c - s) = Some t) as Hl.
  { rewrite Hm, lookup_take_lt by lia. rewrite lookup_drop.
    replace (Z.to_nat s + Z.to_nat (c - s))%nat with (Z.to_nat c) by lia.
    exact Ht. }
  rewrite list_lookup_fmap in Hl.
  destruct (cs !! Z.to_nat (c - s)) as [[t' b]|] eqn:E; [|discriminate].
  cbn in Hl. injection Hl as ->.
  rewrite (Hall _ _ _ E), bool_decide_eq_true_2 by reflexivity. reflexivity.
Qed.

Lemma cards_show_the_item_under_the_cursor_witness :
  todoui.viewTodoCards listDemo =
    Some [(demoTodo "b", false); (demoTodo "c", true)] /\
  exists cs t,
    todoui.viewTodoCards listDemo = Some cs /\
    map fst cs =
      take (Z.to_nat (Z.min (todoui.visibleItems listDemo)
                        (goint.len (todoui.Todos listDemo) -
                         todoui.ListScroll listDemo)))
        (drop (Z.to_nat (todoui.ListScroll listDemo))
           (todoui.Todos listDemo)) /\
    todoui.Todos listDemo !! Z.to_nat (todoui.Cursor listDemo) = Some t /\
    cs !! Z.to_nat (todoui.Cursor listDemo - todoui.ListScroll listDemo) =
      Some (t, true) /\
    forall j t' b, cs !! j = Some (t', b) ->
      b = bool_decide
            (j = Z.to_nat (todoui.Cursor listDemo -
                           todoui.ListScroll listDemo)).
Proof.
  split; [vm_compute; reflexivity|].
  refine (cards_show_the_item_under_the_cursor listDemo _ _).
  - unfold todoui.sized. vm_compute. repeat split; discriminate.
  - unfold todoui.cursorVisible. vm_compute. repeat split; discriminate.
Defined.

Module stale_facts.

Import goint goint_facts todoui.

Lemma listOp_UpdateListView m k :
  match listOp (Config m) k with
  | Some opSelect | Some opDelete =>
      0 < len (Todos m) ->
      index (Todos m) (Cursor m) = None -> UpdateListView m k = Panic
  | Some opPageDown =>
      exists m', UpdateListView m k = Ret m' nilCmd /\
        Todos m' = Todos m /\
        Cursor m' =
          (let c := add (Cursor m) (visibleItems m) in
           if c >=? len (Todos m) then sub (len (Todos m)) 1 else c)
  | _ => True
  end.
Proof.
  unfold listOp, UpdateListView.
  repeat match goal with
  | |- context [if config.MatchesAny ?a ?b then _ else _] =>
      destruct (config.MatchesAny a b)
  | |- context [if config.Matches ?a ?b then _ else _] =>
      destruct (config.Matches a b)
  end; try exact I.
  - eexists. split; [reflexivity|]. list_facts.fields. cbv zeta.
    split; list_facts.zsplit; list_facts.fields; try reflexivity; lia.
  - intros Hn Hi. rewrite Hi. destruct (Z.gtb_spec (len (Todos m)) 0); [reflexivity|lia].
  - intros Hn Hi. rewrite Hi. destruct (Z.gtb_spec (len (Todos m)) 0); [reflexivity|lia].
Qed.

End stale_facts.

(** X14. The cursor is never adjusted when the list is reloaded.  When a
    list that is not empty arrives ([TodosLoadedMsg]) and the cursor is not
    an index of it (it was on the last item of a longer list, or page-down
    on the empty list had made it -1), the keys for opening and for
    deleting the selected item make [UpdateListView] panic on
    [m.Todos[m.Cursor]]. *)
Theorem stale_cursor_after_reload_panics
    (m : todoui.Model) (todos : list todoitem.Todo) (k : terminal.KeyMsg) :
  (0 < goint.len todos)%Z ->
  (todoui.Cursor m < 0 \/ goint.len todos <= todoui.Cursor m)%Z ->
  todoui.listOp (todoui.Config m) k = Some todoui.opSelect \/
  todoui.listOp (todoui.Config m) k = Some todoui.opDelete ->
  todoui.Cursor ((todoui.Update m (todoui.TodosLoadedMsg todos)).1) = todoui.Cursor m /\
  todoui.UpdateListView (todoui.Update m (todoui.TodosLoadedMsg todos)).1 k
    = todoui.Panic.
Proof.
  intros Hn Hc Hk. split; [reflexivity|].
  pose proof (stale_facts.listOp_UpdateListView ((todoui.Update m (todoui.TodosLoadedMsg todos)).1) k)
    as H.
  cbn [todoui.Update fst todoui.withLoading todoui.withTodos todoui.Config todoui.Todos
       todoui.Cursor] in H.
  destruct Hk as [Hk|Hk]; rewrite Hk in H;
    apply H; [exact Hn | apply list_facts.index_None; exact Hc
             | exact Hn | apply list_facts.index_None; exact Hc].
Qed.

Lemma stale_cursor_after_reload_panics_witness :
  todoui.Cursor
    (todoui.Update listDemo
       (todoui.TodosLoadedMsg [demoTodo "a"; demoTodo "b"])).1 =
    todoui.Cursor listDemo /\
  todoui.UpdateListView
    (todoui.Update listDemo
       (todoui.TodosLoadedMsg [demoTodo "a"; demoTodo "b"])).1 (key "enter") =
    todoui.Panic.
Proof.
  refine (stale_cursor_after_reload_panics listDemo
            [demoTodo "a"; demoTodo "b"] (key "enter") _ _ _).
  - vm_compute. reflexivity.
  - right. vm_compute. discriminate.
  - left. vm_compute. reflexivity.
Defined.

(** X15. Page-down on the empty list: the cursor becomes -1 (the clamp is
    to [len(m.Todos) - 1], with no test that the list has an item), and
    stays -1 under further page-downs. *)
Theorem page_down_on_empty_list (m : todoui.Model) (k : terminal.KeyMsg) :
  todoui.Todos m = [] ->
  (- 2 ^ 62 <= todoui.Height m <= 2 ^ 62)%Z ->
  (- 1 <= todoui.Cursor m < 2 ^ 62)%Z ->
  todoui.listOp (todoui.Config m) k = Some todoui.opPageDown ->
  exists m',
    todoui.UpdateListView m k = todoui.Ret m' todoui.nilCmd /\
    todoui.Todos m' = [] /\
    todoui.Cursor m' = (- 1)%Z.
Proof.
  intros HT HH HC Hk.
  pose proof (list_facts.visibleItems_range m HH) as Hv.
  pose proof (stale_facts.listOp_UpdateListView m k) as H.
  rewrite Hk in H. destruct H as (m' & HU & HT' & HC').
  exists m'. split; [exact HU|]. split; [congruence|].
  rewrite HC', HT. cbv zeta. change (goint.len (@nil todoitem.Todo)) with 0%Z.
  rewrite goint_facts.add_id
    by (unfold goint.inInt, goint.minInt, goint.maxInt; lia).
  rewrite Z.geb_leb. destruct (Z.leb_spec 0 (todoui.Cursor m + todoui.visibleItems m));
    [reflexivity|lia].
Qed.

Lemma page_down_on_empty_list_witness :
  exists m',
    todoui.UpdateListView emptyList (key "ctrl+d") =
      todoui.Ret m' todoui.nilCmd /\
    todoui.Todos m' = [] /\
    todoui.Cursor m' = (- 1)%Z.
Proof.
  refine (page_down_on_empty_list emptyList (key "ctrl+d") _ _ _ _).
  - reflexivity.
  - vm_compute. split; discriminate.
  - vm_compute. split; [discriminate|reflexivity].
  - vm_compute. reflexivity.
Defined.


(** ** Text editing in the commit component *)

Module gostring_facts.

Import string_facts.

Lemma substring_S (c : ascii) (s : string) (lo n : nat) :
  substring (S lo) n (String c s) = substring lo n s.
Proof. reflexivity. Qed.

Lemma substring_length (s : string) : forall lo n,
  (lo + n <= String.length s)%nat -> String.length (substring lo n s) = n.
Proof.
  induction s as [|c s IH]; intros lo n H; cbn [String.length] in H.
  - assert (lo = 0%nat /\ n = 0%nat) as [-> ->] by lia. reflexivity.
  - destruct lo as [|lo].
    + destruct n as [|n]; [reflexivity|]. cbn [substring String.length].
      f_equal. apply IH. lia.
    + rewrite substring_S. apply IH. lia.
Qed.

Lemma substring_cat (s : string) : forall n,
  (n <= String.length s)%nat ->
  substring 0 n s +:+ substring n (String.length s - n) s = s.
Proof.
  induction s as [|c s IH]; intros n H; cbn [String.length] in H.
  - assert (n = 0%nat) as -> by lia. reflexivity.
  - destruct n as [|n].
    + rewrite Nat.sub_0_r. change (substring 0 0 (String c s)) with EmptyString.
      apply (config_facts.substring_all (String c s)).
    + cbn [substring String.length Nat.sub]. rewrite append_cons. f_equal.
      apply IH. lia.
Qed.

Lemma substring_app_l (a r : string) :
  substring 0 (String.length a) (a +:+ r) = a.
Proof.
  induction a as [|c a IH].
  - cbn [String.length]. destruct r; reflexivity.
  - rewrite append_cons. cbn [String.length substring]. by rewrite IH.
Qed.

Lemma substring_app_r (a r : string) (k n : nat) :
  substring (String.length a + k) n (a +:+ r) = substring k n r.
Proof.
  induction a as [|c a IH]; [reflexivity|].
  rewrite append_cons. cbn [String.length Nat.add]. by rewrite substring_S.
Qed.

Lemma get_app_r (a r : string) (k : nat) :
  String.get (String.length a + k) (a +:+ r) = String.get k r.
Proof.
  induction a as [|c a IH]; [reflexivity|].
  rewrite append_cons. cbn [String.length Nat.add String.get]. exact IH.
Qed.

Lemma get_app_l (a r : string) (k : nat) :
  (k < String.length a)%nat -> String.get k (a +:+ r) = String.get k a.
Proof.
  revert k. induction a as [|c a IH]; intros k H; cbn [String.length] in H;
    [lia|].
  rewrite append_cons. destruct k as [|k]; [reflexivity|].
  cbn [String.get]. apply IH. lia.
Qed.

Lemma get_substring (s : string) : forall lo n j,
  (j < n)%nat -> (lo + n <= String.length s)%nat ->
  String.get j (substring lo n s) = String.get (lo + j) s.
Proof.
  induction s as [|c s IH]; intros lo n j Hj H; cbn [String.length] in H;
    [lia|].
  destruct lo as [|lo].
  - destruct n as [|n]; [lia|]. cbn [substring Nat.add].
    destruct j as [|j]; [reflexivity|]. cbn [String.get].
    rewrite (IH 0%nat n j) by lia. reflexivity.
  - rewrite substring_S. cbn [Nat.add String.get]. apply IH; lia.
Qed.

Lemma get_Some (s : string) (i : nat) :
  (i < String.length s)%nat -> exists c, String.get i s = Some c.
Proof.
  revert i. induction s as [|c s IH]; intros i H; cbn [String.length] in H;
    [lia|].
  destruct i as [|i]; [by eexists|]. cbn [String.get]. apply IH. lia.
Qed.

Lemma get_None (s : string) (i : nat) :
  (String.length s <= i)%nat -> String.get i s = None.
Proof.
  revert i. induction s as [|c s IH]; intros i H; cbn [String.length] in H.
  - by destruct i.
  - destruct i as [|i]; [lia|]. cbn [String.get]. apply IH. lia.
Qed.

Lemma strlen_nonneg (s : string) : 0 <= gostring.len s.
Proof. unfold gostring.len. lia. Qed.

Lemma len_append (a b : string) :
  gostring.len (a +:+ b) = gostring.len a + gostring.len b.
Proof. unfold gostring.len. rewrite length_append. lia. Qed.

Lemma slice_Some (s : string) (lo hi : Z) :
  0 <= lo <= hi -> hi <= gostring.len s ->
  gostring.slice s lo hi =
    Some (substring (Z.to_nat lo) (Z.to_nat (hi - lo)) s) /\
  gostring.len (substring (Z.to_nat lo) (Z.to_nat (hi - lo)) s) = hi - lo.
Proof.
  intros H1 H2. unfold gostring.slice.
  destruct (Z.leb_spec 0 lo); [|lia]. destruct (Z.leb_spec lo hi); [|lia].
  destruct (Z.leb_spec hi (gostring.len s)); [|lia].
  split; [reflexivity|]. unfold gostring.len in *.
  rewrite substring_length; lia.
Qed.

(** The two halves of a text at a cursor inside it. *)
Lemma halves (text : string) (cursor : Z) :
  0 <= cursor <= gostring.len text ->
  exists before after,
    gostring.sliceTo text cursor = Some before /\
    gostring.sliceFrom text cursor = Some after /\
    text = before +:+ after /\
    gostring.len before = cursor /\
    gostring.len after = gostring.len text - cursor.
Proof.
  intros H. unfold gostring.sliceTo, gostring.sliceFrom.
  destruct (slice_Some text 0 cursor) as [-> L1]; [lia..|].
  destruct (slice_Some text cursor (gostring.len text)) as [-> L2]; [lia..|].
  eexists _, _. split; [reflexivity|]. split; [reflexivity|].
  split; [|split; [lia|lia]].
  change (Z.to_nat 0) with 0%nat. rewrite Z.sub_0_r.
  unfold gostring.len in *.
  replace (Z.to_nat (Z.of_nat (String.length text) - cursor))
    with (String.length text - Z.to_nat cursor)%nat by lia.
  symmetry. apply substring_cat. lia.
Qed.

(** Slicing a concatenation at the seam. *)
Lemma sliceTo_app (a r : string) :
  gostring.sliceTo (a +:+ r) (gostring.len a) = Some a.
Proof.
  unfold gostring.sliceTo.
  destruct (slice_Some (a +:+ r) 0 (gostring.len a)) as [-> _].
  - pose proof (strlen_nonneg a). lia.
  - rewrite len_append. pose proof (strlen_nonneg r). lia.
  - f_equal. change (Z.to_nat 0) with 0%nat. rewrite Z.sub_0_r.
    unfold gostring.len. rewrite Nat2Z.id. apply substring_app_l.
Qed.

Lemma sliceFrom_app (a r : string) :
  gostring.sliceFrom (a +:+ r) (gostring.len a) = Some r.
Proof.
  unfold gostring.sliceFrom.
  destruct (slice_Some (a +:+ r) (gostring.len a) (gostring.len (a +:+ r)))
    as [-> _].
  - pose proof (strlen_nonneg a). rewrite len_append.
    pose proof (strlen_nonneg r). lia.
  - lia.
  - f_equal. rewrite len_append.
    replace (gostring.len a + gostring.len r - gostring.len a)
      with (gostring.len r) by lia.
    unfold gostring.len. rewrite !Nat2Z.id.
    rewrite <- (Nat.add_0_r (String.length a)).
    rewrite substring_app_r. apply config_facts.substring_all.
Qed.

Lemma index_app (a r : string) (c : ascii) :
  gostring.index (a +:+ String c r) (gostring.len a) = Some c.
Proof.
  unfold gostring.index. pose proof (strlen_nonneg a). pose proof (strlen_nonneg r).
  rewrite len_append.
  assert (gostring.len (String c r) = 1 + gostring.len r) as ->
    by (unfold gostring.len; cbn [String.length]; lia).
  destruct (Z.leb_spec 0 (gostring.len a)); [|lia].
  destruct (Z.ltb_spec (gostring.len a)
              (gostring.len a + (1 + gostring.len r))); [|lia].
  cbn [andb]. unfold gostring.len. rewrite Nat2Z.id.
  rewrite <- (Nat.add_0_r (String.length a)). rewrite get_app_r. reflexivity.
Qed.

(** The start of the line: the cursor moves back to just after the
    nearest line feed before it, or to 0. *)
Lemma lineStartFrom_spec (text : string) (cursor : nat) :
  (cursor <= String.length text)%nat ->
  exists c', gostring.lineStartFrom text cursor = Some c' /\
    (c' <= cursor)%nat /\
    (c' = 0%nat \/ String.get (c' - 1) text = Some gostring.lineFeed) /\
    forall i, (c' <= i < cursor)%nat ->
              String.get i text <> Some gostring.lineFeed.
Proof.
  induction cursor as [|c IH]; intros H.
  - exists 0%nat. repeat split; [lia|by left|]. intros i Hi. lia.
  - cbn [gostring.lineStartFrom].
    destruct (get_Some text c) as [ch Hch]; [lia|]. rewrite Hch.
    destruct (Ascii.eqb_spec ch gostring.lineFeed) as [->|Hne].
    + exists (S c). repeat split; [lia| |intros i Hi; lia].
      right. replace (S c - 1)%nat with c by lia. exact Hch.
    + destruct IH as (c' & -> & Hle & Hat & Hno); [lia|].
      exists c'. repeat split; [lia|exact Hat|].
      intros i Hi. destruct (decide (i = c)) as [->|].
      * rewrite Hch. congruence.
      * apply Hno. lia.
Qed.

(** The end of the line: the cursor moves forward to the nearest line feed
    at or after it, or to the end. *)
Lemma lineEndFrom_spec (rest : string) : forall cursor,
  exists n, gostring.lineEndFrom rest cursor = cursor + Z.of_nat n /\
    (n <= String.length rest)%nat /\
    (n = String.length rest \/ String.get n rest = Some gostring.lineFeed) /\
    forall i, (i < n)%nat -> String.get i rest <> Some gostring.lineFeed.
Proof.
  induction rest as [|ch rest IH]; intros cursor.
  - exists 0%nat. cbn. repeat split; [lia|lia|by left|]. intros i Hi. lia.
  - cbn [gostring.lineEndFrom].
    destruct (Ascii.eqb_spec ch gostring.lineFeed) as [->|Hne].
    + exists 0%nat. repeat split; [lia|cbn; lia|by right|]. intros i Hi. lia.
    + destruct (IH (cursor + 1)) as (n & -> & Hle & Hat & Hno).
      exists (S n). repeat split; [lia|cbn; lia| |].
      * destruct Hat as [->|Hat]; [by left|by right].
      * intros [|i] Hi; cbn [String.get]; [congruence|]. apply Hno. lia.
Qed.

End gostring_facts.

Module textedit_facts.

Import goint goint_facts gostring_facts string_facts.

Ltac int_range := unfold inInt, minInt, maxInt; lia.

Lemma len_String (c : ascii) (s : string) :
  gostring.len (String c s) = 1 + gostring.len s.
Proof. unfold gostring.len. cbn [String.length]. lia. Qed.

Lemma len_0 (s : string) : gostring.len s = 0 -> s = EmptyString.
Proof. destruct s; [reflexivity|]. rewrite len_String. pose proof (strlen_nonneg s). lia. Qed.

Lemma snoc_app (b : string) (c : ascii) (a : string) :
  (b +:+ String c EmptyString) +:+ a = b +:+ String c a.
Proof. rewrite append_assoc, append_cons. reflexivity. Qed.

(** A text around the byte at position [p]. *)
Lemma split_at (text : string) (p : Z) :
  0 <= p < gostring.len text ->
  exists b c a,
    text = b +:+ String c a /\
    gostring.len b = p /\
    gostring.sliceTo text p = Some b /\
    gostring.sliceFrom text p = Some (String c a) /\
    gostring.sliceFrom text (p + 1) = Some a /\
    gostring.index text p = Some c.
Proof.
  intros H. destruct (halves text p) as (b & r & Hb & Hr & E & Lb & Lr); [lia|].
  destruct r as [|c a].
  { change (gostring.len EmptyString) with 0 in Lr. lia. }
  exists b, c, a. repeat split; try assumption.
  - rewrite E, <- snoc_app.
    replace (p + 1) with (gostring.len (b +:+ String c EmptyString))
      by (rewrite len_append, len_String; change (gostring.len EmptyString) with 0; lia).
    apply sliceFrom_app.
  - rewrite E, <- Lb. apply index_app.
Qed.

Lemma insertAt_spec (text : string) (cursor : Z) (s : string) :
  0 <= cursor <= gostring.len text ->
  exists before after,
    text = before +:+ after /\
    gostring.len before = cursor /\
    gostring.insertAt text cursor s = Some (before +:+ s +:+ after).
Proof.
  intros H. destruct (halves text cursor H) as (b & a & Hb & Ha & E & Lb & La).
  exists b, a. split; [exact E|]. split; [exact Lb|].
  unfold gostring.insertAt. rewrite Hb, Ha. reflexivity.
Qed.

Lemma printable_char (key : string) :
  gostring.isPrintableKey key = true ->
  exists c, key = String c EmptyString.
Proof. destruct key as [|c [|]]; cbn; try discriminate. by eexists. Qed.

Lemma index_get (text : string) (i : Z) :
  0 <= i < gostring.len text ->
  gostring.index text i = String.get (Z.to_nat i) text.
Proof.
  intros H. unfold gostring.index.
  destruct (Z.leb_spec 0 i); [|lia].
  destruct (Z.ltb_spec i (gostring.len text)); [|lia]. reflexivity.
Qed.

Lemma lineStart_spec (text : string) (cursor : Z) :
  0 <= cursor <= gostring.len text ->
  exists c', gostring.lineStart text cursor = Some c' /\
    0 <= c' <= cursor /\
    (c' = 0 \/ gostring.index text (c' - 1) = Some gostring.lineFeed) /\
    forall i, c' <= i < cursor ->
              gostring.index text i <> Some gostring.lineFeed.
Proof.
  intros H. unfold gostring.lineStart. rewrite Z.gtb_ltb.
  destruct (Z.ltb_spec 0 cursor).
  - destruct (lineStartFrom_spec text (Z.to_nat cursor))
      as (c' & -> & Hle & Hat & Hno); [unfold gostring.len in H; lia|].
    exists (Z.of_nat c'). split; [reflexivity|]. split; [lia|]. split.
    + destruct (decide (c' = 0%nat)) as [->|Hne]; [by left|right].
      destruct Hat as [->|Hat]; [done|].
      rewrite index_get by lia.
      replace (Z.to_nat (Z.of_nat c' - 1)) with (c' - 1)%nat by lia.
      exact Hat.
    + intros i Hi. rewrite index_get by lia. apply Hno. lia.
  - exists cursor. split; [reflexivity|]. split; [lia|]. split; [left; lia|].
    intros i Hi. lia.
Qed.

Lemma lineEnd_spec (text : string) (cursor : Z) :
  0 <= cursor <= gostring.len text ->
  exists c', gostring.lineEnd text cursor = Some c' /\
    cursor <= c' <= gostring.len text /\
    (c' = gostring.len text \/
     gostring.index text c' = Some gostring.lineFeed) /\
    forall i, cursor <= i < c' ->
              gostring.index text i <> Some gostring.lineFeed.
Proof.
  intros H. unfold gostring.lineEnd.
  destruct (Z.ltb_spec cursor (gostring.len text)).
  - unfold gostring.sliceFrom.
    destruct (slice_Some text cursor (gostring.len text)) as [-> L]; [lia..|].
    set (rest := substring _ _ text) in *.
    destruct (lineEndFrom_spec rest cursor) as (n & -> & Hle & Hat & Hno).
    assert (Hget : forall j, (j < String.length rest)%nat ->
              String.get j rest = String.get (Z.to_nat cursor + j) text).
    { intros j Hj. unfold rest. apply get_substring.
      - unfold rest, gostring.len in *. lia.
      - unfold gostring.len in *. lia. }
    unfold gostring.len in L.
    eexists. split; [reflexivity|]. split; [unfold gostring.len; lia|]. split.
    + destruct Hat as [->|Hat]; [left; unfold gostring.len; lia|].
      destruct (decide (n = String.length rest)) as [->|Hne];
        [left; unfold gostring.len; lia|right].
      rewrite index_get by (unfold gostring.len; lia).
      rewrite Hget in Hat by lia.
      replace (Z.to_nat (cursor + Z.of_nat n)) with (Z.to_nat cursor + n)%nat
        by lia. exact Hat.
    + intros i Hi. rewrite index_get by (unfold gostring.len; lia).
      replace (Z.to_nat i)
        with (Z.to_nat cursor + (Z.to_nat i - Z.to_nat cursor))%nat by lia.
      rewrite <- Hget by lia. apply Hno. lia.
  - exists cursor. split; [reflexivity|]. split; [lia|]. split; [left; lia|].
    intros i Hi. lia.
Qed.

End textedit_facts.

(** [handleTextEdit] with the cursor inside the text does not panic,
    leaves the cursor inside the new text, and changes the length of the
    text by at most one byte. *)
Lemma handleTextEdit_in_range
    (text : string) (cursor : Z) (msg : terminal.KeyMsg) :
  0 <= cursor <= gostring.len text -> gostring.len text < 2 ^ 62 ->
  exists text' cursor',
    commit.handleTextEdit text cursor msg = Some (text', cursor') /\
    0 <= cursor' <= gostring.len text' /\
    gostring.len text - 1 <= gostring.len text' <= gostring.len text + 1.
Proof.
  intros Hc Hlen. unfold commit.handleTextEdit.
  set (key := terminal.KString msg).
  assert (Hins : forall s, gostring.len s = 1 ->
    exists text' cursor',
      match gostring.insertAt text cursor s with
      | Some text0 => Some (text0, goint.add cursor 1)
      | None => None
      end = Some (text', cursor') /\
      0 <= cursor' <= gostring.len text' /\
      gostring.len text - 1 <= gostring.len text' <= gostring.len text + 1).
  { intros s Hs.
    destruct (textedit_facts.insertAt_spec text cursor s Hc)
      as (b & a & E & Lb & ->).
    rewrite goint_facts.add_id by textedit_facts.int_range.
    eexists _, _. split; [reflexivity|].
    rewrite E, !gostring_facts.len_append in *.
    pose proof (gostring_facts.strlen_nonneg a). lia. }
  destruct (String.eqb key "backspace").
  { rewrite Z.gtb_ltb. destruct (Z.ltb_spec 0 cursor).
    - rewrite goint_facts.sub_id by textedit_facts.int_range.
      destruct (textedit_facts.split_at text (cursor - 1))
        as (b & c & a & E & Lb & -> & _ & Ha & _); [lia|].
      replace (cursor - 1 + 1) with cursor in Ha by lia. rewrite Ha.
      eexists _, _. split; [reflexivity|].
      rewrite E, !gostring_facts.len_append, textedit_facts.len_String in *.
      pose proof (gostring_facts.strlen_nonneg a). lia.
    - eexists _, _. split; [reflexivity|]. lia. }
  destruct (String.eqb key "delete").
  { destruct (Z.ltb_spec cursor (gostring.len text)).
    - rewrite goint_facts.add_id by textedit_facts.int_range.
      destruct (textedit_facts.split_at text cursor)
        as (b & c & a & E & Lb & -> & _ & -> & _); [lia|].
      eexists _, _. split; [reflexivity|].
      rewrite E, !gostring_facts.len_append, textedit_facts.len_String in *.
      pose proof (gostring_facts.strlen_nonneg a). lia.
    - eexists _, _. split; [reflexivity|]. lia. }
  destruct (String.eqb key "left").
  { eexists _, _. split; [reflexivity|]. rewrite Z.gtb_ltb.
    destruct (Z.ltb_spec 0 cursor);
      [rewrite goint_facts.sub_id by textedit_facts.int_range|]; lia. }
  destruct (String.eqb key "right").
  { eexists _, _. split; [reflexivity|].
    destruct (Z.ltb_spec cursor (gostring.len text));
      [rewrite goint_facts.add_id by textedit_facts.int_range|]; lia. }
  destruct (String.eqb key "home" || String.eqb key "ctrl+a").
  { destruct (textedit_facts.lineStart_spec text cursor Hc)
      as (c' & -> & Hr & _).
    eexists _, _. split; [reflexivity|]. lia. }
  destruct (String.eqb key "end" || String.eqb key "ctrl+e").
  { destruct (textedit_facts.lineEnd_spec text cursor Hc)
      as (c' & -> & Hr & _).
    eexists _, _. split; [reflexivity|]. lia. }
  destruct (String.eqb key "enter"); [apply Hins; reflexivity|].
  destruct (String.eqb key "space"); [apply Hins; reflexivity|].
  destruct (gostring.isPrintableKey key) eqn:Hp.
  - destruct (textedit_facts.printable_char key Hp) as [c ->].
    apply Hins. reflexivity.
  - eexists _, _. split; [reflexivity|]. lia.
Qed.

(** X16. Typing: a key that is one printable byte is inserted at the
    cursor, which moves past it; backspace right after, or delete after
    moving back, restores the text and the cursor. *)
Theorem typed_byte_is_inserted_and_removed_again
    (text : string) (cursor : Z) (c : ascii) (t1 t2 t3 : terminal.KeyType) :
  0 <= cursor <= gostring.len text -> gostring.len text < 2 ^ 62 ->
  gostring.isPrintableKey (String c EmptyString) = true ->
  exists before after,
    text = before +:+ after /\
    gostring.len before = cursor /\
    commit.handleTextEdit text cursor
      (terminal.mkKeyMsg t1 (String c EmptyString)) =
      Some (before +:+ String c after, cursor + 1) /\
    commit.handleTextEdit (before +:+ String c after) (cursor + 1)
      (terminal.mkKeyMsg t2 "backspace") = Some (text, cursor) /\
    commit.handleTextEdit (before +:+ String c after) cursor
      (terminal.mkKeyMsg t3 "delete") = Some (text, cursor).
Proof.
  intros Hc Hlen Hp.
  destruct (textedit_facts.insertAt_spec text cursor (String c EmptyString) Hc)
    as (b & a & E & Lb & Hins).
  exists b, a. split; [exact E|]. split; [exact Lb|].
  pose proof (gostring_facts.strlen_nonneg a) as Ha.
  assert (L : gostring.len text = cursor + gostring.len a)
    by (rewrite E, gostring_facts.len_append; lia).
  assert (Hno : forall s, String.length s <> 1%nat ->
                          String.eqb (String c EmptyString) s = false).
  { intros s Hs. apply String.eqb_neq. intros <-. apply Hs. reflexivity. }
  split; [|split].
  - unfold commit.handleTextEdit. cbn [terminal.KString].
    rewrite !Hno by (cbn; lia). cbn [orb]. rewrite Hp, Hins.
    rewrite goint_facts.add_id by textedit_facts.int_range.
    rewrite string_facts.append_cons. reflexivity.
  - unfold commit.handleTextEdit. cbn [terminal.KString].
    change (String.eqb "backspace" "backspace") with true. cbv iota.
    rewrite Z.gtb_ltb. destruct (Z.ltb_spec 0 (cursor + 1)); [|lia].
    rewrite goint_facts.sub_id by textedit_facts.int_range.
    replace (cursor + 1 - 1) with cursor by lia.
    rewrite <- Lb at 1. rewrite gostring_facts.sliceTo_app.
    rewrite <- textedit_facts.snoc_app.
    replace (cursor + 1)
      with (gostring.len (b +:+ String c EmptyString))
      by (rewrite gostring_facts.len_append, textedit_facts.len_String;
          change (gostring.len EmptyString) with 0; lia).
    rewrite gostring_facts.sliceFrom_app. rewrite E. reflexivity.
  - unfold commit.handleTextEdit. cbn [terminal.KString].
    change (String.eqb "delete" "backspace") with false.
    change (String.eqb "delete" "delete") with true. cbv iota.
    assert (cursor < gostring.len (b +:+ String c a))
      by (rewrite gostring_facts.len_append, textedit_facts.len_String; lia).
    destruct (Z.ltb_spec cursor (gostring.len (b +:+ String c a))); [|lia].
    rewrite goint_facts.add_id by textedit_facts.int_range.
    rewrite <- Lb at 1. rewrite gostring_facts.sliceTo_app.
    rewrite <- textedit_facts.snoc_app.
    replace (cursor + 1)
      with (gostring.len (b +:+ String c EmptyString))
      by (rewrite gostring_facts.len_append, textedit_facts.len_String;
          change (gostring.len EmptyString) with 0; lia).
    rewrite gostring_facts.sliceFrom_app. rewrite E. reflexivity.
Qed.

Lemma typed_byte_is_inserted_and_removed_again_witness :
  exists before after,
    "fix typo"%string = before +:+ after /\
    gostring.len before = 3 /\
    commit.handleTextEdit "fix typo" 3 (key ":") =
      Some (before +:+ String ":" after, 3 + 1) /\
    commit.handleTextEdit (before +:+ String ":" after) (3 + 1)
      (key "backspace") = Some ("fix typo"%string, 3) /\
    commit.handleTextEdit (before +:+ String ":" after) 3
      (key "delete") = Some ("fix typo"%string, 3).
Proof.
  refine (typed_byte_is_inserted_and_removed_again "fix typo" 3 ":"
            terminal.KeyOther terminal.KeyOther terminal.KeyOther _ _ _).
  - vm_compute. split; discriminate.
  - reflexivity.
  - reflexivity.
Defined.

(** X17. Home and end (also ctrl+a and ctrl+e) leave the text as it is and
    move the cursor to the ends of its line: back to just after the nearest
    line feed before the cursor or to 0, forward to the nearest line feed
    at or after it or to the end; no line feed lies between the two. *)
Theorem home_and_end_move_to_the_ends_of_the_line
    (text : string) (cursor : Z) (home end_ : terminal.KeyMsg) :
  0 <= cursor <= gostring.len text ->
  terminal.KString home = "home"%string \/
    terminal.KString home = "ctrl+a"%string ->
  terminal.KString end_ = "end"%string \/
    terminal.KString end_ = "ctrl+e"%string ->
  exists s e,
    commit.handleTextEdit text cursor home = Some (text, s) /\
    commit.handleTextEdit text cursor end_ = Some (text, e) /\
    0 <= s <= cursor /\ cursor <= e <= gostring.len text /\
    (s = 0 \/ gostring.index text (s - 1) = Some gostring.lineFeed) /\
    (e = gostring.len text \/
     gostring.index text e = Some gostring.lineFeed) /\
    forall i, s <= i < e -> gostring.index text i <> Some gostring.lineFeed.
Proof.
  intros Hc Hh He.
  destruct (textedit_facts.lineStart_spec text cursor Hc)
    as (s & Hs & Hsr & Hsat & Hsno).
  destruct (textedit_facts.lineEnd_spec text cursor Hc)
    as (e & Hee & Her & Heat & Heno).
  exists s, e. split; [|split].
  - unfold commit.handleTextEdit.
    destruct Hh as [-> | ->]; cbn [String.eqb Ascii.eqb Bool.eqb orb];
      rewrite Hs; reflexivity.
  - unfold commit.handleTextEdit.
    destruct He as [-> | ->]; cbn [String.eqb Ascii.eqb Bool.eqb orb];
      rewrite Hee; reflexivity.
  - repeat split; try lia; try assumption.
    intros i Hi. destruct (Z.lt_ge_cases i cursor); [apply Hsno|apply Heno]; lia.
Qed.

Lemma home_and_end_move_to_the_ends_of_the_line_witness :
  exists s e,
    commit.handleTextEdit twoLineText 9 (key "home") = Some (twoLineText, s) /\
    commit.handleTextEdit twoLineText 9 (key "ctrl+e") =
      Some (twoLineText, e) /\
    0 <= s <= 9 /\ 9 <= e <= gostring.len twoLineText /\
    (s = 0 \/ gostring.index twoLineText (s - 1) = Some gostring.lineFeed) /\
    (e = gostring.len twoLineText \/
     gostring.index twoLineText e = Some gostring.lineFeed) /\
    forall i, s <= i < e ->
              gostring.index twoLineText i <> Some gostring.lineFeed.
Proof.
  refine (home_and_end_move_to_the_ends_of_the_line twoLineText 9
            (key "home") (key "ctrl+e") _ _ _).
  - vm_compute. split; discriminate.
  - left. reflexivity.
  - right. reflexivity.
Defined.

Module editkey_facts.

Import goint goint_facts gostring_facts string_facts.

Section Edit.

Variable render : styles.Styles.
Variable w : terminal.World.
Variable env : commit.Env.

(** [doCommit] starts a session and leaves the message as it is. *)
Lemma doCommit_frame counter σ m :
  let st := commit.doCommit render w env counter σ m in
  commit.State_ (commit.model st) = commit.StateCommitting /\
  commit.Subject (commit.model st) = commit.Subject m /\
  commit.Body (commit.model st) = commit.Body m /\
  commit.EditingField (commit.model st) = commit.EditingField m /\
  commit.CursorPos (commit.model st) = commit.CursorPos m /\
  commit.started st <> None /\
  terminal.Running (commit.Terminal (commit.model st)) = true.
Proof.
  unfold commit.doCommit. cbn -[terminal.SetSize String.eqb].
  destruct (String.eqb (commit.GOOS env) "linux" &&
            String.eqb (commit.SSH_AUTH_SOCK env) EmptyString);
    cbn -[terminal.SetSize]; repeat split; discriminate.
Qed.

(** [doCommit] runs [bash -c] on the commit script. *)
Lemma doCommit_script counter σ m :
  commit.doCommit render w env counter σ m =
  let '(counter, t0) :=
    terminal.New counter (keys.restrict (commit.Config m))
      "Committing changes..." in
  let t := terminal.SetSize (terminal.withDir (commit.RepoPath m) t0)
             (commit.Width m) (commit.Height m) in
  let '(σ, t, g, c) :=
    terminal.RunCommand render w σ t "bash"
      ["-c"%string; commit.commitScript env m] in
  commit.mkStep counter σ (Some g)
    (commit.withTerminal t (commit.withState commit.StateCommitting m))
    (commit.terminalCmd c).
Proof.
  unfold commit.doCommit, commit.commitScript, commit.commitMessage.
  cbv beta zeta delta [commit.withState].
  cbn [commit.Config commit.RepoPath commit.Width commit.Height
       commit.Subject commit.Body].
  destruct (terminal.New _ _ _) as [counter1 t0].
  cbv beta zeta delta [commit.withTerminal].
  cbn [commit.Config commit.RepoPath commit.Width commit.Height
       commit.Terminal commit.Subject commit.Body].
  destruct (String.eqb (commit.GOOS env) "linux" &&
            String.eqb (commit.SSH_AUTH_SOCK env) EmptyString);
    destruct (terminal.RunCommand _ _ _ _ _ _) as [[[??]?]?]; reflexivity.
Qed.

End Edit.

End editkey_facts.

(** X18. Editing the commit message: when the cursor is inside the field
    being edited, no key makes [handleEditKey] panic.  Unless the key
    submits a message with a subject (then the commit session starts and
    the message is as it was), the state, the instance counter and the
    sinks stay as they are, no goroutine is started, and the cursor is
    again inside the field being edited. *)
Theorem edit_key_keeps_cursor_in_field
    (render : styles.Styles) (w : terminal.World) (env : commit.Env)
    (counter : Z) (σ : terminal.sinks) (m : commit.Model)
    (msg : terminal.KeyMsg) :
  commit.cursorInField m ->
  gostring.len (commit.Subject m) < 2 ^ 62 ->
  gostring.len (commit.Body m) < 2 ^ 62 ->
  exists st,
    commit.handleEditKey render w env counter σ m msg = Some st /\
    match commit.started st with
    | Some _ =>
        commit.Subject m <> EmptyString /\
        commit.State_ (commit.model st) = commit.StateCommitting /\
        commit.Subject (commit.model st) = commit.Subject m /\
        commit.Body (commit.model st) = commit.Body m
    | None =>
        commit.State_ (commit.model st) = commit.State_ m /\
        commit.counter st = counter /\ commit.sinks st = σ /\
        commit.cmd st = commit.nilCmd /\
        commit.cursorInField (commit.model st)
    end.
Proof.
  intros Hin HS HB. unfold commit.handleEditKey.
  destruct (config.Matches _ _).
  { destruct (String.eqb (commit.Subject m) EmptyString) eqn:E.
    - eexists. split; [reflexivity|]. cbn. repeat split. exact Hin.
    - eexists. split; [reflexivity|].
      pose proof (editkey_facts.doCommit_frame render w env counter σ m) as F.
      cbv zeta in F. destruct F as (F1 & F2 & F3 & _ & _ & F4 & _).
      destruct (commit.started _); [|done].
      repeat split; try assumption. by apply String.eqb_neq. }
  destruct (config.Matches _ _ || _).
  { destruct (Z.eqb_spec (commit.EditingField m) 0);
      (eexists; split; [reflexivity|]); cbn; repeat split; try exact Hin.
    right. cbn. pose proof (gostring_facts.strlen_nonneg (commit.Body m)). lia. }
  destruct (config.Matches _ _ || _).
  { destruct (Z.eqb_spec (commit.EditingField m) 1);
      (eexists; split; [reflexivity|]); cbn; repeat split; try exact Hin.
    left. cbn. pose proof (gostring_facts.strlen_nonneg (commit.Subject m)). lia. }
  destruct (Z.eqb_spec (commit.EditingField m) 0) as [E0|E0].
  - destruct Hin as [[_ Hc]|[E1 _]]; [|lia].
    destruct (handleTextEdit_in_range (commit.Subject m)
                (commit.CursorPos m) msg Hc HS)
      as (t' & c' & -> & Hc' & Hl').
    cbn [commit.withSubject commit.withCursorPos commit.Subject
         commit.CursorPos].
    rewrite Z.gtb_ltb. destruct (Z.ltb_spec 72 (gostring.len t')).
    + unfold gostring.sliceTo.
      destruct (gostring_facts.slice_Some t' 0 72) as [-> L]; [lia..|].
      cbn [commit.withSubject commit.withCursorPos commit.Subject
           commit.CursorPos].
      rewrite Z.gtb_ltb. rewrite Z.sub_0_r in *.
      destruct (Z.ltb_spec 72 c');
        (eexists; split; [reflexivity|]); cbn; repeat split;
        left; (split; [exact E0|]); cbn; rewrite L; lia.
    + eexists. split; [reflexivity|]. cbn. repeat split.
      left. split; [exact E0|exact Hc'].
  - destruct Hin as [[E1 _]|[E1 Hc]]; [lia|].
    destruct (handleTextEdit_in_range (commit.Body m)
                (commit.CursorPos m) msg Hc HB)
      as (t' & c' & -> & Hc' & Hl').
    eexists. split; [reflexivity|]. cbn. repeat split.
    right. split; [exact E1|exact Hc'].
Qed.

(** X19. The subject is cut at 72 bytes by every key that reaches the text
    editing of the subject field, also by one that only moves the cursor:
    with a subject longer than 72 bytes (as the generator may produce),
    the key left keeps its first 72 bytes and drops the rest. *)
Theorem subject_is_cut_at_72_bytes
    (render : styles.Styles) (w : terminal.World) (env : commit.Env)
    (counter : Z) (σ : terminal.sinks) (m : commit.Model)
    (msg : terminal.KeyMsg) :
  let key := terminal.KString msg in
  let form := keys.Form (keys.Keys (commit.Config m)) in
  commit.EditingField m = 0 ->
  0 <= commit.CursorPos m <= gostring.len (commit.Subject m) ->
  gostring.len (commit.Subject m) < 2 ^ 62 ->
  config.Matches key (keys.FormKeys.Submit form) = false ->
  config.Matches key (keys.FormKeys.NextField form)
    || String.eqb key "down" = false ->
  config.Matches key (keys.FormKeys.PrevField form)
    || String.eqb key "up" = false ->
  exists st,
    commit.handleEditKey render w env counter σ m msg = Some st /\
    gostring.len (commit.Subject (commit.model st)) <= 72 /\
    0 <= commit.CursorPos (commit.model st)
      <= gostring.len (commit.Subject (commit.model st)) /\
    commit.Body (commit.model st) = commit.Body m /\
    (key = "left"%string -> 72 < gostring.len (commit.Subject m) ->
     commit.Subject (commit.model st) = substring 0 72 (commit.Subject m) /\
     commit.Subject (commit.model st) <> commit.Subject m).
Proof.
  intros key form E0 Hc HS H1 H2 H3. unfold commit.handleEditKey.
  fold key. fold form. rewrite H1, H2, H3.
  destruct (Z.eqb_spec (commit.EditingField m) 0) as [_|]; [|done].
  destruct (handleTextEdit_in_range (commit.Subject m)
              (commit.CursorPos m) msg Hc HS)
    as (t' & c' & Ht & Hc' & Hl').
  rewrite Ht.
  cbn [commit.withSubject commit.withCursorPos commit.Subject
       commit.CursorPos].
  assert (Hleft : key = "left"%string -> t' = commit.Subject m).
  { intros Hk. unfold commit.handleTextEdit in Ht. fold key in Ht.
    rewrite Hk in Ht. cbn [String.eqb Ascii.eqb Bool.eqb] in Ht. congruence. }
  rewrite Z.gtb_ltb. destruct (Z.ltb_spec 72 (gostring.len t')).
  - unfold gostring.sliceTo.
    destruct (gostring_facts.slice_Some t' 0 72) as [-> L]; [lia..|].
    cbn [commit.withSubject commit.withCursorPos commit.Subject
         commit.CursorPos].
    rewrite Z.gtb_ltb. rewrite Z.sub_0_r in *.
    change (Z.to_nat 0) with 0%nat in *. change (Z.to_nat 72) with 72%nat in *.
    destruct (Z.ltb_spec 72 c');
      (eexists; split; [reflexivity|]); cbn; rewrite L;
      (split; [lia|]); (split; [lia|]); (split; [reflexivity|]);
      intros Hk Hlong; rewrite <- (Hleft Hk); (split; [reflexivity|]);
      intros Heq; rewrite <- Heq in H; rewrite L in H; lia.
  - eexists. split; [reflexivity|]. cbn.
    split; [lia|]. split; [lia|]. split; [reflexivity|].
    intros Hk Hlong. rewrite (Hleft Hk) in *. lia.
Qed.

Lemma subject_is_cut_at_72_bytes_witness :
  exists st,
    commit.handleEditKey styles.plain seqWorld linuxEnv 0 ∅ longSubject
      (key "left") = Some st /\
    gostring.len (commit.Subject (commit.model st)) <= 72 /\
    0 <= commit.CursorPos (commit.model st)
      <= gostring.len (commit.Subject (commit.model st)) /\
    commit.Body (commit.model st) = commit.Body longSubject /\
    ("left"%string = "left"%string ->
     72 < gostring.len (commit.Subject longSubject) ->
     commit.Subject (commit.model st) =
       substring 0 72 (commit.Subject longSubject) /\
     commit.Subject (commit.model st) <> commit.Subject longSubject).
Proof.
  refine (subject_is_cut_at_72_bytes styles.plain seqWorld linuxEnv 0 ∅
            longSubject (key "left") _ _ _ _ _ _).
  - reflexivity.
  - vm_compute. split; discriminate.
  - reflexivity.
  - reflexivity.
  - reflexivity.
  - reflexivity.
Defined.

Module commitkey_facts.

Section Keys.

Variable render : styles.Styles.
Variable w : terminal.World.
Variable env : commit.Env.

Lemma handleEditKey_message counter σ m msg st :
  commit.handleEditKey render w env counter σ m msg = Some st ->
  commit.Subject (commit.model st) <> commit.Subject m \/
  commit.Body (commit.model st) <> commit.Body m ->
  let key := terminal.KString msg in
  let form := keys.Form (keys.Keys (commit.Config m)) in
  config.Matches key (keys.FormKeys.Submit form) = false /\
  config.Matches key (keys.FormKeys.NextField form)
    || String.eqb key "down" = false /\
  config.Matches key (keys.FormKeys.PrevField form)
    || String.eqb key "up" = false /\
  commit.started st = None /\ commit.cmd st = commit.nilCmd /\
  commit.State_ (commit.model st) = commit.State_ m.
Proof.
  intros H Hch key form. unfold commit.handleEditKey in H.
  fold key in H. fold form in H.
  destruct (config.Matches key (keys.FormKeys.Submit form)).
  { exfalso. destruct (String.eqb (commit.Subject m) EmptyString).
    - injection H as <-. cbn in Hch. by destruct Hch.
    - injection H as <-.
      pose proof (editkey_facts.doCommit_frame render w env counter σ m) as F.
      cbv zeta in F. destruct F as (_ & F2 & F3 & _). by destruct Hch. }
  destruct (config.Matches key (keys.FormKeys.NextField form) || _).
  { exfalso. injection H as <-.
    destruct (commit.EditingField m =? 0); cbn in Hch; by destruct Hch. }
  destruct (config.Matches key (keys.FormKeys.PrevField form) || _).
  { exfalso. injection H as <-.
    destruct (commit.EditingField m =? 1); cbn in Hch; by destruct Hch. }
  repeat split.
  all: destruct (commit.EditingField m =? 0);
    destruct (commit.handleTextEdit _ _ _) as [[t c]|]; try discriminate;
    cbn [commit.withSubject commit.withCursorPos commit.Subject
         commit.CursorPos] in H;
    repeat match type of H with
    | context [if ?b then _ else _] => destruct b
    | context [match ?x with Some _ => _ | None => _ end] =>
        destruct x; try discriminate
    end; injection H as <-; reflexivity.
Qed.

End Keys.

End commitkey_facts.

(** X20. The message changes under a key only through the text editing of
    the editing state: when [handleKey] leaves a subject or a body other
    than it found, the component was in the editing state and the key
    matched neither a quit binding nor submit, next-field, previous-field,
    up or down; no session is started and no command returned.  A key that
    matches a quit binding leaves the whole model as it is and returns to
    the menu, so with the default bindings the letter q cannot be typed
    into a message. *)
Theorem message_changes_only_by_text_editing
    (render : styles.Styles) (w : terminal.World) (env : commit.Env)
    (counter : Z) (σ : terminal.sinks) (between : list sink.SinkOp)
    (m : commit.Model) (msg : terminal.KeyMsg) :
  let key := terminal.KString msg in
  let kb := keys.Keys (commit.Config m) in
  let quits :=
    config.MatchesAny key
      [config.Quit (keys.Global kb); config.QuitAlt (keys.Global kb)] in
  (quits = true ->
   commit.handleKey render w env counter σ between m msg =
     Some (commit.mkStep counter σ None m commit.backToMenuCmd)) /\
  (forall st,
     commit.handleKey render w env counter σ between m msg = Some st ->
     commit.Subject (commit.model st) <> commit.Subject m \/
     commit.Body (commit.model st) <> commit.Body m ->
     commit.State_ m = commit.StateEditing /\ quits = false /\
     config.Matches key (keys.FormKeys.Submit (keys.Form kb)) = false /\
     config.Matches key (keys.FormKeys.NextField (keys.Form kb))
       || String.eqb key "down" = false /\
     config.Matches key (keys.FormKeys.PrevField (keys.Form kb))
       || String.eqb key "up" = false /\
     commit.started st = None /\ commit.cmd st = commit.nilCmd) /\
  (keys.Global kb = keys.Global keys.DefaultKeybindings ->
   key = "q"%string -> quits = true).
Proof.
  intros key kb quits. split; [|split].
  - intros Hq. unfold commit.handleKey. fold key. fold kb. fold quits.
    rewrite Hq. reflexivity.
  - intros st H Hch. unfold commit.handleKey in H. fold key in H.
    fold kb in H. fold quits in H.
    destruct quits.
    { injection H as <-. cbn in Hch. by destruct Hch. }
    destruct (commit.State_ m) eqn:ES;
      try (exfalso;
           repeat match type of H with
           | context [if ?b then _ else _] => destruct b
           | context [match ?x with Some _ => _ | None => _ end] =>
               destruct x as [[??]|]; try discriminate
           end; injection H as <-; cbn in Hch; by destruct Hch).
    destruct (commitkey_facts.handleEditKey_message render w env counter σ m
                msg st H Hch) as (A & B & C & D & E & _).
    auto 10.
  - intros Hg Hk. subst quits. rewrite Hg, Hk. reflexivity.
Qed.

Module session_facts.

Import goint goint_facts terminal terminal_ext.

Section Session.

Variable render : styles.Styles.

(** A session from its start: the sink after the first [n] writes of the
    runner, and what a tick then does. *)
Lemma run_then_tick (w : World) (σ : sinks) (t : Model) (name : string)
    (args : list string) (n : nat) :
  let r := RunCommand render w σ t name args in
  let σ1 := r.1.1.1 in
  let t1 := r.1.1.2 in
  let g := r.1.2 in
  let ls := mergedLines w (Dir t) None name args in
  let e := exitError w (Dir t) None name args in
  let σn := runGoroutine σ1 g n in
  let running := bool_decide (n <= length ls)%nat in
  0 <= MaxLines t -> len ls + 2 <= maxInt ->
  r.2 = tickCmd (ID t) /\ Running t1 = true /\ ID t1 = ID t /\
  exists t2,
    handleTick render σn [] t1
      = Some (t2, if running then tickCmd (ID t) else nilCmd) /\
    Running t2 = running /\
    Err t2 = (if running then None else e) /\
    ID t2 = ID t /\
    GetRawOutput σn t2
      = String.concat newline (if running then take n ls else ls).
Proof.
  intros r σ1 t1 g ls e σn running HM HL.
  assert (Hw : writes g = map sink.OpAddLine ls ++ [sink.OpSetDone e])
    by apply runner_facts.writes_shape.
  set (p := fresh (dom σ)).
  assert (Hout : output t1 = Some p) by reflexivity.
  assert (Htg : target g = p).
  { subst g r. unfold RunCommand, RunCommandWithEnv.
    cbn [fst snd Dir withCommand withRunning withLines withScrollPos withErr
         withOutput].
    destruct (executeCommandStreaming _ _ _ _ _). reflexivity. }
  assert (Hσ1 : σ1 !!! p = sink.mkShared [] false None)
    by apply lookup_total_insert_eq.
  assert (Hσn : σn !!! p = sinkAfter g n).
  { subst σn. unfold runGoroutine. rewrite Htg, lookup_total_insert_eq, Hσ1.
    reflexivity. }
  rewrite (runner_facts.sinkAfter_shape g ls e n Hw) in Hσn.
  split; [reflexivity|]. split; [reflexivity|]. split; [reflexivity|].
  destruct (tick_facts.handleTick_spec render σn [] t1 p Hout)
    as (t2 & Ht2 & _ & HR & HE & _ & _ & _ & _ & HID & Ho2).
  - exact HM.
  - rewrite Hσn. unfold rebuilt.
    assert (len (take n ls) <= len ls)
      by (unfold len; rewrite length_take; lia).
    destruct (decide _); cbn [sink.getLines sink.lines];
      destruct (_ >? _); rewrite ?len_app;
      change (len (header render t1)) with 2; try lia;
      change (len (Lines t1)) with 2; pose proof (len_nonneg ls); lia.
  - exists t2. rewrite Hσn in Ht2, HR, HE.
    unfold running.
    destruct (decide (n <= length ls)%nat) as [Hn|Hn].
    + rewrite bool_decide_eq_true_2 by exact Hn.
      cbn [fst snd sink.isDone sink.applyOps foldl sink.done sink.err]
        in Ht2, HR, HE.
      split; [exact Ht2|]. split; [rewrite HR; reflexivity|].
      split; [rewrite HE; reflexivity|]. split; [exact HID|].
      unfold GetRawOutput. rewrite Ho2, Hout, Hσn. reflexivity.
    + rewrite bool_decide_eq_false_2 by exact Hn.
      cbn [fst snd sink.isDone sink.applyOps foldl sink.done sink.err]
        in Ht2, HR, HE.
      split; [exact Ht2|]. split; [exact HR|].
      split; [exact HE|]. split; [exact HID|].
      unfold GetRawOutput. rewrite Ho2, Hout, Hσn. reflexivity.
Qed.

(** The same with the next [k] writes landing during the tick, between
    its snapshot and its completion check; what is read from the sink after
    the tick has them. *)
Lemma run_then_tick_between (w : World) (σ : sinks) (t : Model)
    (name : string) (args : list string) (n k : nat) :
  let r := RunCommand render w σ t name args in
  let σ1 := r.1.1.1 in
  let t1 := r.1.1.2 in
  let g := r.1.2 in
  let ls := mergedLines w (Dir t) None name args in
  let e := exitError w (Dir t) None name args in
  let σn := runGoroutine σ1 g n in
  let between := take k (drop n (writes g)) in
  let running := bool_decide (n + k <= length ls)%nat in
  0 <= MaxLines t -> len ls + 2 <= maxInt ->
  exists t2,
    handleTick render σn between t1
      = Some (t2, if running then tickCmd (ID t) else nilCmd) /\
    Running t2 = running /\
    Err t2 = (if running then None else e) /\
    ID t2 = ID t /\
    GetRawOutput (written σn between t2) t2
      = String.concat newline (if running then take (n + k) ls else ls).
Proof.
  intros r σ1 t1 g ls e σn between running HM HL.
  assert (Hw : writes g = map sink.OpAddLine ls ++ [sink.OpSetDone e])
    by apply runner_facts.writes_shape.
  set (p := fresh (dom σ)).
  assert (Hout : output t1 = Some p) by reflexivity.
  assert (Htg : target g = p).
  { subst g r. unfold RunCommand, RunCommandWithEnv.
    cbn [fst snd Dir withCommand withRunning withLines withScrollPos withErr
         withOutput].
    destruct (executeCommandStreaming _ _ _ _ _). reflexivity. }
  assert (Hσ1 : σ1 !!! p = sink.mkShared [] false None)
    by apply lookup_total_insert_eq.
  assert (Hσn : σn !!! p = sinkAfter g n).
  { subst σn. unfold runGoroutine. rewrite Htg, lookup_total_insert_eq, Hσ1.
    reflexivity. }
  assert (Hfin : sink.applyOps (σn !!! p) between = sinkAfter g (n + k)).
  { rewrite Hσn. unfold sinkAfter, between.
    by rewrite <- sink_facts.applyOps_app, take_take_drop. }
  destruct (tick_facts.handleTick_spec render σn between t1 p Hout)
    as (t2 & Ht2 & _ & HR & HE & _ & _ & _ & _ & HID & Ho2).
  - exact HM.
  - rewrite Hσn, (runner_facts.sinkAfter_shape g ls e n Hw). unfold rebuilt.
    assert (len (take n ls) <= len ls)
      by (unfold len; rewrite length_take; lia).
    destruct (decide _); cbn [sink.getLines sink.lines];
      destruct (_ >? _); rewrite ?len_app;
      change (len (header render t1)) with 2; try lia;
      change (len (Lines t1)) with 2; pose proof (len_nonneg ls); lia.
  - assert (Hout2 : output t2 = Some p) by (by rewrite Ho2).
    exists t2. rewrite Hfin in Ht2, HR, HE.
    rewrite (tick_more.GetRawOutput_written _ _ _ _ Hout2), Hfin.
    rewrite (runner_facts.sinkAfter_shape g ls e (n + k) Hw) in *.
    unfold running.
    destruct (decide (n + k <= length ls)%nat) as [Hn|Hn].
    + rewrite bool_decide_eq_true_2 by exact Hn.
      cbn [fst snd sink.isDone sink.done sink.err sink.lines] in *.
      split; [exact Ht2|]. split; [rewrite HR; reflexivity|].
      split; [rewrite HE; reflexivity|]. split; [exact HID|reflexivity].
    + rewrite bool_decide_eq_false_2 by exact Hn.
      cbn [fst snd sink.isDone sink.done sink.err sink.lines] in *.
      split; [exact Ht2|]. split; [exact HR|].
      split; [exact HE|]. split; [exact HID|reflexivity].
Qed.

End Session.

End session_facts.

Module commitsession_facts.

Import goint goint_facts.

Lemma SetSize_Dir t width height :
  terminal.Dir (terminal.SetSize t width height) = terminal.Dir t /\
  terminal.MaxLines (terminal.SetSize t width height) = terminal.MaxLines t /\
  terminal.ID (terminal.SetSize t width height) = terminal.ID t.
Proof.
  unfold terminal.SetSize. cbn.
  repeat match goal with |- context [if ?b then _ else _] => destruct b end;
    cbn; auto.
Qed.

Section Sessions.

Variable render : styles.Styles.
Variable TrimSpace : string -> string.
Variable parseCommitMessage : string -> string * string.
Variable w : terminal.World.
Variable env : commit.Env.

(** A tick of the current session, in the generating or the committing
    state, after the first [n] writes of the runner. *)
Lemma tick_in_session counter σ (m : commit.Model) t name args n :
  let r := terminal.RunCommand render w σ t name args in
  let ls := terminal_ext.mergedLines w (terminal.Dir t) None name args in
  let e := terminal_ext.exitError w (terminal.Dir t) None name args in
  let σn := terminal.runGoroutine r.1.1.1 r.1.2 n in
  let running := bool_decide (n <= length ls)%nat in
  0 <= terminal.MaxLines t -> len ls + 2 <= maxInt ->
  commit.State_ m = commit.StateGenerating \/
    commit.State_ m = commit.StateCommitting ->
  commit.Terminal m = r.1.1.2 ->
  exists t2,
    terminal.ID t2 = terminal.ID t /\
    terminal.Running t2 = running /\
    terminal.Err t2 = (if running then None else e) /\
    terminal.GetRawOutput σn t2
      = String.concat terminal.newline (if running then take n ls else ls) /\
    commit.Update render TrimSpace parseCommitMessage w env counter σn []
      m (commit.TickMsg (terminal.ID t))
    = Some
        (if running
         then commit.mkStep counter σn None (commit.withTerminal t2 m)
                (commit.terminalCmd (terminal.tickCmd (terminal.ID t)))
         else
           let m2 := commit.withTerminal t2 m in
           if bool_decide (commit.State_ m = commit.StateGenerating)
           then commit.mkStep counter σn None
                  (commit.handleGenerateDone TrimSpace parseCommitMessage
                     σn m2).1 commit.nilCmd
           else commit.mkStep counter σn None
                  (commit.handleCommitDone m2).1 commit.nilCmd).
Proof.
  intros r ls e σn running HM HL HS HT.
  destruct (session_facts.run_then_tick render w σ t name args n HM HL)
    as (_ & _ & Hid & t2 & Htick & HR & HE & HID & Hraw).
  fold r ls e σn running in Htick, HR, HE, Hraw, Hid.
  exists t2. split; [exact HID|]. split; [exact HR|]. split; [exact HE|].
  split; [exact Hraw|].
  unfold commit.Update.
  assert ((bool_decide (commit.State_ m = commit.StateGenerating)
           || bool_decide (commit.State_ m = commit.StateCommitting)) = true)
    as -> by (destruct HS as [-> | ->]; reflexivity).
  unfold terminal.Update. rewrite HT.
  rewrite bool_decide_eq_false_2 by (rewrite Hid; tauto).
  rewrite Htick.
  cbn [commit.Terminal commit.withTerminal commit.State_]. rewrite HR.
  destruct running; cbn [negb]; [reflexivity|].
  destruct (bool_decide (commit.State_ m = commit.StateGenerating)).
  - unfold commit.handleGenerateDone. cbn [commit.Terminal commit.withTerminal].
    destruct (terminal.Err t2); [reflexivity|].
    rewrite tick_more.GetRawOutput_written_nil.
    destruct (parseCommitMessage _). reflexivity.
  - unfold commit.handleCommitDone. cbn [commit.Terminal commit.withTerminal].
    destruct (terminal.Err t2); reflexivity.
Qed.

(** A tick of the generating session with the next [k] writes landing
    while it runs. *)
Lemma tick_in_generation counter σ (m : commit.Model) t name args n k :
  let r := terminal.RunCommand render w σ t name args in
  let ls := terminal_ext.mergedLines w (terminal.Dir t) None name args in
  let e := terminal_ext.exitError w (terminal.Dir t) None name args in
  let σn := terminal.runGoroutine r.1.1.1 r.1.2 n in
  let between := take k (drop n (terminal.writes r.1.2)) in
  let running := bool_decide (n + k <= length ls)%nat in
  0 <= terminal.MaxLines t -> len ls + 2 <= maxInt ->
  commit.State_ m = commit.StateGenerating ->
  commit.Terminal m = r.1.1.2 ->
  exists t2,
    terminal.ID t2 = terminal.ID t /\
    terminal.Running t2 = running /\
    terminal.Err t2 = (if running then None else e) /\
    terminal.GetRawOutput (terminal_ext.written σn between t2) t2
      = String.concat terminal.newline
          (if running then take (n + k) ls else ls) /\
    commit.Update render TrimSpace parseCommitMessage w env counter σn
      between m (commit.TickMsg (terminal.ID t))
    = Some
        (if running
         then commit.mkStep counter σn None (commit.withTerminal t2 m)
                (commit.terminalCmd (terminal.tickCmd (terminal.ID t)))
         else
           commit.mkStep counter σn None
             (commit.handleGenerateDone TrimSpace parseCommitMessage
                (terminal_ext.written σn between t2)
                (commit.withTerminal t2 m)).1 commit.nilCmd).
Proof.
  intros r ls e σn between running HM HL HS HT.
  destruct (session_facts.run_then_tick render w σ t name args 0 HM HL)
    as (_ & _ & Hid & _).
  destruct (session_facts.run_then_tick_between render w σ t name args n k
              HM HL) as (t2 & Htick & HR & HE & HID & Hraw).
  fold r ls e σn between running in Htick, HR, HE, Hraw, Hid.
  exists t2. split; [exact HID|]. split; [exact HR|]. split; [exact HE|].
  split; [exact Hraw|].
  unfold commit.Update.
  assert ((bool_decide (commit.State_ m = commit.StateGenerating)
           || bool_decide (commit.State_ m = commit.StateCommitting)) = true)
    as -> by (rewrite HS; reflexivity).
  unfold terminal.Update. rewrite HT.
  rewrite bool_decide_eq_false_2 by (rewrite Hid; tauto).
  rewrite Htick.
  cbn [commit.Terminal commit.withTerminal commit.State_]. rewrite HR.
  destruct running; cbn [negb]; [reflexivity|].
  rewrite HS. change (bool_decide (commit.StateGenerating
                                   = commit.StateGenerating)) with true.
  cbv iota.
  destruct (commit.handleGenerateDone _ _ _ _) as [m3 c3] eqn:Hg.
  unfold commit.handleGenerateDone in Hg.
  cbn [commit.Terminal commit.withTerminal] in Hg.
  destruct (terminal.Err t2).
  - by injection Hg as <- <-.
  - destruct (parseCommitMessage _). by injection Hg as <- <-.
Qed.

End Sessions.

End commitsession_facts.

(** X21. The generation session.  When the check reports changes, the
    component enters the generating state and starts [claude -p
    /generate-commit-msg] in the repository, with a tick scheduled.  Take
    a tick of that session whose snapshot sees the first [n] writes of the
    runner, while the next [k] land before its completion check.  If the
    runner has not made its last write by then, the tick keeps the state
    and schedules the next tick.  Otherwise it ends the session: on an
    error (launch or exit) the state is the error state with the message
    [Failed to generate commit message: ...]; otherwise the state is the
    editing state, subject and body are what [parseCommitMessage] makes of
    the trimmed raw output, which is read again from the sink and so holds
    every line (the lines of both readers joined by line feeds), also
    those that landed during the tick, and the cursor is at the end of the
    subject. *)
Theorem generation_session_ends_in_editing_or_error
    (render : styles.Styles) (TrimSpace : string -> string)
    (parseCommitMessage : string -> string * string)
    (w : terminal.World) (env : commit.Env)
    (counter : Z) (σ : terminal.sinks) (m : commit.Model) (diff : string)
    (n k : nat) :
  let args := ["-p"%string; "/generate-commit-msg"%string] in
  let ls := terminal_ext.mergedLines w (commit.RepoPath m) None "claude" args in
  let e := terminal_ext.exitError w (commit.RepoPath m) None "claude" args in
  goint.len ls + 2 <= goint.maxInt ->
  exists st g,
    commit.Update render TrimSpace parseCommitMessage w env counter σ []
      m (commit.CheckDoneMsg true diff None) = Some st /\
    commit.started st = Some g /\
    commit.State_ (commit.model st) = commit.StateGenerating /\
    let id := terminal.ID (commit.Terminal (commit.model st)) in
    commit.cmd st = commit.terminalCmd (terminal.tickCmd id) /\
    let σn := terminal.runGoroutine (commit.sinks st) g n in
    let between := take k (drop n (terminal.writes g)) in
    exists st',
      commit.Update render TrimSpace parseCommitMessage w env
        (commit.counter st) σn between (commit.model st) (commit.TickMsg id)
      = Some st' /\
      commit.started st' = None /\
      let m' := commit.model st' in
      if bool_decide (n + k <= length ls)%nat then
        commit.State_ m' = commit.StateGenerating /\
        commit.cmd st' = commit.terminalCmd (terminal.tickCmd id)
      else
        commit.cmd st' = commit.nilCmd /\
        match e with
        | Some err =>
            commit.State_ m' = commit.StateError /\
            commit.ErrMsg m' =
              "Failed to generate commit message: " +:+ ErrorString err
        | None =>
            commit.State_ m' = commit.StateEditing /\
            (commit.Subject m', commit.Body m') =
              parseCommitMessage
                (TrimSpace (String.concat terminal.newline ls)) /\
            commit.EditingField m' = 0 /\
            commit.CursorPos m' = gostring.len (commit.Subject m') /\
            commit.cursorInField m'
        end.
Proof.
  intros args ls e HL.
  unfold commit.Update at 1. cbn [negb]. unfold commit.startGenerating.
  cbv beta zeta delta [commit.withDiff commit.withState].
  cbn [commit.Config commit.RepoPath commit.Width commit.Height].
  destruct (terminal.New counter (keys.restrict (commit.Config m))
              "Generating commit message...") as [counter1 t0] eqn:EN.
  cbv beta zeta delta [commit.withTerminal].
  cbn [commit.Config commit.RepoPath commit.Width commit.Height
       commit.Terminal].
  set (t := terminal.SetSize (terminal.withDir (commit.RepoPath m) t0)
              (commit.Width m) (commit.Height m)).
  destruct (commitsession_facts.SetSize_Dir
              (terminal.withDir (commit.RepoPath m) t0)
              (commit.Width m) (commit.Height m)) as (HD & HM & HI).
  fold t in HD, HM, HI. cbn [terminal.Dir terminal.withDir
    terminal.MaxLines terminal.ID] in HD, HM, HI.
  assert (HM0 : terminal.MaxLines t0 = 1000)
    by (unfold terminal.New in EN; injection EN as _ <-; reflexivity).
  fold args.
  destruct (terminal.RunCommand render w σ t "claude" args)
    as [[[σ1 t1] g] c] eqn:ER.
  cbn [commit.Config commit.RepoPath commit.Width commit.Height
       commit.Terminal commit.State_ commit.ErrMsg commit.Diff commit.Subject
       commit.Body commit.EditingField commit.CursorPos commit.BodyScrollPos].
  eexists _, g. split; [reflexivity|]. split; [reflexivity|].
  split; [reflexivity|].
  cbn [commit.model commit.cmd commit.sinks commit.counter commit.Terminal].
  pose proof (session_facts.run_then_tick render w σ t "claude" args n)
    as Hrun. rewrite ER in Hrun. cbn [fst snd] in Hrun. rewrite HD in Hrun.
  fold ls e in Hrun.
  destruct Hrun as (Hc & _ & Hid1 & _); [lia|exact HL|].
  split; [rewrite Hid1, Hc; reflexivity|].
  set (m1 := commit.mkModel _ _ _ _ _ _ _ _ _ _ t1 _ _).
  pose proof (commitsession_facts.tick_in_generation render TrimSpace
                parseCommitMessage w env counter1 σ m1 t "claude" args n k)
    as Htick.
  rewrite ER in Htick. cbn [fst snd] in Htick. rewrite HD in Htick.
  fold ls e in Htick.
  destruct Htick as (t2 & HID & HR & HE & Hraw & HU);
    [lia|exact HL|reflexivity|reflexivity|].
  rewrite Hid1, HU.
  destruct (bool_decide (n + k <= length ls)%nat).
  - eexists. split; [reflexivity|]. split; [reflexivity|].
    split; reflexivity.
  - eexists. split; [reflexivity|]. split; [reflexivity|].
    split; [reflexivity|].
    cbn [commit.model]. unfold commit.handleGenerateDone.
    cbn [commit.Terminal commit.withTerminal]. rewrite HE.
    destruct e as [err|].
    + split; reflexivity.
    + rewrite Hraw. destruct (parseCommitMessage _) as [subject body].
      cbn. repeat split.
      left. cbn. pose proof (gostring_facts.strlen_nonneg subject). lia.
Qed.

Lemma generation_session_ends_in_editing_or_error_witness :
  exists st g,
    commit.Update styles.plain id (fun s => (s, EmptyString)) twoLinesWorld
      linuxEnv 0 ∅ [] (editing EmptyString EmptyString 0 0)
      (commit.CheckDoneMsg true "diff" None) = Some st /\
    commit.started st = Some g /\
    commit.State_ (commit.model st) = commit.StateGenerating.
Proof.
  destruct (generation_session_ends_in_editing_or_error styles.plain id
              (fun s => (s, EmptyString)) twoLinesWorld linuxEnv 0 ∅
              (editing EmptyString EmptyString 0 0) "diff" 1 2)
    as (st & g & H1 & H2 & H3 & _).
  - vm_compute. discriminate.
  - exists st, g. split; [exact H1|]. split; [exact H2|exact H3].
Defined.

(** That session when the tick's snapshot holds the first line only and
    the second line and the completion land while the tick runs: the
    display buffer of the modal misses the second line, the subject has
    both. *)
Example generation_with_late_line :
  match commit.Update styles.plain id (fun s => (s, EmptyString))
          twoLinesWorld linuxEnv 0 ∅ [] (editing EmptyString EmptyString 0 0)
          (commit.CheckDoneMsg true "diff" None) with
  | Some (commit.mkStep counter σ (Some g) m _) =>
      match commit.Update styles.plain id (fun s => (s, EmptyString))
              twoLinesWorld linuxEnv counter (terminal.runGoroutine σ g 1)
              (take 2 (drop 1 (terminal.writes g))) m (commit.TickMsg 1) with
      | Some st' =>
          commit.State_ (commit.model st') = commit.StateEditing /\
          commit.Subject (commit.model st')
            = "line1" +:+ terminal.newline +:+ "line2" /\
          terminal_ext.GetOutputLines (commit.Terminal (commit.model st'))
            = ["line1"; EmptyString; "✓ Command completed"]
      | None => False
      end
  | _ => False
  end.
Proof. vm_compute. repeat split. Qed.

(** X22. The commit session.  In the editing state, a key that matches
    submit (and no quit binding) with a subject that is not empty starts
    [bash -c] on the commit script in the repository and enters the
    committing state; the message is kept.  A tick of that session while
    the runner is still writing keeps the state and schedules the next
    tick; the tick after the runner's last write ends the session, in the
    done state when git exited with status 0 and in the error state with
    the message [Commit failed: ...] otherwise.  With an empty subject the
    key only sets the error message [Subject is required]. *)
Theorem commit_session_ends_in_done_or_error
    (render : styles.Styles) (TrimSpace : string -> string)
    (parseCommitMessage : string -> string * string)
    (w : terminal.World) (env : commit.Env)
    (counter : Z) (σ : terminal.sinks) (between : list sink.SinkOp)
    (m : commit.Model) (msg : terminal.KeyMsg) (n : nat) :
  let key := terminal.KString msg in
  let kb := keys.Keys (commit.Config m) in
  let args := ["-c"%string; commit.commitScript env m] in
  let ls := terminal_ext.mergedLines w (commit.RepoPath m) None "bash" args in
  let e := terminal_ext.exitError w (commit.RepoPath m) None "bash" args in
  commit.State_ m = commit.StateEditing ->
  config.MatchesAny key
    [config.Quit (keys.Global kb); config.QuitAlt (keys.Global kb)] = false ->
  config.Matches key (keys.FormKeys.Submit (keys.Form kb)) = true ->
  goint.len ls + 2 <= goint.maxInt ->
  (commit.Subject m = EmptyString ->
   commit.Update render TrimSpace parseCommitMessage w env counter σ between
     m (commit.KeyMsg msg)
   = Some (commit.mkStep counter σ None
             (commit.withErrMsg "Subject is required" m) commit.nilCmd)) /\
  (commit.Subject m <> EmptyString ->
   exists st g,
     commit.Update render TrimSpace parseCommitMessage w env counter σ
       between m (commit.KeyMsg msg) = Some st /\
     commit.started st = Some g /\
     commit.State_ (commit.model st) = commit.StateCommitting /\
     commit.Subject (commit.model st) = commit.Subject m /\
     commit.Body (commit.model st) = commit.Body m /\
     let id := terminal.ID (commit.Terminal (commit.model st)) in
     commit.cmd st = commit.terminalCmd (terminal.tickCmd id) /\
     let σn := terminal.runGoroutine (commit.sinks st) g n in
     exists st',
       commit.Update render TrimSpace parseCommitMessage w env
         (commit.counter st) σn [] (commit.model st) (commit.TickMsg id)
       = Some st' /\
       commit.started st' = None /\
       let m' := commit.model st' in
       commit.Subject m' = commit.Subject m /\
       commit.Body m' = commit.Body m /\
       if bool_decide (n <= length ls)%nat then
         commit.State_ m' = commit.StateCommitting /\
         commit.cmd st' = commit.terminalCmd (terminal.tickCmd id)
       else
         commit.cmd st' = commit.nilCmd /\
         match e with
         | Some err =>
             commit.State_ m' = commit.StateError /\
             commit.ErrMsg m' = "Commit failed: " +:+ ErrorString err
         | None => commit.State_ m' = commit.StateDone
         end).
Proof.
  intros key kb args ls e HS Hq Hsub HL.
  split.
  { intros Hempty.
    unfold commit.Update, commit.handleKey, commit.handleEditKey.
    fold key. fold kb. rewrite Hq, HS, Hsub, Hempty. reflexivity. }
  intros Hne. apply String.eqb_neq in Hne.
  unfold commit.Update at 1. unfold commit.handleKey, commit.handleEditKey.
  fold key. fold kb. rewrite Hq, HS, Hsub, Hne.
  rewrite editkey_facts.doCommit_script.
  destruct (terminal.New counter (keys.restrict (commit.Config m))
              "Committing changes...") as [counter1 t0] eqn:EN.
  cbv zeta.
  set (t := terminal.SetSize (terminal.withDir (commit.RepoPath m) t0)
              (commit.Width m) (commit.Height m)).
  destruct (commitsession_facts.SetSize_Dir
              (terminal.withDir (commit.RepoPath m) t0)
              (commit.Width m) (commit.Height m)) as (HD & HM & HI).
  fold t in HD, HM, HI. cbn [terminal.Dir terminal.withDir
    terminal.MaxLines terminal.ID] in HD, HM, HI.
  assert (HM0 : terminal.MaxLines t0 = 1000)
    by (unfold terminal.New in EN; injection EN as _ <-; reflexivity).
  fold args.
  destruct (terminal.RunCommand render w σ t "bash" args)
    as [[[σ1 t1] g] c] eqn:ER.
  cbv beta zeta delta [commit.withTerminal commit.withState].
  cbn [commit.Config commit.RepoPath commit.Width commit.Height
       commit.Terminal commit.State_ commit.ErrMsg commit.Diff commit.Subject
       commit.Body commit.EditingField commit.CursorPos commit.BodyScrollPos].
  eexists _, g. split; [reflexivity|]. split; [reflexivity|].
  split; [reflexivity|]. split; [reflexivity|]. split; [reflexivity|].
  cbn [commit.model commit.cmd commit.sinks commit.counter commit.Terminal].
  pose proof (session_facts.run_then_tick render w σ t "bash" args n)
    as Hrun. rewrite ER in Hrun. cbn [fst snd] in Hrun. rewrite HD in Hrun.
  fold ls e in Hrun.
  destruct Hrun as (Hc & _ & Hid1 & _); [lia|exact HL|].
  split; [rewrite Hid1, Hc; reflexivity|].
  set (m1 := commit.mkModel _ _ _ _ _ _ _ _ _ _ t1 _ _).
  pose proof (commitsession_facts.tick_in_session render TrimSpace
                parseCommitMessage w env counter1 σ m1 t "bash" args n)
    as Htick.
  rewrite ER in Htick. cbn [fst snd] in Htick. rewrite HD in Htick.
  fold ls e in Htick.
  destruct Htick as (t2 & HID & HR & HE & Hraw & HU);
    [lia|exact HL|right; reflexivity|reflexivity|].
  rewrite Hid1, HU.
  destruct (bool_decide (n <= length ls)%nat).
  - eexists. split; [reflexivity|]. split; [reflexivity|].
    repeat split.
  - change (bool_decide (commit.State_ m1 = commit.StateGenerating))
      with false. cbv iota zeta.
    eexists. split; [reflexivity|]. split; [reflexivity|].
    cbn [commit.model]. unfold commit.handleCommitDone.
    cbn [commit.Terminal commit.withTerminal]. rewrite HE.
    destruct e as [err|]; repeat split.
Qed.

Lemma commit_session_ends_in_done_or_error_witness :
  exists st g,
    commit.Update styles.plain id (fun s => (s, EmptyString)) mixedWorld
      linuxEnv 0 ∅ [] (editing "fix: typo" EmptyString 0 9)
      (commit.KeyMsg (key "ctrl+s")) = Some st /\
    commit.started st = Some g /\
    commit.State_ (commit.model st) = commit.StateCommitting.
Proof.
  destruct (commit_session_ends_in_done_or_error styles.plain id
              (fun s => (s, EmptyString)) mixedWorld linuxEnv 0 ∅ []
              (editing "fix: typo" EmptyString 0 9) (key "ctrl+s") 6)
    as [_ H].
  - reflexivity.
  - reflexivity.
  - reflexivity.
  - vm_compute. discriminate.
  - destruct H as (st & g & H1 & H2 & H3 & _); [discriminate|].
    exists st, g. split; [exact H1|]. split; [exact H2|exact H3].
Defined.

Lemma edit_key_keeps_cursor_in_field_witness :
  exists st,
    commit.handleEditKey styles.plain seqWorld linuxEnv 0 ∅
      (editing "fix: typo" twoLineText 1 9) (key "home") = Some st.
Proof.
  destruct (edit_key_keeps_cursor_in_field styles.plain seqWorld linuxEnv 0 ∅
              (editing "fix: typo" twoLineText 1 9) (key "home"))
    as (st & H & _).
  - right. vm_compute. split; [reflexivity|]. split; discriminate.
  - reflexivity.
  - reflexivity.
  - exists st. exact H.
Defined.

(** ** Key bindings read from a file *)

Module keys_facts.

Import keys.

Lemma orDefault_nonempty (v d : string) :
  d <> EmptyString -> orDefault v d <> EmptyString.
Proof.
  intros Hd. unfold orDefault.
  destruct (String.eqb_spec v EmptyString); assumption.
Qed.

Lemma orDefault_idem (v d : string) :
  d <> EmptyString -> orDefault (orDefault v d) d = orDefault v d.
Proof.
  intros Hd. unfold orDefault at 1.
  destruct (String.eqb_spec (orDefault v d) EmptyString) as [E|]; [|done].
  by apply orDefault_nonempty in E.
Qed.

Lemma orDefault_keep (v d : string) :
  v <> EmptyString -> orDefault v d = v.
Proof.
  intros Hv. unfold orDefault.
  destruct (String.eqb_spec v EmptyString); done.
Qed.

Lemma mergeWithDefaults_nonempty (kb : Keybindings) :
  Forall (fun b => b <> EmptyString) (bindings (mergeWithDefaults kb)).
Proof. repeat constructor; apply orDefault_nonempty; discriminate. Qed.

End keys_facts.

(** X23. [mergeWithDefaults] fills exactly the empty bindings: each of the
    thirty-four bindings of the result is the binding read if that is not
    empty and the default otherwise.  So no binding of the result is
    empty, merging again changes nothing, a structure without empty
    bindings comes back as it is, and the zero value (a file that is an
    empty JSON object) gives the defaults. *)
Theorem mergeWithDefaults_fills_exactly_the_empty_bindings
    (kb : keys.Keybindings) :
  keys.bindings (keys.mergeWithDefaults kb) =
    zip_with keys.orDefault (keys.bindings kb)
      (keys.bindings keys.DefaultKeybindings) /\
  Forall (fun b => b <> EmptyString)
    (keys.bindings (keys.mergeWithDefaults kb)) /\
  keys.mergeWithDefaults (keys.mergeWithDefaults kb) =
    keys.mergeWithDefaults kb /\
  (Forall (fun b => b <> EmptyString) (keys.bindings kb) ->
   keys.mergeWithDefaults kb = kb) /\
  keys.mergeWithDefaults keys.zero = keys.DefaultKeybindings.
Proof.
  split; [reflexivity|]. split; [|split; [|split; [|reflexivity]]].
  - apply keys_facts.mergeWithDefaults_nonempty.
  - unfold keys.mergeWithDefaults.
    cbn [keys.Global keys.List keys.Form keys.Editor keys.Detail
         config.Quit config.QuitAlt config.Help config.MoveUp config.MoveDown
         config.MoveUpAlt config.MoveDownAlt config.Select config.New
         config.Delete config.Edit config.Top config.Bottom config.PageUp
         config.PageDown keys.FormKeys.Submit keys.FormKeys.Cancel
         keys.FormKeys.NextField keys.FormKeys.PrevField
         keys.FormKeys.AddPrompt keys.FormKeys.DeletePrompt
         keys.FormKeys.EditPrompt keys.FormKeys.ImprovePrompt
         keys.EditorKeys.Save keys.EditorKeys.Cancel keys.EditorKeys.LineStart
         keys.EditorKeys.LineEnd keys.EditorKeys.DeleteLine
         keys.EditorKeys.NewLine keys.DetailKeys.Back keys.DetailKeys.Edit
         keys.DetailKeys.Delete keys.DetailKeys.ScrollUp
         keys.DetailKeys.ScrollDown].
    rewrite !keys_facts.orDefault_idem by discriminate. reflexivity.
  - intros H. destruct kb as [[] [] [] [] []].
    unfold keys.bindings in H. cbn in H.
    repeat match goal with
    | H : Forall _ (_ :: _) |- _ =>
        let H1 := fresh "K" in
        apply Forall_cons in H; destruct H as [H1 H]
    end.
    unfold keys.mergeWithDefaults. cbn.
    rewrite !keys_facts.orDefault_keep by assumption. reflexivity.
Qed.

Lemma mergeWithDefaults_fills_exactly_the_empty_bindings_witness :
  keys.mergeWithDefaults keys.DefaultKeybindings = keys.DefaultKeybindings.
Proof.
  refine (proj1 (proj2 (proj2 (proj2
    (mergeWithDefaults_fills_exactly_the_empty_bindings
       keys.DefaultKeybindings)))) _).
  repeat constructor; discriminate.
Defined.

(** ** The store *)

Module store_facts.

Import store todoitem string_facts.

Lemma append_inv_head (a x y : string) : a +:+ x = a +:+ y -> x = y.
Proof.
  induction a as [|c a IH]; [done|]. rewrite !append_cons.
  intros H. injection H as H. auto.
Qed.

Lemma append_inv_tail (s : string) : forall x y, x +:+ s = y +:+ s -> x = y.
Proof.
  assert (Hlen : forall c z, s <> String c (z +:+ s)).
  { intros c z H. apply (f_equal String.length) in H.
    cbn [String.length] in H. rewrite length_append in H. lia. }
  induction x as [|a x IH]; intros [|b y] H.
  - reflexivity.
  - exfalso. rewrite append_cons in H. exact (Hlen _ _ H).
  - exfalso. rewrite append_cons in H. symmetry in H. exact (Hlen _ _ H).
  - rewrite !append_cons in H. injection H as -> H. f_equal. auto.
Qed.

Lemma Join_inj (dir n1 n2 : string) : Join dir n1 = Join dir n2 -> n1 = n2.
Proof.
  unfold Join. intros H. apply append_inv_head in H.
  by apply append_inv_head in H.
Qed.

Section Todos.

Variable todoRepoID : string -> string.
Variable marshal : TodoList -> GoError + string.
Variable unmarshal : string -> GoError + TodoList.

(** The path of the file of a repository. *)
Lemma file_inj (s : Store) (r1 r2 : string) :
  Join (Join (path s) "todos") (todoRepoID r1 +:+ ".json")
  = Join (Join (path s) "todos") (todoRepoID r2 +:+ ".json") ->
  todoRepoID r1 = todoRepoID r2.
Proof. intros H. apply Join_inj in H. by apply append_inv_tail in H. Qed.

(** A failing read leaves nothing to write. *)
Lemma GetTodos_error d s repoPath err t todoID :
  GetTodos todoRepoID unmarshal d s repoPath = inl err ->
  AddTodo todoRepoID marshal unmarshal d s repoPath t = (d, Some err) /\
  UpdateTodo todoRepoID marshal unmarshal d s repoPath t = (d, Some err) /\
  DeleteTodo todoRepoID marshal unmarshal d s repoPath todoID
    = (d, Some err).
Proof.
  intros H. unfold AddTodo, UpdateTodo, DeleteTodo. rewrite H. done.
Qed.

(** [GetTodos] reads one file. *)
Lemma GetTodos_reads d d' s repoPath :
  mkdirErr d' = mkdirErr d -> readErr d' = readErr d ->
  files d' !! Join (Join (path s) "todos") (todoRepoID repoPath +:+ ".json")
  = files d !! Join (Join (path s) "todos") (todoRepoID repoPath +:+ ".json")
  ->
  GetTodos todoRepoID unmarshal d' s repoPath
  = GetTodos todoRepoID unmarshal d s repoPath.
Proof.
  intros Hm Hr Hf. unfold GetTodos, SubDir, init, ReadJSON, Read.
  rewrite Hm. destruct (mkdirErr d); [reflexivity|].
  cbv zeta. cbn [path]. rewrite Hr, Hf. reflexivity.
Qed.

(** A list that was read can be written back and read again. *)
Lemma SaveTodos_then_GetTodos d s repoPath list list' data :
  GetTodos todoRepoID unmarshal d s repoPath = inr list ->
  todoRepoID (RepoPath list') = todoRepoID repoPath ->
  marshal list' = inr data -> unmarshal data = inr list' ->
  writeErr d = None -> readErr d = None ->
  let file :=
    Join (Join (path s) "todos") (todoRepoID repoPath +:+ ".json") in
  let d' := withFiles (<[file := data]> (files d)) d in
  SaveTodos todoRepoID marshal d s list' = (d', None) /\
  GetTodos todoRepoID unmarshal d' s repoPath = inr list' /\
  forall other, todoRepoID other <> todoRepoID repoPath ->
    GetTodos todoRepoID unmarshal d' s other
    = GetTodos todoRepoID unmarshal d s other.
Proof.
  intros HG Hid Hm Hu Hw Hr file d'.
  assert (Hmk : mkdirErr d = None).
  { unfold GetTodos, SubDir, init in HG. destruct (mkdirErr d); done. }
  split; [|split].
  - unfold SaveTodos, SubDir, init, WriteJSON, Write.
    rewrite Hmk. cbv zeta. cbn [path]. rewrite Hm, Hw, Hid. reflexivity.
  - unfold GetTodos, SubDir, init, ReadJSON, Read. subst d'.
    cbn [mkdirErr withFiles]. rewrite Hmk. cbv zeta.
    cbn [path files readErr withFiles]. fold file.
    rewrite lookup_insert_eq, Hr, Hu. reflexivity.
  - intros other Hne. apply GetTodos_reads; [reflexivity..|].
    subst d'. cbn [withFiles files]. apply lookup_insert_ne.
    intros H. apply file_inj in H. congruence.
Qed.

Lemma findID_Some todos id i :
  findID todos id = Some i <->
  (exists t, todos !! i = Some t /\ ID t = id) /\
  forall j t, todos !! j = Some t -> (j < i)%nat -> ID t <> id.
Proof.
  unfold findID. split.
  - intros H. apply fmap_Some in H as ([i' t] & H & ->).
    apply list_find_Some in H as (H1 & H2 & H3). cbn. eauto.
  - intros ((t & H1 & H2) & H3). apply fmap_Some. exists (i, t).
    split; [|done]. apply list_find_Some. eauto.
Qed.

Lemma findID_None todos id :
  findID todos id = None <-> Forall (fun t => ID t <> id) todos.
Proof.
  unfold findID. rewrite fmap_None. apply list_find_None.
Qed.

End Todos.

End store_facts.

(** X24. Loading the key bindings.  [LoadKeybindings] never returns the
    not-found error and never returns an empty binding.  When the file is
    missing it writes the defaults to it and returns them; when the file
    can be read and decoded it returns what it holds merged with the
    defaults and writes nothing (the merged bindings are not written back).
    On an error the files are as they were, unless the error is that of
    the write of the defaults, which may leave a file behind. *)
Theorem LoadKeybindings_fills_or_creates
    (marshal : keys.Keybindings -> GoError + string)
    (unmarshal : string -> GoError + keys.Keybindings)
    (d : store.Disk) (s : store.Store) :
  let file := store.Join (store.path s) store.keybindingsFile in
  match store.LoadKeybindings marshal unmarshal d s with
  | (d', inr kb) =>
      Forall (fun b => b <> EmptyString) (keys.bindings kb) /\
      match store.files d !! file with
      | Some data =>
          d' = d /\ exists kb0, unmarshal data = inr kb0 /\
                                kb = keys.mergeWithDefaults kb0
      | None =>
          kb = keys.DefaultKeybindings /\
          exists data, marshal keys.DefaultKeybindings = inr data /\
                       d' = store.withFiles (<[file := data]> (store.files d)) d
      end
  | (d', inl err) =>
      err <> store.ErrNotFound /\
      (d' = d \/
       exists e torn,
         store.files d !! file = None /\
         store.writeErr d = Some (e, Some torn) /\ err = store.osError e /\
         d' = store.withFiles (<[file := torn]> (store.files d)) d)
  end.
Proof.
  intros file. unfold store.LoadKeybindings, store.ReadJSON, store.Read.
  fold file. destruct (store.files d !! file) as [data|] eqn:Hf.
  - destruct (store.readErr d) as [e|];
      [split; [discriminate|by left]|].
    destruct (unmarshal data) as [e|kb0];
      [split; [discriminate|by left]|].
    split; [|split; [reflexivity|by exists kb0]].
    apply keys_facts.mergeWithDefaults_nonempty.
  - rewrite decide_True by reflexivity.
    unfold store.SaveKeybindings, store.WriteJSON, store.Write. fold file.
    destruct (marshal keys.DefaultKeybindings) as [e|data];
      [split; [discriminate|by left]|].
    destruct (store.writeErr d) as [[e [torn|]]|] eqn:Hw.
    + split; [discriminate|]. right. by exists e, torn.
    + split; [discriminate|by left].
    + split; [|split; [reflexivity|by exists data]].
      repeat constructor; discriminate.
Qed.

(** X25. Adding an item.  When the list of the repository can be read
    (or its file does not exist yet), the file is the repository's own,
    the disk can be written and read, and the new list survives encoding
    and decoding, [AddTodo] succeeds and the list read afterwards is the
    old one with the item appended; the lists of repositories with another
    identifier are as before. *)
Theorem AddTodo_appends_to_the_list
    (todoRepoID : string -> string)
    (marshal : todoitem.TodoList -> GoError + string)
    (unmarshal : string -> GoError + todoitem.TodoList)
    (d : store.Disk) (s : store.Store) (repoPath : string)
    (t : todoitem.Todo) (list : todoitem.TodoList) (data : string) :
  let list' :=
    todoitem.withTodos (todoitem.Todos list ++ [t]) list in
  store.GetTodos todoRepoID unmarshal d s repoPath = inr list ->
  todoRepoID (todoitem.RepoPath list) = todoRepoID repoPath ->
  marshal list' = inr data -> unmarshal data = inr list' ->
  store.writeErr d = None -> store.readErr d = None ->
  exists d',
    store.AddTodo todoRepoID marshal unmarshal d s repoPath t = (d', None) /\
    store.GetTodos todoRepoID unmarshal d' s repoPath = inr list' /\
    (store.files d !! store.Join (store.Join (store.path s) "todos")
                        (todoRepoID repoPath +:+ ".json") = None ->
     list = todoitem.mkTodoList repoPath []) /\
    forall other, todoRepoID other <> todoRepoID repoPath ->
      store.GetTodos todoRepoID unmarshal d' s other
      = store.GetTodos todoRepoID unmarshal d s other.
Proof.
  intros list' HG Hid Hm Hu Hw Hr.
  destruct (store_facts.SaveTodos_then_GetTodos todoRepoID marshal unmarshal
              d s repoPath list list' data HG Hid Hm Hu Hw Hr)
    as (HS & HG' & Hother).
  eexists. split; [|split; [exact HG'|split; [|exact Hother]]].
  - unfold store.AddTodo. rewrite HG. exact HS.
  - intros Hf. unfold store.GetTodos, store.SubDir, store.init,
      store.ReadJSON, store.Read in HG.
    destruct (store.mkdirErr d); [discriminate|].
    cbv zeta in HG. cbn [store.path] in HG. rewrite Hf in HG.
    rewrite decide_True in HG by reflexivity. congruence.
Qed.

Lemma AddTodo_appends_to_the_list_witness :
  exists d',
    store.AddTodo demoRepoID demoMarshal demoUnmarshal emptyDisk homeStore
      "/repo" (demoTodo "a") = (d', None) /\
    store.GetTodos demoRepoID demoUnmarshal d' homeStore "/repo"
      = inr (todoitem.mkTodoList "/repo" [demoTodo "a"]).
Proof.
  destruct (AddTodo_appends_to_the_list demoRepoID demoMarshal demoUnmarshal
              emptyDisk homeStore "/repo" (demoTodo "a")
              (todoitem.mkTodoList "/repo" []) "/repo:a")
    as (d' & H1 & H2 & _); try reflexivity.
  exists d'. split; [exact H1|exact H2].
Defined.

(** X26. Updating and deleting an item.  When the list cannot be read,
    [AddTodo], [UpdateTodo] and [DeleteTodo] return the error of the read
    and write nothing.  When it can, and no item has the identifier,
    [UpdateTodo] and [DeleteTodo] return not-found and write nothing.
    Otherwise they act on the first item with the identifier and on no
    other: the list read afterwards has the new item in its place (every
    other position as before), respectively the same items without that
    one (one item fewer, the order kept). *)
Theorem UpdateTodo_and_DeleteTodo_act_on_the_first_match
    (todoRepoID : string -> string)
    (marshal : todoitem.TodoList -> GoError + string)
    (unmarshal : string -> GoError + todoitem.TodoList)
    (d : store.Disk) (s : store.Store) (repoPath : string)
    (t : todoitem.Todo) :
  store.writeErr d = None -> store.readErr d = None ->
  let todoID := todoitem.ID t in
  match store.GetTodos todoRepoID unmarshal d s repoPath with
  | inl err =>
      store.AddTodo todoRepoID marshal unmarshal d s repoPath t
        = (d, Some err) /\
      store.UpdateTodo todoRepoID marshal unmarshal d s repoPath t
        = (d, Some err) /\
      store.DeleteTodo todoRepoID marshal unmarshal d s repoPath todoID
        = (d, Some err)
  | inr list =>
      let todos := todoitem.Todos list in
      match store.findID todos todoID with
      | None =>
          Forall (fun x => todoitem.ID x <> todoID) todos /\
          store.UpdateTodo todoRepoID marshal unmarshal d s repoPath t
            = (d, Some store.ErrNotFound) /\
          store.DeleteTodo todoRepoID marshal unmarshal d s repoPath todoID
            = (d, Some store.ErrNotFound)
      | Some i =>
          let updated := todoitem.withTodos (<[i := t]> todos) list in
          let deleted :=
            todoitem.withTodos (take i todos ++ drop (S i) todos) list in
          (exists t0, todos !! i = Some t0 /\ todoitem.ID t0 = todoID) /\
          (forall j x, todos !! j = Some x -> (j < i)%nat ->
                       todoitem.ID x <> todoID) /\
          todoitem.Todos updated !! i = Some t /\
          (forall j, j <> i ->
             todoitem.Todos updated !! j = todos !! j) /\
          S (length (todoitem.Todos deleted)) = length todos /\
          (todoRepoID (todoitem.RepoPath list) = todoRepoID repoPath ->
           (forall data, marshal updated = inr data ->
              unmarshal data = inr updated ->
              exists d',
                store.UpdateTodo todoRepoID marshal unmarshal d s repoPath t
                  = (d', None) /\
                store.GetTodos todoRepoID unmarshal d' s repoPath
                  = inr updated) /\
           (forall data, marshal deleted = inr data ->
              unmarshal data = inr deleted ->
              exists d',
                store.DeleteTodo todoRepoID marshal unmarshal d s repoPath
                  todoID = (d', None) /\
                store.GetTodos todoRepoID unmarshal d' s repoPath
                  = inr deleted))
      end
  end.
Proof.
  intros Hw Hr todoID.
  destruct (store.GetTodos todoRepoID unmarshal d s repoPath)
    as [err|list] eqn:HG.
  { exact (store_facts.GetTodos_error todoRepoID marshal unmarshal d s
             repoPath err t todoID HG). }
  cbv zeta. destruct (store.findID (todoitem.Todos list) todoID)
    as [i|] eqn:Hfind.
  - apply store_facts.findID_Some in Hfind as [(t0 & Ht0 & Hid0) Hfirst].
    assert (Hi : (i < length (todoitem.Todos list))%nat)
      by (eapply lookup_lt_Some; exact Ht0).
    split; [by exists t0|]. split; [exact Hfirst|].
    split; [apply list_lookup_insert_eq; exact Hi|].
    split; [intros j Hj; apply list_lookup_insert_ne; congruence|].
    split.
    { cbn [todoitem.Todos todoitem.withTodos].
      rewrite length_app, length_take, length_drop. lia. }
    intros Hsame. split; intros data Hm Hu.
    + destruct (store_facts.SaveTodos_then_GetTodos todoRepoID marshal
                  unmarshal d s repoPath list
                  (todoitem.withTodos (<[i := t]> (todoitem.Todos list)) list)
                  data HG Hsame Hm Hu Hw Hr)
        as (HS & HG' & _).
      eexists. split; [|exact HG'].
      unfold store.UpdateTodo. rewrite HG.
      assert (store.findID (todoitem.Todos list) (todoitem.ID t) = Some i)
        as -> by (apply store_facts.findID_Some; eauto).
      exact HS.
    + destruct (store_facts.SaveTodos_then_GetTodos todoRepoID marshal
                  unmarshal d s repoPath list
                  (todoitem.withTodos
                     (take i (todoitem.Todos list)
                      ++ drop (S i) (todoitem.Todos list)) list)
                  data HG Hsame Hm Hu Hw Hr)
        as (HS & HG' & _).
      eexists. split; [|exact HG'].
      unfold store.DeleteTodo. rewrite HG.
      assert (store.findID (todoitem.Todos list) todoID = Some i)
        as -> by (apply store_facts.findID_Some; eauto).
      exact HS.
  - split; [by apply store_facts.findID_None|].
    unfold store.UpdateTodo, store.DeleteTodo. rewrite HG.
    fold todoID. rewrite Hfind. done.
Qed.

Lemma UpdateTodo_and_DeleteTodo_act_on_the_first_match_witness :
  store.DeleteTodo demoRepoID demoMarshal demoUnmarshal twoTodosDisk
    homeStore "/repo" "c" = (twoTodosDisk, Some store.ErrNotFound).
Proof.
  refine (proj2 (proj2
    (UpdateTodo_and_DeleteTodo_act_on_the_first_match demoRepoID demoMarshal
       demoUnmarshal twoTodosDisk homeStore "/repo" (demoTodo "c") _ _)));
    reflexivity.
Defined.

(** ** The form *)

Module form_facts.

Import goint goint_facts todoui.

Ltac fields :=
  cbn [withCursor withListScroll withCurrentView withDeleteTarget withTodos
       withFormEditingTodo withFormBranch withFormName withFormDescription
       withFormPrompts withFormField withFormPromptIdx withFormEditing
       withEditorContent withEditorCursorPos withPreviousView withErrMsg
       withLoading
       FormField FormPromptIdx FormPrompts Improving CurrentView] in *.

Ltac zsplit :=
  repeat match goal with
  | |- context [?a >? ?b] => rewrite (Z.gtb_ltb a b)
  | |- context [?a >=? ?b] => rewrite (Z.geb_leb a b)
  end;
  repeat match goal with
  | |- context [?a <? ?b] => destruct (Z.ltb_spec a b)
  | |- context [?a <=? ?b] => destruct (Z.leb_spec a b)
  | |- context [?a =? ?b] => destruct (Z.eqb_spec a b)
  end.

Ltac ranges :=
  repeat first
    [ rewrite sub_id by (unfold inInt, minInt, maxInt; lia)
    | rewrite add_id by (unfold inInt, minInt, maxInt; lia) ].

Lemma formPromptsOf_nonempty prompts : 0 < len (formPromptsOf prompts).
Proof.
  unfold formPromptsOf. destruct (Z.eqb_spec (len prompts) 0); [done|].
  pose proof (len_nonneg prompts). lia.
Qed.

Lemma handleFormEditMode_frame m msg :
  let r := handleFormEditMode m msg in
  FormField r.1 = FormField m /\ FormPromptIdx r.1 = FormPromptIdx m /\
  FormPrompts r.1 = FormPrompts m.
Proof.
  unfold handleFormEditMode.
  repeat match goal with |- context [if ?b then _ else _] => destruct b end;
    cbn; auto.
Qed.

Lemma saveForm_frame TrimSpace now newID m :
  let r := saveForm TrimSpace now newID m in
  FormField r.1 = FormField m /\ FormPromptIdx r.1 = FormPromptIdx m /\
  FormPrompts r.1 = FormPrompts m.
Proof.
  unfold saveForm.
  repeat match goal with
  | |- context [if ?b then _ else _] => destruct b
  | |- context [match ?x with Some _ => _ | None => _ end] => destruct x
  end; cbn; auto.
Qed.

Lemma len_snoc {A} (l : list A) (x : A) : len (l ++ [x]) = len l + 1.
Proof. rewrite len_app. reflexivity. Qed.

Lemma len_remove {A} (l : list A) (i : nat) :
  (i < length l)%nat -> len (take i l ++ drop (S i) l) = len l - 1.
Proof.
  intros H. unfold len. rewrite length_app, length_take, length_drop. lia.
Qed.

End form_facts.

(** X27. The selected prompt of the form.  Opening the form from the list
    (for a new item or for the item under the cursor) leaves a form with at
    least one prompt, the first field selected and prompt 0 selected.  From
    a form whose field is one of the four and whose selected prompt is one
    of its prompts, no key makes [UpdateFormView] panic, and the form it
    leaves is again such a form.  [openImprovePromptTerminal] is reached
    only with the model as it is, not already improving, on the prompts
    field, and with a selected prompt that is not blank. *)
Theorem form_keeps_the_selected_prompt_in_range
    (TrimSpace : string -> string) (now : Z) (newID : string)
    (m : todoui.Model) (msg : terminal.KeyMsg) :
  (forall m' c,
     todoui.UpdateListView m msg = todoui.Ret m' c ->
     todoui.CurrentView m' <> todoui.CurrentView m ->
     todoui.CurrentView m' = todo.DeleteConfirmView \/
     todoui.formValid m' /\ todoui.FormPromptIdx m' = 0 /\
     todoui.FormField m' = todoui.FieldBranch) /\
  (todoui.formValid m -> goint.len (todoui.FormPrompts m) < 2 ^ 62 ->
   match todoui.UpdateFormView TrimSpace now newID m msg with
   | todoui.Ret m' _ => todoui.formValid m'
   | todoui.Panic => False
   | todoui.OpenImprovePromptTerminal m' =>
       m' = m /\ todoui.Improving m = false /\
       todoui.FormField m = todoui.FieldPrompts /\
       exists prompt,
         todoui.FormPrompts m !! Z.to_nat (todoui.FormPromptIdx m)
           = Some prompt /\
         TrimSpace prompt <> EmptyString
   end).
Proof.
  split.
  - intros m' c H Hview. unfold todoui.UpdateListView in H.
    repeat match type of H with
    | context [if config.MatchesAny ?a ?b then _ else _] =>
        destruct (config.MatchesAny a b)
    | context [if config.Matches ?a ?b then _ else _] =>
        destruct (config.Matches a b)
    end;
    repeat match type of H with
    | context [if ?b then _ else _] => destruct b
    | context [match ?x with Some _ => _ | None => _ end] =>
        destruct x; try discriminate
    end;
    injection H as <- <-; cbn in Hview; try done;
    try (left; reflexivity); right;
    (split; [|split; reflexivity]);
    unfold todoui.formValid, todoui.FieldBranch, todoui.FieldPrompts;
    cbn -[todoui.formPromptsOf];
    try match goal with
    | |- context [todoui.formPromptsOf ?p] =>
        pose proof (form_facts.formPromptsOf_nonempty p)
    end; unfold goint.len in *; cbn [length]; lia.
  - intros [HF HI] HL. unfold todoui.UpdateFormView.
    unfold todoui.FieldBranch, todoui.FieldPrompts in *.
    pose proof (goint_facts.len_nonneg (todoui.FormPrompts m)) as Hn.
    destruct (list_facts.index_Some (todoui.FormPrompts m)
                (todoui.FormPromptIdx m) HI) as (p & Hp & Hp').
    rewrite Hp.
    destruct (todoui.FormEditing m).
    { pose proof (form_facts.handleFormEditMode_frame m msg) as F.
      cbv zeta in F. destruct (todoui.handleFormEditMode m msg) as [m' c].
      cbn [fst] in F. destruct F as (F1 & F2 & F3).
      unfold todoui.formValid, todoui.FieldBranch, todoui.FieldPrompts.
      rewrite F1, F2, F3. by split. }
    destruct (config.Matches _ _); [by split|].
    destruct (config.Matches _ _).
    { pose proof (form_facts.saveForm_frame TrimSpace now newID m) as F.
      cbv zeta in F. destruct (todoui.saveForm TrimSpace now newID m)
        as [m' c].
      cbn [fst] in F. destruct F as (F1 & F2 & F3).
      unfold todoui.formValid, todoui.FieldBranch, todoui.FieldPrompts.
      rewrite F1, F2, F3. by split. }
    destruct (config.MatchesAny _ _ || _).
    { unfold todoui.formValid, todoui.FieldBranch, todoui.FieldPrompts.
      form_facts.ranges; form_facts.zsplit; cbn [andb]; form_facts.fields; form_facts.ranges;
        form_facts.zsplit; form_facts.fields; form_facts.ranges;
        form_facts.fields; lia. }
    destruct (config.MatchesAny _ _ || _).
    { unfold todoui.formValid, todoui.FieldBranch, todoui.FieldPrompts.
      form_facts.ranges; form_facts.zsplit; cbn [andb]; form_facts.fields; form_facts.ranges;
        form_facts.zsplit; form_facts.fields; form_facts.ranges;
        form_facts.zsplit; form_facts.fields; form_facts.ranges;
        form_facts.fields; lia. }
    destruct (config.Matches _ _).
    { unfold todoui.formValid, todoui.FieldBranch, todoui.FieldPrompts.
      form_facts.ranges; form_facts.zsplit; form_facts.fields; form_facts.ranges;
        form_facts.zsplit; form_facts.fields; lia. }
    destruct (config.Matches _ _).
    { unfold todoui.formValid, todoui.FieldBranch, todoui.FieldPrompts.
      form_facts.ranges; form_facts.zsplit; form_facts.fields; form_facts.ranges;
        form_facts.fields; lia. }
    destruct (config.MatchesAny _ _).
    { destruct (Z.eqb_spec (todoui.FormField m) 3); by split. }
    destruct (Z.eqb_spec (todoui.FormField m) 3) as [E3|]; [|by split].
    destruct (config.Matches _ _).
    { unfold todoui.formValid, todoui.FieldBranch, todoui.FieldPrompts.
      form_facts.fields.
      rewrite !form_facts.len_snoc. form_facts.ranges. lia. }
    destruct (config.Matches _ _).
    { rewrite Z.gtb_ltb.
      destruct (Z.ltb_spec 1 (goint.len (todoui.FormPrompts m)));
        [|by split].
      unfold todoui.formValid, todoui.FieldBranch, todoui.FieldPrompts.
      form_facts.fields.
      rewrite !form_facts.len_remove by (unfold goint.len in *; lia).
      form_facts.zsplit; form_facts.fields; form_facts.ranges;
        form_facts.fields;
        rewrite ?form_facts.len_remove by (unfold goint.len in *; lia);
        lia. }
    destruct (config.Matches _ _); [|by split].
    destruct (todoui.Improving m) eqn:EI; cbn [negb]; [by split|].
    destruct (String.eqb_spec (TrimSpace p) EmptyString); cbn [negb];
      [by split|].
    repeat split; try done. by exists p.
Qed.

Lemma form_keeps_the_selected_prompt_in_range_witness :
  match todoui.UpdateFormView demoTrim 7 "id7" demoForm (key "ctrl+d") with
  | todoui.Ret m' _ => todoui.formValid m'
  | todoui.Panic => False
  | todoui.OpenImprovePromptTerminal m' =>
      m' = demoForm /\ todoui.Improving demoForm = false /\
      todoui.FormField demoForm = todoui.FieldPrompts /\
      exists prompt,
        todoui.FormPrompts demoForm
          !! Z.to_nat (todoui.FormPromptIdx demoForm) = Some prompt /\
        demoTrim prompt <> EmptyString
  end.
Proof.
  refine (proj2 (form_keeps_the_selected_prompt_in_range demoTrim 7 "id7"
                   demoForm (key "ctrl+d")) _ _).
  - unfold todoui.formValid. vm_compute. repeat split; discriminate.
  - reflexivity.
Defined.

(** ** The views and the store together *)

Module flow_facts.

Import goint goint_facts todoui.

Section Flow.

Variable TrimSpace : string -> string.
Variable todoRepoID : string -> string.
Variable marshal : todoitem.TodoList -> GoError + string.
Variable unmarshal : string -> GoError + todoitem.TodoList.

(** Reloading after a write shows the list that was written. *)
Lemma reload d s repoPath list :
  store.GetTodos todoRepoID unmarshal d s repoPath = inr list ->
  runCmd todoRepoID marshal unmarshal d s (loadTodosCmd repoPath)
  = (d, Some (TodosLoadedMsg (todoitem.Todos list))).
Proof. intros H. cbn [runCmd]. rewrite H. reflexivity. Qed.

Lemma keptPrompts_not_blank prompts :
  Forall (fun p => TrimSpace p <> EmptyString)
    (keptPrompts TrimSpace prompts).
Proof.
  unfold keptPrompts. apply Forall_forall. intros p Hp.
  by apply list_elem_of_filter in Hp as [Hp _].
Qed.

End Flow.

End flow_facts.

(** X28. Saving the form.  In a form that is not in its inline edit mode
    and has a name and a branch, a key that matches submit (and not cancel)
    saves the item with the prompts that are not blank, in their order: a
    new item with the given identifier and time when none is being edited,
    and otherwise the edited item with its identifier and creation time
    kept.  Run against a store whose list can be read, the command appends
    the new item, respectively replaces the first item that has the
    identifier of the edited one (and reports not-found when there is
    none); the view then returns to the list, and the reload shows exactly
    that list. *)
Theorem saving_the_form_writes_and_reloads
    (TrimSpace : string -> string) (todoRepoID : string -> string)
    (marshal : todoitem.TodoList -> GoError + string)
    (unmarshal : string -> GoError + todoitem.TodoList)
    (now : Z) (newID : string) (d : store.Disk) (s : store.Store)
    (m : todoui.Model) (msg : terminal.KeyMsg) (list : todoitem.TodoList) :
  let key := terminal.KString msg in
  let form := keys.Form (keys.Keys (todoui.Config m)) in
  let repo := todoui.RepoPath m in
  let run := todoui.runCmd todoRepoID marshal unmarshal in
  let kept := todoui.keptPrompts TrimSpace (todoui.FormPrompts m) in
  let todos := todoitem.Todos list in
  let editing :=
    if bool_decide (todoui.CurrentView m = todo.EditView)
    then todoui.FormEditingTodo m else None in
  let saved :=
    match editing with
    | Some t0 =>
        todoitem.mkTodo (todoitem.ID t0) (todoui.FormBranch m)
          (todoui.FormName m) (todoui.FormDescription m) kept
          (todoitem.CreatedAt t0) now
    | None =>
        todoitem.mkTodo newID (todoui.FormBranch m) (todoui.FormName m)
          (todoui.FormDescription m) kept now now
    end in
  let after :=
    match editing with
    | Some t0 =>
        match store.findID todos (todoitem.ID t0) with
        | Some i => Some (<[i := saved]> todos)
        | None => None
        end
    | None => Some (todos ++ [saved])
    end in
  todoui.FormEditing m = false ->
  config.Matches key (keys.FormKeys.Cancel form) = false ->
  config.Matches key (keys.FormKeys.Submit form) = true ->
  todoui.FormName m <> EmptyString -> todoui.FormBranch m <> EmptyString ->
  store.GetTodos todoRepoID unmarshal d s repo = inr list ->
  todoRepoID (todoitem.RepoPath list) = todoRepoID repo ->
  store.writeErr d = None -> store.readErr d = None ->
  Forall (fun p => TrimSpace p <> EmptyString) (todoitem.Prompts saved) /\
  exists m1 c1,
    todoui.UpdateFormView TrimSpace now newID m msg = todoui.Ret m1 c1 /\
    match after with
    | None => run d s c1 = (d, Some (todoui.TodoErrorMsg store.ErrNotFound))
    | Some todos' =>
        forall data,
          marshal (todoitem.withTodos todos' list) = inr data ->
          unmarshal data = inr (todoitem.withTodos todos' list) ->
          exists d',
            run d s c1 = (d', Some todoui.TodoSavedMsg) /\
            let r := todoui.Update m1 todoui.TodoSavedMsg in
            todoui.CurrentView r.1 = todo.ListView /\
            run d' s r.2 = (d', Some (todoui.TodosLoadedMsg todos')) /\
            todoui.Todos (todoui.Update r.1 (todoui.TodosLoadedMsg todos')).1
              = todos'
    end.
Proof.
  intros key form repo run kept todos editing saved after
    HE HC HSub HN HB HG Hid Hw Hr.
  split.
  { subst saved. destruct editing; cbn [todoitem.Prompts];
      apply flow_facts.keptPrompts_not_blank. }
  unfold todoui.UpdateFormView. fold key. fold form. rewrite HE, HC, HSub.
  unfold todoui.saveForm.
  apply String.eqb_neq in HN, HB. rewrite HN, HB. fold kept.
  subst editing.
  destruct (bool_decide (todoui.CurrentView m = todo.EditView));
    [destruct (todoui.FormEditingTodo m) as [t0|]|].
  - cbv zeta. eexists _, _. split; [reflexivity|].
    subst after. cbv beta iota.
    change (todoitem.Update now _) with saved.
    cbn [todoui.RepoPath todoui.withFormEditingTodo]. fold repo.
    destruct (store.findID todos (todoitem.ID t0)) as [i|] eqn:Hfind.
    + intros data Hm Hu.
      destruct (store_facts.SaveTodos_then_GetTodos todoRepoID marshal
                  unmarshal d s repo list
                  (todoitem.withTodos (<[i := saved]> todos) list)
                  data HG Hid Hm Hu Hw Hr) as (HS & HG' & _).
      eexists. split; [|split; [reflexivity|split; [|reflexivity]]].
      * subst run. cbn [todoui.runCmd]. unfold store.UpdateTodo.
        rewrite HG. fold todos.
        change (todoitem.ID saved) with (todoitem.ID t0). rewrite Hfind.
        rewrite HS. reflexivity.
      * cbn [todoui.Update snd fst todoui.RepoPath todoui.withErrMsg
             todoui.withCurrentView todoui.withFormEditingTodo]. fold repo.
        exact (flow_facts.reload todoRepoID marshal unmarshal _ s repo _ HG').
    + subst run. cbn [todoui.runCmd]. unfold store.UpdateTodo.
      rewrite HG. fold todos.
      change (todoitem.ID saved) with (todoitem.ID t0). rewrite Hfind.
      reflexivity.
  - cbv zeta. eexists _, _. split; [reflexivity|].
    subst after. cbv beta iota. fold repo.
    change (todoitem.NewTodo now newID _ _ _ kept) with saved.
    intros data Hm Hu.
    destruct (store_facts.SaveTodos_then_GetTodos todoRepoID marshal
                unmarshal d s repo list
                (todoitem.withTodos (todos ++ [saved]) list)
                data HG Hid Hm Hu Hw Hr) as (HS & HG' & _).
    eexists. split; [|split; [reflexivity|split; [|reflexivity]]].
    + subst run. cbn [todoui.runCmd]. unfold store.AddTodo.
      rewrite HG. fold todos. rewrite HS. reflexivity.
    + cbn [todoui.Update snd fst todoui.RepoPath todoui.withErrMsg
           todoui.withCurrentView]. fold repo.
      exact (flow_facts.reload todoRepoID marshal unmarshal _ s repo _ HG').
  - cbv zeta. eexists _, _. split; [reflexivity|].
    subst after. cbv beta iota. fold repo.
    change (todoitem.NewTodo now newID _ _ _ kept) with saved.
    intros data Hm Hu.
    destruct (store_facts.SaveTodos_then_GetTodos todoRepoID marshal
                unmarshal d s repo list
                (todoitem.withTodos (todos ++ [saved]) list)
                data HG Hid Hm Hu Hw Hr) as (HS & HG' & _).
    eexists. split; [|split; [reflexivity|split; [|reflexivity]]].
    + subst run. cbn [todoui.runCmd]. unfold store.AddTodo.
      rewrite HG. fold todos. rewrite HS. reflexivity.
    + cbn [todoui.Update snd fst todoui.RepoPath todoui.withErrMsg
           todoui.withCurrentView]. fold repo.
      exact (flow_facts.reload todoRepoID marshal unmarshal _ s repo _ HG').
Qed.

Lemma saving_the_form_writes_and_reloads_witness :
  exists m1 c1,
    todoui.UpdateFormView demoTrim 0 "c" demoForm (key "ctrl+s")
    = todoui.Ret m1 c1.
Proof.
  destruct (saving_the_form_writes_and_reloads demoTrim demoRepoID
              demoMarshal demoUnmarshal 0 "c" twoTodosDisk homeStore
              demoForm (key "ctrl+s")
              (todoitem.mkTodoList "/repo" [demoTodo "a"; demoTodo "b"]))
    as [_ (m1 & c1 & H & _)]; try reflexivity; try discriminate.
  exists m1, c1. exact H.
Defined.

(** X29. Deleting the last item.  With the cursor on the last of at
    least two items whose identifiers are distinct, the delete key opens
    the confirmation for that item, [y] returns the command that deletes
    it from the store, the list is reloaded without it, and the cursor is
    left where it was: one past the end of the new list.  The key that
    opens (or deletes) the selected item then makes [UpdateListView]
    panic. *)
Theorem deleting_the_last_item_leaves_the_cursor_past_the_end
    (todoRepoID : string -> string)
    (marshal : todoitem.TodoList -> GoError + string)
    (unmarshal : string -> GoError + todoitem.TodoList)
    (d : store.Disk) (s : store.Store) (m : todoui.Model)
    (kdel kyes kopen : terminal.KeyMsg) (list : todoitem.TodoList)
    (data : string) :
  let todos := todoui.Todos m in
  let repo := todoui.RepoPath m in
  let run := todoui.runCmd todoRepoID marshal unmarshal in
  let rest := take (length todos - 1) todos in
  (2 <= length todos)%nat -> goint.len todos <= 2 ^ 62 ->
  todoui.Cursor m = goint.len todos - 1 ->
  NoDup (map todoitem.ID todos) ->
  todoui.listOp (todoui.Config m) kdel = Some todoui.opDelete ->
  terminal.KString kyes = "y"%string ->
  todoui.listOp (todoui.Config m) kopen = Some todoui.opSelect \/
  todoui.listOp (todoui.Config m) kopen = Some todoui.opDelete ->
  store.GetTodos todoRepoID unmarshal d s repo = inr list ->
  todoitem.Todos list = todos ->
  todoRepoID (todoitem.RepoPath list) = todoRepoID repo ->
  marshal (todoitem.withTodos rest list) = inr data ->
  unmarshal data = inr (todoitem.withTodos rest list) ->
  store.writeErr d = None -> store.readErr d = None ->
  exists t m1 d' m2 m3,
    last todos = Some t /\
    todoui.UpdateListView m kdel = todoui.Ret m1 todoui.nilCmd /\
    todoui.CurrentView m1 = todo.DeleteConfirmView /\
    todoui.UpdateDeleteConfirmView m1 kyes
      = (m1, todoui.deleteTodoCmd repo (todoitem.ID t)) /\
    run d s (todoui.deleteTodoCmd repo (todoitem.ID t))
      = (d', Some todoui.TodoDeletedMsg) /\
    todoui.Update m1 todoui.TodoDeletedMsg = (m2, todoui.loadTodosCmd repo) /\
    todoui.CurrentView m2 = todo.ListView /\
    run d' s (todoui.loadTodosCmd repo)
      = (d', Some (todoui.TodosLoadedMsg rest)) /\
    todoui.Update m2 (todoui.TodosLoadedMsg rest) = (m3, todoui.nilCmd) /\
    todoui.Todos m3 = rest /\
    todoui.Cursor m3 = goint.len (todoui.Todos m3) /\
    todoui.UpdateListView m3 kopen = todoui.Panic.
Proof.
  intros todos repo run rest Hn HL HC Hnd Hkd Hky Hko HG HT Hid Hm Hu Hw Hr.
  set (i := (length todos - 1)%nat).
  assert (Hi : Z.to_nat (todoui.Cursor m) = i)
    by (rewrite HC; unfold goint.len, i; lia).
  destruct (list_facts.index_Some todos (todoui.Cursor m))
    as (t & Hidx & Ht); [unfold goint.len in *; lia|].
  rewrite Hi in Ht.
  assert (Hlast : last todos = Some t).
  { rewrite last_lookup.
    replace (Init.Nat.pred (length todos)) with i by (unfold i; lia).
    exact Ht. }
  assert (Hfind : store.findID todos (todoitem.ID t) = Some i).
  { apply store_facts.findID_Some. split; [by exists t|].
    intros j x Hx Hj Heq.
    assert (j = i); [|lia].
    eapply (NoDup_lookup (map todoitem.ID todos) j i (todoitem.ID t));
      [exact Hnd| |]; rewrite list_lookup_fmap.
    - by rewrite Hx, <- Heq.
    - by rewrite Ht. }
  assert (Hrest : take i todos ++ drop (S i) todos = rest).
  { rewrite drop_ge by (unfold i; lia). apply app_nil_r. }
  assert (Hlen : goint.len rest = goint.len todos - 1).
  { unfold rest, goint.len. rewrite length_take. lia. }
  (* the delete key *)
  pose proof (stale_facts.listOp_UpdateListView m kdel) as Hdel.
  assert (Hdel' : todoui.UpdateListView m kdel
            = todoui.Ret
                (todoui.withCurrentView todo.DeleteConfirmView
                   (todoui.withDeleteTarget (Some t) m)) todoui.nilCmd).
  { clear Hdel. unfold todoui.listOp in Hkd. unfold todoui.UpdateListView.
    repeat match type of Hkd with
    | context [if config.MatchesAny ?a ?b then _ else _] =>
        destruct (config.MatchesAny a b); try discriminate Hkd
    | context [if config.Matches ?a ?b then _ else _] =>
        destruct (config.Matches a b); try discriminate Hkd
    end.
    fold todos. rewrite Hidx.
    destruct (Z.gtb_spec (goint.len todos) 0);
      [reflexivity|unfold goint.len in *; lia]. }
  clear Hdel.
  set (m1 := todoui.withCurrentView todo.DeleteConfirmView
               (todoui.withDeleteTarget (Some t) m)) in *.
  (* the store *)
  destruct (store_facts.SaveTodos_then_GetTodos todoRepoID marshal
              unmarshal d s repo list (todoitem.withTodos rest list)
              data HG Hid Hm Hu Hw Hr) as (HS & HG' & _).
  set (d' := store.withFiles _ d) in *.
  set (m2 := todoui.withDeleteTarget None
               (todoui.withCurrentView todo.ListView m1)).
  set (m3 := todoui.withLoading false (todoui.withTodos rest m2)).
  exists t, m1, d', m2, m3.
  split; [exact Hlast|]. split; [exact Hdel'|]. split; [reflexivity|].
  split.
  { unfold todoui.UpdateDeleteConfirmView. rewrite Hky. reflexivity. }
  split.
  { subst run. cbn [todoui.runCmd]. unfold store.DeleteTodo.
    rewrite HG, HT, Hfind, Hrest, HS. reflexivity. }
  split; [reflexivity|]. split; [reflexivity|].
  split.
  { exact (flow_facts.reload todoRepoID marshal unmarshal d' s repo _ HG'). }
  split; [reflexivity|]. split; [reflexivity|].
  split.
  { change (todoui.Cursor m3) with (todoui.Cursor m).
    change (todoui.Todos m3) with rest. lia. }
  pose proof (stale_facts.listOp_UpdateListView m3 kopen) as Hopen.
  change (todoui.Config m3) with (todoui.Config m) in Hopen.
  change (todoui.Todos m3) with rest in Hopen.
  change (todoui.Cursor m3) with (todoui.Cursor m) in Hopen.
  destruct Hko as [Hko|Hko]; rewrite Hko in Hopen; apply Hopen;
    try (unfold goint.len in *; lia);
    apply list_facts.index_None; right; lia.
Qed.

Lemma deleting_the_last_item_leaves_the_cursor_past_the_end_witness :
  exists t m1 d' m2 m3,
    last (todoui.Todos twoItems) = Some t /\
    todoui.UpdateListView twoItems (key "d") = todoui.Ret m1 todoui.nilCmd /\
    todoui.CurrentView m1 = todo.DeleteConfirmView /\
    todoui.UpdateDeleteConfirmView m1 (key "y")
      = (m1, todoui.deleteTodoCmd "/repo" (todoitem.ID t)) /\
    todoui.runCmd demoRepoID demoMarshal demoUnmarshal twoTodosDisk homeStore
      (todoui.deleteTodoCmd "/repo" (todoitem.ID t))
      = (d', Some todoui.TodoDeletedMsg) /\
    todoui.Update m1 todoui.TodoDeletedMsg
      = (m2, todoui.loadTodosCmd "/repo") /\
    todoui.CurrentView m2 = todo.ListView /\
    todoui.runCmd demoRepoID demoMarshal demoUnmarshal d' homeStore
      (todoui.loadTodosCmd "/repo")
      = (d', Some (todoui.TodosLoadedMsg [demoTodo "a"])) /\
    todoui.Update m2 (todoui.TodosLoadedMsg [demoTodo "a"])
      = (m3, todoui.nilCmd) /\
    todoui.Todos m3 = [demoTodo "a"] /\
    todoui.Cursor m3 = goint.len (todoui.Todos m3) /\
    todoui.UpdateListView m3 (key "enter") = todoui.Panic.
Proof.
  refine (deleting_the_last_item_leaves_the_cursor_past_the_end demoRepoID
            demoMarshal demoUnmarshal twoTodosDisk homeStore twoItems
            (key "d") (key "y") (key "enter")
            (todoitem.mkTodoList "/repo" [demoTodo "a"; demoTodo "b"])
            "/repo:a" _ _ _ _ _ _ _ _ _ _ _ _ _ _).
  - cbn. lia.
  - vm_compute. discriminate.
  - reflexivity.
  - refine (bool_decide_unpack _ _). vm_compute. exact I.
  - reflexivity.
  - reflexivity.
  - left. reflexivity.
  - reflexivity.
  - reflexivity.
  - reflexivity.
  - reflexivity.
  - reflexivity.
  - reflexivity.
  - reflexivity.
Defined.

(** ** The prompt editor *)

Module editor_facts.

Import goint goint_facts todoui.

Lemma size_cons (line : string) (lines : list string) :
  gostring.size (line :: lines) = (S (String.length line) + gostring.size lines)%nat.
Proof. reflexivity. Qed.

Lemma Split_nonempty (s : string) : gostring.SplitLines s <> [].
Proof.
  destruct s as [|c s]; [done|]. cbn [gostring.SplitLines].
  destruct (Ascii.eqb c gostring.lineFeed); [done|].
  by destruct (gostring.SplitLines s).
Qed.

(** The pieces and the line feeds between them make up the text. *)
Lemma Split_size (s : string) :
  gostring.size (gostring.SplitLines s) = S (String.length s).
Proof.
  induction s as [|c s IH]; [reflexivity|]. cbn [gostring.SplitLines].
  destruct (Ascii.eqb c gostring.lineFeed).
  - rewrite size_cons, IH. reflexivity.
  - pose proof (Split_nonempty s) as Hne.
    destruct (gostring.SplitLines s) as [|line lines]; [done|].
    rewrite size_cons in *. cbn [String.length] in *. lia.
Qed.

Lemma locate_spec (lines : list string) : forall cursor pos i,
  0 <= pos <= cursor -> 0 <= i ->
  pos + Z.of_nat (gostring.size lines) <= 2 ^ 62 -> cursor <= 2 ^ 62 ->
  i + len lines <= 2 ^ 62 ->
  let r := locate lines cursor pos i in
  0 <= r.1 <= i + len lines /\ 0 <= r.2.
Proof.
  induction lines as [|line rest IH]; intros cursor pos i Hp Hi Hs Hc Hn.
  - cbn. unfold len. cbn [length]. lia.
  - cbn [locate]. rewrite size_cons in Hs.
    assert (Hl : len (line :: rest) = 1 + len rest)
      by (unfold len; cbn [length]; lia).
    rewrite Hl in *. pose proof (len_nonneg rest).
    unfold gostring.len.
    rewrite (add_id (Z.of_nat (String.length line)) 1)
      by (unfold inInt, minInt, maxInt; lia).
    rewrite !add_id by (unfold inInt, minInt, maxInt; lia).
    rewrite Z.geb_leb.
    destruct (Z.leb_spec cursor (pos + Z.of_nat (String.length line))).
    + cbn [fst snd]. rewrite sub_id by (unfold inInt, minInt, maxInt; lia).
      lia.
    + specialize (IH cursor (pos + (Z.of_nat (String.length line) + 1))
                    (i + 1)).
      cbv zeta in IH. destruct IH as [IH1 IH2]; lia.
Qed.

Lemma offset_sum (lines : list string) : forall z,
  0 <= z -> z + Z.of_nat (gostring.size lines) <= 2 ^ 62 ->
  foldl (fun newPos line => add newPos (add (gostring.len line) 1)) z lines
  = z + Z.of_nat (gostring.size lines).
Proof.
  induction lines as [|line rest IH]; intros z Hz Hs.
  - cbn. lia.
  - cbn [foldl]. rewrite size_cons in *.
    change (gostring.len line) with (Z.of_nat (String.length line)).
    rewrite (add_id (Z.of_nat (String.length line)) 1)
      by (unfold inInt, minInt, maxInt; lia).
    rewrite add_id by (unfold inInt, minInt, maxInt; lia).
    rewrite IH by lia. lia.
Qed.

Lemma size_take (lines : list string) : forall t line,
  lines !! t = Some line ->
  (gostring.size (take t lines) + S (String.length line) <= gostring.size lines)%nat.
Proof.
  induction lines as [|x rest IH]; intros [|t] line H; try discriminate.
  - injection H as ->. cbn [take]. rewrite size_cons. cbn. lia.
  - cbn [take]. rewrite !size_cons. specialize (IH t line H). lia.
Qed.

Lemma moveCursorVertical_in_range (m : Model) (direction : Z) :
  editorValid m -> gostring.len (EditorContent m) < 2 ^ 61 ->
  - 1 <= direction <= 1 ->
  exists cursor,
    moveCursorVertical m direction = Some cursor /\
    0 <= cursor <= gostring.len (EditorContent m).
Proof.
  intros [Hc1 Hc2] HL Hd. unfold moveCursorVertical.
  set (lines := gostring.SplitLines (EditorContent m)).
  pose proof (Split_size (EditorContent m)) as Hsize. fold lines in Hsize.
  pose proof (Split_nonempty (EditorContent m)) as Hne. fold lines in Hne.
  assert (Hlen1 : 1 <= len lines)
    by (destruct lines; [done|unfold len; cbn [length]; lia]).
  assert (Hlen2 : len lines <= Z.of_nat (gostring.size lines)).
  { unfold len. clear. induction lines as [|x l IH]; [cbn; lia|].
    rewrite size_cons. cbn [length]. lia. }
  unfold gostring.len in *.
  destruct (locate_spec lines (EditorCursorPos m) 0 0) as [Hline Hcol];
    [lia..|].
  destruct (locate lines (EditorCursorPos m) 0 0) as [currentLine currentCol].
  cbn [fst snd] in Hline, Hcol.
  rewrite add_id by (unfold inInt, minInt, maxInt; lia).
  set (t1 := if currentLine + direction <? 0 then 0
             else currentLine + direction).
  assert (Ht1 : 0 <= t1 <= len lines + 1)
    by (subst t1; destruct (Z.ltb_spec (currentLine + direction) 0); lia).
  rewrite sub_id by (unfold inInt, minInt, maxInt; lia).
  set (t := if t1 >=? len lines then len lines - 1 else t1).
  assert (Ht : 0 <= t < len lines).
  { subst t. rewrite Z.geb_leb. destruct (Z.leb_spec (len lines) t1); lia. }
  destruct (list_facts.index_Some lines t Ht) as (target & -> & Htarget).
  pose proof (size_take lines _ _ Htarget) as Hsum.
  rewrite offset_sum by (try lia;
    pose proof (size_take lines _ _ Htarget); lia).
  eexists. split; [reflexivity|].
  rewrite Z.gtb_ltb.
  destruct (Z.ltb_spec (Z.of_nat (String.length target)) currentCol);
    rewrite add_id by (unfold inInt, minInt, maxInt; lia); lia.
Qed.

Ltac fields :=
  cbn [withEditorContent withEditorCursorPos withCurrentView withFormPrompts
       EditorContent EditorCursorPos FormPromptIdx FormPrompts CurrentView
       PreviousView].

(** The five parts of the conclusion about one key of the editor. *)
Ltac fin :=
  split; [reflexivity|];
  split;
    [ unfold editorValid in *; fields;
      rewrite ?sub_id, ?add_id by (unfold inInt, minInt, maxInt; lia);
      rewrite ?gostring_facts.len_append; lia |];
  split; [first [assumption | reflexivity]|];
  split;
    [ intros ?; first [done | split; first [assumption | reflexivity]] |];
  first [ left; first [assumption | reflexivity]
        | right; split; [first [assumption | reflexivity]|];
          split; reflexivity ].

End editor_facts.

(** X30. The prompt editor.  When the cursor is inside the content and the
    selected prompt is one of the prompts, no key makes
    [UpdatePromptEditor] panic, and the cursor is again inside the
    content: also after a move to the line above or below
    ([moveCursorVertical]), which leaves the content as it is.  The
    prompts change only when the key matches save, and then only the
    selected one, which becomes the content. *)
Theorem editor_keeps_the_cursor_in_the_content
    (m : todoui.Model) (msg : todoui.KeyMsg) :
  todoui.editorValid m ->
  gostring.len (todoui.EditorContent m) < 2 ^ 61 ->
  0 <= todoui.FormPromptIdx m < goint.len (todoui.FormPrompts m) ->
  exists m',
    todoui.UpdatePromptEditor m msg = todoui.Ret m' todoui.nilCmd /\
    todoui.editorValid m' /\
    todoui.FormPromptIdx m' = todoui.FormPromptIdx m /\
    (todoui.Type_ msg <> todoui.KeyOther ->
     todoui.EditorContent m' = todoui.EditorContent m /\
     todoui.CurrentView m' = todoui.CurrentView m) /\
    (todoui.FormPrompts m' = todoui.FormPrompts m \/
     config.Matches (todoui.String_ msg)
       (keys.EditorKeys.Save
          (keys.Editor (keys.Keys (todoui.Config m)))) = true /\
     todoui.FormPrompts m'
       = <[Z.to_nat (todoui.FormPromptIdx m) := todoui.EditorContent m]>
           (todoui.FormPrompts m) /\
     todoui.CurrentView m' = todoui.PreviousView m).
Proof.
  intros Hc HL HI. pose proof Hc as [Hc1 Hc2].
  assert (Hstart : exists m',
    todoui.toLineStart m = todoui.Ret m' todoui.nilCmd /\
    todoui.editorValid m' /\
    todoui.FormPromptIdx m' = todoui.FormPromptIdx m /\
    todoui.EditorContent m' = todoui.EditorContent m /\
    todoui.CurrentView m' = todoui.CurrentView m /\
    todoui.FormPrompts m' = todoui.FormPrompts m).
  { unfold todoui.toLineStart.
    destruct (textedit_facts.lineStart_spec _ _ Hc) as (c & -> & Hr & _).
    eexists. split; [reflexivity|]. unfold todoui.editorValid. cbn.
    repeat split; lia. }
  assert (Hend : exists m',
    todoui.toLineEnd m = todoui.Ret m' todoui.nilCmd /\
    todoui.editorValid m' /\
    todoui.FormPromptIdx m' = todoui.FormPromptIdx m /\
    todoui.EditorContent m' = todoui.EditorContent m /\
    todoui.CurrentView m' = todoui.CurrentView m /\
    todoui.FormPrompts m' = todoui.FormPrompts m).
  { unfold todoui.toLineEnd.
    destruct (textedit_facts.lineEnd_spec _ _ Hc) as (c & -> & Hr & _).
    eexists. split; [reflexivity|]. unfold todoui.editorValid. cbn.
    repeat split; lia. }
  assert (Hmove : forall direction, - 1 <= direction <= 1 -> exists m',
    match todoui.moveCursorVertical m direction with
    | Some cursor =>
        todoui.Ret (todoui.withEditorCursorPos cursor m) todoui.nilCmd
    | None => todoui.Panic
    end = todoui.Ret m' todoui.nilCmd /\
    todoui.editorValid m' /\
    todoui.FormPromptIdx m' = todoui.FormPromptIdx m /\
    todoui.EditorContent m' = todoui.EditorContent m /\
    todoui.CurrentView m' = todoui.CurrentView m /\
    todoui.FormPrompts m' = todoui.FormPrompts m).
  { intros direction Hd.
    destruct (editor_facts.moveCursorVertical_in_range m direction Hc HL Hd)
      as (c & -> & Hr).
    eexists. split; [reflexivity|]. unfold todoui.editorValid. cbn.
    repeat split; lia. }
  assert (Htyped : forall s width,
    gostring.len s = width -> 0 <= width <= 4 -> exists m',
    todoui.typed m s width = todoui.Ret m' todoui.nilCmd /\
    todoui.editorValid m' /\
    todoui.FormPromptIdx m' = todoui.FormPromptIdx m /\
    todoui.FormPrompts m' = todoui.FormPrompts m).
  { intros s width Hs Hw. unfold todoui.typed.
    destruct (textedit_facts.insertAt_spec _ _ s Hc)
      as (b & a & E & Lb & ->).
    eexists. split; [reflexivity|]. unfold todoui.editorValid.
    cbn [todoui.withEditorContent todoui.withEditorCursorPos
         todoui.EditorContent todoui.EditorCursorPos todoui.FormPromptIdx
         todoui.FormPrompts].
    rewrite goint_facts.add_id by textedit_facts.int_range.
    rewrite !gostring_facts.len_append.
    pose proof (gostring_facts.strlen_nonneg a). repeat split; lia. }
  unfold todoui.UpdatePromptEditor.
  destruct (todoui.Type_ msg) eqn:ET.
  - destruct (Hmove (-1)) as (m' & -> & ? & ? & ? & ? & ?); [lia|].
    exists m'. editor_facts.fin.
  - destruct (Hmove 1) as (m' & -> & ? & ? & ? & ? & ?); [lia|].
    exists m'. editor_facts.fin.
  - rewrite Z.gtb_ltb.
    destruct (Z.ltb_spec 0 (todoui.EditorCursorPos m));
      eexists; editor_facts.fin.
  - destruct (Z.ltb_spec (todoui.EditorCursorPos m)
                (gostring.len (todoui.EditorContent m)));
      eexists; editor_facts.fin.
  - destruct Hstart as (m' & -> & ? & ? & ? & ? & ?).
    exists m'. editor_facts.fin.
  - destruct Hend as (m' & -> & ? & ? & ? & ? & ?).
    exists m'. editor_facts.fin.
  - set (key := todoui.String_ msg).
    set (ed := keys.Editor (keys.Keys (todoui.Config m))).
    destruct (config.Matches key (keys.EditorKeys.Cancel ed)).
    { eexists. editor_facts.fin. }
    destruct (config.Matches key (keys.EditorKeys.Save ed)) eqn:ESave.
    { destruct (list_facts.index_Some _ _ HI) as (p & -> & _).
      eexists. editor_facts.fin. }
    destruct (config.Matches key (keys.EditorKeys.NewLine ed)).
    { destruct (Htyped terminal.newline 1) as (m' & -> & ? & ? & ?);
        [reflexivity|lia|].
      exists m'. editor_facts.fin. }
    destruct (String.eqb key "backspace").
    { rewrite Z.gtb_ltb. destruct (Z.ltb_spec 0 (todoui.EditorCursorPos m)).
      - rewrite goint_facts.sub_id by textedit_facts.int_range.
        destruct (textedit_facts.split_at (todoui.EditorContent m)
                    (todoui.EditorCursorPos m - 1))
          as (b & c & a & E & Lb & -> & _ & Ha & _); [lia|].
        replace (todoui.EditorCursorPos m - 1 + 1)
          with (todoui.EditorCursorPos m) in Ha by lia. rewrite Ha.
        pose proof (gostring_facts.strlen_nonneg a).
        rewrite E, !gostring_facts.len_append, textedit_facts.len_String
          in Hc2, HL.
        eexists. editor_facts.fin.
      - eexists. editor_facts.fin. }
    destruct (String.eqb key "delete").
    { destruct (Z.ltb_spec (todoui.EditorCursorPos m)
                  (gostring.len (todoui.EditorContent m))) as [Hlt|Hge].
      - rewrite goint_facts.add_id by textedit_facts.int_range.
        destruct (textedit_facts.split_at (todoui.EditorContent m)
                    (todoui.EditorCursorPos m))
          as (b & c & a & E & Lb & -> & _ & -> & _); [lia|].
        pose proof (gostring_facts.strlen_nonneg a).
        rewrite E, !gostring_facts.len_append, textedit_facts.len_String
          in Hc2, HL, Hlt.
        eexists. editor_facts.fin.
      - eexists. editor_facts.fin. }
    destruct (config.Matches key (keys.EditorKeys.LineStart ed)).
    { destruct Hstart as (m' & -> & ? & ? & ? & ? & ?).
      exists m'. editor_facts.fin. }
    destruct (config.Matches key (keys.EditorKeys.LineEnd ed)).
    { destruct Hend as (m' & -> & ? & ? & ? & ? & ?).
      exists m'. editor_facts.fin. }
    destruct (String.eqb key "space").
    { destruct (Htyped " "%string 1) as (m' & -> & ? & ? & ?);
        [reflexivity|lia|].
      exists m'. editor_facts.fin. }
    destruct (String.eqb key "tab").
    { destruct (Htyped "    "%string 4) as (m' & -> & ? & ? & ?);
        [reflexivity|lia|].
      exists m'. editor_facts.fin. }
    destruct (gostring.isPrintableKey key) eqn:Hp.
    { destruct (textedit_facts.printable_char _ Hp) as [c Hk].
      destruct (Htyped key 1) as (m' & -> & ? & ? & ?);
        [rewrite Hk; reflexivity|lia|].
      exists m'. editor_facts.fin. }
    eexists. editor_facts.fin.
Qed.

Lemma editor_keeps_the_cursor_in_the_content_witness :
  exists m',
    todoui.UpdatePromptEditor demoEditor
      (todoui.mkKeyMsg todoui.KeyUp "up") = todoui.Ret m' todoui.nilCmd /\
    todoui.editorValid m'.
Proof.
  destruct (editor_keeps_the_cursor_in_the_content demoEditor
              (todoui.mkKeyMsg todoui.KeyUp "up"))
    as (m' & H1 & H2 & _).
  - unfold todoui.editorValid. vm_compute. split; discriminate.
  - reflexivity.
  - vm_compute. split; [discriminate|reflexivity].
  - exists m'. split; [exact H1|exact H2].
Defined.
